(** * meshio: the Gmsh data-section codec and the XDMF time-series codec

    A shallow embedding of [src/meshio/gmsh/common.py],
    [src/meshio/gmsh/main.py] and [src/meshio/xdmf/time_series.py], and the
    properties of these modules that the specification states.

    Conventions of the embedding:
    - a Python [bytes] object and a Python [str] are both a [string] (a
      sequence of 8-bit characters); a [str] is kept as its UTF-8 encoding,
      so [encode("utf-8")] is the identity, [decode("utf-8")] is the
      identity on well-formed bytes and raises on the others, and the
      functions of [str] read a character from one to four bytes;
    - a Python call returns a [result]: a value, a raised exception, or
      [Hang] for a loop that never ends (a [readline] loop at end of file);
      [Unmodelled] marks the inputs on which a library call is left out of
      the embedding (numpy's reading of a negative count or dimension);
    - a dict whose iteration order is observable is an association list in
      insertion order; the object store of the writer is a [gmap]. *)

From Stdlib Require Import ZArith List String Ascii Lia Bool DecimalString.
From Stdlib Require Import DecimalPos DecimalZ.
From Stdlib Require Import Sorting.Sorted Sorting.Permutation SpecFloat.
From stdpp Require Import base list strings gmap.

Open Scope string_scope.
Open Scope list_scope.
Open Scope Z_scope.

#[global] Arguments String.append !s1 s2 : simpl nomatch.

(** ** Exceptions and results *)

Inductive exn : Type :=
| ReadError (msg : string)
| WriteError (msg : string)
| ValueError (msg : string)
| TypeError
| KeyError (key : string)
| IndexError
| AttributeError (attr : string)
| OverflowError
| StructError
| OSError
| Unmodelled (what : string).

Inductive result (A : Type) : Type :=
| Ok (a : A)
| Raise (e : exn)
| Hang.

Arguments Ok {A} a.
Arguments Raise {A} e.
Arguments Hang {A}.

#[global] Instance result_ret : MRet result := fun A a => Ok a.

#[global] Instance result_bind : MBind result := fun A B k r =>
  match r with
  | Ok a => k a
  | Raise e => Raise e
  | Hang => Hang
  end.

Definition is_ok {A : Type} (r : result A) : bool :=
  match r with Ok _ => true | _ => false end.

(** ** Python text primitives *)

Module Py.

(** [str.isspace] of an ASCII character: TAB..CR, FS..US and the space. *)
Definition isspace (c : ascii) : bool :=
  let n := nat_of_ascii c in
  ((9 <=? n)%nat && (n <=? 13)%nat) || ((28 <=? n)%nat && (n <=? 32)%nat).

(** C's [isspace] in the C locale, which is [Py_ISSPACE] and the white space
    of numpy's text scanner: TAB..CR and the space. *)
Definition c_isspace (c : ascii) : bool :=
  let n := nat_of_ascii c in
  ((9 <=? n)%nat && (n <=? 13)%nat) || (n =? 32)%nat.

Definition is_ascii (c : ascii) : bool := (nat_of_ascii c <? 128)%nat.

Definition between (lo hi : nat) (c : ascii) : bool :=
  let n := nat_of_ascii c in (lo <=? n)%nat && (n <=? hi)%nat.

Definition byte_is (n : nat) (c : ascii) : bool := (nat_of_ascii c =? n)%nat.

Definition newline : ascii := ascii_of_nat 10.
Definition nl : string := String newline EmptyString.

(** *** UTF-8

    The well-formed byte sequences of one character (the Unicode standard,
    table 3-7), and [b.decode("utf-8")]: the text is its own encoding, and
    ill-formed bytes raise [UnicodeDecodeError], which is a [ValueError]. *)
Definition is_continuation (c : ascii) : bool := between 128 191 c.

Definition seq2 (c1 c2 : ascii) : bool := between 194 223 c1 && is_continuation c2.

Definition seq3 (c1 c2 c3 : ascii) : bool :=
  (byte_is 224 c1 && between 160 191 c2
   || between 225 236 c1 && is_continuation c2
   || byte_is 237 c1 && between 128 159 c2
   || between 238 239 c1 && is_continuation c2)
  && is_continuation c3.

Definition seq4 (c1 c2 c3 c4 : ascii) : bool :=
  (byte_is 240 c1 && between 144 191 c2
   || between 241 243 c1 && is_continuation c2
   || byte_is 244 c1 && between 128 143 c2)
  && is_continuation c3 && is_continuation c4.

Fixpoint utf8_valid (s : string) : bool :=
  match s with
  | EmptyString => true
  | String c1 s1 =>
      if is_ascii c1 then utf8_valid s1
      else
        match s1 with
        | String c2 s2 =>
            if seq2 c1 c2 then utf8_valid s2
            else
              match s2 with
              | String c3 s3 =>
                  if seq3 c1 c2 c3 then utf8_valid s3
                  else
                    match s3 with
                    | String c4 s4 => seq4 c1 c2 c3 c4 && utf8_valid s4
                    | EmptyString => false
                    end
              | EmptyString => false
              end
        | EmptyString => false
        end
  end.

Definition UnicodeDecodeError : exn :=
  ValueError "'utf-8' codec can't decode bytes".

Definition decode (b : string) : result string :=
  if utf8_valid b then Ok b else Raise UnicodeDecodeError.

(** *** White space

    The white space of [str.isspace] beyond ASCII, by its UTF-8 bytes:
    U+0085 and U+00A0; U+1680, U+2000..U+200A, U+2028, U+2029, U+202F,
    U+205F and U+3000. *)
Definition space2 (c1 c2 : ascii) : bool :=
  byte_is 194 c1 && (byte_is 133 c2 || byte_is 160 c2).

Definition space3 (c1 c2 c3 : ascii) : bool :=
  byte_is 225 c1 && byte_is 154 c2 && byte_is 128 c3
  || byte_is 226 c1 && byte_is 128 c2
     && (between 128 138 c3 || byte_is 168 c3 || byte_is 169 c3 || byte_is 175 c3)
  || byte_is 226 c1 && byte_is 129 c2 && byte_is 159 c3
  || byte_is 227 c1 && byte_is 128 c2 && byte_is 128 c3.

(** [s.lstrip()] *)
Fixpoint lstrip (s : string) : string :=
  match s with
  | EmptyString => EmptyString
  | String c1 s1 =>
      if isspace c1 then lstrip s1
      else
        match s1 with
        | String c2 s2 =>
            if space2 c1 c2 then lstrip s2
            else
              match s2 with
              | String c3 s3 => if space3 c1 c2 c3 then lstrip s3 else s
              | EmptyString => s
              end
        | EmptyString => s
        end
  end.

(** A text of white space only. *)
Definition blank (s : string) : bool :=
  match lstrip s with
  | EmptyString => true
  | _ => false
  end.

(** [s.rstrip()]: the text up to the white space that ends it. *)
Fixpoint rstrip (s : string) : string :=
  match s with
  | EmptyString => EmptyString
  | String c s' => if blank s then EmptyString else String c (rstrip s')
  end.

(** [s.strip()] *)
Definition strip (s : string) : string := rstrip (lstrip s).

(** The same for C's white space, character by character. *)
Fixpoint c_lstrip (s : string) : string :=
  match s with
  | EmptyString => EmptyString
  | String c s' => if c_isspace c then c_lstrip s' else s
  end.

Fixpoint c_rstrip (s : string) : string :=
  match s with
  | EmptyString => EmptyString
  | String c s' =>
      match c_rstrip s' with
      | EmptyString => if c_isspace c then EmptyString else String c EmptyString
      | r => String c r
      end
  end.

Definition c_strip (s : string) : string := c_rstrip (c_lstrip s).

(** [f.readline()]: the bytes up to and including the next newline, and the
    rest of the file; the empty string at end of file. *)
Fixpoint readline (f : string) : string * string :=
  match f with
  | EmptyString => (EmptyString, EmptyString)
  | String c f' =>
      if Ascii.eqb c newline then (String c EmptyString, f')
      else let (l, r) := readline f' in (String c l, r)
  end.

(** [f.read(n)] *)
Fixpoint read (n : nat) (f : string) : string * string :=
  match n, f with
  | S n', String c f' => let (l, r) := read n' f' in (String c l, r)
  | _, _ => (EmptyString, f)
  end.

(** [s.split(sep)[0]]: the text before the first separator. *)
Fixpoint split_head (sep : ascii) (s : string) : string :=
  match s with
  | EmptyString => EmptyString
  | String c s' => if Ascii.eqb c sep then EmptyString else String c (split_head sep s')
  end.

(** [s.split()]: the maximal runs of characters that are not white space. *)
Fixpoint split_ws_from (cur : string) (s : string) : list string :=
  let flush (rest : list string) :=
    match cur with
    | EmptyString => rest
    | _ => cur :: rest
    end in
  match s with
  | EmptyString => flush []
  | String c1 s1 =>
      if isspace c1 then flush (split_ws_from EmptyString s1)
      else
        let word := split_ws_from (cur +:+ String c1 EmptyString) s1 in
        match s1 with
        | String c2 s2 =>
            if space2 c1 c2 then flush (split_ws_from EmptyString s2)
            else
              match s2 with
              | String c3 s3 =>
                  if space3 c1 c2 c3 then flush (split_ws_from EmptyString s3)
                  else word
              | EmptyString => word
              end
        | EmptyString => word
        end
  end.

Definition split_ws (s : string) : list string := split_ws_from EmptyString s.

(** [s.replace(c, "")] for a one-character [c]. *)
Fixpoint remove_char (c : ascii) (s : string) : string :=
  match s with
  | EmptyString => EmptyString
  | String a s' => if Ascii.eqb a c then remove_char c s' else String a (remove_char c s')
  end.

(** [str(n)] / ["{}".format(n)] of an integer. *)
Definition str_of_Z (z : Z) : string := NilZero.string_of_int (Z.to_int z).

Definition is_digit (c : ascii) : bool :=
  let n := nat_of_ascii c in (48 <=? n)%nat && (n <=? 57)%nat.

(** The digits of an integer literal with its underscores taken out; a
    literal has a digit first, and a digit after every underscore. *)
Fixpoint literal_digits (after_digit : bool) (s : string) : option string :=
  match s with
  | EmptyString => if after_digit then Some EmptyString else None
  | String c s' =>
      if is_digit c then option_map (String c) (literal_digits true s')
      else if Ascii.eqb c "_" then
        if after_digit then literal_digits false s' else None
      else None
  end.

Definition unsigned_literal (s : string) : option Z :=
  match literal_digits false s with
  | Some ds => option_map Z.of_uint (NilEmpty.uint_of_string ds)
  | None => None
  end.

(** What [int] makes of a [str] before its parser reads it: a white-space
    character beyond ASCII becomes a space.  A decimal digit of another
    script becomes its ASCII digit and any other character beyond ASCII is
    refused; the table of those digits is not part of the embedding, and
    the answer for a text with such a character is [None]. *)
Fixpoint int_text (s : string) : option string :=
  match s with
  | EmptyString => Some EmptyString
  | String c1 s1 =>
      if is_ascii c1 then option_map (String c1) (int_text s1)
      else
        match s1 with
        | String c2 s2 =>
            if space2 c1 c2 then option_map (String " ") (int_text s2)
            else
              match s2 with
              | String c3 s3 =>
                  if space3 c1 c2 c3 then option_map (String " ") (int_text s3)
                  else None
              | EmptyString => None
              end
        | EmptyString => None
        end
  end.

(** [int(s)] of a string: C white space around a sign and decimal digits. *)
Definition int_of_str (s : string) : result Z :=
  let bad := Raise (ValueError ("invalid literal for int() with base 10: " +:+ s)) in
  match int_text s with
  | None => Raise (Unmodelled "int: a character beyond ASCII that is no white space")
  | Some t =>
      match c_strip t with
      | String "-" t =>
          match unsigned_literal t with Some n => Ok (- n) | None => bad end
      | String "+" t =>
          match unsigned_literal t with Some n => Ok n | None => bad end
      | t =>
          match unsigned_literal t with Some n => Ok n | None => bad end
      end
  end.

(** [l[i]] for a non-negative constant index. *)
Definition index {A : Type} (l : list A) (i : nat) : result A :=
  match nth_error l i with
  | Some x => Ok x
  | None => Raise IndexError
  end.

(** [d[k]] on a dict with string keys. *)
Fixpoint dict_get {V : Type} (d : list (string * V)) (k : string) : result V :=
  match d with
  | [] => Raise (KeyError k)
  | (k', v) :: d' => if String.eqb k' k then Ok v else dict_get d' k
  end.

Definition dict_keys {V : Type} (d : list (string * V)) : list string := map fst d.

(** [sorted(l)] / [l.sort()] by insertion, for a total order [leb]. *)
Section Sorting.
Context {A : Type} (leb : A -> A -> bool).

Fixpoint insert_sorted (x : A) (l : list A) : list A :=
  match l with
  | [] => [x]
  | y :: l' => if leb x y then x :: l else y :: insert_sorted x l'
  end.

Fixpoint sorted (l : list A) : list A :=
  match l with
  | [] => []
  | x :: l' => insert_sorted x (sorted l')
  end.

End Sorting.

(** [repr] of a string with no quote, backslash or control character, and
    [repr] of a list of such strings. *)
Definition repr_plain_str (s : string) : string := "'" +:+ s +:+ "'".

Fixpoint join (sep : string) (l : list string) : string :=
  match l with
  | [] => EmptyString
  | [x] => x
  | x :: l' => x +:+ sep +:+ join sep l'
  end.

Definition repr_str_list (l : list string) : string :=
  "[" +:+ join ", " (map repr_plain_str l) +:+ "]".


(** [d[k] = v]: an existing key keeps its place, a new key goes last. *)
Fixpoint dict_set {V : Type} (d : list (string * V)) (k : string) (v : V)
    : list (string * V) :=
  match d with
  | [] => [(k, v)]
  | (k', v') :: d' =>
      if String.eqb k' k then (k, v) :: d' else (k', v') :: dict_set d' k v
  end.

Definition dict_mem {V : Type} (d : list (string * V)) (k : string) : bool :=
  existsb (fun kv => String.eqb (fst kv) k) d.

(** [f.readline().decode("utf-8")]: the line and the rest of the file. *)
Definition readline_text (f : string) : result (string * string) :=
  let (b, f) := readline f in
  line ← decode b;
  Ok (line, f).

(** [line = f.readline().decode("utf-8"); while line.strip() != marker: line
    = f.readline().decode("utf-8")].  At end of file [readline] returns the
    empty string for ever, so a file without the marker makes the loop
    spin: every turn on a non-empty file consumes a byte, and the fuel is
    one more than the length of the file. *)
Fixpoint skip_to_line_fuel (marker : string) (fuel : nat) (f : string)
    : result string :=
  match fuel with
  | O => Hang
  | S n =>
      '(line, f') ← readline_text f;
      if String.eqb (strip line) marker then Ok f'
      else skip_to_line_fuel marker n f'
  end.

Definition skip_to_line (marker : string) (f : string) : result string :=
  skip_to_line_fuel marker (S (String.length f)) f.

(** Little-endian bytes of a machine integer, two's complement. *)
Fixpoint le_bytes (n : nat) (z : Z) : string :=
  match n with
  | O => EmptyString
  | S n' => String (ascii_of_N (Z.to_N (z mod 256))) (le_bytes n' (z / 256))
  end.

Fixpoint le_value (s : string) : Z :=
  match s with
  | EmptyString => 0
  | String c s' => Z.of_N (N_of_ascii c) + 256 * le_value s'
  end.

(** A C [int] (32 bits, signed) in host order. *)
Definition bytes_of_int32 (z : Z) : string := le_bytes 4 z.

Definition int32_of_bytes (s : string) : Z :=
  let u := le_value s in if u <? 2 ^ 31 then u else u - 2 ^ 32.

(** [struct.unpack("i", b)[0]] *)
Definition struct_unpack_i (b : string) : result Z :=
  if (String.length b =? 4)%nat then Ok (int32_of_bytes b) else Raise StructError.

Definition dquote : ascii := ascii_of_nat 34.

(** [s.split(sep)] for a one-character [sep]: never the empty list. *)
Fixpoint split_from (sep : ascii) (cur : string) (s : string) : list string :=
  match s with
  | EmptyString => [cur]
  | String c s' =>
      if Ascii.eqb c sep then cur :: split_from sep EmptyString s'
      else split_from sep (cur +:+ String c EmptyString) s'
  end.

Definition split (sep : ascii) (s : string) : list string :=
  split_from sep EmptyString s.

(** [l[k]] for an integer [k]: a negative index counts from the end. *)
Definition getitem {A : Type} (l : list A) (k : Z) : result A :=
  let n := Z.of_nat (length l) in
  if (0 <=? k) && (k <? n) then index l (Z.to_nat k)
  else if (- n <=? k) && (k <? 0) then index l (Z.to_nat (n + k))
  else Raise IndexError.

(** [[f(x) for x in l]] for an [f] that can raise. *)
Fixpoint map_result {A B : Type} (f : A -> result B) (l : list A) : result (list B) :=
  match l with
  | [] => Ok []
  | x :: l' =>
      y ← f x;
      ys ← map_result f l';
      Ok (y :: ys)
  end.

End Py.

(** ** gmsh/main.py: version dispatch *)

Module GmshMain.

Inductive gmsh_module : Type := _gmsh22 | _gmsh40 | _gmsh41.

Definition _readers : list (string * gmsh_module) :=
  [("2", _gmsh22); ("4", _gmsh40); ("4.0", _gmsh40); ("4.1", _gmsh41)].

Definition _writers : list (string * gmsh_module) :=
  [("2", _gmsh22); ("4", _gmsh41); ("4.0", _gmsh40); ("4.1", _gmsh41)].

Definition need_format_message (table : list (string * gmsh_module))
    (fmt_version : string) : string :=
  "Need mesh format in "
    +:+ Py.repr_str_list (Py.sorted String.leb (Py.dict_keys table))
    +:+ " (got " +:+ fmt_version +:+ ")".

(** The [try: table[fmt_version] except KeyError: try:
    table[fmt_version.split(".")[0]] except KeyError: raise ValueError(...)]
    block of [read_buffer] and of [write]. *)
Definition select (table : list (string * gmsh_module)) (fmt_version : string)
    : result gmsh_module :=
  match Py.dict_get table fmt_version with
  | Ok m => Ok m
  | _ =>
      match Py.dict_get table (Py.split_head "." fmt_version) with
      | Ok m => Ok m
      | _ => Raise (ValueError (need_format_message table fmt_version))
      end
  end.

End GmshMain.

(** [read_buffer] and [_read_header].  The version-specific reader modules
    are not part of these sources: their [read_buffer] is a parameter. *)
Module GmshReadBuffer.
Import GmshMain.

Section ReadBuffer.
Variable mesh : Type.
Variable module_read_buffer : gmsh_module -> string -> bool -> Z -> result mesh.

Definition _read_header (f : string) : result (string * Z * bool * string) :=
  '(line, f) ← Py.readline_text f;
  let str_list := Py.split_ws line in
  fmt_version ← Py.index str_list 0;
  s1 ← Py.index str_list 1;
  if negb (String.eqb s1 "0" || String.eqb s1 "1") then Raise (ReadError "")
  else
    let is_ascii := String.eqb s1 "0" in
    s2 ← Py.index str_list 2;
    data_size ← Py.int_of_str s2;
    f ← (if is_ascii then Ok f
         else
           let (one, f) := Py.read 4 f in
           v ← Py.struct_unpack_i one;
           if negb (v =? 1) then Raise (ReadError "") else Ok f);
    f ← Py.skip_to_line "$EndMeshFormat" f;
    Ok (fmt_version, data_size, is_ascii, f).

(** [while line == "$Comments": while line != "$EndComments": ...]: a
    comment block is skipped to its end marker, and the next line read. *)
Fixpoint skip_comments (fuel : nat) (line : string) (f : string)
    : result (string * string) :=
  if String.eqb line "$Comments" then
    match fuel with
    | O => Hang
    | S n =>
        f ← Py.skip_to_line "$EndComments" f;
        '(l, f) ← Py.readline_text f;
        skip_comments n (Py.strip l) f
    end
  else Ok (line, f).

Definition read_buffer (f : string) : result mesh :=
  '(l, f) ← Py.readline_text f;
  '(line, f) ← skip_comments (S (String.length f)) (Py.strip l) f;
  if negb (String.eqb line "$MeshFormat") then Raise (ReadError "")
  else
    '(fmt_version, data_size, is_ascii, f) ← _read_header f;
    reader ← select _readers fmt_version;
    module_read_buffer reader f is_ascii data_size.

End ReadBuffer.
End GmshReadBuffer.

(** ** gmsh/common.py *)

Module GmshCommon.

(** *** Field-data values

    The values a caller can store in [field_data]: the reader stores a pair
    of integers, the writer takes whatever is there: a scalar, or a tuple,
    list or 1-D array of scalars. *)
Inductive pyatom : Type :=
| PyNone
| PyInt (z : Z)
| PyFloat (x : spec_float)
| PyStr (s : string).

Inductive pyval : Type :=
| Atom (a : pyatom)
| PySeq (l : list pyatom).

(** The characters of a [str]: a UTF-8 lead byte with the continuation
    bytes ([0x80..0xBF]) that follow it. *)
Fixpoint chars_from (cur : string) (s : string) : list string :=
  match s with
  | EmptyString => match cur with EmptyString => [] | _ => [cur] end
  | String c s' =>
      if Py.is_continuation c then chars_from (cur +:+ String c EmptyString) s'
      else
        match cur with
        | EmptyString => chars_from (String c EmptyString) s'
        | _ => cur :: chars_from (String c EmptyString) s'
        end
  end.

Definition chars (s : string) : list string := chars_from EmptyString s.

(** [a, b = v] *)
Definition unpack2 (v : pyval) : result (pyatom * pyatom) :=
  let two (l : list pyatom) :=
    match l with
    | [a; b] => Ok (a, b)
    | _ => Raise (ValueError "wrong number of values to unpack")
    end in
  match v with
  | PySeq l => two l
  | Atom (PyStr s) => two (map PyStr (chars s))
  | Atom _ => Raise TypeError
  end.

(** [int(v)]: a float is truncated towards zero. *)
Definition int (v : pyatom) : result Z :=
  match v with
  | PyInt z => Ok z
  | PyStr s => Py.int_of_str s
  | PyFloat S754_nan => Raise (ValueError "cannot convert float NaN to integer")
  | PyFloat (S754_infinity _) => Raise OverflowError
  | PyFloat (S754_zero _) => Ok 0
  | PyFloat (S754_finite sgn m e) =>
      let a := Z.shiftl (Z.pos m) e in
      Ok (if sgn then - a else a)
  | PyNone => Raise TypeError
  end.

(** *** [_write_physical_names] *)

Definition entry : Type := Z * Z * string.

(** Tuple comparison: dimension, then number, then name. *)
Definition entry_leb (a b : entry) : bool :=
  let '(d1, n1, s1) := a in
  let '(d2, n2, s2) := b in
  if d1 <? d2 then true
  else if d2 <? d1 then false
  else if n1 <? n2 then true
  else if n2 <? n1 then false
  else String.leb s1 s2.

Definition warning_text : string :=
  "Field data contains entry that cannot be processed.".

(** The body of the [try]. *)
Definition coerce (v : pyval) : result (Z * Z) :=
  '(a, b) ← unpack2 v;
  phys_num ← int a;
  phys_dim ← int b;
  Ok (phys_num, phys_dim).

(** The [for phys_name in field_data] loop: the entries collected and the
    warnings logged, or the exception that the [except] clause lets through
    (with the warnings logged before it). *)
Fixpoint collect (field_data : list (string * pyval))
    (entries : list entry) (log : list string)
    : list string * result (list entry) :=
  match field_data with
  | [] => (log, Ok entries)
  | (phys_name, v) :: rest =>
      match coerce v with
      | Ok (phys_num, phys_dim) =>
          collect rest (entries ++ [(phys_dim, phys_num, phys_name)]) log
      | Raise (ValueError _) | Raise TypeError =>
          collect rest entries (log ++ [warning_text])
      | Raise e => (log, Raise e)
      | Hang => (log, Hang)
      end
  end.

Definition format_entry (e : entry) : string :=
  let '(a, b, c) := e in
  Py.str_of_Z a +:+ " " +:+ Py.str_of_Z b +:+ " "
    +:+ String Py.dquote c +:+ String Py.dquote Py.nl.

(** The file after the call, the log after the call, and the outcome. *)
Definition _write_physical_names (fh : string) (log : list string)
    (field_data : list (string * pyval))
    : string * list string * result unit :=
  match collect field_data [] log with
  | (log, Ok entries) =>
      let entries := Py.sorted entry_leb entries in
      match entries with
      | [] => (fh, log, Ok tt)
      | _ =>
          let fh := fh +:+ "$PhysicalNames" +:+ Py.nl in
          let fh := fh +:+ Py.str_of_Z (Z.of_nat (length entries)) +:+ Py.nl in
          let fh := fold_left (fun fh e => fh +:+ format_entry e) entries fh in
          let fh := fh +:+ "$EndPhysicalNames" +:+ Py.nl in
          (fh, log, Ok tt)
      end
  | (log, Raise e) => (fh, log, Raise e)
  | (log, Hang) => (fh, log, Hang)
  end.


(** *** Arrays of a data field

    A field is a 1-D array of shape [(N,)] or a 2-D array of shape
    [(N, ncols)] whose rows all have [ncols] entries.  Its entries are
    scalars of the dtype of the array, each kept as an integer: a double
    as its 64-bit pattern, an integer as itself.  The arrays that the
    reader returns hold doubles. *)
Definition scalar : Type := Z.
Definition float64 : Type := Z.

Inductive ndarray : Type :=
| Arr1 (xs : list scalar)
| Arr2 (ncols : nat) (rows : list (list scalar)).

Definition wf_array (a : ndarray) : Prop :=
  match a with
  | Arr1 _ => True
  | Arr2 m rows => Forall (fun r => length r = m) rows
  end.

Definition shape (a : ndarray) : list Z :=
  match a with
  | Arr1 xs => [Z.of_nat (length xs)]
  | Arr2 m rows => [Z.of_nat (length rows); Z.of_nat m]
  end.

(** [data.shape[1] if len(data.shape) > 1 else 1] *)
Definition num_components_of (data : ndarray) : Z :=
  match shape data with
  | _ :: m :: _ => m
  | _ => 1
  end.

(** [data[:, 0]] *)
Definition column0 (rows : list (list scalar)) : list scalar :=
  map (fun r => hd 0 r) rows.

Definition bytes_of_float64 (x : float64) : string := Py.le_bytes 8 x.
Definition float64_of_bytes (b : string) : float64 := Py.le_value b.

Definition component_message : string :=
  "Gmsh only permits 1, 3, or 9 components per data field.".

Section DataCodec.

(** The dtype of the array that is written: the [repr] of an entry, and
    the cast of an entry to a double (the assignment [tmp["data"] = data]);
    for an array of doubles the cast is the identity.  And numpy's text
    scanner of one number: it skips leading white space and returns the
    double read and the unread input. *)
Variable repr : scalar -> string.
Variable to_double : scalar -> float64.
Variable scan_float : string -> option (float64 * string).

(** *** [_write_data] *)

(** One line of the ASCII payload: [fmt.format(k + 1, *x)]. *)
Definition ascii_line (k : nat) (x : list scalar) : string :=
  Py.join " " (Py.str_of_Z (Z.of_nat k + 1) :: map repr x) +:+ Py.nl.

(** One record of the binary payload: [(index: c_int, data: c_double[...])]. *)
Definition binary_record (k : nat) (x : list scalar) : string :=
  Py.bytes_of_int32 (Z.of_nat k + 1)
    +:+ String.concat EmptyString (map (fun v => bytes_of_float64 (to_double v)) x).

(** Successive [fh.write] calls. *)
Definition write_all (fh : string) (chunks : list string) : string :=
  fold_left (fun fh c => fh +:+ c) chunks fh.

(** The file after the call and the outcome.  After the cut of a trailing
    dimension of 1 the array is 1-D exactly when [num_components] is 1, so
    the two [if num_components == 1] of the source are the two cases of the
    array. *)
Definition _write_data (fh tag name : string) (data : ndarray) (binary : bool)
    : string * result unit :=
  let fh := fh +:+ ("$" +:+ tag +:+ Py.nl) in
  let fh := fh +:+ (Py.str_of_Z 1 +:+ Py.nl) in
  let fh := fh +:+ (String Py.dquote name +:+ String Py.dquote Py.nl) in
  let fh := fh +:+ (Py.str_of_Z 1 +:+ Py.nl) in
  let fh := fh +:+ ("0.0" +:+ Py.nl) in
  let fh := fh +:+ (Py.str_of_Z 3 +:+ Py.nl) in
  let fh := fh +:+ (Py.str_of_Z 0 +:+ Py.nl) in
  let num_components := num_components_of data in
  if negb (existsb (Z.eqb num_components) [1; 3; 9]) then
    (fh, Raise (WriteError component_message))
  else
    let data :=
      match data with
      | Arr2 1 rows => Arr1 (column0 rows)
      | _ => data
      end in
    let fh := fh +:+ (Py.str_of_Z num_components +:+ Py.nl) in
    let fh := fh +:+ (Py.str_of_Z (hd 0 (shape data)) +:+ Py.nl) in
    let records :=
      match data with
      | Arr1 xs => map (fun x => [x]) xs
      | Arr2 _ rows => rows
      end in
    let fh :=
      if binary then
        (fh +:+ String.concat EmptyString (imap binary_record records))
          +:+ Py.nl
      else write_all fh (imap ascii_line records) in
    let fh := fh +:+ ("$End" +:+ tag +:+ Py.nl) in
    (fh, Ok tt).

(** *** [_read_data] *)

Fixpoint read_lines (n : nat) (f : string) : list string * string :=
  match n with
  | O => ([], f)
  | S n' =>
      let (l, f) := Py.readline f in
      let (ls, f) := read_lines n' f in
      (l :: ls, f)
  end.

(** [[f.readline().decode("utf-8") for _ in range(n)]] *)
Fixpoint read_texts (n : nat) (f : string) : result (list string * string) :=
  match n with
  | O => Ok ([], f)
  | S n' =>
      '(l, f) ← Py.readline_text f;
      '(ls, f) ← read_texts n' f;
      Ok (l :: ls, f)
  end.

(** [[int(f.readline().decode("utf-8")) for _ in range(n)]] *)
Fixpoint read_ints (n : nat) (f : string) : result (list Z * string) :=
  match n with
  | O => Ok ([], f)
  | S n' =>
      '(l, f) ← Py.readline_text f;
      v ← Py.int_of_str l;
      '(vs, f) ← read_ints n' f;
      Ok (v :: vs, f)
  end.

(** The tag block: the string tags, the integer tags and the unread input. *)
Definition read_tags (f : string) : result (list string * list Z * string) :=
  '(l, f) ← Py.readline_text f;
  num_string_tags ← Py.int_of_str l;
  '(ls, f) ← read_texts (Z.to_nat num_string_tags) f;
  let string_tags := map (fun l => Py.remove_char Py.dquote (Py.strip l)) ls in
  '(l, f) ← Py.readline_text f;
  num_real_tags ← Py.int_of_str l;
  let (_, f) := read_lines (Z.to_nat num_real_tags) f in
  '(l, f) ← Py.readline_text f;
  num_integer_tags ← Py.int_of_str l;
  '(integer_tags, f) ← read_ints (Z.to_nat num_integer_tags) f;
  Ok (string_tags, integer_tags, f).

(** [numpy.fromfile(f, count=n, sep=" ")]: up to [n] numbers; the white
    space after a number is consumed, and the scan stops at the end of the
    input or where a number is not followed by white space. *)
Fixpoint fromfile_text (n : nat) (f : string) : list float64 * string :=
  match n with
  | O => ([], f)
  | S n' =>
      match scan_float f with
      | None => ([], f)
      | Some (x, f1) =>
          let f2 := Py.c_lstrip f1 in
          if String.eqb f2 EmptyString || String.eqb f1 f2 then ([x], f2)
          else let (xs, f3) := fromfile_text n' f2 in (x :: xs, f3)
      end
  end.

(** [a.reshape((n, w))] of a flat array, as its [n] rows. *)
Fixpoint rows_of (n w : nat) (l : list float64) : list (list float64) :=
  match n with
  | O => []
  | S n' => take w l :: rows_of n' w (drop w l)
  end.

Definition reshape (n w : nat) (l : list float64) : result (list (list float64)) :=
  if (length l =? n * w)%nat then Ok (rows_of n w l)
  else Raise (ValueError "cannot reshape array").

Fixpoint read_doubles (n : nat) (f : string) : list float64 * string :=
  match n with
  | O => ([], f)
  | S n' =>
      let (b, f) := Py.read 8 f in
      let (xs, f) := read_doubles n' f in
      (float64_of_bytes b :: xs, f)
  end.

(** [numpy.fromfile(f, count=n, dtype=[index, values])]: up to [n] whole
    records; a record cut short by the end of the file is dropped, with
    everything read. *)
Fixpoint fromfile_records (n nc : nat) (f : string)
    : list (Z * list float64) * string :=
  match n with
  | O => ([], f)
  | S n' =>
      if (String.length f <? 4 + 8 * nc)%nat then ([], EmptyString)
      else
        let (b, f) := Py.read 4 f in
        let (xs, f) := read_doubles nc f in
        let (rs, f) := fromfile_records n' nc f in
        ((Py.int32_of_bytes b, xs) :: rs, f)
  end.

(** [(data["index"] == range(1, n + 1)).all()]: element by element for
    equal lengths, with broadcasting when one side has length 1; for other
    lengths the comparison gives the plain [False], which has no [all]. *)
Definition index_check (idx : list Z) (n : nat) : result bool :=
  let expected := map (fun j => Z.of_nat j) (seq 1 n) in
  if (length idx =? n)%nat then
    Ok (forallb (fun p => fst p =? snd p) (combine idx expected))
  else if (length idx =? 1)%nat then
    Ok (forallb (fun j => hd 0 idx =? j) expected)
  else if (n =? 1)%nat then
    Ok (forallb (fun i => i =? 1) idx)
  else Raise (AttributeError "all").

(** [if data.shape[1] == 1: data = data[:, 0]] *)
Definition squeeze (nc : nat) (rows : list (list float64)) : ndarray :=
  if (nc =? 1)%nat then Arr1 (column0 rows) else Arr2 nc rows.

(** The end of [_read_data], from the fast forward to [$End{tag}] on: the
    rows decoded are stored under the first string tag. *)
Definition store_field (f tag : string) (string_tags : list string)
    (data_dict : list (string * ndarray)) (nc : nat) (rows : list (list float64))
    : result (string * list (string * ndarray)) :=
  f ← Py.skip_to_line ("$End" +:+ tag) f;
  let data := squeeze nc rows in
  key ← Py.index string_tags 0;
  Ok (f, Py.dict_set data_dict key data).

(** The unread input and the dict after the call. *)
Definition _read_data (f tag : string) (data_dict : list (string * ndarray))
    (data_size : Z) (is_ascii : bool)
    : result (string * list (string * ndarray)) :=
  '(string_tags, integer_tags, f) ← read_tags f;
  num_components ← Py.index integer_tags 1;
  num_items ← Py.index integer_tags 2;
  if (num_components <? 0) || (num_items <? 0) then
    Raise (Unmodelled "numpy.fromfile: negative count")
  else
    let nc := Z.to_nat num_components in
    let n := Z.to_nat num_items in
    '(rows, f) ←
      (if is_ascii then
         let (flat, f) := fromfile_text (n * (1 + nc)) f in
         table ← reshape n (1 + nc) flat;
         Ok (map (drop 1) table, f)
       else
         let (recs, f) := fromfile_records n nc f in
         ok ← index_check (map fst recs) n;
         if negb ok then Raise (ReadError "")
         else Ok (map snd recs, f));
    store_field f tag string_tags data_dict nc rows.

End DataCodec.

End GmshCommon.

(** ** Python's [os.path] (POSIX) *)

Module OsPath.

(** The text before and after the last [c] of [s]. *)
Fixpoint rsplit (c : ascii) (s : string) : option (string * string) :=
  match s with
  | EmptyString => None
  | String a s' =>
      match rsplit c s' with
      | Some (h, t) => Some (String a h, t)
      | None => if Ascii.eqb a c then Some (EmptyString, s') else None
      end
  end.

Fixpoint all_char (c : ascii) (s : string) : bool :=
  match s with
  | EmptyString => true
  | String a s' => Ascii.eqb a c && all_char c s'
  end.

Fixpoint rstrip_char (c : ascii) (s : string) : string :=
  match s with
  | EmptyString => EmptyString
  | String a s' =>
      match rstrip_char c s' with
      | EmptyString => if Ascii.eqb a c then EmptyString else String a EmptyString
      | r => String a r
      end
  end.

Definition dirname (p : string) : string :=
  match rsplit "/" p with
  | None => EmptyString
  | Some (h, _) =>
      let head := h +:+ "/" in
      if all_char "/" head then head else rstrip_char "/" head
  end.

Definition basename (p : string) : string :=
  match rsplit "/" p with
  | None => p
  | Some (_, t) => t
  end.

Definition ends_with_slash (a : string) : bool :=
  match rsplit "/" a with
  | Some (_, EmptyString) => true
  | _ => false
  end.

Definition join (a b : string) : string :=
  match b with
  | String "/" _ => b
  | _ =>
      if String.eqb a EmptyString || ends_with_slash a then a +:+ b
      else a +:+ "/" +:+ b
  end.

(** [splitext(p)[0]]: the extension starts at the last dot of the last
    component, unless only dots come before it there. *)
Definition splitext_root (p : string) : string :=
  let '(dir, base) :=
    match rsplit "/" p with
    | None => (EmptyString, p)
    | Some (h, t) => (h +:+ "/", t)
    end in
  match rsplit "." base with
  | None => p
  | Some (stem, _) => if all_char "." stem then p else dir +:+ stem
  end.

End OsPath.

(** ** xdmf/time_series.py *)

Module Xdmf.

(** *** Arrays, the XML tree, the heavy-data stores *)

(** A numpy array: the name of its dtype, its shape, and its entries in row
    order (an integer entry is its value, a float entry its bit pattern). *)
Record ndarray : Type := mk_array {
  dtype_name : string;
  shape : list nat;
  flat : list Z
}.

Definition size_of (sh : list nat) : nat := fold_right Nat.mul 1%nat sh.

Definition wf_array (a : ndarray) : Prop := length (flat a) = size_of (shape a).

(** [len(a)] *)
Definition len (a : ndarray) : result nat :=
  match shape a with
  | n :: _ => Ok n
  | [] => Raise TypeError
  end.

(** [a.shape[i]] *)
Definition shape_at (a : ndarray) (i : nat) : result nat := Py.index (shape a) i.

#[warnings="-register-all"]
Inductive element : Type :=
| Element (tag : string) (attrib : list (string * string))
    (text : option string) (children : list element).

Definition tag (e : element) : string := let 'Element t _ _ _ := e in t.
Definition attrib (e : element) : list (string * string) :=
  let 'Element _ a _ _ := e in a.
Definition text (e : element) : option string := let 'Element _ _ x _ := e in x.
Definition children (e : element) : list element := let 'Element _ _ _ c := e in c.

(** A node of an HDF5 file. *)
#[warnings="-register-all"]
Inductive h5node : Type :=
| H5Dataset (a : ndarray)
| H5Group (members : list (string * h5node)).

(** [node[key]] *)
Definition h5_getitem (node : h5node) (key : string) : result h5node :=
  match node with
  | H5Group members => Py.dict_get members key
  | H5Dataset _ => Raise TypeError
  end.

(** [node[()]] *)
Definition h5_value (node : h5node) : result ndarray :=
  match node with
  | H5Dataset a => Ok a
  | H5Group _ => Raise TypeError
  end.

(** An [h5py.File] object: the path it was opened on, and how many times
    [close] was called on it. *)
Record handle_info : Type := mk_handle {
  h_path : string;
  h_closes : nat
}.

(** A file on disk: an HDF5 file with its root group, a raw file that
    holds the entries of an array, or an XML document with the layout it
    was written in. *)
Inductive file : Type :=
| HdfFile (root : h5node)
| BinFile (a : ndarray)
| XmlFile (tree : element) (pretty : bool).

(** What lies outside the session object: the files on disk, one under each
    path (a file written under the path of another takes its place), every
    [h5py.File] object created so far (a handle is its position here), and
    the dict objects of the caller (by address). *)
Record world : Type := mk_world {
  w_files : list (string * file);
  w_handles : list handle_info;
  w_heap : gmap nat (list (string * ndarray))
}.

Definition world_set_files (w : world) (x : list (string * file)) : world :=
  mk_world x (w_handles w) (w_heap w).
Definition world_set_handles (w : world) (x : list handle_info) : world :=
  mk_world (w_files w) x (w_heap w).
Definition world_set_heap (w : world) (x : gmap nat (list (string * ndarray))) : world :=
  mk_world (w_files w) (w_handles w) x.

(** The HDF5 file under a path. *)
Definition hdf_at (w : world) (path : string) : option h5node :=
  match Py.dict_get (w_files w) path with
  | Ok (HdfFile root) => Some root
  | _ => None
  end.

(** *** A method call: the state after it, also when it raises *)

Definition M (S A : Type) : Type := S -> S * result A.

#[global] Instance M_ret {S : Type} : MRet (M S) := fun A a s => (s, Ok a).

#[global] Instance M_bind {S : Type} : MBind (M S) := fun A B k m s =>
  match m s with
  | (s', Ok a) => k a s'
  | (s', Raise e) => (s', Raise e)
  | (s', Hang) => (s', Hang)
  end.

Definition lift {S A : Type} (r : result A) : M S A := fun s => (s, r).
Definition raise {S A : Type} (e : exn) : M S A := fun s => (s, Raise e).
Definition get {S : Type} : M S S := fun s => (s, Ok s).
Definition put {S : Type} (s : S) : M S unit := fun _ => (s, Ok tt).
Definition modify {S : Type} (f : S -> S) : M S unit := fun s => (f s, Ok tt).

(** [h5py.File(path, "r")]: a new handle on an existing HDF5 file. *)
Definition h5_open_read (path : string) : M world nat := fun w =>
  match hdf_at w path with
  | Some _ =>
      (world_set_handles w (w_handles w ++ [mk_handle path 0]), Ok (length (w_handles w)))
  | None => (w, Raise OSError)
  end.

(** [h5py.File(path, "w")]: a new handle on a new, empty file, which takes
    the place of what was under the path. *)
Definition h5_open_write (path : string) : M world nat := fun w =>
  (world_set_handles
     (world_set_files w (Py.dict_set (w_files w) path (HdfFile (H5Group []))))
     (w_handles w ++ [mk_handle path 0]),
   Ok (length (w_handles w))).

(** [f.close()] *)
Definition h5_close (h : nat) : M world unit := fun w =>
  (world_set_handles w
     (alter (fun i => mk_handle (h_path i) (S (h_closes i))) h (w_handles w)),
   Ok tt).

(** The root group of the file behind a handle.  What [h5py] does with a
    handle whose file was since replaced by another is left out. *)
Definition h5_root (h : nat) : M world h5node := fun w =>
  match w_handles w !! h with
  | Some i =>
      match hdf_at w (h_path i) with
      | Some root => (w, Ok root)
      | None => (w, Raise (Unmodelled "h5py: the file of the handle was replaced"))
      end
  | None => (w, Raise (Unmodelled "h5py: no such handle"))
  end.

(** [f.create_dataset(name, data=data)] *)
Definition h5_create_dataset (h : nat) (name : string) (data : ndarray)
    : M world unit := fun w =>
  match w_handles w !! h with
  | Some i =>
      match hdf_at w (h_path i) with
      | Some (H5Group members) =>
          if Py.dict_mem members name then (w, Raise (ValueError "name already exists"))
          else
            (world_set_files w
               (Py.dict_set (w_files w) (h_path i)
                  (HdfFile (H5Group (members ++ [(name, H5Dataset data)])))),
             Ok tt)
      | Some (H5Dataset _) => (w, Raise (Unmodelled "h5py: the root is no group"))
      | None => (w, Raise (Unmodelled "h5py: the file of the handle was replaced"))
      end
  | None => (w, Raise (Unmodelled "h5py: no such handle"))
  end.


(** *** [TimeSeriesReader] *)

Definition cells_dict : Type := list (string * ndarray).

Record reader : Type := mk_reader {
  r_filename : string;
  r_domain : element;
  r_collection : list element;
  r_num_steps : nat;
  r_cells : option cells_dict;
  r_hdf5_files : list (string * nat);
  r_mesh_grid : element
}.

Definition set_cells (r : reader) (c : option cells_dict) : reader :=
  mk_reader (r_filename r) (r_domain r) (r_collection r) (r_num_steps r) c
    (r_hdf5_files r) (r_mesh_grid r).

Definition set_hdf5_files (r : reader) (d : list (string * nat)) : reader :=
  mk_reader (r_filename r) (r_domain r) (r_collection r) (r_num_steps r)
    (r_cells r) d (r_mesh_grid r).

(** [for g in grids: if g.attrib["GridType"] == ty: found = g] *)
Fixpoint last_of_grid_type (ty : string) (grids : list element)
    (found : option element) : result (option element) :=
  match grids with
  | [] => Ok found
  | g :: rest =>
      t ← Py.dict_get (attrib g) "GridType";
      last_of_grid_type ty rest (if String.eqb t ty then Some g else found)
  end.

(** [for g in self.collection: try: if g.attrib["GridType"] == "Uniform":
    self.mesh_grid = g; break; except KeyError: continue] *)
Fixpoint first_uniform (collection : list element) : option element :=
  match collection with
  | [] => None
  | g :: rest =>
      match Py.dict_get (attrib g) "GridType" with
      | Ok t => if String.eqb t "Uniform" then Some g else first_uniform rest
      | _ => first_uniform rest
      end
  end.

(** [__init__]; [root] is the root of the parsed document. *)
Definition reader_init (filename : string) (root : element) : result reader :=
  if negb (String.eqb (tag root) "Xdmf") then Raise (ReadError "")
  else
    version ← Py.dict_get (attrib root) "Version";
    if negb (String.eqb (Py.split_head "." version) "3") then
      Raise (ReadError ("Unknown XDMF version " +:+ version +:+ "."))
    else
      match children root with
      | [domain] =>
          if negb (String.eqb (tag domain) "Domain") then Raise (ReadError "")
          else
            let grids := children domain in
            collection_grid ← last_of_grid_type "Collection" grids None;
            match collection_grid with
            | None => Raise (ReadError "Couldn't find the mesh grid")
            | Some collection_grid =>
                if negb (String.eqb (tag collection_grid) "Grid") then
                  Raise (ReadError "")
                else
                  ct ← Py.dict_get (attrib collection_grid) "CollectionType";
                  if negb (String.eqb ct "Temporal") then Raise (ReadError "")
                  else
                    let collection := children collection_grid in
                    mesh_grid ← last_of_grid_type "Uniform" grids None;
                    let mesh_grid :=
                      match mesh_grid with
                      | None => first_uniform collection
                      | Some g => Some g
                      end in
                    match mesh_grid with
                    | None => Raise (ReadError "Couldn't find the mesh grid")
                    | Some mesh_grid =>
                        if negb (String.eqb (tag mesh_grid) "Grid") then
                          Raise (ReadError "")
                        else
                          Ok (mk_reader filename domain collection
                                (length collection) None [] mesh_grid)
                    end
            end
      | _ => Raise (ReadError "")
      end.

(** [a.reshape(dims)] *)
Definition reshape (a : ndarray) (dims : list Z) : result ndarray :=
  if existsb (fun d => d <? 0) dims then
    Raise (Unmodelled "numpy.reshape: negative dimension")
  else
    let sh := map Z.to_nat dims in
    if (size_of sh =? length (flat a))%nat then Ok (mk_array (dtype_name a) sh (flat a))
    else Raise (ValueError "cannot reshape array").

Section Reader.

(** The tables and helpers of [xdmf/common.py] and [_common.py], and the
    numpy decoders, are not part of these sources. *)
Variable xdmf_to_numpy_type : string -> string -> option string.
Variable xdmf_to_meshio_type : list (string * string).
Variable translate_mixed_cells : ndarray -> result cells_dict.
Variable cell_data : Type.
Variable cell_data_from_raw : cells_dict -> list (string * ndarray) -> result cell_data.
Variable numpy_array : list string -> string -> result ndarray.
Variable numpy_fromfile : string -> string -> result ndarray.
Variable float_of_str : string -> result Z.

Definition rstate : Type := reader * world.

Definition in_world {A : Type} (m : M world A) : M rstate A := fun s =>
  let (w, r) := m (snd s) in ((fst s, w), r).

Definition numpy_type (data_type precision : string) : result string :=
  match xdmf_to_numpy_type data_type precision with
  | Some t => Ok t
  | None => Raise (KeyError (data_type +:+ " " +:+ precision))
  end.

Definition text_of (e : element) (method : string) : result string :=
  match text e with
  | Some t => Ok t
  | None => Raise (AttributeError method)
  end.

(** [for key in keys: f = f[key]] *)
Fixpoint h5_walk (node : h5node) (keys : list string) : result h5node :=
  match keys with
  | [] => Ok node
  | key :: rest =>
      node ← h5_getitem node key;
      h5_walk node rest
  end.

Definition _read_data_item (data_item : element) : M rstate ndarray :=
  let a := attrib data_item in
  dimensions ← lift (Py.dict_get a "Dimensions");
  dims ← lift (Py.map_result Py.int_of_str (Py.split_ws dimensions));
  data_type ←
    (if Py.dict_mem a "DataType" then
       if Py.dict_mem a "NumberType" then raise (ReadError "")
       else lift (Py.dict_get a "DataType")
     else if Py.dict_mem a "NumberType" then
       if Py.dict_mem a "DataType" then raise (ReadError "")
       else lift (Py.dict_get a "NumberType")
     else mret "Float");
  let precision :=
    match Py.dict_get a "Precision" with
    | Ok p => p
    | _ => "4"
    end in
  format ← lift (Py.dict_get a "Format");
  if String.eqb format "XML" then
    t ← lift (text_of data_item "split");
    dt ← lift (numpy_type data_type precision);
    arr ← lift (numpy_array (Py.split_ws t) dt);
    lift (reshape arr dims)
  else if String.eqb format "Binary" then
    t ← lift (text_of data_item "strip");
    dt ← lift (numpy_type data_type precision);
    arr ← lift (numpy_fromfile (Py.strip t) dt);
    lift (reshape arr dims)
  else if negb (String.eqb format "HDF") then
    raise (ReadError ("Unknown XDMF Format '" +:+ format +:+ "'."))
  else
    t ← lift (text_of data_item "strip");
    match Py.split ":" (Py.strip t) with
    | [filename; h5path] =>
        '(self, _) ← get;
        let full_hdf5_path :=
          OsPath.join (OsPath.dirname (r_filename self)) filename in
        f ←
          (match Py.dict_get (r_hdf5_files self) full_hdf5_path with
           | Ok f => mret f
           | _ =>
               f ← in_world (h5_open_read full_hdf5_path);
               modify (fun s : rstate =>
                 (set_hdf5_files (fst s)
                    (Py.dict_set (r_hdf5_files (fst s)) full_hdf5_path f),
                  snd s));;
               mret f
           end);
        match h5path with
        | EmptyString => raise IndexError
        | String c rest =>
            if negb (Ascii.eqb c "/") then raise (ReadError "")
            else
              root ← in_world (h5_root f);
              node ← lift (h5_walk root (Py.split "/" rest));
              lift (h5_value node)
        end
    | _ => raise (ValueError "wrong number of values to unpack")
    end.

(** The [if c.tag == "Topology"] arm of [read_points_cells]. *)
Definition read_topology (c : element) (cells : cells_dict) : M rstate cells_dict :=
  match children c with
  | [data_item] =>
      data ← _read_data_item data_item;
      cell_type ←
        (if Py.dict_mem (attrib c) "Type" then
           if Py.dict_mem (attrib c) "TopologyType" then raise (ReadError "")
           else lift (Py.dict_get (attrib c) "Type")
         else lift (Py.dict_get (attrib c) "TopologyType"));
      if String.eqb cell_type "Mixed" then lift (translate_mixed_cells data)
      else
        meshio_type ← lift (Py.dict_get xdmf_to_meshio_type cell_type);
        mret (Py.dict_set cells meshio_type data)
  | _ => raise (ReadError "")
  end.

(** The [elif c.tag == "Geometry"] arm. *)
Definition read_geometry (c : element) : M rstate ndarray :=
  (match Py.dict_get (attrib c) "GeometryType" with
   | Ok geometry_type =>
       if negb (String.eqb geometry_type "XY" || String.eqb geometry_type "XYZ")
       then raise (ReadError "")
       else mret tt
   | _ => mret tt
   end);;
  match children c with
  | [data_item] => _read_data_item data_item
  | _ => raise (ReadError "")
  end.

Fixpoint read_points_cells_loop (cs : list element)
    (points : option ndarray) (cells : cells_dict)
    : M rstate (option ndarray * cells_dict) :=
  match cs with
  | [] => mret (points, cells)
  | c :: rest =>
      if String.eqb (tag c) "Topology" then
        cells ← read_topology c cells;
        read_points_cells_loop rest points cells
      else if String.eqb (tag c) "Geometry" then
        p ← read_geometry c;
        read_points_cells_loop rest (Some p) cells
      else read_points_cells_loop rest points cells
  end.

Definition read_points_cells : M rstate (option ndarray * cells_dict) :=
  '(self, _) ← get;
  '(points, cells) ← read_points_cells_loop (children (r_mesh_grid self)) None [];
  modify (fun s : rstate => (set_cells (fst s) (Some cells), snd s));;
  mret (points, cells).

(** The [elif c.tag == "Attribute"] arm of [read_data]. *)
Definition read_attribute (c : element)
    (point_data cell_data_raw : list (string * ndarray))
    : M rstate (list (string * ndarray) * list (string * ndarray)) :=
  name ← lift (Py.dict_get (attrib c) "Name");
  match children c with
  | [data_item] =>
      data ← _read_data_item data_item;
      center ← lift (Py.dict_get (attrib c) "Center");
      if String.eqb center "Node" then
        mret (Py.dict_set point_data name data, cell_data_raw)
      else if negb (String.eqb center "Cell") then raise (ReadError "")
      else mret (point_data, Py.dict_set cell_data_raw name data)
  | _ => raise (ReadError "")
  end.

Fixpoint read_data_loop (cs : list element) (t : option Z)
    (point_data cell_data_raw : list (string * ndarray))
    : M rstate (option Z * list (string * ndarray) * list (string * ndarray)) :=
  match cs with
  | [] => mret (t, point_data, cell_data_raw)
  | c :: rest =>
      if String.eqb (tag c) "Time" then
        v ← lift (Py.dict_get (attrib c) "Value");
        x ← lift (float_of_str v);
        read_data_loop rest (Some x) point_data cell_data_raw
      else if String.eqb (tag c) "Attribute" then
        '(point_data, cell_data_raw) ← read_attribute c point_data cell_data_raw;
        read_data_loop rest t point_data cell_data_raw
      else read_data_loop rest t point_data cell_data_raw
  end.

Definition read_data (k : Z) : M rstate (Z * list (string * ndarray) * cell_data) :=
  '(self, _) ← get;
  frame ← lift (Py.getitem (r_collection self) k);
  '(t, point_data, cell_data_raw) ← read_data_loop (children frame) None [] [];
  '(self, _) ← get;
  match r_cells self with
  | None => raise (ReadError "")
  | Some cells =>
      cell_data ← lift (cell_data_from_raw cells cell_data_raw);
      match t with
      | None => raise (ReadError "")
      | Some t => mret (t, point_data, cell_data)
      end
  end.

(** [__exit__]: [for f in self.hdf5_files.values(): f.close()] *)
Fixpoint close_all (handles : list nat) : M world unit :=
  match handles with
  | [] => mret tt
  | f :: rest => h5_close f;; close_all rest
  end.

Definition reader_exit : M rstate unit :=
  '(self, _) ← get;
  in_world (close_all (map snd (r_hdf5_files self))).

End Reader.


(** *** [TimeSeriesWriter] *)

(** An element of the tree under construction is the path to it from the
    root: the child numbers to follow. *)
Definition path : Type := list nat.

Fixpoint node_at (p : path) (e : element) : option element :=
  match p with
  | [] => Some e
  | i :: p' =>
      match children e !! i with
      | Some c => node_at p' c
      | None => None
      end
  end.

Fixpoint update_at (p : path) (f : element -> element) (e : element) : element :=
  match p with
  | [] => f e
  | i :: p' =>
      Element (tag e) (attrib e) (text e) (alter (update_at p' f) i (children e))
  end.

Definition add_child (c : element) (e : element) : element :=
  Element (tag e) (attrib e) (text e) (children e ++ [c]).

Definition with_text (t : string) (e : element) : element :=
  Element (tag e) (attrib e) (Some t) (children e).

Record writer : Type := mk_writer {
  filename : string;
  data_format : string;
  data_counter : Z;
  pretty_xml : bool;
  xdmf_file : element;
  domain : path;
  collection : path;
  has_mesh : bool;
  mesh_name : option string;
  h5_filename : option string;
  h5_file : option nat
}.

Definition set_data_counter (s : writer) (n : Z) : writer :=
  mk_writer (filename s) (data_format s) n (pretty_xml s) (xdmf_file s)
    (domain s) (collection s) (has_mesh s) (mesh_name s) (h5_filename s) (h5_file s).
Definition set_xdmf_file (s : writer) (t : element) : writer :=
  mk_writer (filename s) (data_format s) (data_counter s) (pretty_xml s) t
    (domain s) (collection s) (has_mesh s) (mesh_name s) (h5_filename s) (h5_file s).
Definition set_has_mesh (s : writer) (b : bool) : writer :=
  mk_writer (filename s) (data_format s) (data_counter s) (pretty_xml s) (xdmf_file s)
    (domain s) (collection s) b (mesh_name s) (h5_filename s) (h5_file s).
Definition set_mesh_name (s : writer) (n : option string) : writer :=
  mk_writer (filename s) (data_format s) (data_counter s) (pretty_xml s) (xdmf_file s)
    (domain s) (collection s) (has_mesh s) n (h5_filename s) (h5_file s).
Definition set_h5 (s : writer) (n : string) (f : nat) : writer :=
  mk_writer (filename s) (data_format s) (data_counter s) (pretty_xml s) (xdmf_file s)
    (domain s) (collection s) (has_mesh s) (mesh_name s) (Some n) (Some f).

Definition unknown_format_message (data_format : string) : string :=
  "Unknown XDMF data format '" +:+ data_format
    +:+ "' (use 'XML', 'Binary', or 'HDF'.)".

(** [__init__] *)
Definition writer_init (filename : string) (pretty_xml : bool) (data_format : string)
    : result writer :=
  if negb (existsb (String.eqb data_format) ["XML"; "Binary"; "HDF"]) then
    Raise (WriteError (unknown_format_message data_format))
  else
    let collection :=
      Element "Grid"
        [("Name", "TimeSeries_meshio"); ("GridType", "Collection");
         ("CollectionType", "Temporal")] None [] in
    let domain := Element "Domain" [] None [collection] in
    let xdmf_file := Element "Xdmf" [("Version", "3.0")] None [domain] in
    Ok (mk_writer filename data_format 0 pretty_xml xdmf_file [0%nat] [0%nat; 0%nat]
          false None None None).

Definition wstate : Type := writer * world.

Definition in_world_w {A : Type} (m : M world A) : M wstate A := fun s =>
  let (w, r) := m (snd s) in ((fst s, w), r).

Definition modify_self (f : writer -> writer) : M wstate unit :=
  modify (fun s : wstate => (f (fst s), snd s)).

(** [__enter__] *)
Definition writer_enter : M wstate unit :=
  '(self, _) ← get;
  if String.eqb (data_format self) "HDF" then
    let name := OsPath.splitext_root (filename self) +:+ ".h5" in
    f ← in_world_w (h5_open_write name);
    modify_self (fun s => set_h5 s name f)
  else mret tt.

(** [__exit__]: [self.h5_file.close()] *)
Definition writer_exit : M wstate unit :=
  '(self, _) ← get;
  match h5_file self with
  | Some f => in_world_w (h5_close f)
  | None => raise (AttributeError "h5_file")
  end.

(** [ET.SubElement(parent, tag, **attrs)] *)
Definition SubElement (parent : path) (tag : string) (attrs : list (string * string))
    : M wstate path :=
  '(self, _) ← get;
  let n :=
    match node_at parent (xdmf_file self) with
    | Some e => length (children e)
    | None => 0%nat
    end in
  modify_self (fun s =>
    set_xdmf_file s (update_at parent (add_child (Element tag attrs None [])) (xdmf_file s)));;
  mret (parent ++ [n]).

(** [e.text = t] *)
Definition set_text (e : path) (t : string) : M wstate unit :=
  modify_self (fun s => set_xdmf_file s (update_at e (with_text t) (xdmf_file s))).

(** [numpy.insert(a, 0, v, axis=1)] *)
Fixpoint blocks (n b : nat) (l : list Z) : list (list Z) :=
  match n with
  | O => []
  | S n' => take b l :: blocks n' b (drop b l)
  end.

Definition insert_axis1 (a : ndarray) (v : Z) : result ndarray :=
  match shape a with
  | n :: k :: rest =>
      let m := size_of rest in
      Ok (mk_array (dtype_name a) (n :: S k :: rest)
            (concat (map (fun blk => repeat v m ++ blk) (blocks n (k * m) (flat a)))))
  | _ => Raise (ValueError "axis 1 is out of bounds")
  end.

(** Modelled from the spec: [write_xml] of [_common.py], which is not part
    of these sources; "the XML tree is serialized to disk after every
    mutating call".  The file holds the tree as it is at the call, and
    takes the place of what was under the path. *)
Definition write_xml (filename : string) (tree : element) (pretty : bool)
    : M world unit :=
  modify (fun w =>
    world_set_files w (Py.dict_set (w_files w) filename (XmlFile tree pretty))).

Section Writer.

(** The tables and helpers of [xdmf/common.py] and [_common.py], and the
    numpy encoders, are not part of these sources. *)
Variable numpy_to_xdmf_dtype : list (string * (string * string)).
Variable dtype_to_format_string : list (string * string).
Variable meshio_to_xdmf_type : list (string * list string).
Variable meshio_type_to_xdmf_index : list (string * Z).
Variable attribute_type : ndarray -> result string.
Variable raw_from_cell_data :
  list (string * list (string * ndarray)) -> result (list (string * ndarray)).
Variable savetxt : list Z -> string -> string.
Variable result_type : list string -> string.
Variable str_of_float : Z -> string.

(** [numpy_to_xml_string] *)
Definition numpy_to_xml_string (data : ndarray) : M wstate string :=
  '(self, _) ← get;
  if String.eqb (data_format self) "XML" then
    fmt ← lift (Py.dict_get dtype_to_format_string (dtype_name data));
    mret (savetxt (flat data) fmt)
  else if String.eqb (data_format self) "Binary" then
    let bin_filename :=
      OsPath.splitext_root (filename self) +:+ Py.str_of_Z (data_counter self)
        +:+ ".bin" in
    modify_self (fun s => set_data_counter s (data_counter s + 1));;
    in_world_w (modify (fun w =>
      world_set_files w (Py.dict_set (w_files w) bin_filename (BinFile data))));;
    mret bin_filename
  else if negb (String.eqb (data_format self) "HDF") then raise (WriteError "")
  else
    let name := "data" +:+ Py.str_of_Z (data_counter self) in
    modify_self (fun s => set_data_counter s (data_counter s + 1));;
    match h5_file self, h5_filename self with
    | Some f, Some h5_filename =>
        in_world_w (h5_create_dataset f name data);;
        mret (OsPath.basename h5_filename +:+ ":/" +:+ name)
    | _, _ => raise (AttributeError "h5_file")
    end.

(** The two leading dimensions, as in [dim = "{} {}".format] of the shape. *)
Definition two_dims (a : ndarray) : result string :=
  n ← shape_at a 0;
  m ← shape_at a 1;
  Ok (Py.str_of_Z (Z.of_nat n) +:+ " " +:+ Py.str_of_Z (Z.of_nat m)).

(** [data_item = ET.SubElement(parent, "DataItem", ...)] and
    [data_item.text = self.numpy_to_xml_string(data)] *)
Definition data_item_for (parent : path) (dt prec dim : string) (data : ndarray)
    : M wstate unit :=
  '(self, _) ← get;
  data_item ← SubElement parent "DataItem"
    [("DataType", dt); ("Dimensions", dim); ("Format", data_format self);
     ("Precision", prec)];
  t ← numpy_to_xml_string data;
  set_text data_item t.

(** [points] *)
Definition points (grid : path) (pts : ndarray) : M wstate unit :=
  d ← lift (shape_at pts 1);
  geometry_type ←
    (if (d =? 2)%nat then mret "XY"
     else if negb (d =? 3)%nat then raise (WriteError "Need 3D points.")
     else mret "XYZ");
  geo ← SubElement grid "Geometry" [("GeometryType", geometry_type)];
  '(dt, prec) ← lift (Py.dict_get numpy_to_xdmf_dtype (dtype_name pts));
  dim ← lift (two_dims pts);
  data_item_for geo dt prec dim pts.

(** The dict object at an address. *)
Definition deref (a : nat) : M wstate (list (string * ndarray)) := fun s =>
  match w_heap (snd s) !! a with
  | Some d => (s, Ok d)
  | None => (s, Raise (Unmodelled "dangling reference"))
  end.

(** [d[key] = value] on the dict object at an address. *)
Definition setitem (a : nat) (key : string) (value : ndarray) : M wstate unit :=
  d ← deref a;
  in_world_w (modify (fun w =>
    world_set_heap w (<[a := Py.dict_set d key value]> (w_heap w)))).

(** [sum(c.shape[0] for c in cells.values())] *)
Fixpoint sum_shape0 (l : list (string * ndarray)) : result Z :=
  match l with
  | [] => Ok 0
  | (_, c) :: l' =>
      n ← shape_at c 0;
      m ← sum_shape0 l';
      Ok (Z.of_nat n + m)
  end.

(** [sum(numpy.prod(c.shape) for c in cells.values())] *)
Definition sum_prod (l : list (string * ndarray)) : Z :=
  fold_right (fun kv acc => Z.of_nat (size_of (shape (snd kv))) + acc) 0 l.

(** One item of the list comprehension: the array with its column of type
    indices, flattened. *)
Definition tagged (kv : string * ndarray) : result ndarray :=
  idx ← Py.dict_get meshio_type_to_xdmf_index (fst kv);
  insert_axis1 (snd kv) idx.

(** [numpy.concatenate] of flattened arrays. *)
Definition concatenate (l : list ndarray) : ndarray :=
  let all := concat (map flat l) in
  mk_array (result_type (map dtype_name l)) [length all] all.

(** [cells]: [cells] is the address of the caller's dict. *)
Definition cells (cells : nat) (grid : path) : M wstate unit :=
  d ← deref cells;
  match d with
  | [] => mret tt
  | [(meshio_type, arr)] =>
      num_cells ← lift (len arr);
      names ← lift (Py.dict_get meshio_to_xdmf_type meshio_type);
      xdmf_type ← lift (Py.index names 0);
      topo ← SubElement grid "Topology"
        [("TopologyType", xdmf_type);
         ("NumberOfElements", Py.str_of_Z (Z.of_nat num_cells))];
      '(dt, prec) ← lift (Py.dict_get numpy_to_xdmf_dtype (dtype_name arr));
      dim ← lift (two_dims arr);
      data_item_for topo dt prec dim arr
  | _ =>
      total_num_cells ← lift (sum_shape0 d);
      topo ← SubElement grid "Topology"
        [("TopologyType", "Mixed");
         ("NumberOfElements", Py.str_of_Z total_num_cells)];
      let total_num_cell_items := sum_prod d in
      let dim := total_num_cell_items + total_num_cells in
      dim ←
        (if Py.dict_mem d "line" then
           line ← lift (Py.dict_get d "line");
           line ← lift (insert_axis1 line 2);
           setitem cells "line" line;;
           n ← lift (len line);
           mret (dim + Z.of_nat n)
         else mret dim);
      let dim := Py.str_of_Z dim in
      d ← deref cells;
      parts ← lift (Py.map_result tagged d);
      let cd := concatenate parts in
      '(dt, prec) ← lift (Py.dict_get numpy_to_xdmf_dtype (dtype_name cd));
      data_item_for topo dt prec dim cd
  end.

(** [write_points_cells]: [cells] is the address of the caller's dict. *)
Definition write_points_cells (pts : ndarray) (cells_ref : nat) : M wstate unit :=
  modify_self (fun s => set_mesh_name s (Some "mesh"));;
  '(self, _) ← get;
  grid ← SubElement (domain self) "Grid" [("Name", "mesh"); ("GridType", "Uniform")];
  points grid pts;;
  cells cells_ref grid;;
  modify_self (fun s => set_has_mesh s true);;
  '(self, _) ← get;
  in_world_w (write_xml (filename self) (xdmf_file self) (pretty_xml self)).

(** [" ".join([str(s) for s in data.shape])] *)
Definition all_dims (a : ndarray) : string :=
  Py.join " " (map (fun n => Py.str_of_Z (Z.of_nat n)) (shape a)).

(** One turn of the loops of [point_data] and [cell_data]. *)
Definition attribute (grid : path) (center : string) (kv : string * ndarray)
    : M wstate unit :=
  ty ← lift (attribute_type (snd kv));
  att ← SubElement grid "Attribute"
    [("Name", fst kv); ("AttributeType", ty); ("Center", center)];
  '(dt, prec) ← lift (Py.dict_get numpy_to_xdmf_dtype (dtype_name (snd kv)));
  data_item_for att dt prec (all_dims (snd kv)) (snd kv).

Fixpoint attributes (grid : path) (center : string) (l : list (string * ndarray))
    : M wstate unit :=
  match l with
  | [] => mret tt
  | kv :: l' => attribute grid center kv;; attributes grid center l'
  end.

(** [point_data] *)
Definition point_data (data : list (string * ndarray)) (grid : path) : M wstate unit :=
  attributes grid "Node" data.

(** [cell_data] *)
Definition cell_data (data : list (string * list (string * ndarray))) (grid : path)
    : M wstate unit :=
  raw ← lift (raw_from_cell_data data);
  attributes grid "Cell" raw.

(** [write_data]; an argument that is [None] or empty is [[]]. *)
Definition write_data (t : Z) (pd : list (string * ndarray))
    (cd : list (string * list (string * ndarray))) : M wstate unit :=
  '(self, _) ← get;
  grid ← SubElement (collection self) "Grid" [];
  if negb (has_mesh self) then raise (WriteError "")
  else
    let name := match mesh_name self with Some n => n | None => "None" end in
    let ptr :=
      "xpointer(//Grid[@Name=" +:+ String Py.dquote name
        +:+ String Py.dquote "]/*[self::Topology or self::Geometry])" in
    SubElement grid "{http://www.w3.org/2003/XInclude}include" [("xpointer", ptr)];;
    SubElement grid "Time" [("Value", str_of_float t)];;
    (match pd with [] => mret tt | _ => point_data pd grid end);;
    (match cd with [] => mret tt | _ => cell_data cd grid end);;
    '(self, _) ← get;
    in_world_w (write_xml (filename self) (xdmf_file self) (pretty_xml self)).

End Writer.

End Xdmf.

(** ** Python's [shlex] *)

Module Shlex.

(** [shlex.whitespace], [shlex.quotes] and [shlex.escape]. *)
Definition whitespace (c : ascii) : bool :=
  existsb (Ascii.eqb c) [" "%char; ascii_of_nat 9; ascii_of_nat 13; Py.newline].

Definition quote (c : ascii) : bool := Ascii.eqb c "'" || Ascii.eqb c Py.dquote.

Definition backslash : ascii := ascii_of_nat 92.

(** The state of the lexer: between tokens ([' ']), in a word (['a']),
    inside quotes (the quote character), or after a backslash met in a
    word ([escapedstate == 'a']) or inside quotes ([escapedstate] the quote
    character). *)
Inductive state : Type :=
| Between
| Word
| Quoted (q : ascii)
| Escaped (escapedstate : option ascii).

Definition push (token : string) (c : ascii) : string := token +:+ String c EmptyString.

(** [list(lex)] for a POSIX lexer with [whitespace_split] set and no
    comment characters: the calls of [read_token] one after the other, the
    lexer keeping its state between them, up to the first that returns
    [None].  [quoted] is the flag of the call in progress. *)
Fixpoint tokens (st : state) (token : string) (quoted : bool) (s : string)
    : result (list string) :=
  match s with
  | EmptyString =>
      match st with
      | Between => Ok []
      | Word =>
          Ok (if negb (String.eqb token EmptyString) || quoted then [token] else [])
      | Quoted _ => Raise (ValueError "No closing quotation")
      | Escaped _ => Raise (ValueError "No escaped character")
      end
  | String c s' =>
      match st with
      | Between =>
          if whitespace c then
            if negb (String.eqb token EmptyString) || quoted then
              rest ← tokens Between EmptyString false s';
              Ok (token :: rest)
            else tokens Between token quoted s'
          else if Ascii.eqb c backslash then tokens (Escaped None) token quoted s'
          else if quote c then tokens (Quoted c) token quoted s'
          else tokens Word (String c EmptyString) quoted s'
      | Quoted q =>
          if Ascii.eqb c q then tokens Word token true s'
          else if Ascii.eqb c backslash && Ascii.eqb q Py.dquote then
            tokens (Escaped (Some q)) token true s'
          else tokens (Quoted q) (push token c) true s'
      | Escaped escapedstate =>
          match escapedstate with
          | Some q =>
              let token :=
                if negb (Ascii.eqb c backslash) && negb (Ascii.eqb c q)
                then push token backslash else token in
              tokens (Quoted q) (push token c) quoted s'
          | None => tokens Word (push token c) quoted s'
          end
      | Word =>
          if whitespace c then
            if negb (String.eqb token EmptyString) || quoted then
              rest ← tokens Between EmptyString false s';
              Ok (token :: rest)
            else tokens Between token quoted s'
          else if quote c then tokens (Quoted c) token quoted s'
          else if Ascii.eqb c backslash then tokens (Escaped None) token quoted s'
          else tokens Word (push token c) quoted s'
      end
  end.

(** [shlex.split(s)] *)
Definition split (s : string) : result (list string) :=
  tokens Between EmptyString false s.

End Shlex.

(** ** gmsh/common.py: the physical names read, the type codes *)

Module GmshNames.
Import GmshCommon.

(** [numpy.array(l, dtype=int)] of a list of strings: each is read as
    [int] reads it, into a C [long] of 64 bits. *)
Definition int_array (l : list string) : result (list Z) :=
  Py.map_result
    (fun s =>
       z ← Py.int_of_str s;
       if (- 2 ^ 63 <=? z) && (z <? 2 ^ 63) then Ok z else Raise OverflowError)
    l.

(** The [for _ in range(num_phys_names)] loop: the unread input and the
    dict after it.  [line[1::-1]] is reached with three tokens or more, and
    is then the second token and the first. *)
Fixpoint read_names (n : nat) (f : string) (field_data : list (string * pyval))
    : result (string * list (string * pyval)) :=
  match n with
  | O => Ok (f, field_data)
  | S n' =>
      '(l, f) ← Py.readline_text f;
      line ← Shlex.split l;
      key ← Py.index line 2;
      value ← int_array (rev (take 2 line));
      read_names n' f (Py.dict_set field_data key (PySeq (map PyInt value)))
  end.

(** [_read_physical_names]: the unread input and the dict after the call. *)
Definition _read_physical_names (f : string) (field_data : list (string * pyval))
    : result (string * list (string * pyval)) :=
  '(line, f) ← Py.readline_text f;
  num_phys_names ← Py.int_of_str line;
  '(f, field_data) ← read_names (Z.to_nat num_phys_names) f field_data;
  '(line, f) ← Py.readline_text f;
  if negb (String.eqb (Py.strip line) "$EndPhysicalNames") then Raise (ReadError "")
  else Ok (f, field_data).

Definition _gmsh_to_meshio_type : list (Z * string) :=
  [(1, "line"); (2, "triangle"); (3, "quad"); (4, "tetra"); (5, "hexahedron");
   (6, "wedge"); (7, "pyramid"); (8, "line3"); (9, "triangle6"); (10, "quad9");
   (11, "tetra10"); (12, "hexahedron27"); (13, "wedge18"); (14, "pyramid14");
   (15, "vertex"); (16, "quad8"); (17, "hexahedron20"); (21, "triangle10");
   (23, "triangle15"); (25, "triangle21"); (26, "line4"); (27, "line5");
   (28, "line6"); (29, "tetra20"); (30, "tetra35"); (31, "tetra56");
   (36, "quad16"); (37, "quad25"); (38, "quad36"); (42, "triangle28");
   (43, "triangle36"); (44, "triangle45"); (45, "triangle55"); (46, "triangle66");
   (47, "quad49"); (48, "quad64"); (49, "quad81"); (50, "quad100");
   (51, "quad121"); (62, "line7"); (63, "line8"); (64, "line9"); (65, "line10");
   (66, "line11"); (71, "tetra84"); (72, "tetra120"); (73, "tetra165");
   (74, "tetra220"); (75, "tetra286"); (90, "wedge40"); (91, "wedge75");
   (92, "hexahedron64"); (93, "hexahedron125"); (94, "hexahedron216");
   (95, "hexahedron343"); (96, "hexahedron512"); (97, "hexahedron729");
   (98, "hexahedron1000"); (106, "wedge126"); (107, "wedge196");
   (108, "wedge288"); (109, "wedge405"); (110, "wedge550")].

(** [{v: k for k, v in d.items()}] *)
Definition inverted (d : list (Z * string)) : list (string * Z) :=
  fold_left (fun acc kv => Py.dict_set acc (snd kv) (fst kv)) d [].

Definition _meshio_to_gmsh_type : list (string * Z) := inverted _gmsh_to_meshio_type.

(** [d[k]] on a dict with integer keys. *)
Fixpoint code_get {V : Type} (d : list (Z * V)) (k : Z) : result V :=
  match d with
  | [] => Raise (KeyError (Py.str_of_Z k))
  | (k', v) :: d' => if k' =? k then Ok v else code_get d' k
  end.

End GmshNames.

(** ** gmsh/main.py: [write] *)

Module GmshWrite.
Import GmshMain.

Section Write.
(** The [write] of the version-specific modules is not part of these
    sources. *)
Variable mesh : Type.
Variable module_write : gmsh_module -> string -> mesh -> bool -> result unit.

Definition write (filename : string) (m : mesh) (fmt_version : string) (binary : bool)
    : result unit :=
  writer ← select _writers fmt_version;
  module_write writer filename m binary.

End Write.
End GmshWrite.

(** * The vocabulary of the statements *)

Module GmshMainTerms.

(** The versions that [_readers] has a reader for, in the order in which
    the error message lists them. *)
Definition reader_versions : list string := ["2"; "4"; "4.0"; "4.1"].

End GmshMainTerms.

Module TextTerms.

Fixpoint all_chars (P : ascii -> bool) (s : string) : bool :=
  match s with
  | EmptyString => true
  | String c s' => P c && all_chars P s'
  end.

(** A text that fits on one line. *)
Definition no_newline (s : string) : bool :=
  all_chars (fun c => negb (Ascii.eqb c Py.newline)) s.

(** The number of bytes of the white-space character that a text begins
    with, and 0 when it begins with none. *)
Definition space_width (s : string) : nat :=
  match s with
  | EmptyString => 0
  | String c1 s1 =>
      if Py.isspace c1 then 1
      else
        match s1 with
        | String c2 s2 =>
            if Py.space2 c1 c2 then 2
            else
              match s2 with
              | String c3 _ => if Py.space3 c1 c2 c3 then 3 else 0
              | EmptyString => 0
              end
        | EmptyString => 0
        end
  end.

(** A text with no white space in it: no white-space character begins at
    any of its bytes. *)
Fixpoint no_space (s : string) : bool :=
  match s with
  | EmptyString => true
  | String _ s' => (space_width s =? 0)%nat && no_space s'
  end.

(** A text of ASCII characters only. *)
Definition ascii_text (s : string) : bool := all_chars Py.is_ascii s.

(** A text with the newline that ends its line. *)
Definition line (s : string) : string := s +:+ Py.nl.

End TextTerms.


Module GmshCommonTerms.
Import GmshCommon.

(** The entries of [field_data] whose value unpacks into two integers, as
    [(dimension, id, name)], in the order of the dict. *)
Definition coercible_entries (field_data : list (string * pyval)) : list entry :=
  flat_map
    (fun kv =>
       match coerce (snd kv) with
       | Ok (phys_num, phys_dim) => [(phys_dim, phys_num, fst kv)]
       | _ => []
       end)
    field_data.

(** The [try] body ends normally, or in a [ValueError] or a [TypeError]. *)
Definition processable (v : pyval) : Prop :=
  match coerce v with
  | Ok _ | Raise (ValueError _) | Raise TypeError => True
  | _ => False
  end.

(** How many entries the [except] clause catches. *)
Definition skipped (field_data : list (string * pyval)) : nat :=
  length
    (List.filter
       (fun kv =>
          match coerce (snd kv) with
          | Raise (ValueError _) | Raise TypeError => true
          | _ => false
          end)
       field_data).

(** The order of the entries written: ascending by dimension, then by
    id, then by name, as Python compares [str] (character by character, by
    code point, which is byte by byte in UTF-8). *)
Definition name_le (s1 s2 : string) : Prop := String.leb s1 s2 = true.

Definition entry_le (a b : entry) : Prop :=
  let '(d1, n1, s1) := a in
  let '(d2, n2, s2) := b in
  d1 < d2 \/ (d1 = d2 /\ (n1 < n2 \/ (n1 = n2 /\ name_le s1 s2))).

(** The [$PhysicalNames] section for a list of [(dimension, id, name)]:
    nothing for the empty list, else the marker, the count, one line
    [dimension id "name"] per entry, and the end marker. *)
Definition section_text (entries : list entry) : string :=
  match entries with
  | [] => ""
  | _ =>
      "$PhysicalNames" +:+ Py.nl
      +:+ Py.str_of_Z (Z.of_nat (length entries)) +:+ Py.nl
      +:+ String.concat ""
            (map (fun e : entry =>
                    let '(dim, num, name) := e in
                    Py.str_of_Z dim +:+ " " +:+ Py.str_of_Z num +:+ " "
                    +:+ String Py.dquote name +:+ String Py.dquote Py.nl)
                 entries)
      +:+ "$EndPhysicalNames" +:+ Py.nl
  end.


(** The tag block of a data section, as the writer lays it out: one
    string tag (the name, in quotes), one real tag, three integer tags
    (time step, component count, item count). *)
Definition tags_text (name : string) (nc n : Z) : string :=
  TextTerms.line (Py.str_of_Z 1)
  +:+ TextTerms.line (String Py.dquote name +:+ String Py.dquote "")
  +:+ TextTerms.line (Py.str_of_Z 1)
  +:+ TextTerms.line "0.0"
  +:+ TextTerms.line (Py.str_of_Z 3)
  +:+ TextTerms.line (Py.str_of_Z 0)
  +:+ TextTerms.line (Py.str_of_Z nc)
  +:+ TextTerms.line (Py.str_of_Z n).

(** A 64-bit pattern. *)
Definition is_pattern (x : float64) : Prop := 0 <= x < 2 ^ 64.

(** A text that starts with a character that is not white space for the
    text scanner. *)
Definition starts_word (s : string) : Prop :=
  match s with
  | String c _ => Py.c_isspace c = false
  | EmptyString => False
  end.

(** The text scanner reads the printed entry [x] back as the double of
    [x], up to the newline that follows it in a section. *)
Definition scans_value (repr : scalar -> string) (to_double : scalar -> float64)
    (scan_float : string -> option (float64 * string)) (x : scalar) : Prop :=
  starts_word (repr x)
  /\ forall rest,
       scan_float (repr x +:+ String Py.newline rest)
       = Some (to_double x, String Py.newline rest).

(** The text scanner reads the record number [k] as some number, up to the
    space that follows it in a section. *)
Definition scans_index (scan_float : string -> option (float64 * string))
    (k : Z) : Prop :=
  forall rest,
    exists v, scan_float (Py.str_of_Z k +:+ String " " rest)
              = Some (v, String " " rest).

(** The entries of a one-component field, whichever its shape. *)
Definition scalars (data : ndarray) : list scalar :=
  match data with
  | Arr1 xs => xs
  | Arr2 _ rows => column0 rows
  end.


(** The payload of a section: one record per item (in binary mode its
    number as a C [int] and its components as doubles, and a newline after
    the last record; in ASCII mode a line of its number and the [repr] of
    its components). *)
Definition payload (repr : scalar -> string) (to_double : scalar -> float64)
    (records : list (list scalar)) (binary : bool) : string :=
  if binary then
    String.concat "" (imap (binary_record to_double) records) +:+ Py.nl
  else String.concat "" (imap (ascii_line repr) records).

(** The payload of a one-component field with the entries [xs], and the
    section after its opening marker, which is what [_read_data] is given
    to read: the tag block, the payload, the end marker. *)
Definition scalar_payload (repr : scalar -> string) (to_double : scalar -> float64)
    (xs : list scalar) (binary : bool) : string :=
  payload repr to_double (map (fun x => [x]) xs) binary.

Definition scalar_section (repr : scalar -> string) (to_double : scalar -> float64)
    (tag name : string) (xs : list scalar) (binary : bool) : string :=
  tags_text name 1 (Z.of_nat (length xs))
  +:+ scalar_payload repr to_double xs binary
  +:+ TextTerms.line ("$End" +:+ tag).

(** The dtype of the arrays that the reader returns: a double is its own
    double. *)
Definition as_double (x : float64) : float64 := x.

(** A name that the tag line gives back as it is: on one line, no quote. *)
Definition plain_name (name : string) : bool :=
  TextTerms.all_chars
    (fun c => negb (Ascii.eqb c Py.newline) && negb (Ascii.eqb c Py.dquote)) name.

(** A call that does not end in a [ReadError]. *)
Definition no_read_error {A : Type} (r : result A) : Prop :=
  forall msg, r <> Raise (ReadError msg).

(** A stand-in for the two number codecs, for the examples: a double is
    printed as the decimal of its bit pattern, and a number in a text is a
    run of digits. *)
Definition sample_repr (x : float64) : string := Py.str_of_Z x.

Fixpoint take_digits (s : string) : string * string :=
  match s with
  | EmptyString => (EmptyString, EmptyString)
  | String c s' =>
      if Py.is_digit c then let (d, r) := take_digits s' in (String c d, r)
      else (EmptyString, s)
  end.

Definition sample_scan (s : string) : option (float64 * string) :=
  let (tok, rest) := take_digits (Py.c_lstrip s) in
  match Py.unsigned_literal tok with
  | Some v => Some (v, rest)
  | None => None
  end.

(** Stand-ins that agree with numpy on the whole numbers from 0 up to
    [2^53], for the examples with an array of integers: the double of a
    whole number (the cast of an integer entry), the [repr] of an integer
    entry and of a double that is a whole number, and a scanner of a number
    written as a run of digits, with or without [.0] after it. *)
Definition double_of_whole (z : Z) : float64 :=
  if z =? 0 then 0
  else
    let e := Z.log2 z in
    (e + 1023) * 2 ^ 52 + (z - 2 ^ e) * 2 ^ (52 - e).

Definition whole_of_double (x : float64) : Z :=
  if x =? 0 then 0
  else
    let e := x / 2 ^ 52 - 1023 in
    (2 ^ 52 + x mod 2 ^ 52) / 2 ^ (52 - e).

Definition int_repr (z : scalar) : string := Py.str_of_Z z.

Definition float_repr (x : float64) : string :=
  Py.str_of_Z (whole_of_double x) +:+ ".0".

Definition scan_whole (s : string) : option (float64 * string) :=
  let (tok, rest) := take_digits (Py.c_lstrip s) in
  let rest :=
    match rest with
    | String "." (String "0" r) => r
    | _ => rest
    end in
  match Py.unsigned_literal tok with
  | Some v => Some (double_of_whole v, rest)
  | None => None
  end.

(** The tag block of a section named [p] with one component and two items. *)
Definition sample_tags : string :=
  "1" +:+ Py.nl +:+ String Py.dquote "p" +:+ String Py.dquote Py.nl
  +:+ "1" +:+ Py.nl +:+ "0.0" +:+ Py.nl
  +:+ "3" +:+ Py.nl +:+ "0" +:+ Py.nl +:+ "1" +:+ Py.nl +:+ "2" +:+ Py.nl.

Definition sample_binary (i1 i2 : Z) : string :=
  sample_tags
  +:+ Py.bytes_of_int32 i1 +:+ bytes_of_float64 5
  +:+ Py.bytes_of_int32 i2 +:+ bytes_of_float64 7
  +:+ Py.nl +:+ "$EndNodeData" +:+ Py.nl.

Definition sample_ascii : string :=
  sample_tags +:+ "7 5" +:+ Py.nl +:+ "7 7" +:+ Py.nl
  +:+ "$EndNodeData" +:+ Py.nl.

(** A sample [field_data]: three physical groups, an entry that is no
    pair and an entry that is no sequence. *)
Definition sample_field_data : list (string * pyval) :=
  [("top", PySeq [PyInt 4; PyInt 2]);
   ("junk", Atom PyNone);
   ("edge", PySeq [PyInt 9; PyInt 1]);
   ("half", PySeq [PyInt 3]);
   ("hole", PySeq [PyInt 2; PyInt 2])].

End GmshCommonTerms.

Module XdmfTerms.
Import Xdmf.

(** An element whose [GridType] attribute is [ty]. *)
Definition grid_type_is (ty : string) (g : element) : bool :=
  match Py.dict_get (attrib g) "GridType" with
  | Ok t => String.eqb t ty
  | _ => false
  end.

(** The uniform grids among the children of the domain (the collection
    and its siblings), and those inside the collection. *)
Definition uniform_siblings (domain : element) : list element :=
  List.filter (grid_type_is "Uniform") (children domain).

Definition uniform_nested (collection_grid : element) : list element :=
  List.filter (grid_type_is "Uniform") (children collection_grid).

(** The document passes every check that [__init__] makes before it looks
    for the mesh grid: root [Xdmf] of major version 3, one child [Domain],
    every child of the domain with a [GridType], the last of type
    [Collection] a temporal [Grid]. *)
Definition opens_on (root domain collection_grid : element) : Prop :=
  tag root = "Xdmf"
  /\ (exists version,
         Py.dict_get (attrib root) "Version" = Ok version
         /\ Py.split_head "." version = "3")
  /\ children root = [domain]
  /\ tag domain = "Domain"
  /\ last_of_grid_type "Collection" (children domain) None = Ok (Some collection_grid)
  /\ tag collection_grid = "Grid"
  /\ Py.dict_get (attrib collection_grid) "CollectionType" = Ok "Temporal".

(** The reader that [__init__] builds around a mesh grid, or the error for
    a mesh grid that is not a [Grid] element. *)
Definition opened_with (filename : string) (domain collection_grid mesh_grid : element)
    : result reader :=
  if String.eqb (tag mesh_grid) "Grid" then
    Ok (mk_reader filename domain (children collection_grid)
          (length (children collection_grid)) None [] mesh_grid)
  else Raise (ReadError "").

(** Sample documents: a frame, a temporal collection of frames, and a
    domain around the collection and its sibling grids. *)
Definition sample_grid (name ty : string) (inside : list element) : element :=
  Element "Grid" [("Name", name); ("GridType", ty)] None inside.

Definition sample_collection (frames : list element) : element :=
  Element "Grid"
    [("Name", "TimeSeries"); ("GridType", "Collection"); ("CollectionType", "Temporal")]
    None frames.

Definition sample_document (grids : list element) : element :=
  Element "Xdmf" [("Version", "3.0")] None [Element "Domain" [] None grids].

(** The [Time] children of a frame. *)
Definition time_children (frame : element) : list element :=
  List.filter (fun c => String.eqb (tag c) "Time") (children frame).

(** A reader as [__init__] leaves it, around a collection of frames, and
    the same with cells read; a frame; a world with nothing in it. *)
Definition sample_reader (frames : list element) (cells : option cells_dict) : reader :=
  mk_reader "a.xdmf" (Element "Domain" [] None []) frames (length frames) cells []
    (sample_grid "mesh" "Uniform" []).

Definition sample_frame (inside : list element) : element :=
  Element "Grid" [] None
    (Element "{http://www.w3.org/2003/XInclude}include" [] None [] :: inside).

Definition empty_world : world := mk_world [] [] ∅.

(** The dict objects of the caller. *)
Definition heap_of (s : wstate) : gmap nat (list (string * ndarray)) := w_heap (snd s).

(** A writer as [__init__] leaves it. *)
Definition sample_writer (data_format : string) : writer :=
  match writer_init "out.xdmf" true data_format with
  | Ok w => w
  | _ => mk_writer "" "" 0 true (Element "" [] None []) [] [] false None None None
  end.

(** Sample tables of [xdmf/common.py], for the examples. *)
Definition sample_dtypes : list (string * (string * string)) :=
  [("int64", ("Int", "8")); ("float64", ("Float", "8"))].

Definition sample_formats : list (string * string) :=
  [("int64", "%d"); ("float64", "%.18e")].

Definition sample_xdmf_types : list (string * list string) :=
  [("line", ["Polyline"]); ("triangle", ["Triangle"]); ("quad", ["Quadrilateral"])].

Definition sample_xdmf_index : list (string * Z) :=
  [("line", 2); ("triangle", 4); ("quad", 5)].

Definition sample_savetxt (l : list Z) (fmt : string) : string :=
  Py.join " " (map Py.str_of_Z l).

Definition sample_result_type (l : list string) : string := hd "float64" l.

(** Sample arrays: two points in the plane, two lines, one triangle. *)
Definition sample_points : ndarray := mk_array "float64" [3%nat; 2%nat] [0; 0; 1; 0; 0; 1].
Definition sample_lines : ndarray := mk_array "int64" [2%nat; 2%nat] [0; 1; 1; 2].
Definition sample_triangles : ndarray := mk_array "int64" [1%nat; 3%nat] [0; 1; 2].

(** A world whose only object is the dict [d], at address 0. *)
Definition world_with (d : list (string * ndarray)) : world :=
  mk_world [] [] {[ 0%nat := d ]}.

(** A block of cells of one type: a matrix with one row for each cell,
    holding as many entries as its shape announces. *)
Definition cell_block (a : ndarray) : Prop :=
  exists n k, shape a = [n; k] /\ length (flat a) = (n * k)%nat.

(** The number of cells of a block, and the number of nodes of each. *)
Definition num_cells (a : ndarray) : nat := hd 0%nat (shape a).
Definition arity (a : ndarray) : nat := hd 0%nat (tl (shape a)).

(** The sum over all cells of the arity and one; the number of line
    cells; the dimension of the mixed topology: the first and, for the
    arity that every line cell is given, the second. *)
Definition cell_records (d : list (string * ndarray)) : Z :=
  fold_right
    (fun kv acc => Z.of_nat (num_cells (snd kv) * (arity (snd kv) + 1)) + acc) 0 d.

Definition line_cells (d : list (string * ndarray)) : Z :=
  match Py.dict_get d "line" with
  | Ok line => Z.of_nat (num_cells line)
  | _ => 0
  end.

Definition mixed_dimension (d : list (string * ndarray)) : Z :=
  cell_records d + line_cells d.

(** The number of cells of all types. *)
Definition total_cells (d : list (string * ndarray)) : Z :=
  fold_right (fun kv acc => Z.of_nat (num_cells (snd kv)) + acc) 0 d.

(** The types of the entries of the arrays of a mapping, in its order. *)
Definition dtypes_of (d : list (string * ndarray)) : list string :=
  map (fun kv => dtype_name (snd kv)) d.

(** The number that the next child of the node at [p] gets. *)
Definition next_child (p : path) (tree : element) : nat :=
  match node_at p tree with
  | Some e => length (children e)
  | None => 0%nat
  end.

(** The topology element for a mapping of more than one type, around
    what is [inside]. *)
Definition mixed_topology (d : list (string * ndarray)) (inside : list element)
    : element :=
  Element "Topology"
    [("TopologyType", "Mixed"); ("NumberOfElements", Py.str_of_Z (total_cells d))]
    None inside.

(** How many times [close] was called on a handle, if there is such a
    handle. *)
Definition closes_of (w : world) (h : nat) : option nat :=
  h_closes <$> w_handles w !! h.

(** Every type of the mapping has an index in the table. *)
Definition indexed (table : list (string * Z)) (d : list (string * ndarray)) : Prop :=
  Forall (fun kv => exists i, Py.dict_get table (fst kv) = Ok i) d.

End XdmfTerms.

Module MonadTerms.
Import Xdmf.

(** A call that leaves a part [f] of the state as it was, also when it
    raises. *)
Definition unchanged {S X A : Type} (f : S -> X) (m : M S A) : Prop :=
  forall s, f (fst (m s)) = f s.

End MonadTerms.

Module GmshFileTerms.
Import GmshMain GmshMainTerms TextTerms.

(** Whole lines one after the other. *)
Definition lines_text (ls : list string) : string :=
  fold_right (fun l acc => line l +:+ acc) "" ls.

(** A line that a [readline] loop waiting for [marker] passes over: a
    line of well-formed text that is not the marker, once stripped. *)
Definition passed_over (marker l : string) : Prop :=
  no_newline l = true /\ Py.utf8_valid l = true /\ Py.strip (line l) <> marker.

(** The no-break space U+00A0 in UTF-8, which is white space for [str],
    and a word in Latin-1, whose last byte is ill-formed UTF-8. *)
Definition sample_nbsp : string :=
  String (ascii_of_nat 194) (String (ascii_of_nat 160) "").

Definition sample_latin1 : string := "caf" +:+ String (ascii_of_nat 233) "".

(** A version that is looked up under the key ["4"]: the key itself, or a
    version with no entry of its own whose major part is 4. *)
Definition resolves_to_4 (v : string) : Prop :=
  v = "4" \/ (~ In v reader_versions /\ Py.split_head "." v = "4").

(** A name that survives its double quotes on a line read by [shlex]: no
    newline, no double quote, no backslash. *)
Definition quotable (name : string) : bool :=
  all_chars
    (fun c => negb (Ascii.eqb c Py.newline) && negb (Ascii.eqb c Py.dquote)
              && negb (Ascii.eqb c Shlex.backslash))
    name.

(** A character that [shlex] takes as part of a word. *)
Definition word_char (c : ascii) : bool :=
  negb (Shlex.whitespace c) && negb (Shlex.quote c)
  && negb (Ascii.eqb c Shlex.backslash).

(** An integer that fits a C [long] of 64 bits. *)
Definition int64 (z : Z) : Prop := - 2 ^ 63 <= z < 2 ^ 63.

(** An entry [(dimension, id, name)] that is read back as it is written:
    the name is a [str] (well-formed text) that survives its quotes. *)
Definition readable_entry (e : GmshCommon.entry) : Prop :=
  let '(dim, num, name) := e in
  quotable name = true /\ Py.utf8_valid name = true /\ int64 dim /\ int64 num.

(** The dict after the entries are stored one by one, each name with the
    array of its id and dimension. *)
Definition stored (entries : list GmshCommon.entry)
    (field_data : list (string * GmshCommon.pyval))
    : list (string * GmshCommon.pyval) :=
  fold_left
    (fun d (e : GmshCommon.entry) =>
       let '(dim, num, name) := e in
       Py.dict_set d name
         (GmshCommon.PySeq [GmshCommon.PyInt num; GmshCommon.PyInt dim]))
    entries field_data.

(** The binary payload of a field: its records one after the other. *)
Definition binary_payload (rows : list (list GmshCommon.float64)) : string :=
  String.concat "" (imap (GmshCommon.binary_record GmshCommonTerms.as_double) rows).

(** A table with [nc] entries in each row, all of them 64-bit patterns. *)
Definition pattern_rows (nc : nat) (rows : list (list GmshCommon.float64)) : Prop :=
  Forall (fun r => length r = nc /\ Forall GmshCommonTerms.is_pattern r) rows.

(** An entry of a table of codes, turned round. *)
Definition swap (kv : Z * string) : string * Z := (snd kv, fst kv).

End GmshFileTerms.

Module SessionTerms.
Import Xdmf XdmfTerms.

(** A call that keeps a property of the state, however it ends. *)
Definition preserves {S A : Type} (P : S -> Prop) (m : M S A) : Prop :=
  forall s, P s -> P (fst (m s)).

(** A store handle that was closed [n] times. *)
Definition store (n : nat) (path : string) : handle_info := mk_handle path n.

(** The paths in the cache of a reader, in the order in which their
    stores were opened. *)
Definition cached_paths (s : rstate) : list string := map fst (r_hdf5_files (fst s)).

(** The cache of the reader tells the stores opened since the session
    began with the handles [before]: one store per path, none of them
    closed, each under the path it was opened on. *)
Definition cache_tracks (before : list handle_info) (s : rstate) : Prop :=
  w_handles (snd s) = before ++ map (store 0) (cached_paths s)
  /\ map snd (r_hdf5_files (fst s)) = seq (length before) (length (cached_paths s))
  /\ NoDup (cached_paths s).

Section Calls.
Variable xdmf_to_numpy_type : string -> string -> option string.
Variable xdmf_to_meshio_type : list (string * string).
Variable translate_mixed_cells : ndarray -> result cells_dict.
Variable cell_data : Type.
Variable cell_data_from_raw : cells_dict -> list (string * ndarray) -> result cell_data.
Variable numpy_array : list string -> string -> result ndarray.
Variable numpy_fromfile : string -> string -> result ndarray.
Variable float_of_str : string -> result Z.

(** A call of a method of the reader between [__enter__] and [__exit__]. *)
Inductive reader_call : Type :=
| CallReadPointsCells
| CallReadData (k : Z).

Definition run_call (c : reader_call) : M rstate unit :=
  match c with
  | CallReadPointsCells =>
      read_points_cells xdmf_to_numpy_type xdmf_to_meshio_type translate_mixed_cells
        numpy_array numpy_fromfile;;
      mret tt
  | CallReadData k =>
      read_data xdmf_to_numpy_type cell_data cell_data_from_raw numpy_array
        numpy_fromfile float_of_str k;;
      mret tt
  end.

(** The state after a series of calls, each made whatever the outcome of
    the ones before (the caller may catch an error and go on). *)
Fixpoint run_calls (cs : list reader_call) (s : rstate) : rstate :=
  match cs with
  | [] => s
  | c :: cs' => run_calls cs' (fst (run_call c s))
  end.

End Calls.

(** The path of the store that a data item in the format [HDF] names, for
    a reader of the file [filename]. *)
Definition named_store (filename : string) (e : element) : option string :=
  match Py.dict_get (attrib e) "Format", text e with
  | Ok format, Some t =>
      if String.eqb format "HDF" then
        match Py.split ":" (Py.strip t) with
        | [file; _] => Some (OsPath.join (OsPath.dirname filename) file)
        | _ => None
        end
      else None
  | _, _ => None
  end.

(** What is under the children of [e] that have one of the [tags]: the
    data items, when each of these children has one. *)
Definition items_of (tags : list string) (e : element) : list element :=
  flat_map (fun c => if existsb (String.eqb (tag c)) tags then children c else [])
    (children e).

(** The data items that a call of the reader [r] reads, when it returns:
    those of the geometry and the topology of the mesh grid, or those of
    the attributes of the frame. *)
Definition items_read (r : reader) (c : reader_call) : list element :=
  match c with
  | CallReadPointsCells => items_of ["Topology"; "Geometry"] (r_mesh_grid r)
  | CallReadData k =>
      match Py.getitem (r_collection r) k with
      | Ok frame => items_of ["Attribute"] frame
      | _ => []
      end
  end.

(** The reader still reads the document of [r], and its cache still has
    the [paths]. *)
Definition same_document (r : reader) (paths : list string) (s : rstate) : Prop :=
  r_filename (fst s) = r_filename r
  /\ r_mesh_grid (fst s) = r_mesh_grid r
  /\ r_collection (fst s) = r_collection r
  /\ incl paths (cached_paths s).

(** The name of the [k]-th dataset of a session, the store of a writer
    for [filename], the text that points to the [k]-th dataset, and the
    members of a store that holds the arrays [datas], the first of them
    being the [k0]-th of the session. *)
Definition dataset_name (k : nat) : string := "data" +:+ Py.str_of_Z (Z.of_nat k).

Definition store_path (filename : string) : string :=
  OsPath.splitext_root filename +:+ ".h5".

Definition hdf_text (filename : string) (k : nat) : string :=
  OsPath.basename (store_path filename) +:+ ":/" +:+ dataset_name k.

Definition datasets (k0 : nat) (datas : list ndarray) : list (string * h5node) :=
  imap (fun i a => (dataset_name (k0 + i), H5Dataset a)) datas.

(** The name of a file in the working directory: no slash, no colon, no
    white space. *)
Definition plain_path (filename : string) : bool :=
  TextTerms.all_chars (fun c => negb (Ascii.eqb c "/") && negb (Ascii.eqb c ":"))
    filename
  && TextTerms.no_space filename.

(** The data item that the writer makes for a text. *)
Definition data_item (dt dim format prec where_ : string) : element :=
  Element "DataItem"
    [("DataType", dt); ("Dimensions", dim); ("Format", format); ("Precision", prec)]
    (Some where_) [].

(** The mesh grid that a writer in the format [HDF] makes, as its first
    two datasets, of points and of cells of one type, and the document
    around it before any frame is written. *)
Definition written_mesh (name geometry_type dtp precp dimp xdmf_type num_cells
    dta preca dima : string) : element :=
  Element "Grid" [("Name", "mesh"); ("GridType", "Uniform")] None
    [Element "Geometry" [("GeometryType", geometry_type)] None
       [data_item dtp dimp "HDF" precp
          (OsPath.basename name +:+ ":/" +:+ dataset_name 0)];
     Element "Topology"
       [("TopologyType", xdmf_type); ("NumberOfElements", num_cells)] None
       [data_item dta dima "HDF" preca
          (OsPath.basename name +:+ ":/" +:+ dataset_name 1)]].

Definition written_document (mesh : element) : element :=
  Element "Xdmf" [("Version", "3.0")] None
    [Element "Domain" [] None
       [Element "Grid"
          [("Name", "TimeSeries_meshio"); ("GridType", "Collection");
           ("CollectionType", "Temporal")] None [];
        mesh]].

Section Emit.
Variable dtype_to_format_string : list (string * string).
Variable savetxt : list Z -> string -> string.

(** Calls of [numpy_to_xml_string] one after the other, up to the first
    that fails. *)
Fixpoint emit_all (datas : list ndarray) : M wstate (list string) :=
  match datas with
  | [] => mret []
  | d :: ds =>
      t ← numpy_to_xml_string dtype_to_format_string savetxt d;
      ts ← emit_all ds;
      mret (t :: ts)
  end.

End Emit.

(** The writer is in a session for the format [HDF] in which it has made
    the datasets [made]: its store [name] is open and holds them, and its
    counter has counted them. *)
Definition hdf_session (name : string) (made : list ndarray) (s : wstate) : Prop :=
  data_format (fst s) = "HDF"
  /\ data_counter (fst s) = Z.of_nat (length made)
  /\ h5_filename (fst s) = Some name
  /\ hdf_at (snd s) name = Some (H5Group (datasets 0 made))
  /\ exists f closes,
       h5_file (fst s) = Some f
       /\ w_handles (snd s) !! f = Some (mk_handle name closes).

(** A writer in the state [s] can emit an array of the type [dtype]: in
    the format [XML] the table has a format string for the type, and in
    the format [HDF] the writer is in a session. *)
Definition can_emit (dtype_to_format_string : list (string * string))
    (dtype : string) (s : wstate) : Prop :=
  (data_format (fst s) = "XML"
   /\ exists fmt, Py.dict_get dtype_to_format_string dtype = Ok fmt)
  \/ data_format (fst s) = "Binary"
  \/ (data_format (fst s) = "HDF" /\ exists name made, hdf_session name made s).

(** Where the entries of the array [a] are, once a writer that was in the
    state [s] has emitted them for a data item with the text [t] and is in
    the state [s']: in the text itself, printed by [numpy.savetxt], in the
    format [XML]; in the raw file that the text names, numbered by the
    counter, in the format [Binary]; in the format [HDF], in the dataset
    of the store that the text points to, the next of the session. *)
Definition emitted (dtype_to_format_string : list (string * string))
    (savetxt : list Z -> string -> string) (a : ndarray) (s : wstate)
    (t : string) (s' : wstate) : Prop :=
  (data_format (fst s) = "XML"
   /\ w_files (snd s') = w_files (snd s)
   /\ exists fmt,
        Py.dict_get dtype_to_format_string (dtype_name a) = Ok fmt
        /\ t = savetxt (flat a) fmt)
  \/ (data_format (fst s) = "Binary"
      /\ t = OsPath.splitext_root (filename (fst s))
               +:+ Py.str_of_Z (data_counter (fst s)) +:+ ".bin"
      /\ Py.dict_get (w_files (snd s')) t = Ok (BinFile a))
  \/ (data_format (fst s) = "HDF"
      /\ exists name made,
           hdf_session name made s
           /\ t = OsPath.basename name +:+ ":/" +:+ dataset_name (length made)
           /\ hdf_session name (made ++ [a]) s').

(** The collection grid of a writer as [__init__] leaves it. *)
Definition sample_collection_node : element :=
  Element "Grid"
    [("Name", "TimeSeries_meshio"); ("GridType", "Collection");
     ("CollectionType", "Temporal")] None [].

(** A data item that points into a store, a mesh grid with two of them in
    the same store, and a world that holds the store. *)
Definition sample_hdf_item (where_ : string) : element :=
  Element "DataItem" [("Dimensions", "1"); ("Format", "HDF")] (Some where_) [].

Definition sample_hdf_mesh : element :=
  sample_grid "mesh" "Uniform"
    [Element "Geometry" [] None [sample_hdf_item "a.h5:/x"];
     Element "Topology" [("TopologyType", "Triangle")] None
       [sample_hdf_item "a.h5:/y"]].

Definition sample_store_world : world :=
  mk_world
    [("a.h5",
      HdfFile (H5Group [("x", H5Dataset sample_points); ("y", H5Dataset sample_triangles)]))]
    [] ∅.

End SessionTerms.

(** * Properties *)

(** ** Results and dicts *)

Lemma bind_ok_inv {A B : Type} (r : result A) (k : A -> result B) (b : B) :
  r ≫= k = Ok b -> exists a, r = Ok a /\ k a = Ok b.
Proof. destruct r; simpl; intros H; try discriminate. eauto. Qed.

Lemma dict_get_not_in {V : Type} (d : list (string * V)) (k : string) :
  ~ In k (Py.dict_keys d) -> Py.dict_get d k = Raise (KeyError k).
Proof.
  induction d as [|[k' v] d IH]; simpl; intros Hn; [reflexivity|].
  destruct (String.eqb_spec k' k) as [->|Hne].
  - exfalso. apply Hn. now left.
  - apply IH. intros Hin. apply Hn. now right.
Qed.

Lemma dict_get_in {V : Type} (d : list (string * V)) (k : string) :
  In k (Py.dict_keys d) -> exists v, Py.dict_get d k = Ok v.
Proof.
  induction d as [|[k' v] d IH]; simpl; intros Hin; [contradiction|].
  destruct (String.eqb_spec k' k) as [->|Hne]; [eauto|].
  destruct Hin as [Heq|Hin]; [contradiction|]. auto.
Qed.

(** ** Version dispatch *)

Module GmshMainSpec.
Import GmshMain GmshMainTerms.

Lemma sorted_reader_keys :
  Py.sorted String.leb (Py.dict_keys _readers) = reader_versions.
Proof. reflexivity. Qed.

Lemma need_format_message_readers (v : string) :
  need_format_message _readers v
  = "Need mesh format in ['2', '4', '4.0', '4.1'] (got " +:+ v +:+ ")".
Proof. reflexivity. Qed.

(** C3.  The reader for a version is found by the version string itself
    when it is a key of the table, else by the text before its first dot
    when that is a key; ["4"] and ["4.0"] give the same reader; a version
    that matches neither way raises a [ValueError] whose message holds the
    sorted list of the known versions and the version asked for. *)
Theorem version_dispatch (v : string) :
  (In v reader_versions -> select _readers v = Py.dict_get _readers v)
  /\ (~ In v reader_versions -> In (Py.split_head "." v) reader_versions ->
      select _readers v = Py.dict_get _readers (Py.split_head "." v))
  /\ (~ In v reader_versions -> ~ In (Py.split_head "." v) reader_versions ->
      select _readers v
      = Raise (ValueError
          ("Need mesh format in ['2', '4', '4.0', '4.1'] (got " +:+ v +:+ ")")))
  /\ select _readers "4" = Ok _gmsh40
  /\ select _readers "4.0" = Ok _gmsh40
  /\ select _readers "9.9"
     = Raise (ValueError "Need mesh format in ['2', '4', '4.0', '4.1'] (got 9.9)").
Proof.
  repeat split; try reflexivity.
  - intros Hin. unfold select.
    destruct (dict_get_in _readers v Hin) as [m ->]. reflexivity.
  - intros Hn Hin. unfold select.
    rewrite (dict_get_not_in _readers v Hn).
    destruct (dict_get_in _readers _ Hin) as [m ->]. reflexivity.
  - intros Hn Hn'. unfold select.
    rewrite (dict_get_not_in _readers v Hn), (dict_get_not_in _readers _ Hn').
    now rewrite need_format_message_readers.
Qed.

Lemma version_dispatch_witness :
  select _readers "4.1" = Ok _gmsh41
  /\ select _readers "2.2" = Ok _gmsh22
  /\ select _readers "9.9"
     = Raise (ValueError "Need mesh format in ['2', '4', '4.0', '4.1'] (got 9.9)").
Proof.
  split; [|split].
  - rewrite (proj1 (version_dispatch "4.1")); [reflexivity|].
    simpl; tauto.
  - rewrite (proj1 (proj2 (version_dispatch "2.2"))); [reflexivity| |].
    + simpl. intros [H|[H|[H|[H|[]]]]]; discriminate H.
    + simpl; tauto.
  - rewrite (proj1 (proj2 (proj2 (version_dispatch "9.9")))); [reflexivity| |].
    + simpl. intros [H|[H|[H|[H|[]]]]]; discriminate H.
    + simpl. intros [H|[H|[H|[H|[]]]]]; discriminate H.
Defined.

End GmshMainSpec.

(** ** Strings and sorting *)

Module PyFacts.

Lemma app_assoc (a b c : string) : (a +:+ b) +:+ c = a +:+ (b +:+ c).
Proof. induction a as [|x a IH]; simpl; [reflexivity|now rewrite IH]. Qed.

Lemma app_nil_r (a : string) : a +:+ "" = a.
Proof. induction a as [|x a IH]; simpl; [reflexivity|now rewrite IH]. Qed.

Lemma length_app (a b : string) :
  String.length (a +:+ b) = (String.length a + String.length b)%nat.
Proof. induction a as [|x a IH]; simpl; [reflexivity|now rewrite IH]. Qed.

Lemma write_fold {A : Type} (f : A -> string) (l : list A) (fh : string) :
  fold_left (fun fh e => fh +:+ f e) l fh
  = fh +:+ String.concat "" (map f l).
Proof.
  revert fh. induction l as [|x l IH]; intros fh; simpl.
  - now rewrite app_nil_r.
  - rewrite IH. destruct l as [|y l]; simpl.
    + now rewrite !app_nil_r.
    + now rewrite app_assoc.
Qed.

Lemma last_cons_some {A : Type} (x : A) (l : list A) : exists y, last (x :: l) = Some y.
Proof.
  revert x. induction l as [|z l IH]; intros x; [now exists x|].
  destruct (IH z) as [y Hy]. exists y. exact Hy.
Qed.

Section SortFacts.
Context {A : Type} (leb : A -> A -> bool).
Hypothesis leb_total : forall a b, leb a b = true \/ leb b a = true.

Lemma insert_sorted_perm (x : A) (l : list A) :
  Permutation (Py.insert_sorted leb x l) (x :: l).
Proof.
  induction l as [|y l IH]; simpl; [reflexivity|].
  destruct (leb x y); [reflexivity|].
  rewrite IH. apply perm_swap.
Qed.

Lemma sorted_perm (l : list A) : Permutation (Py.sorted leb l) l.
Proof.
  induction l as [|x l IH]; simpl; [reflexivity|].
  rewrite insert_sorted_perm. now constructor.
Qed.

Lemma insert_sorted_hd (x y : A) (l : list A) :
  leb y x = true -> HdRel (fun a b => leb a b = true) y l ->
  HdRel (fun a b => leb a b = true) y (Py.insert_sorted leb x l).
Proof.
  intros Hyx Hl. destruct l as [|z l]; simpl.
  - now constructor.
  - destruct (leb x z); constructor; [assumption|].
    now inversion Hl.
Qed.

Lemma insert_sorted_sorted (x : A) (l : list A) :
  Sorted (fun a b => leb a b = true) l ->
  Sorted (fun a b => leb a b = true) (Py.insert_sorted leb x l).
Proof.
  induction 1 as [|y l Hs IH Hhd]; simpl.
  - repeat constructor.
  - destruct (leb x y) eqn:E.
    + constructor; [now constructor|now constructor].
    + constructor; [assumption|].
      apply insert_sorted_hd; [|assumption].
      destruct (leb_total x y) as [H|H]; congruence.
Qed.

Lemma sorted_sorted (l : list A) :
  Sorted (fun a b => leb a b = true) (Py.sorted leb l).
Proof.
  induction l as [|x l IH]; simpl; [constructor|].
  now apply insert_sorted_sorted.
Qed.

End SortFacts.

End PyFacts.

(** ** Physical names *)

Module PhysicalNamesSpec.
Import GmshCommon GmshCommonTerms.

Lemma entry_leb_total (a b : entry) : entry_leb a b = true \/ entry_leb b a = true.
Proof.
  destruct a as [[d1 n1] s1], b as [[d2 n2] s2]; simpl.
  destruct (Z.ltb_spec d1 d2); [now left|].
  destruct (Z.ltb_spec d2 d1); [now right|].
  destruct (Z.ltb_spec n1 n2); [now left|].
  destruct (Z.ltb_spec n2 n1); [now right|].
  apply String.leb_total.
Qed.

Lemma entry_leb_le (a b : entry) : entry_leb a b = true -> entry_le a b.
Proof.
  destruct a as [[d1 n1] s1], b as [[d2 n2] s2]; simpl.
  destruct (Z.ltb_spec d1 d2); [now left|].
  destruct (Z.ltb_spec d2 d1); [discriminate|].
  destruct (Z.ltb_spec n1 n2); [intros _; right; split; [lia|now left]|].
  destruct (Z.ltb_spec n2 n1); [discriminate|].
  intros Hname. right. split; [lia|]. right. split; [lia|exact Hname].
Qed.

Lemma Sorted_weaken {A : Type} (R R' : A -> A -> Prop) (l : list A) :
  (forall a b, R a b -> R' a b) -> Sorted R l -> Sorted R' l.
Proof.
  intros HR. induction 1 as [|x l Hs IH Hhd]; constructor; [assumption|].
  destruct Hhd; constructor; auto.
Qed.

Lemma collect_processable (field_data : list (string * pyval))
    (entries : list entry) (log : list string) :
  Forall (fun kv => processable (snd kv)) field_data ->
  collect field_data entries log
  = (log ++ repeat warning_text (skipped field_data),
     Ok (entries ++ coercible_entries field_data)).
Proof.
  intros H. revert entries log.
  induction H as [|[name v] rest Hv Hrest IH]; intros entries log.
  - simpl. now rewrite !app_nil_r.
  - unfold skipped, coercible_entries in *. simpl in *.
    unfold processable in Hv. simpl in Hv.
    destruct (coerce v) as [[num dim]|e|]; try contradiction.
    + rewrite IH. now rewrite <- app_assoc.
    + destruct e; try contradiction; rewrite IH; simpl;
        now rewrite <- app_assoc.
Qed.

Lemma format_entry_unfold (e : entry) :
  format_entry e
  = (let '(dim, num, name) := e in
     Py.str_of_Z dim +:+ " " +:+ Py.str_of_Z num +:+ " "
     +:+ String Py.dquote name +:+ String Py.dquote Py.nl).
Proof. destruct e as [[d n] s]. reflexivity. Qed.

(** C2, as amended.  When every entry of [field_data] either unpacks into
    two integers or fails with a [ValueError] or a [TypeError], the writer
    succeeds; the failing entries are skipped with one warning each, and
    the others are written sorted ascending by dimension, then by id, then
    by name, one line [dimension id "name"] each, between the section
    markers and after their count; nothing is written when no entry is
    left. *)
Theorem write_physical_names_sorted (fh : string) (log : list string)
    (field_data : list (string * pyval)) :
  Forall (fun kv => processable (snd kv)) field_data ->
  exists entries,
    Permutation entries (coercible_entries field_data)
    /\ Sorted entry_le entries
    /\ _write_physical_names fh log field_data
       = (fh +:+ section_text entries,
          log ++ repeat warning_text (skipped field_data),
          Ok tt).
Proof.
  intros H. exists (Py.sorted entry_leb (coercible_entries field_data)).
  split; [apply PyFacts.sorted_perm|].
  split.
  - apply Sorted_weaken with (R := fun a b => entry_leb a b = true).
    + apply entry_leb_le.
    + apply PyFacts.sorted_sorted, entry_leb_total.
  - unfold _write_physical_names.
    rewrite (collect_processable _ _ _ H). cbv beta iota zeta.
    rewrite List.app_nil_l.
    destruct (Py.sorted entry_leb (coercible_entries field_data)) as [|e es] eqn:E.
    + simpl. now rewrite PyFacts.app_nil_r.
    + unfold section_text.
      rewrite PyFacts.write_fold, !PyFacts.app_assoc.
      rewrite (map_ext format_entry _ format_entry_unfold).
      reflexivity.
Qed.

Lemma write_physical_names_sorted_witness :
  exists entries,
    Permutation entries (coercible_entries sample_field_data)
    /\ Sorted entry_le entries
    /\ _write_physical_names "" [] sample_field_data
       = ("" +:+ section_text entries,
          [] ++ repeat warning_text (skipped sample_field_data),
          Ok tt).
Proof.
  apply (write_physical_names_sorted "" [] sample_field_data).
  repeat (constructor; [vm_compute; exact I|]). constructor.
Defined.

(** C2 as stated fails: the entry of id 7 and dimension 2 is written as the
    line [2 7 "a"], dimension first, and not as [7 2 "a"]. *)
Lemma physical_names_line_counterexample :
  _write_physical_names "" [] [("a", PySeq [PyInt 7; PyInt 2])]
  = ("$PhysicalNames" +:+ Py.nl +:+ "1" +:+ Py.nl
     +:+ "2 7 " +:+ String Py.dquote "a" +:+ String Py.dquote Py.nl
     +:+ "$EndPhysicalNames" +:+ Py.nl,
     [], Ok tt)
  /\ fst (fst (_write_physical_names "" [] [("a", PySeq [PyInt 7; PyInt 2])]))
     <> "$PhysicalNames" +:+ Py.nl +:+ "1" +:+ Py.nl
        +:+ "7 2 " +:+ String Py.dquote "a" +:+ String Py.dquote Py.nl
        +:+ "$EndPhysicalNames" +:+ Py.nl.
Proof.
  split; [reflexivity|].
  vm_compute. intros H. discriminate H.
Qed.

End PhysicalNamesSpec.

(** ** The data section: what is written *)

Module WriteDataSpec.
Import GmshCommon GmshCommonTerms.






End WriteDataSpec.

(** ** The data section: the index check *)

Module IndexCheckSpec.
Import GmshCommon GmshCommonTerms.

Lemma forallb_combine_eq (l1 l2 : list Z) :
  length l1 = length l2 ->
  forallb (fun p => fst p =? snd p) (combine l1 l2) = true <-> l1 = l2.
Proof.
  revert l2. induction l1 as [|a l1 IH]; intros [|b l2] Hlen; simpl in *;
    try discriminate; [tauto|].
  injection Hlen as Hlen.
  rewrite andb_true_iff, Z.eqb_eq, (IH l2 Hlen).
  split; [intros [-> ->]; reflexivity|intros [= -> ->]; auto].
Qed.

Lemma index_check_full (idx : list Z) (n : nat) :
  length idx = n ->
  index_check idx n
  = Ok (if decide (idx = map Z.of_nat (seq 1 n)) then true else false).
Proof.
  intros Hlen. unfold index_check.
  rewrite (proj2 (Nat.eqb_eq _ _) Hlen). f_equal.
  assert (Hl : length idx = length (map Z.of_nat (seq 1 n))).
  { now rewrite length_map, length_seq. }
  pose proof (forallb_combine_eq idx _ Hl) as Hiff.
  destruct (decide (idx = map Z.of_nat (seq 1 n))) as [Heq|Hne].
  - now apply Hiff.
  - destruct (forallb _ _); [|reflexivity].
    exfalso. apply Hne. now apply Hiff.
Qed.

Section IndexCheck.
Variable scan_float : string -> option (float64 * string).

Lemma read_data_after_tags (f tag : string) (data_dict : list (string * ndarray))
    (data_size : Z) (is_ascii : bool)
    (string_tags : list string) (integer_tags : list Z) (f1 : string)
    (num_components num_items : Z) :
  read_tags f = Ok (string_tags, integer_tags, f1) ->
  Py.index integer_tags 1 = Ok num_components ->
  Py.index integer_tags 2 = Ok num_items ->
  0 <= num_components -> 0 <= num_items ->
  _read_data scan_float f tag data_dict data_size is_ascii
  = (let nc := Z.to_nat num_components in
     let n := Z.to_nat num_items in
     '(rows, f) ←
       (if is_ascii then
          let (flat, f) := fromfile_text scan_float (n * (1 + nc)) f1 in
          table ← reshape n (1 + nc) flat;
          Ok (map (drop 1) table, f)
        else
          let (recs, f) := fromfile_records n nc f1 in
          ok ← index_check (map fst recs) n;
          if negb ok then Raise (ReadError "")
          else Ok (map snd recs, f));
     store_field f tag string_tags data_dict nc rows).
Proof.
  intros Ht H1 H2 Hc Hn. unfold _read_data.
  rewrite Ht. simpl. rewrite H1. simpl. rewrite H2. simpl.
  destruct (Z.ltb_spec num_components 0); [lia|].
  destruct (Z.ltb_spec num_items 0); [lia|].
  reflexivity.
Qed.

Lemma no_read_error_bind {A B : Type} (r : result A) (k : A -> result B) :
  no_read_error r -> (forall a, no_read_error (k a)) -> no_read_error (r ≫= k).
Proof.
  intros Hr Hk msg. destruct r as [a|e|]; simpl; [apply Hk| |discriminate].
  intros H. injection H as ->. exact (Hr msg eq_refl).
Qed.

Lemma int_of_str_no_read_error (s : string) : no_read_error (Py.int_of_str s).
Proof.
  intros msg. unfold Py.int_of_str.
  destruct (Py.int_text s) as [t|]; [|discriminate].
  destruct (Py.c_strip t) as [|c u].
  - destruct (Py.unsigned_literal ""); discriminate.
  - destruct c as [[] [] [] [] [] [] [] []];
      match goal with
      | |- context [Py.unsigned_literal ?u] => destruct (Py.unsigned_literal u)
      end; discriminate.
Qed.

Lemma index_no_read_error {A : Type} (l : list A) (i : nat) :
  no_read_error (Py.index l i).
Proof. intros msg. unfold Py.index. destruct (nth_error l i); discriminate. Qed.

Lemma readline_text_no_read_error (f : string) : no_read_error (Py.readline_text f).
Proof.
  intros msg. unfold Py.readline_text, Py.decode.
  destruct (Py.readline f) as [b f']. destruct (Py.utf8_valid b); discriminate.
Qed.

Lemma read_ints_no_read_error (n : nat) (f : string) : no_read_error (read_ints n f).
Proof.
  revert f. induction n as [|n IH]; intros f; cbn [read_ints]; [discriminate|].
  apply no_read_error_bind; [apply readline_text_no_read_error|]. intros [l f'].
  apply no_read_error_bind; [apply int_of_str_no_read_error|]. intros v.
  apply no_read_error_bind; [apply IH|]. intros [vs f'']. discriminate.
Qed.

Lemma read_texts_no_read_error (n : nat) (f : string) : no_read_error (read_texts n f).
Proof.
  revert f. induction n as [|n IH]; intros f; cbn [read_texts]; [discriminate|].
  apply no_read_error_bind; [apply readline_text_no_read_error|]. intros [l f'].
  apply no_read_error_bind; [apply IH|]. intros [vs f'']. discriminate.
Qed.

Lemma read_tags_no_read_error (f : string) : no_read_error (read_tags f).
Proof.
  unfold read_tags.
  apply no_read_error_bind; [apply readline_text_no_read_error|]. intros [l f1].
  apply no_read_error_bind; [apply int_of_str_no_read_error|]. intros n1.
  apply no_read_error_bind; [apply read_texts_no_read_error|]. intros [ls f2].
  apply no_read_error_bind; [apply readline_text_no_read_error|]. intros [l2 f3].
  apply no_read_error_bind; [apply int_of_str_no_read_error|]. intros n2.
  destruct (read_lines _ f3) as [ls' f4].
  apply no_read_error_bind; [apply readline_text_no_read_error|]. intros [l3 f5].
  apply no_read_error_bind; [apply int_of_str_no_read_error|]. intros n3.
  apply no_read_error_bind; [apply read_ints_no_read_error|]. intros [vs f6].
  discriminate.
Qed.

Lemma skip_to_line_no_read_error (marker f : string) :
  no_read_error (Py.skip_to_line marker f).
Proof.
  unfold Py.skip_to_line. generalize (S (String.length f)) as fuel.
  intros fuel. revert f. induction fuel as [|fuel IH]; intros f;
    cbn [Py.skip_to_line_fuel].
  - discriminate.
  - apply no_read_error_bind; [apply readline_text_no_read_error|]. intros [l f'].
    destruct (String.eqb _ _); [discriminate|]. apply IH.
Qed.

Lemma store_field_no_read_error (f tag : string) (st : list string)
    (dd : list (string * ndarray)) (nc : nat) (rows : list (list float64)) :
  no_read_error (store_field f tag st dd nc rows).
Proof.
  unfold store_field.
  apply no_read_error_bind; [apply skip_to_line_no_read_error|]. intros f'.
  apply no_read_error_bind; [apply index_no_read_error|]. intros key.
  discriminate.
Qed.

Lemma read_data_ascii_no_read_error (f tag : string)
    (dd : list (string * ndarray)) (ds : Z) :
  no_read_error (_read_data scan_float f tag dd ds true).
Proof.
  unfold _read_data.
  apply no_read_error_bind; [apply read_tags_no_read_error|]. intros [[st it] f1].
  apply no_read_error_bind; [apply index_no_read_error|]. intros nc.
  apply no_read_error_bind; [apply index_no_read_error|]. intros n.
  destruct (_ || _); [discriminate|].
  apply no_read_error_bind.
  - destruct (fromfile_text _ _ _) as [flat f2].
    apply no_read_error_bind.
    + unfold reshape. destruct (_ =? _)%nat; discriminate.
    + intros table. discriminate.
  - intros [rows f2]. apply store_field_no_read_error.
Qed.

(** C4.  In a binary section of [n] whole records the reader compares the
    decoded indices with [1..n]: when they differ (a gap, a repeat, another
    order) it raises [ReadError], and when they agree it goes on to store
    the values.  An ASCII section is never refused with [ReadError]: its
    first column is cut off without being looked at, whatever it holds. *)
Theorem read_data_index_check (f tag : string) (dd : list (string * ndarray))
    (ds : Z) (st : list string) (it : list Z) (f1 : string) (nc n : Z) :
  read_tags f = Ok (st, it, f1) ->
  Py.index it 1 = Ok nc ->
  Py.index it 2 = Ok n ->
  0 <= nc -> 0 <= n ->
  (forall recs f2,
      fromfile_records (Z.to_nat n) (Z.to_nat nc) f1 = (recs, f2) ->
      length recs = Z.to_nat n ->
      (map fst recs <> map Z.of_nat (seq 1 (Z.to_nat n)) ->
       _read_data scan_float f tag dd ds false = Raise (ReadError ""))
      /\ (map fst recs = map Z.of_nat (seq 1 (Z.to_nat n)) ->
          _read_data scan_float f tag dd ds false
          = store_field f2 tag st dd (Z.to_nat nc) (map snd recs)))
  /\ (forall flat f2,
         fromfile_text scan_float (Z.to_nat n * (1 + Z.to_nat nc)) f1 = (flat, f2) ->
         length flat = (Z.to_nat n * (1 + Z.to_nat nc))%nat ->
         _read_data scan_float f tag dd ds true
         = store_field f2 tag st dd (Z.to_nat nc)
             (map (drop 1) (rows_of (Z.to_nat n) (1 + Z.to_nat nc) flat)))
  /\ (forall f' tag' dd' ds' msg,
         _read_data scan_float f' tag' dd' ds' true <> Raise (ReadError msg)).
Proof.
  intros Ht H1 H2 Hc Hn. split; [|split].
  - intros recs f2 Hrecs Hlen.
    assert (Hidx : length (map fst recs) = Z.to_nat n) by now rewrite length_map.
    split; intros Hseq;
      rewrite (read_data_after_tags f tag dd ds false st it f1 nc n Ht H1 H2 Hc Hn);
      cbv zeta; rewrite Hrecs, (index_check_full _ _ Hidx);
      destruct (decide _) as [Heq|Hne]; try contradiction; reflexivity.
  - intros flat f2 Hflat Hlen.
    rewrite (read_data_after_tags f tag dd ds true st it f1 nc n Ht H1 H2 Hc Hn).
    cbv zeta. rewrite Hflat. unfold reshape.
    rewrite (proj2 (Nat.eqb_eq _ _) Hlen). reflexivity.
  - intros f' tag' dd' ds' msg. apply read_data_ascii_no_read_error.
Qed.

End IndexCheck.

Lemma read_data_index_check_witness :
  _read_data sample_scan (sample_binary 1 3) "NodeData" [] 8 false
  = Raise (ReadError "")
  /\ _read_data sample_scan (sample_binary 1 2) "NodeData" [] 8 false
     = Ok ("", [("p", Arr1 [5; 7])])
  /\ _read_data sample_scan sample_ascii "NodeData" [] 8 true
     = Ok ("", [("p", Arr1 [5; 7])]).
Proof.
  split; [|split].
  - refine (proj1 (proj1 (read_data_index_check sample_scan (sample_binary 1 3)
                            "NodeData" [] 8 ["p"] [0; 1; 2] _ 1 2
                            eq_refl eq_refl eq_refl _ _) _ _ eq_refl eq_refl) _);
      [lia|lia|].
    vm_compute. intros H. discriminate H.
  - rewrite (proj2 (proj1 (read_data_index_check sample_scan (sample_binary 1 2)
                             "NodeData" [] 8 ["p"] [0; 1; 2] _ 1 2
                             eq_refl eq_refl eq_refl ltac:(lia) ltac:(lia))
                      _ _ eq_refl eq_refl) eq_refl).
    reflexivity.
  - rewrite (proj1 (proj2 (read_data_index_check sample_scan sample_ascii
                             "NodeData" [] 8 ["p"] [0; 1; 2] _ 1 2
                             eq_refl eq_refl eq_refl ltac:(lia) ltac:(lia)))
               _ _ eq_refl eq_refl).
    reflexivity.
Defined.

End IndexCheckSpec.

(** ** Lines, integers and bytes: what is written reads back *)

Module TextFacts.
Import TextTerms.

Lemma all_chars_app (P : ascii -> bool) (a b : string) :
  all_chars P (a +:+ b) = all_chars P a && all_chars P b.
Proof.
  induction a as [|c a IH]; simpl; [reflexivity|].
  now rewrite IH, andb_assoc.
Qed.

Lemma all_chars_impl (P Q : ascii -> bool) (s : string) :
  (forall c, P c = true -> Q c = true) ->
  all_chars P s = true -> all_chars Q s = true.
Proof.
  intros H. induction s as [|c s IH]; simpl; [reflexivity|].
  rewrite !andb_true_iff. intros [Hc Hs]. auto.
Qed.

Lemma readline_line (l rest : string) :
  no_newline l = true ->
  Py.readline (l +:+ String Py.newline rest) = (l +:+ Py.nl, rest).
Proof.
  unfold no_newline. induction l as [|c l IH]; simpl.
  - intros _. reflexivity.
  - rewrite andb_true_iff, negb_true_iff. intros [Hc Hl].
    unfold Py.newline in *. rewrite Hc, (IH Hl). reflexivity.
Qed.

(** *** Bytes of ASCII characters and of white space *)

Lemma ascii_byte_is (n : nat) (c : ascii) :
  (128 <= n)%nat -> Py.is_ascii c = true -> Py.byte_is n c = false.
Proof.
  unfold Py.is_ascii, Py.byte_is. intros Hn Hc.
  apply Nat.ltb_lt in Hc. apply Nat.eqb_neq. lia.
Qed.

Lemma ascii_between (lo hi : nat) (c : ascii) :
  (128 <= lo)%nat -> Py.is_ascii c = true -> Py.between lo hi c = false.
Proof.
  unfold Py.is_ascii, Py.between. intros Hn Hc.
  apply Nat.ltb_lt in Hc. apply andb_false_iff. left. apply Nat.leb_gt. lia.
Qed.

Ltac ascii_bytes c H :=
  unfold Py.space2, Py.space3, Py.seq2, Py.seq3, Py.seq4, Py.is_continuation;
  repeat match goal with
    | |- context [Py.byte_is ?n c] => rewrite (ascii_byte_is n c) by (lia || exact H)
    | |- context [Py.between ?lo ?hi c] =>
        rewrite (ascii_between lo hi c) by (lia || exact H)
    end;
  rewrite ?andb_false_r, ?orb_false_r; cbn [andb orb];
  rewrite ?andb_false_r, ?orb_false_r; try reflexivity.

Lemma space2_ascii_l (c1 c2 : ascii) : Py.is_ascii c1 = true -> Py.space2 c1 c2 = false.
Proof. intros H. ascii_bytes c1 H. Qed.

Lemma space2_ascii_r (c1 c2 : ascii) : Py.is_ascii c2 = true -> Py.space2 c1 c2 = false.
Proof. intros H. ascii_bytes c2 H. Qed.

Lemma space3_ascii_1 (c1 c2 c3 : ascii) :
  Py.is_ascii c1 = true -> Py.space3 c1 c2 c3 = false.
Proof. intros H. ascii_bytes c1 H. Qed.

Lemma space3_ascii_2 (c1 c2 c3 : ascii) :
  Py.is_ascii c2 = true -> Py.space3 c1 c2 c3 = false.
Proof. intros H. ascii_bytes c2 H. Qed.

Lemma space3_ascii_3 (c1 c2 c3 : ascii) :
  Py.is_ascii c3 = true -> Py.space3 c1 c2 c3 = false.
Proof. intros H. ascii_bytes c3 H. Qed.

Lemma isspace_ascii (c : ascii) : Py.isspace c = true -> Py.is_ascii c = true.
Proof.
  unfold Py.isspace, Py.is_ascii. cbv zeta.
  rewrite orb_true_iff, !andb_true_iff, !Nat.leb_le, Nat.ltb_lt. lia.
Qed.


(** *** [strip] *)

Lemma lstrip_keeps (s : string) : space_width s = 0%nat -> Py.lstrip s = s.
Proof.
  destruct s as [|c1 [|c2 [|c3 s3]]]; cbn [space_width Py.lstrip]; try reflexivity.
  - destruct (Py.isspace c1); [discriminate|reflexivity].
  - destruct (Py.isspace c1); [discriminate|].
    destruct (Py.space2 c1 c2); [discriminate|reflexivity].
  - destruct (Py.isspace c1); [discriminate|].
    destruct (Py.space2 c1 c2); [discriminate|].
    destruct (Py.space3 c1 c2 c3); [discriminate|reflexivity].
Qed.

Lemma space_width_ascii (c : ascii) (s : string) :
  Py.is_ascii c = true -> Py.isspace c = false -> space_width (String c s) = 0%nat.
Proof.
  intros Hc Hs. destruct s as [|c2 [|c3 s3]]; cbn [space_width]; rewrite Hs;
    rewrite ?(space2_ascii_l c c2 Hc), ?(space3_ascii_1 c c2 c3 Hc); reflexivity.
Qed.

Lemma space_width_app_ascii (u : string) (c : ascii) (v : string) :
  u <> "" -> space_width u = 0%nat -> Py.is_ascii c = true ->
  space_width (u +:+ String c v) = 0%nat.
Proof.
  intros Hne Hu Hc. destruct u as [|c1 [|c2 [|c3 u3]]]; [congruence| | |].
  - cbn [String.append space_width] in *.
    destruct (Py.isspace c1); [discriminate|].
    rewrite (space2_ascii_r c1 c Hc).
    destruct v as [|c3 v]; [reflexivity|].
    now rewrite (space3_ascii_2 c1 c c3 Hc).
  - cbn [String.append space_width] in *.
    destruct (Py.isspace c1); [discriminate|].
    destruct (Py.space2 c1 c2); [discriminate|].
    now rewrite (space3_ascii_3 c1 c2 c Hc).
  - cbn [String.append space_width] in *. exact Hu.
Qed.

Lemma space_width_prefix (u v : string) :
  space_width (u +:+ v) = 0%nat -> space_width u = 0%nat.
Proof.
  destruct u as [|c1 [|c2 [|c3 u3]]]; cbn [String.append space_width];
    [reflexivity| | |].
  - destruct (Py.isspace c1); [|reflexivity].
    destruct v as [|c2 [|c3 v]]; cbn [space_width]; discriminate.
  - destruct (Py.isspace c1); [discriminate|].
    destruct (Py.space2 c1 c2); [discriminate|reflexivity].
  - auto.
Qed.

Lemma blank_false (s : string) :
  s <> "" -> space_width s = 0%nat -> Py.blank s = false.
Proof.
  intros Hne Hs. unfold Py.blank. rewrite (lstrip_keeps s Hs).
  destruct s; [congruence|reflexivity].
Qed.

(** A text with an ASCII character that is not white space is not blank. *)
Lemma lstrip_plain (q : ascii) (v : string) :
  Py.is_ascii q = true -> Py.isspace q = false ->
  forall n u, (String.length u <= n)%nat -> Py.lstrip (u +:+ String q v) <> "".
Proof.
  intros Hq Hs.
  assert (Hbase : Py.lstrip (String q v) <> "").
  { rewrite lstrip_keeps by now apply space_width_ascii. discriminate. }
  intros n. induction n as [|n IH]; intros u Hlen.
  - destruct u; [exact Hbase|simpl in Hlen; lia].
  - destruct u as [|c1 u1]; [exact Hbase|].
    cbn [String.append Py.lstrip].
    destruct (Py.isspace c1). { apply IH. simpl in Hlen. lia. }
    destruct u1 as [|c2 u2]; cbn [String.append].
    + rewrite (space2_ascii_r c1 q Hq). destruct v as [|c3 v3]; [discriminate|].
      rewrite (space3_ascii_2 c1 q c3 Hq). discriminate.
    + destruct (Py.space2 c1 c2). { apply IH. simpl in Hlen. lia. }
      destruct u2 as [|c3 u3]; cbn [String.append].
      * rewrite (space3_ascii_3 c1 c2 q Hq). discriminate.
      * destruct (Py.space3 c1 c2 c3); [|discriminate].
        apply IH. simpl in Hlen. lia.
Qed.

Lemma blank_plain (u : string) (q : ascii) (v : string) :
  Py.is_ascii q = true -> Py.isspace q = false ->
  Py.blank (u +:+ String q v) = false.
Proof.
  intros Hq Hs. unfold Py.blank.
  pose proof (lstrip_plain q v Hq Hs _ u (Nat.le_refl _)) as H.
  destruct (Py.lstrip (u +:+ String q v)); [congruence|reflexivity].
Qed.

Lemma rstrip_blank (w : string) : Py.blank w = true -> Py.rstrip w = "".
Proof. destruct w as [|c w]; [reflexivity|]. intros H. cbn [Py.rstrip]. now rewrite H. Qed.

(** The text up to an ASCII character that only white space follows. *)
Lemma rstrip_plain_end (u : string) (q : ascii) (w : string) :
  Py.is_ascii q = true -> Py.isspace q = false -> Py.blank w = true ->
  Py.rstrip (u +:+ String q w) = u +:+ String q "".
Proof.
  intros Hq Hs Hw. induction u as [|c u IH]; cbn [String.append Py.rstrip].
  - pose proof (blank_plain "" q w Hq Hs) as Hb. cbn [String.append] in Hb.
    rewrite Hb. now rewrite (rstrip_blank w Hw).
  - change (String c (u +:+ String q w)) with (String c u +:+ String q w).
    rewrite (blank_plain (String c u) q w Hq Hs). now rewrite IH.
Qed.

Lemma rstrip_app_ascii (s : string) (c : ascii) (w : string) :
  no_space s = true -> Py.is_ascii c = true ->
  Py.rstrip (s +:+ String c w) = s +:+ Py.rstrip (String c w).
Proof.
  intros Hs Hc. induction s as [|c0 s IH]; [reflexivity|].
  cbn [no_space] in Hs. apply andb_true_iff in Hs as [H0 Hs].
  apply Nat.eqb_eq in H0.
  cbn [String.append Py.rstrip].
  change (String c0 (s +:+ String c w)) with (String c0 s +:+ String c w).
  rewrite blank_false.
  - now rewrite (IH Hs).
  - discriminate.
  - now apply space_width_app_ascii.
Qed.

Lemma rstrip_no_space (s : string) : no_space s = true -> Py.rstrip s = s.
Proof.
  induction s as [|c s IH]; [reflexivity|].
  cbn [no_space]. rewrite andb_true_iff, Nat.eqb_eq. intros [H0 Hs].
  cbn [Py.rstrip]. rewrite blank_false by (discriminate || assumption).
  now rewrite (IH Hs).
Qed.

Lemma lstrip_no_space (s : string) : no_space s = true -> Py.lstrip s = s.
Proof.
  destruct s as [|c s]; [reflexivity|].
  cbn [no_space]. rewrite andb_true_iff, Nat.eqb_eq. intros [H0 _].
  now apply lstrip_keeps.
Qed.

Lemma strip_no_space (s : string) : no_space s = true -> Py.strip s = s.
Proof.
  intros H. unfold Py.strip. rewrite (lstrip_no_space s H). now apply rstrip_no_space.
Qed.

Lemma newline_ascii : Py.is_ascii Py.newline = true.
Proof. reflexivity. Qed.

(** A line made of one word: [strip] takes its newline off. *)
Lemma strip_word_line (s : string) :
  no_space s = true -> Py.strip (s +:+ Py.nl) = s.
Proof.
  intros H. unfold Py.strip. destruct s as [|c s]; [reflexivity|].
  rewrite lstrip_keeps.
  - unfold Py.nl. rewrite (rstrip_app_ascii _ _ _ H newline_ascii).
    change (Py.rstrip (String Py.newline "")) with "".
    apply PyFacts.app_nil_r.
  - cbn [no_space] in H. apply andb_true_iff in H as [H0 _]. apply Nat.eqb_eq in H0.
    unfold Py.nl. apply space_width_app_ascii; [discriminate|assumption|reflexivity].
Qed.

(** A line between two ASCII characters that are not white space. *)
Lemma strip_quoted_line (a q : ascii) (t : string) :
  Py.is_ascii a = true -> Py.isspace a = false ->
  Py.is_ascii q = true -> Py.isspace q = false ->
  Py.strip (String a (t +:+ String q Py.nl)) = String a (t +:+ String q "").
Proof.
  intros Ha Hsa Hq Hsq. unfold Py.strip.
  rewrite lstrip_keeps by now apply space_width_ascii.
  change (String a (t +:+ String q Py.nl)) with (String a t +:+ String q Py.nl).
  now rewrite rstrip_plain_end.
Qed.

(** *** Texts with no white space *)

Lemma ascii_no_space (s : string) :
  all_chars (fun c => Py.is_ascii c && negb (Py.isspace c)) s = true ->
  no_space s = true.
Proof.
  induction s as [|c s IH]; [reflexivity|].
  cbn [all_chars no_space]. rewrite !andb_true_iff, negb_true_iff.
  intros [[Hc Hs] Hrest]. split; [|now apply IH].
  apply Nat.eqb_eq. now apply space_width_ascii.
Qed.

Lemma no_space_app (a b : string) :
  no_space a = true -> no_space b = true ->
  (match b with String c _ => Py.is_ascii c = true | EmptyString => True end) ->
  no_space (a +:+ b) = true.
Proof.
  intros Ha Hb Hc. induction a as [|c0 a IH]; [exact Hb|].
  cbn [no_space] in Ha. apply andb_true_iff in Ha as [H0 Ha].
  apply Nat.eqb_eq in H0.
  cbn [String.append no_space]. apply andb_true_iff. split; [|now apply IH].
  apply Nat.eqb_eq.
  change (String c0 (a +:+ b)) with (String c0 a +:+ b).
  destruct b as [|c b].
  - now rewrite PyFacts.app_nil_r.
  - apply space_width_app_ascii; [discriminate|assumption|assumption].
Qed.

Lemma no_space_prefix (a b : string) : no_space (a +:+ b) = true -> no_space a = true.
Proof.
  induction a as [|c a IH]; [reflexivity|].
  cbn [String.append no_space]. rewrite !andb_true_iff, !Nat.eqb_eq.
  intros [H0 H]. split; [|now apply IH].
  change (String c (a +:+ b)) with (String c a +:+ b) in H0.
  now apply space_width_prefix in H0.
Qed.

Lemma no_space_after_ascii (a b : string) :
  all_chars (fun c => Py.is_ascii c && negb (Py.isspace c)) a = true ->
  no_space b = true -> no_space (a +:+ b) = true.
Proof.
  intros Ha Hb. induction a as [|c a IH]; [exact Hb|].
  cbn [all_chars] in Ha. apply andb_true_iff in Ha as [Hc Ha].
  apply andb_true_iff in Hc as [Hc Hs]. apply negb_true_iff in Hs.
  cbn [String.append no_space]. apply andb_true_iff. split; [|now apply IH].
  apply Nat.eqb_eq. now apply space_width_ascii.
Qed.

Lemma no_space_no_newline (s : string) : no_space s = true -> no_newline s = true.
Proof.
  unfold no_newline. induction s as [|c s IH]; [reflexivity|].
  cbn [no_space all_chars]. rewrite !andb_true_iff, Nat.eqb_eq, negb_true_iff.
  intros [H0 Hs]. split; [|now apply IH].
  destruct (Ascii.eqb_spec c Py.newline) as [->|_]; [|reflexivity].
  cbn [space_width] in H0. change (Py.isspace Py.newline) with true in H0.
  discriminate.
Qed.


(** *** Well-formed text *)

Lemma ascii_valid (s : string) : ascii_text s = true -> Py.utf8_valid s = true.
Proof.
  unfold ascii_text. induction s as [|c s IH]; [reflexivity|].
  cbn [all_chars Py.utf8_valid]. rewrite andb_true_iff. intros [Hc Hs].
  rewrite Hc. now apply IH.
Qed.

Lemma valid_app_fuel (b : string) (n : nat) (a : string) :
  (String.length a <= n)%nat -> Py.utf8_valid a = true ->
  Py.utf8_valid (a +:+ b) = Py.utf8_valid b.
Proof.
  revert a. induction n as [|n IH]; intros a Hlen Ha.
  - destruct a; [reflexivity|simpl in Hlen; lia].
  - destruct a as [|c1 a1]; [reflexivity|].
    cbn [String.append Py.utf8_valid] in *.
    destruct (Py.is_ascii c1). { apply IH; [simpl in Hlen; lia|exact Ha]. }
    destruct a1 as [|c2 a2]; [discriminate|]. cbn [String.append].
    destruct (Py.seq2 c1 c2). { apply IH; [simpl in Hlen; lia|exact Ha]. }
    destruct a2 as [|c3 a3]; [discriminate|]. cbn [String.append].
    destruct (Py.seq3 c1 c2 c3). { apply IH; [simpl in Hlen; lia|exact Ha]. }
    destruct a3 as [|c4 a4]; [discriminate|]. cbn [String.append].
    apply andb_true_iff in Ha as [H4 Ha]. rewrite H4. cbn [andb].
    apply IH; [simpl in Hlen; lia|exact Ha].
Qed.

Lemma valid_app (a b : string) :
  Py.utf8_valid a = true -> Py.utf8_valid (a +:+ b) = Py.utf8_valid b.
Proof. apply (valid_app_fuel b (String.length a)). lia. Qed.

Lemma valid_line (l : string) :
  Py.utf8_valid l = true -> Py.utf8_valid (line l) = true.
Proof. intros H. unfold line. now rewrite valid_app. Qed.

Lemma decode_valid (s : string) : Py.utf8_valid s = true -> Py.decode s = Ok s.
Proof. intros H. unfold Py.decode. now rewrite H. Qed.

Lemma decode_ill_formed (s : string) :
  Py.utf8_valid s = false -> Py.decode s = Raise Py.UnicodeDecodeError.
Proof. intros H. unfold Py.decode. now rewrite H. Qed.

Lemma continuation_ascii (c : ascii) :
  Py.is_ascii c = true -> Py.is_continuation c = false.
Proof. intros H. unfold Py.is_continuation. now apply ascii_between; [lia|]. Qed.

Lemma seq2_ascii (c1 c : ascii) : Py.is_ascii c = true -> Py.seq2 c1 c = false.
Proof.
  intros H. unfold Py.seq2. rewrite (continuation_ascii c H). apply andb_false_r.
Qed.

Lemma seq3_ascii (c1 c2 c : ascii) : Py.is_ascii c = true -> Py.seq3 c1 c2 c = false.
Proof.
  intros H. unfold Py.seq3. rewrite (continuation_ascii c H). apply andb_false_r.
Qed.

Lemma seq4_ascii (c1 c2 c3 c : ascii) :
  Py.is_ascii c = true -> Py.seq4 c1 c2 c3 c = false.
Proof.
  intros H. unfold Py.seq4. rewrite (continuation_ascii c H). apply andb_false_r.
Qed.

Lemma valid_snoc_fuel (c : ascii) (n : nat) (a : string) :
  Py.is_ascii c = true -> (String.length a <= n)%nat ->
  Py.utf8_valid (a +:+ String c "") = Py.utf8_valid a.
Proof.
  intros Hc. revert a. induction n as [|n IH]; intros a Hlen.
  - destruct a; [|simpl in Hlen; lia].
    cbn [String.append Py.utf8_valid]. now rewrite Hc.
  - destruct a as [|c1 a1]; [cbn [String.append Py.utf8_valid]; now rewrite Hc|].
    cbn [String.append Py.utf8_valid].
    destruct (Py.is_ascii c1). { apply IH. simpl in Hlen. lia. }
    destruct a1 as [|c2 a2]; cbn [String.append].
    { now rewrite (seq2_ascii c1 c Hc). }
    destruct (Py.seq2 c1 c2). { apply IH. simpl in Hlen. lia. }
    destruct a2 as [|c3 a3]; cbn [String.append].
    { now rewrite (seq3_ascii c1 c2 c Hc). }
    destruct (Py.seq3 c1 c2 c3). { apply IH. simpl in Hlen. lia. }
    destruct a3 as [|c4 a4]; cbn [String.append].
    { now rewrite (seq4_ascii c1 c2 c3 c Hc). }
    f_equal. apply IH. simpl in Hlen. lia.
Qed.

Lemma valid_line_eq (l : string) : Py.utf8_valid (line l) = Py.utf8_valid l.
Proof. unfold line, Py.nl. now apply (valid_snoc_fuel _ (String.length l)). Qed.

Lemma readline_of_line (l rest : string) :
  no_newline l = true -> Py.readline (line l +:+ rest) = (line l, rest).
Proof.
  intros H. unfold line. rewrite PyFacts.app_assoc.
  now apply readline_line.
Qed.

Lemma readline_text_line (l rest : string) :
  no_newline l = true -> Py.utf8_valid l = true ->
  Py.readline_text (line l +:+ rest) = Ok (line l, rest).
Proof.
  intros Hn Hv. unfold Py.readline_text. rewrite (readline_of_line l rest Hn).
  now rewrite (decode_valid _ (valid_line l Hv)).
Qed.

(** *** Digits and [int] *)

Lemma digits_of_uint (d : Decimal.uint) :
  all_chars Py.is_digit (NilEmpty.string_of_uint d) = true.
Proof. induction d; simpl; auto. Qed.

Lemma digit_plain (c : ascii) :
  Py.is_digit c = true ->
  Py.is_ascii c = true /\ Py.isspace c = false /\ Py.c_isspace c = false.
Proof.
  destruct c as [[] [] [] [] [] [] [] []]; vm_compute; intuition congruence.
Qed.

Lemma digit_not_space (c : ascii) : Py.is_digit c = true -> Py.isspace c = false.
Proof. intros H. now destruct (digit_plain c H) as (_ & ? & _). Qed.

Lemma digits_ascii (s : string) : all_chars Py.is_digit s = true -> ascii_text s = true.
Proof. apply all_chars_impl. intros c H. now destruct (digit_plain c H). Qed.

Lemma digits_no_space (s : string) :
  all_chars Py.is_digit s = true -> no_space s = true.
Proof.
  intros H. apply ascii_no_space. revert H. apply all_chars_impl. intros c H.
  destruct (digit_plain c H) as (-> & -> & _). reflexivity.
Qed.

Lemma digits_no_newline (s : string) :
  all_chars Py.is_digit s = true -> no_newline s = true.
Proof.
  apply all_chars_impl. intros c.
  destruct c as [[] [] [] [] [] [] [] []]; vm_compute; congruence.
Qed.

Lemma digits_valid (s : string) :
  all_chars Py.is_digit s = true -> Py.utf8_valid s = true.
Proof. intros H. now apply ascii_valid, digits_ascii. Qed.

Lemma literal_digits_all (s : string) (b : bool) :
  all_chars Py.is_digit s = true -> (b = true \/ s <> "") ->
  Py.literal_digits b s = Some s.
Proof.
  revert b. induction s as [|c s IH]; intros b; simpl.
  - intros _ [->|H]; [reflexivity|contradiction].
  - rewrite andb_true_iff. intros [Hc Hs] _. rewrite Hc.
    rewrite (IH true Hs); [reflexivity|now left].
Qed.

(** The decimal text of a natural number: digits, and at least one. *)
Lemma str_of_Z_digits (z : Z) :
  0 <= z ->
  exists d, Py.str_of_Z z = NilEmpty.string_of_uint d
            /\ d <> Decimal.Nil /\ Z.of_uint d = z.
Proof.
  intros Hz. destruct z as [|p|p]; [| |lia].
  - exists (Decimal.D0 Decimal.Nil). repeat split. discriminate.
  - exists (Pos.to_uint p). unfold Py.str_of_Z. simpl.
    pose proof (Unsigned.to_uint_nonnil p) as Hn.
    split; [|split; [assumption|]].
    + unfold NilZero.string_of_uint. destruct (Pos.to_uint p); congruence.
    + unfold Z.of_uint. now rewrite Unsigned.of_to.
Qed.

Lemma str_of_Z_all_digits (z : Z) :
  0 <= z -> all_chars Py.is_digit (Py.str_of_Z z) = true /\ Py.str_of_Z z <> "".
Proof.
  intros Hz. destruct (str_of_Z_digits z Hz) as (d & -> & Hd & _).
  split; [apply digits_of_uint|].
  destruct d; simpl; congruence.
Qed.

Lemma int_text_ascii (s : string) : ascii_text s = true -> Py.int_text s = Some s.
Proof.
  unfold ascii_text. induction s as [|c s IH]; [reflexivity|].
  cbn [all_chars Py.int_text]. rewrite andb_true_iff. intros [Hc Hs].
  now rewrite Hc, (IH Hs).
Qed.

Lemma c_rstrip_newline (s : string) : Py.c_rstrip (s +:+ Py.nl) = Py.c_rstrip s.
Proof.
  induction s as [|c s IH]; [reflexivity|].
  simpl. now rewrite IH.
Qed.

Lemma c_rstrip_digits (s : string) :
  all_chars Py.is_digit s = true -> Py.c_rstrip s = s.
Proof.
  induction s as [|c s IH]; simpl; [reflexivity|].
  rewrite andb_true_iff. intros [Hc Hs].
  destruct (digit_plain c Hc) as (_ & _ & Hsp).
  rewrite (IH Hs). destruct s; [now rewrite Hsp|reflexivity].
Qed.

Lemma c_strip_digits_line (s : string) :
  all_chars Py.is_digit s = true ->
  Py.c_strip (s +:+ Py.nl) = s /\ Py.c_strip s = s.
Proof.
  intros H. unfold Py.c_strip. destruct s as [|c s]; [split; reflexivity|].
  pose proof H as H'. cbn [all_chars] in H'. apply andb_true_iff in H' as [Hc _].
  destruct (digit_plain c Hc) as (_ & _ & Hsp).
  cbn [String.append Py.c_lstrip]. rewrite Hsp.
  change (String c (s +:+ Py.nl)) with (String c s +:+ Py.nl).
  rewrite c_rstrip_newline. split; now apply c_rstrip_digits.
Qed.

Lemma int_of_str_word (c : ascii) (t : string) (s u : string) :
  Py.is_digit c = true -> Py.int_text s = Some u -> Py.c_strip u = String c t ->
  Py.int_of_str s
  = match Py.unsigned_literal (String c t) with
    | Some n => Ok n
    | None => Raise (ValueError ("invalid literal for int() with base 10: " +:+ s))
    end.
Proof.
  intros Hc Hu Hs. unfold Py.int_of_str. rewrite Hu, Hs.
  destruct c as [[] [] [] [] [] [] [] []]; try (vm_compute in Hc; discriminate Hc);
    reflexivity.
Qed.

Lemma int_of_digits (z : Z) (s : string) :
  0 <= z -> (s = Py.str_of_Z z \/ s = Py.str_of_Z z +:+ Py.nl) ->
  Py.int_of_str s = Ok z.
Proof.
  intros Hz Hs. destruct (str_of_Z_digits z Hz) as (d & E & Hd & Hv).
  pose proof (digits_of_uint d) as Hall.
  rewrite E in Hs.
  assert (Hne : NilEmpty.string_of_uint d <> "") by (destruct d; simpl; congruence).
  destruct (c_strip_digits_line _ Hall) as [Hline Hword].
  assert (Hstrip : Py.c_strip s = NilEmpty.string_of_uint d)
    by (destruct Hs as [-> | ->]; assumption).
  assert (Htext : Py.int_text s = Some s).
  { apply int_text_ascii. unfold ascii_text.
    destruct Hs as [-> | ->]; [now apply digits_ascii|].
    rewrite all_chars_app. apply andb_true_iff. split; [|reflexivity].
    now apply digits_ascii. }
  destruct (NilEmpty.string_of_uint d) as [|c t] eqn:Es; [congruence|].
  pose proof Hall as Hall'. simpl in Hall'. apply andb_true_iff in Hall' as [Hc _].
  rewrite (int_of_str_word c t s s Hc Htext Hstrip).
  unfold Py.unsigned_literal.
  rewrite (literal_digits_all _ false Hall); [|now right].
  rewrite <- Es, NilEmpty.usu. simpl. now rewrite Hv.
Qed.

(** [int] of a line that holds the decimal text of a natural number. *)
Lemma int_of_str_line (z : Z) :
  0 <= z -> Py.int_of_str (Py.str_of_Z z +:+ Py.nl) = Ok z.
Proof. intros Hz. apply int_of_digits; [exact Hz|now right]. Qed.

Lemma int_of_line (z : Z) : 0 <= z -> Py.int_of_str (line (Py.str_of_Z z)) = Ok z.
Proof. apply int_of_str_line. Qed.

Lemma str_of_Z_no_newline (z : Z) : 0 <= z -> no_newline (Py.str_of_Z z) = true.
Proof. intros Hz. now apply digits_no_newline, str_of_Z_all_digits. Qed.

Lemma str_of_Z_valid (z : Z) : 0 <= z -> Py.utf8_valid (Py.str_of_Z z) = true.
Proof. intros Hz. now apply digits_valid, str_of_Z_all_digits. Qed.

Lemma readline_text_number (z : Z) (rest : string) :
  0 <= z ->
  Py.readline_text (line (Py.str_of_Z z) +:+ rest) = Ok (line (Py.str_of_Z z), rest).
Proof.
  intros Hz. apply readline_text_line;
    [now apply str_of_Z_no_newline|now apply str_of_Z_valid].
Qed.


Lemma remove_char_app (c : ascii) (a b : string) :
  Py.remove_char c (a +:+ b) = Py.remove_char c a +:+ Py.remove_char c b.
Proof.
  induction a as [|x a IH]; simpl; [reflexivity|].
  destruct (Ascii.eqb x c); simpl; now rewrite IH.
Qed.

Lemma concat_cons (x : string) (l : list string) :
  String.concat "" (x :: l) = x +:+ String.concat "" l.
Proof.
  destruct l as [|y l]; simpl; [now rewrite PyFacts.app_nil_r|reflexivity].
Qed.

Lemma length_le_bytes (n : nat) (z : Z) : String.length (Py.le_bytes n z) = n.
Proof.
  revert z. induction n as [|n IH]; intros z; simpl; [reflexivity|].
  now rewrite IH.
Qed.

Lemma le_value_le_bytes (n : nat) (z : Z) :
  Py.le_value (Py.le_bytes n z) = z mod 256 ^ Z.of_nat n.
Proof.
  revert z. induction n as [|n IH]; intros z.
  - simpl. now rewrite Z.mod_1_r.
  - cbn [Py.le_bytes Py.le_value]. rewrite IH.
    rewrite N_ascii_embedding.
    + rewrite Z2N.id by (apply Z.mod_pos_bound; lia).
      rewrite Nat2Z.inj_succ, Z.pow_succ_r by lia.
      rewrite Z.rem_mul_r by lia. reflexivity.
    + pose proof (Z.mod_pos_bound z 256 ltac:(lia)) as Hb.
      apply N2Z.inj_lt. rewrite Z2N.id by lia. simpl. lia.
Qed.

Lemma int32_round_trip (z : Z) :
  - 2 ^ 31 <= z < 2 ^ 31 -> Py.int32_of_bytes (Py.bytes_of_int32 z) = z.
Proof.
  intros Hz. unfold Py.int32_of_bytes, Py.bytes_of_int32.
  rewrite le_value_le_bytes.
  change (256 ^ Z.of_nat 4) with (2 ^ 32).
  destruct (Z.ltb_spec (z mod 2 ^ 32) (2 ^ 31)) as [Hlt|Hge].
  - destruct (Z_lt_dec z 0) as [Hneg|Hpos].
    + rewrite <- (Z.mod_add z 1 (2 ^ 32)) in Hlt by lia.
      rewrite Z.mod_small in Hlt by lia. lia.
    + apply Z.mod_small. lia.
  - destruct (Z_lt_dec z 0) as [Hneg|Hpos].
    + rewrite <- (Z.mod_add z 1 (2 ^ 32)) by lia.
      rewrite Z.mod_small by lia. lia.
    + rewrite Z.mod_small in Hge by lia. lia.
Qed.

Lemma read_prefix (a rest : string) :
  Py.read (String.length a) (a +:+ rest) = (a, rest).
Proof.
  induction a as [|c a IH]; simpl.
  - destruct rest; reflexivity.
  - now rewrite IH.
Qed.

End TextFacts.

(** ** The data section: the round trip *)

Module RoundTripSpec.
Import GmshCommon GmshCommonTerms TextTerms TextFacts.

Lemma read_ints_lines (zs : list Z) (rest : string) :
  Forall (fun z => 0 <= z) zs ->
  read_ints (length zs)
    (fold_right (fun z acc => line (Py.str_of_Z z) +:+ acc) rest zs)
  = Ok (zs, rest).
Proof.
  induction 1 as [|z zs Hz Hzs IH]; [reflexivity|].
  cbn [length fold_right read_ints].
  rewrite readline_text_number by assumption. cbn [mbind result_bind].
  rewrite int_of_line by assumption. cbn [mbind result_bind].
  rewrite IH. reflexivity.
Qed.

Lemma quoted_no_newline (name : string) :
  no_newline name = true ->
  no_newline (String Py.dquote name +:+ String Py.dquote "") = true.
Proof.
  intros H. unfold no_newline in *. simpl.
  rewrite all_chars_app, H. reflexivity.
Qed.

Lemma quoted_valid (name : string) :
  Py.utf8_valid name = true ->
  Py.utf8_valid (String Py.dquote name +:+ String Py.dquote "") = true.
Proof.
  intros H. cbn [String.append Py.utf8_valid].
  change (Py.is_ascii Py.dquote) with true. cbv iota.
  now rewrite valid_app.
Qed.

Lemma read_tags_written (name : string) (nc n : Z) (rest : string) :
  no_newline name = true -> Py.utf8_valid name = true -> 0 <= nc -> 0 <= n ->
  read_tags (tags_text name nc n +:+ rest)
  = Ok ([Py.remove_char Py.dquote name], [0; nc; n], rest).
Proof.
  intros Hname Hvalid Hnc Hn. unfold read_tags, tags_text.
  rewrite !PyFacts.app_assoc.
  rewrite readline_text_number by lia. cbn [mbind result_bind].
  rewrite (int_of_line 1) by lia. cbn [mbind result_bind].
  change (Z.to_nat 1) with 1%nat. cbn [read_texts].
  rewrite readline_text_line by (now apply quoted_no_newline || now apply quoted_valid).
  cbn [mbind result_bind].
  rewrite readline_text_number by lia. cbn [mbind result_bind].
  rewrite (int_of_line 1) by lia. cbn [mbind result_bind].
  change (Z.to_nat 1) with 1%nat. cbn [read_lines].
  rewrite readline_of_line by reflexivity.
  rewrite readline_text_number by lia. cbn [mbind result_bind].
  rewrite (int_of_line 3) by lia. cbn [mbind result_bind].
  change (Z.to_nat 3) with (length [0; nc; n]).
  change (line (Py.str_of_Z 0) +:+ line (Py.str_of_Z nc) +:+ line (Py.str_of_Z n) +:+ rest)
    with (fold_right (fun z acc => line (Py.str_of_Z z) +:+ acc) rest [0; nc; n]).
  rewrite read_ints_lines by (repeat constructor; lia).
  cbn [mbind result_bind map]. do 3 f_equal.
  unfold line. cbn [String.append].
  rewrite PyFacts.app_assoc.
  change (String Py.dquote "" +:+ Py.nl) with (String Py.dquote Py.nl).
  rewrite strip_quoted_line by reflexivity.
  cbn [Py.remove_char]. rewrite Ascii.eqb_refl.
  rewrite remove_char_app. cbn [Py.remove_char]. rewrite Ascii.eqb_refl.
  now rewrite PyFacts.app_nil_r.
Qed.

Lemma float64_round_trip (x : float64) :
  is_pattern x -> float64_of_bytes (bytes_of_float64 x) = x.
Proof.
  intros Hx. unfold float64_of_bytes, bytes_of_float64.
  rewrite le_value_le_bytes. apply Z.mod_small. exact Hx.
Qed.

Section BinaryPayload.
Variable to_double : scalar -> float64.

Lemma length_doubles (row : list scalar) :
  String.length
    (String.concat "" (map (fun v => bytes_of_float64 (to_double v)) row))
  = (8 * length row)%nat.
Proof.
  induction row as [|x row IH]; [reflexivity|].
  cbn [map]. rewrite concat_cons, PyFacts.length_app, IH.
  unfold bytes_of_float64. rewrite length_le_bytes. simpl length. lia.
Qed.

Lemma length_binary_record (k : nat) (row : list scalar) :
  String.length (binary_record to_double k row) = (4 + 8 * length row)%nat.
Proof.
  unfold binary_record, Py.bytes_of_int32.
  now rewrite PyFacts.length_app, length_le_bytes, length_doubles.
Qed.

Lemma read_doubles_written (row : list scalar) (rest : string) :
  Forall (fun v => is_pattern (to_double v)) row ->
  read_doubles (length row)
    (String.concat "" (map (fun v => bytes_of_float64 (to_double v)) row) +:+ rest)
  = (map to_double row, rest).
Proof.
  induction 1 as [|x row Hx Hrow IH]; [reflexivity|].
  cbn [map length read_doubles].
  rewrite concat_cons, PyFacts.app_assoc.
  replace 8%nat with (String.length (bytes_of_float64 (to_double x)))
    by apply length_le_bytes.
  rewrite read_prefix, IH, (float64_round_trip _ Hx). reflexivity.
Qed.

(** The binary payload reads back record by record. *)
Lemma fromfile_records_written (nc : nat) (rows : list (list scalar))
    (k0 : nat) (rest : string) :
  Forall (fun r => length r = nc /\ Forall (fun v => is_pattern (to_double v)) r) rows ->
  Z.of_nat (k0 + length rows) < 2 ^ 31 ->
  fromfile_records (length rows) nc
    (String.concat "" (imap (fun k => binary_record to_double (k0 + k)) rows) +:+ rest)
  = (imap (fun k r => (Z.of_nat (k0 + k) + 1, map to_double r)) rows, rest).
Proof.
  intros H. revert k0. induction H as [|r rows [Hlen Hr] Hrows IH]; intros k0 Hk.
  - reflexivity.
  - cbn [length imap fromfile_records].
    rewrite concat_cons, PyFacts.app_assoc.
    rewrite PyFacts.length_app, length_binary_record, Hlen.
    destruct (Nat.ltb_spec (4 + 8 * nc + String.length
                (String.concat ""
                   (imap ((fun k => binary_record to_double (k0 + k)) ∘ S) rows)
                 +:+ rest)) (4 + 8 * nc)) as [Hlt|_]; [lia|].
    unfold binary_record at 1. rewrite PyFacts.app_assoc.
    replace 4%nat with (String.length (Py.bytes_of_int32 (Z.of_nat (k0 + 0) + 1)))
      at 1 by apply length_le_bytes.
    rewrite read_prefix.
    rewrite <- Hlen at 1. rewrite (read_doubles_written r _ Hr).
    rewrite (imap_ext _ (fun k => binary_record to_double (S k0 + k)))
      by (intros i x _; simpl; f_equal; lia).
    rewrite (IH (S k0)) by (simpl length in Hk; lia).
    rewrite int32_round_trip by (simpl length in Hk; lia).
    f_equal. f_equal.
    apply imap_ext. intros i x _. simpl. f_equal. lia.
Qed.

End BinaryPayload.

Lemma lstrip_word (s t : string) :
  starts_word s -> Py.c_lstrip (s +:+ t) = s +:+ t.
Proof. destruct s as [|c s]; [contradiction|]. intros H. simpl. now rewrite H. Qed.

Lemma starts_word_app (s t : string) : starts_word s -> starts_word (s +:+ t).
Proof. destruct s; [contradiction|]. auto. Qed.

Lemma starts_word_nonempty (s : string) :
  starts_word s -> String.eqb s "" = false.
Proof. destruct s; [contradiction|]. reflexivity. Qed.

Lemma cons_neq (c : ascii) (s : string) : String.eqb (String c s) s = false.
Proof.
  apply String.eqb_neq. intros H.
  apply (f_equal String.length) in H. simpl in H. lia.
Qed.

Lemma str_of_Z_starts_word (z : Z) : 0 <= z -> starts_word (Py.str_of_Z z).
Proof.
  intros Hz. destruct (str_of_Z_all_digits z Hz) as [Hall Hne].
  destruct (Py.str_of_Z z) as [|c s]; [congruence|].
  simpl in Hall. apply andb_true_iff in Hall as [Hc _].
  now destruct (digit_plain c Hc) as (_ & _ & ?).
Qed.

Section TextPayload.
Variable repr : scalar -> string.
Variable to_double : scalar -> float64.
Variable scan_float : string -> option (float64 * string).

Lemma ascii_scalar_line (k : nat) (x : scalar) (tail : string) :
  ascii_line repr k [x] +:+ tail
  = Py.str_of_Z (Z.of_nat k + 1)
    +:+ String " " (repr x +:+ String Py.newline tail).
Proof.
  unfold ascii_line. cbn [map Py.join].
  rewrite !PyFacts.app_assoc. reflexivity.
Qed.

Lemma ascii_lines_start (xs : list scalar) (k0 : nat) (rest : string) :
  starts_word rest ->
  starts_word
    (String.concat ""
       (imap (fun k => ascii_line repr (k0 + k)) (map (fun x => [x]) xs))
     +:+ rest).
Proof.
  intros Hrest. destruct xs as [|x xs]; [exact Hrest|].
  cbn [map imap]. rewrite concat_cons, PyFacts.app_assoc, ascii_scalar_line.
  apply starts_word_app, str_of_Z_starts_word. lia.
Qed.

(** The ASCII payload of a one-component field reads back number by
    number: the record numbers, whatever the scanner makes of them, and
    the values. *)
Lemma fromfile_text_scalars (xs : list scalar) (k0 : nat) (rest : string) :
  Forall (scans_value repr to_double scan_float) xs ->
  (forall k, (k0 < k <= k0 + length xs)%nat -> scans_index scan_float (Z.of_nat k)) ->
  starts_word rest ->
  exists flat,
    fromfile_text scan_float (length xs * (1 + 1))
      (String.concat ""
         (imap (fun k => ascii_line repr (k0 + k)) (map (fun x => [x]) xs))
       +:+ rest)
    = (flat, rest)
    /\ length flat = (length xs * (1 + 1))%nat
    /\ map (drop 1) (rows_of (length xs) (1 + 1) flat)
       = map (fun x => [to_double x]) xs.
Proof.
  intros H. revert k0. induction H as [|x xs [Hw Hx] Hxs IH]; intros k0 Hidx Hrest.
  - exists []. repeat split.
  - destruct (IH (S k0)) as (flat & Hflat & Hlen & Hrows).
    { intros k Hk. apply Hidx. simpl length. lia. }
    { exact Hrest. }
    destruct (Hidx (S k0) ltac:(simpl length; lia)
                (repr x +:+ String Py.newline
                   (String.concat ""
                      (imap (fun k => ascii_line repr (S k0 + k))
                         (map (fun x => [x]) xs)) +:+ rest)))
      as [v Hv].
    exists (v :: to_double x :: flat).
    cbn [map imap length]. rewrite concat_cons, PyFacts.app_assoc.
    rewrite (imap_ext _ (fun k => ascii_line repr (S k0 + k)))
      by (intros i y _; simpl; f_equal; lia).
    rewrite ascii_scalar_line.
    replace (Z.of_nat (k0 + 0) + 1) with (Z.of_nat (S k0)) by lia.
    change (S (length xs) * (1 + 1))%nat with (S (S (length xs * (1 + 1)))).
    cbn [fromfile_text]. rewrite Hv.
    cbn [Py.c_lstrip]. change (Py.c_isspace " ") with true. cbv iota.
    rewrite (lstrip_word _ _ Hw).
    rewrite (starts_word_nonempty _ (starts_word_app _ _ Hw)), cons_neq.
    cbn [orb]. cbv iota.
    rewrite Hx.
    pose proof (ascii_lines_start xs (S k0) rest Hrest) as Htail.
    cbn [Py.c_lstrip]. change (Py.c_isspace Py.newline) with true. cbv iota.
    destruct (String.concat ""
                (imap (fun k => ascii_line repr (S k0 + k)) (map (fun x => [x]) xs))
              +:+ rest) as [|c tl] eqn:Etail; [contradiction|].
    simpl in Htail. cbn [Py.c_lstrip]. rewrite Htail.
    rewrite cons_neq. cbn [String.eqb orb]. cbv iota.
    rewrite Hflat.
    repeat split.
    + simpl. rewrite Hlen. reflexivity.
    + cbn [rows_of]. cbn [map].
      change (drop (1 + 1) (v :: to_double x :: flat)) with flat.
      change (drop 1 (take (1 + 1) (v :: to_double x :: flat))) with [to_double x].
      now rewrite Hrows.
Qed.

End TextPayload.

Lemma skip_to_line_marker (m rest : string) :
  no_space m = true -> Py.utf8_valid m = true ->
  Py.skip_to_line m (line m +:+ rest) = Ok rest.
Proof.
  intros Hm Hv. unfold Py.skip_to_line. cbn [Py.skip_to_line_fuel].
  rewrite readline_text_line by (now apply no_space_no_newline || assumption).
  cbn [mbind result_bind].
  unfold line. rewrite (strip_word_line m Hm), String.eqb_refl. reflexivity.
Qed.

Lemma skip_to_line_fuel_step (m : string) (n : nat) (f : string) :
  Py.skip_to_line_fuel m (S n) f
  = ('(l, f') ← Py.readline_text f;
     if String.eqb (Py.strip l) m then Ok f' else Py.skip_to_line_fuel m n f').
Proof. reflexivity. Qed.

Lemma readline_text_blank (f : string) :
  Py.readline_text (String Py.newline f) = Ok (Py.nl, f).
Proof. reflexivity. Qed.

Lemma skip_to_line_after_blank (m rest : string) :
  no_space m = true -> Py.utf8_valid m = true -> m <> "" ->
  Py.skip_to_line m (Py.nl +:+ line m +:+ rest) = Ok rest.
Proof.
  intros Hm Hv Hne. unfold Py.skip_to_line.
  change (Py.nl +:+ line m +:+ rest) with (String Py.newline (line m +:+ rest)).
  cbn [String.length]. rewrite skip_to_line_fuel_step, readline_text_blank.
  cbn [mbind result_bind].
  change (Py.strip Py.nl) with "".
  destruct (String.eqb_spec "" m) as [E|_]; [congruence|].
  apply (skip_to_line_marker m rest Hm Hv).
Qed.

Lemma skip_to_line_eof (m : string) : m <> "" -> Py.skip_to_line m "" = Hang.
Proof.
  intros Hne. unfold Py.skip_to_line. cbn.
  destruct m; [congruence|reflexivity].
Qed.

Lemma plain_name_spec (name : string) :
  plain_name name = true ->
  no_newline name = true /\ Py.remove_char Py.dquote name = name.
Proof.
  unfold plain_name, no_newline. induction name as [|c name IH]; simpl; [auto|].
  rewrite !andb_true_iff, !negb_true_iff. intros [[Hn Hq] Hrest].
  destruct (IH Hrest) as [IH1 IH2].
  rewrite Hn, Hq, IH1, IH2. auto.
Qed.

(** What the writer lays out for a field of shape [(N,)]. *)
Lemma write_data_scalars (repr : scalar -> string) (to_double : scalar -> float64)
    (fh tag name : string) (xs : list scalar) (binary : bool) :
  _write_data repr to_double fh tag name (Arr1 xs) binary
  = (fh +:+ line ("$" +:+ tag) +:+ scalar_section repr to_double tag name xs binary,
     Ok tt).
Proof.
  unfold _write_data, scalar_section, scalar_payload, payload, tags_text, line,
    write_all.
  cbn [num_components_of shape existsb Z.eqb negb hd orb].
  destruct binary.
  - rewrite !PyFacts.app_assoc. reflexivity.
  - rewrite PyFacts.write_fold, List.map_id, !PyFacts.app_assoc. reflexivity.
Qed.

Lemma length_rows_of (n w : nat) (l : list float64) : length (rows_of n w l) = n.
Proof. revert l. induction n as [|n IH]; intros l; simpl; [reflexivity|now rewrite IH]. Qed.

Lemma fromfile_records_length (n nc : nat) (f : string)
    (recs : list (Z * list float64)) (f2 : string) :
  fromfile_records n nc f = (recs, f2) ->
  (length recs <= n)%nat /\ ((length recs < n)%nat -> f2 = "").
Proof.
  revert f recs f2. induction n as [|n IH]; intros f recs f2;
    cbn [fromfile_records].
  - intros [= <- <-]. simpl. split; [lia|lia].
  - destruct (_ <? _)%nat.
    + intros [= <- <-]. simpl. split; [lia|reflexivity].
    + destruct (Py.read 4 f) as [b f1]. destruct (read_doubles nc f1) as [xs f3].
      destruct (fromfile_records n nc f3) as [rs f4] eqn:E.
      intros [= <- <-]. destruct (IH _ _ _ E) as [H1 H2]. simpl.
      split; [lia|]. intros H. apply H2. lia.
Qed.

Lemma broadcast_index (a : Z) (n : nat) :
  forallb (fun j => a =? j) (map Z.of_nat (seq 1 n)) = true -> (n <= 1)%nat.
Proof.
  destruct n as [|[|n]]; [lia|lia|].
  simpl. rewrite !andb_true_iff, !Z.eqb_eq. intros (H1 & H2 & _). lia.
Qed.

Lemma column0_singletons_of (g : scalar -> float64) (xs : list scalar) :
  column0 (map (fun x => [g x]) xs) = map g xs.
Proof. unfold column0. rewrite map_map. reflexivity. Qed.

Lemma indices_written (g : list scalar -> list float64) (rows : list (list scalar))
    (k0 : nat) :
  map fst (imap (fun k r => (Z.of_nat (k0 + k) + 1, g r)) rows)
  = map Z.of_nat (seq (S k0) (length rows))
  /\ map snd (imap (fun k (r : list scalar) => (Z.of_nat (k0 + k) + 1, g r)) rows)
     = map g rows.
Proof.
  revert k0. induction rows as [|r rows IH]; intros k0; [split; reflexivity|].
  cbn [imap map length seq fst snd].
  rewrite (imap_ext _ (fun k r => (Z.of_nat (S k0 + k) + 1, g r)))
    by (intros i x _; simpl; do 2 f_equal; lia).
  destruct (IH (S k0)) as [-> ->]. split; [|reflexivity].
  f_equal. lia.
Qed.

Section RoundTrip.
Variable repr : scalar -> string.
Variable to_double : scalar -> float64.
Variable repr64 : float64 -> string.
Variable scan_float : string -> option (float64 * string).

(** Whatever the file, a section that announces one component and is read
    to its end gives a 1-D array with as many entries as it announces. *)
Lemma read_one_component (f tag : string) (dd : list (string * ndarray)) (ds : Z)
    (is_ascii : bool) (st : list string) (it : list Z) (f1 : string) (n : Z)
    (f' : string) (dd' : list (string * ndarray)) :
  read_tags f = Ok (st, it, f1) ->
  Py.index it 1 = Ok 1 ->
  Py.index it 2 = Ok n ->
  _read_data scan_float f tag dd ds is_ascii = Ok (f', dd') ->
  exists key xs, dd' = Py.dict_set dd key (Arr1 xs) /\ Z.of_nat (length xs) = n.
Proof.
  intros Ht H1 H2 H.
  destruct (Z_lt_dec n 0) as [Hneg|Hpos].
  { unfold _read_data in H. rewrite Ht in H. simpl in H.
    rewrite H1 in H. simpl in H. rewrite H2 in H. simpl in H.
    destruct (Z.ltb_spec n 0); [discriminate|lia]. }
  rewrite (IndexCheckSpec.read_data_after_tags scan_float f tag dd ds is_ascii
             st it f1 1 n Ht H1 H2) in H by lia.
  cbv zeta in H. change (Z.to_nat 1) with 1%nat in H.
  assert (Hstore : forall rows f2,
             length rows = Z.to_nat n ->
             store_field f2 tag st dd 1 rows = Ok (f', dd') ->
             exists key xs,
               dd' = Py.dict_set dd key (Arr1 xs) /\ Z.of_nat (length xs) = n).
  { intros rows f2 Hlen Hs. unfold store_field in Hs.
    destruct (Py.skip_to_line _ f2) as [f3| |]; simpl in Hs; try discriminate.
    destruct (Py.index st 0) as [key| |]; simpl in Hs; try discriminate.
    injection Hs as <- <-. exists key, (column0 rows). split; [reflexivity|].
    unfold column0. rewrite List.length_map. unfold float64, scalar in *. lia. }
  destruct is_ascii.
  - destruct (fromfile_text _ _ f1) as [flat f2]. unfold reshape in H.
    destruct (_ =? _)%nat; simpl in H; [|discriminate].
    eapply Hstore; [|exact H]. now rewrite List.length_map, length_rows_of.
  - destruct (fromfile_records _ _ f1) as [recs f2] eqn:Er.
    destruct (fromfile_records_length _ _ _ _ _ Er) as [Hle Hshort].
    destruct (Nat.eq_dec (length recs) (Z.to_nat n)) as [Heq|Hne].
    + rewrite IndexCheckSpec.index_check_full in H by now rewrite List.length_map.
      destruct (decide _); simpl in H; [|discriminate].
      eapply Hstore; [|exact H]. rewrite List.length_map. exact Heq.
    + rewrite (Hshort ltac:(lia)) in H. unfold index_check in H.
      rewrite List.length_map in H.
      destruct (Nat.eqb_spec (length recs) (Z.to_nat n)); [contradiction|].
      destruct (Nat.eqb_spec (length recs) 1).
      * destruct (forallb _ _) eqn:Eb; simpl in H; [|discriminate].
        apply broadcast_index in Eb. lia.
      * destruct (Nat.eqb_spec (Z.to_nat n) 1); simpl in H; [|discriminate].
        destruct (forallb _ _); simpl in H; [|discriminate].
        unfold store_field in H. rewrite skip_to_line_eof in H by discriminate.
        discriminate.
Qed.

(** What the writer lays out for a one-component field, the reader reads
    back as the flat array of the doubles of its entries. *)
Lemma read_scalar_section (tag name : string) (xs : list scalar)
    (dd : list (string * ndarray)) (ds : Z) (binary : bool) :
  plain_name name = true -> Py.utf8_valid name = true ->
  no_space tag = true -> Py.utf8_valid tag = true ->
  (binary = true ->
   Forall (fun x => is_pattern (to_double x)) xs /\ Z.of_nat (length xs) < 2 ^ 31) ->
  (binary = false ->
   Forall (scans_value repr to_double scan_float) xs
   /\ forall k, (0 < k <= length xs)%nat -> scans_index scan_float (Z.of_nat k)) ->
  _read_data scan_float (scalar_section repr to_double tag name xs binary) tag dd ds
    (negb binary)
  = Ok ("", Py.dict_set dd name (Arr1 (map to_double xs))).
Proof.
  intros Hname Hvname Htag Hvtag Hbin Hasc.
  destruct (plain_name_spec name Hname) as [Hnl Hq].
  assert (Hm : no_space ("$End" +:+ tag) = true)
    by (apply no_space_after_ascii; [reflexivity|exact Htag]).
  assert (Hvm : Py.utf8_valid ("$End" +:+ tag) = true) by exact Hvtag.
  unfold scalar_section.
  set (body := scalar_payload repr to_double xs binary +:+ line ("$End" +:+ tag)).
  assert (Ht : read_tags (tags_text name 1 (Z.of_nat (length xs)) +:+ body)
               = Ok ([name], [0; 1; Z.of_nat (length xs)], body)).
  { rewrite read_tags_written by (assumption || lia). now rewrite Hq. }
  rewrite (IndexCheckSpec.read_data_after_tags scan_float _ tag dd ds (negb binary)
             _ _ _ 1 (Z.of_nat (length xs)) Ht eq_refl eq_refl) by lia.
  cbv zeta. rewrite Nat2Z.id. change (Z.to_nat 1) with 1%nat.
  subst body. unfold scalar_payload, payload. destruct binary; cbn [negb].
  - destruct (Hbin eq_refl) as [Hpat Hlen].
    rewrite PyFacts.app_assoc.
    rewrite <- (List.length_map (fun x => [x]) xs).
    change (imap (binary_record to_double) (map (fun x => [x]) xs))
      with (imap (fun k => binary_record to_double (0 + k)) (map (fun x => [x]) xs)).
    rewrite fromfile_records_written.
    + rewrite IndexCheckSpec.index_check_full
        by (rewrite List.length_map, length_imap; reflexivity).
      destruct (indices_written (map to_double) (map (fun x => [x]) xs) 0) as [Hi Hv].
      rewrite Hi, Hv. rewrite decide_True by reflexivity. cbn [negb mbind result_bind].
      unfold store_field.
      rewrite <- (PyFacts.app_nil_r (line ("$End" +:+ tag))).
      rewrite skip_to_line_after_blank by (assumption || discriminate).
      cbn [mbind result_bind Py.index nth_error]. unfold squeeze. cbn [Nat.eqb].
      rewrite map_map. cbn [map]. now rewrite column0_singletons_of.
    + clear -Hpat. induction Hpat as [|x l Hx Hl IH]; cbn [map]; constructor;
        [|assumption].
      split; [reflexivity|now constructor].
    + rewrite List.length_map. simpl. lia.
  - destruct (Hasc eq_refl) as [Hval Hidx].
    destruct (fromfile_text_scalars repr to_double scan_float xs 0
                (line ("$End" +:+ tag)))
      as (flat & Hflat & Hlen & Hrows); [assumption|exact Hidx|reflexivity|].
    change (imap (ascii_line repr) (map (fun x => [x]) xs))
      with (imap (fun k => ascii_line repr (0 + k)) (map (fun x => [x]) xs)).
    rewrite Hflat. unfold reshape.
    rewrite (proj2 (Nat.eqb_eq _ _) Hlen). cbn [mbind result_bind].
    rewrite Hrows. unfold store_field.
    rewrite <- (PyFacts.app_nil_r (line ("$End" +:+ tag))).
    rewrite skip_to_line_marker by assumption.
    cbn [mbind result_bind Py.index nth_error]. unfold squeeze. cbn [Nat.eqb].
    now rewrite column0_singletons_of.
Qed.

(** Written again as doubles in binary mode, or in ASCII mode when the
    doubles print as the entries did, the section is the same. *)
Lemma scalar_section_again (tag name : string) (xs : list scalar) (binary : bool) :
  binary = true \/ Forall (fun x => repr64 (to_double x) = repr x) xs ->
  scalar_section repr64 as_double tag name (map to_double xs) binary
  = scalar_section repr to_double tag name xs binary.
Proof.
  intros H. unfold scalar_section, scalar_payload, payload.
  rewrite List.length_map. do 2 f_equal. rewrite map_map.
  destruct binary.
  - do 2 f_equal. clear H.
    assert (Hgen : forall k0,
               imap (fun k => binary_record as_double (k0 + k))
                 (map (fun x => [to_double x]) xs)
               = imap (fun k => binary_record to_double (k0 + k))
                   (map (fun x => [x]) xs)).
    { induction xs as [|x xs IH]; intros k0; [reflexivity|].
      cbn [map imap]. f_equal.
      rewrite (imap_ext _ (fun k => binary_record as_double (S k0 + k)))
        by (intros i y _; simpl; f_equal; lia).
      rewrite (imap_ext ((fun k => binary_record to_double (k0 + k)) ∘ S)
                 (fun k => binary_record to_double (S k0 + k)))
        by (intros i y _; simpl; f_equal; lia).
      apply IH. }
    exact (Hgen 0%nat).
  - destruct H as [H|H]; [discriminate|]. f_equal.
    assert (Hgen : forall k0,
               imap (fun k => ascii_line repr64 (k0 + k))
                 (map (fun x => [to_double x]) xs)
               = imap (fun k => ascii_line repr (k0 + k)) (map (fun x => [x]) xs)).
    { induction H as [|x xs Hx Hxs IH]; intros k0; [reflexivity|].
      cbn [map imap]. f_equal.
      - unfold ascii_line. cbn [map]. now rewrite Hx.
      - rewrite (imap_ext _ (fun k => ascii_line repr64 (S k0 + k)))
          by (intros i y _; simpl; f_equal; lia).
        rewrite (imap_ext ((fun k => ascii_line repr (k0 + k)) ∘ S)
                   (fun k => ascii_line repr (S k0 + k)))
          by (intros i y _; simpl; f_equal; lia).
        apply IH. }
    exact (Hgen 0%nat).
Qed.

(** C6, as amended.  A field of shape [(N, 1)] is written as the field of
    shape [(N,)] with the same entries is, and that is a section
    announcing one component and [N] items; a section that announces one
    component is read, whenever it is read to its end, as a 1-D array with
    as many entries as it announces; and what the writer lays out for a
    one-component field reads back as the flat array of its entries as
    doubles.  That array, written again, gives a one-component section
    with the doubles printed as doubles; it is the very same section in
    binary mode, and in ASCII mode when every entry printed in the dtype
    of the field as its double prints.  (The round trip is for a name and
    a tag that survive their lines, and for number codecs that agree on
    the entries: in binary mode doubles that are 64-bit patterns and fewer
    than [2^31] of them, in ASCII mode a scanner that reads the printed
    entries and record numbers.) *)
Theorem shape_collapse_round_trip :
  (forall fh tag name rows binary,
      _write_data repr to_double fh tag name (Arr2 1 rows) binary
      = _write_data repr to_double fh tag name (Arr1 (column0 rows)) binary)
  /\ (forall fh tag name xs binary,
         _write_data repr to_double fh tag name (Arr1 xs) binary
         = (fh +:+ line ("$" +:+ tag)
               +:+ tags_text name 1 (Z.of_nat (length xs))
               +:+ scalar_payload repr to_double xs binary
               +:+ line ("$End" +:+ tag),
            Ok tt))
  /\ (forall f tag dd ds is_ascii st it f1 n f' dd',
         read_tags f = Ok (st, it, f1) ->
         Py.index it 1 = Ok 1 ->
         Py.index it 2 = Ok n ->
         _read_data scan_float f tag dd ds is_ascii = Ok (f', dd') ->
         exists key xs,
           dd' = Py.dict_set dd key (Arr1 xs) /\ Z.of_nat (length xs) = n)
  /\ (forall tag name data dd ds binary,
         num_components_of data = 1 ->
         plain_name name = true -> Py.utf8_valid name = true ->
         no_space tag = true -> Py.utf8_valid tag = true ->
         (binary = true ->
          Forall (fun x => is_pattern (to_double x)) (scalars data)
          /\ Z.of_nat (length (scalars data)) < 2 ^ 31) ->
         (binary = false ->
          Forall (scans_value repr to_double scan_float) (scalars data)
          /\ forall k, (0 < k <= length (scalars data))%nat ->
                       scans_index scan_float (Z.of_nat k)) ->
         let section := scalar_section repr to_double tag name (scalars data) binary in
         let back := map to_double (scalars data) in
         _write_data repr to_double "" tag name data binary
         = (line ("$" +:+ tag) +:+ section, Ok tt)
         /\ _read_data scan_float section tag dd ds (negb binary)
            = Ok ("", Py.dict_set dd name (Arr1 back))
         /\ _write_data repr64 as_double "" tag name (Arr1 back) binary
            = (line ("$" +:+ tag)
                 +:+ scalar_section repr64 as_double tag name back binary,
               Ok tt)
         /\ (binary = true
             \/ Forall (fun x => repr64 (to_double x) = repr x) (scalars data) ->
             scalar_section repr64 as_double tag name back binary = section)).
Proof.
  split; [reflexivity|]. split; [exact (write_data_scalars repr to_double)|].
  split; [exact read_one_component|].
  intros tag name data dd ds binary Hnc Hname Hvname Htag Hvtag Hbin Hasc section back.
  assert (Hw : _write_data repr to_double "" tag name data binary
               = _write_data repr to_double "" tag name (Arr1 (scalars data)) binary).
  { destruct data as [xs|m rows]; [reflexivity|].
    unfold num_components_of in Hnc. simpl in Hnc.
    assert (m = 1%nat) as -> by lia. reflexivity. }
  rewrite Hw. split; [apply (write_data_scalars repr to_double "")|].
  split; [now apply read_scalar_section|].
  split; [apply (write_data_scalars repr64 as_double "")|].
  apply scalar_section_again.
Qed.

End RoundTrip.

Lemma shape_collapse_round_trip_witness :
  (let section := scalar_section int_repr double_of_whole "NodeData" "p" [5; 7] true in
   let back := map double_of_whole [5; 7] in
   _write_data int_repr double_of_whole "" "NodeData" "p" (Arr2 1 [[5]; [7]]) true
   = (line "$NodeData" +:+ section, Ok tt)
   /\ _read_data scan_whole section "NodeData" [] 8 false
      = Ok ("", [("p", Arr1 back)])
   /\ _write_data float_repr as_double "" "NodeData" "p" (Arr1 back) true
      = (line "$NodeData"
           +:+ scalar_section float_repr as_double "NodeData" "p" back true,
         Ok tt)
   /\ (true = true
       \/ Forall (fun x => float_repr (double_of_whole x) = int_repr x) [5; 7] ->
       scalar_section float_repr as_double "NodeData" "p" back true = section))
  /\ (let xs := map double_of_whole [5; 7] in
      let section := scalar_section float_repr as_double "NodeData" "p" xs false in
      _write_data float_repr as_double "" "NodeData" "p" (Arr1 xs) false
      = (line "$NodeData" +:+ section, Ok tt)
      /\ _read_data scan_whole section "NodeData" [] 8 true
         = Ok ("", [("p", Arr1 (map as_double xs))])
      /\ _write_data float_repr as_double "" "NodeData" "p" (Arr1 (map as_double xs))
           false
         = (line "$NodeData"
              +:+ scalar_section float_repr as_double "NodeData" "p"
                    (map as_double xs) false,
            Ok tt)
      /\ (false = true
          \/ Forall (fun x => float_repr (as_double x) = float_repr x) xs ->
          scalar_section float_repr as_double "NodeData" "p" (map as_double xs) false
          = section)).
Proof.
  split.
  - apply (proj2 (proj2 (proj2 (shape_collapse_round_trip int_repr double_of_whole
                                  float_repr scan_whole)))
             "NodeData" "p" (Arr2 1 [[5]; [7]]) [] 8 true);
      try reflexivity; [|discriminate].
    intros _. split; [|simpl; lia].
    simpl. repeat (constructor; [unfold is_pattern; vm_compute; split; congruence|]).
    constructor.
  - apply (proj2 (proj2 (proj2 (shape_collapse_round_trip float_repr as_double
                                  float_repr scan_whole)))
             "NodeData" "p" (Arr1 (map double_of_whole [5; 7])) [] 8 false);
      try reflexivity; [discriminate|].
    intros _. split.
    + repeat (constructor;
                [split; [vm_compute; reflexivity|intros rest; vm_compute; reflexivity]|]).
      constructor.
    + intros k Hk. simpl in Hk.
      assert (k = 1 \/ k = 2)%nat as [-> | ->] by lia;
        intros rest; eexists; reflexivity.
Defined.

(** C6 as stated fails for a field of integers in ASCII mode: the entry 5
    is written [1 5], it is read back as the double 5.0, and the array
    read back is written [1 5.0]; the second section is not the first. *)
Lemma shape_collapse_integer_counterexample :
  let first := "1" +:+ Py.nl +:+ String Py.dquote "p" +:+ String Py.dquote Py.nl
               +:+ "1" +:+ Py.nl +:+ "0.0" +:+ Py.nl
               +:+ "3" +:+ Py.nl +:+ "0" +:+ Py.nl +:+ "1" +:+ Py.nl +:+ "1" +:+ Py.nl
               +:+ "1 5" +:+ Py.nl +:+ "$EndNodeData" +:+ Py.nl in
  let again := "1" +:+ Py.nl +:+ String Py.dquote "p" +:+ String Py.dquote Py.nl
               +:+ "1" +:+ Py.nl +:+ "0.0" +:+ Py.nl
               +:+ "3" +:+ Py.nl +:+ "0" +:+ Py.nl +:+ "1" +:+ Py.nl +:+ "1" +:+ Py.nl
               +:+ "1 5.0" +:+ Py.nl +:+ "$EndNodeData" +:+ Py.nl in
  _write_data int_repr double_of_whole "" "NodeData" "p" (Arr1 [5]) false
  = ("$NodeData" +:+ Py.nl +:+ first, Ok tt)
  /\ _read_data scan_whole first "NodeData" [] 8 true
     = Ok ("", [("p", Arr1 [double_of_whole 5])])
  /\ double_of_whole 5 = 4617315517961601024
  /\ _write_data float_repr as_double "" "NodeData" "p" (Arr1 [double_of_whole 5]) false
     = ("$NodeData" +:+ Py.nl +:+ again, Ok tt)
  /\ again <> first.
Proof.
  cbv zeta. split; [reflexivity|]. split; [reflexivity|]. split; [reflexivity|].
  split; [reflexivity|]. vm_compute. intros H. discriminate H.
Qed.

End RoundTripSpec.

(** ** The XDMF reader: where the mesh grid is found *)

Module MeshGridSpec.
Import Xdmf XdmfTerms.

Lemma last_of_grid_type_ok (ty : string) (grids : list element)
    (found r : option element) :
  last_of_grid_type ty grids found = Ok r ->
  forall ty' found',
    last_of_grid_type ty' grids found'
    = Ok (match last (List.filter (grid_type_is ty') grids) with
          | Some g => Some g
          | None => found'
          end).
Proof.
  revert found r. induction grids as [|g grids IH]; intros found r H ty' found'.
  - reflexivity.
  - cbn [last_of_grid_type List.filter] in *.
    assert (E : grid_type_is ty' g
                = match Py.dict_get (attrib g) "GridType" with
                  | Ok t => String.eqb t ty'
                  | _ => false
                  end) by reflexivity.
    rewrite E. clear E.
    destruct (Py.dict_get (attrib g) "GridType") as [t| |]; try discriminate.
    cbn [mbind result_bind] in *.
    rewrite (IH _ _ H ty'). destruct (String.eqb t ty'); [|reflexivity].
    destruct (List.filter (grid_type_is ty') grids) as [|g' l]; [reflexivity|].
    change (last (g :: g' :: l)) with (last (g' :: l)).
    destruct (PyFacts.last_cons_some g' l) as [y ->]. reflexivity.
Qed.

Lemma first_uniform_head (collection : list element) :
  first_uniform collection = head (List.filter (grid_type_is "Uniform") collection).
Proof.
  induction collection as [|g l IH]; [reflexivity|].
  cbn [first_uniform List.filter].
  assert (E : grid_type_is "Uniform" g
              = match Py.dict_get (attrib g) "GridType" with
                | Ok t => String.eqb t "Uniform"
                | _ => false
                end) by reflexivity.
  rewrite E. clear E.
  destruct (Py.dict_get (attrib g) "GridType") as [t| |]; try exact IH.
  destruct (String.eqb t "Uniform"); [reflexivity|exact IH].
Qed.

Lemma reader_init_search (filename : string) (root domain collection_grid : element) :
  opens_on root domain collection_grid ->
  reader_init filename root
  = match
      match last (uniform_siblings domain) with
      | Some g => Some g
      | None => head (uniform_nested collection_grid)
      end
    with
    | Some g => opened_with filename domain collection_grid g
    | None => Raise (ReadError "Couldn't find the mesh grid")
    end.
Proof.
  intros (Hroot & (version & Hv & Hmajor) & Hdom & Htag & Hcoll & Hgrid & Htemp).
  unfold reader_init.
  rewrite Hroot, String.eqb_refl, Hv. cbn [negb mbind result_bind].
  rewrite Hmajor, String.eqb_refl. cbn [negb].
  rewrite Hdom, Htag, String.eqb_refl. cbn [negb].
  rewrite Hcoll. cbn [mbind result_bind].
  rewrite Hgrid, String.eqb_refl. cbn [negb].
  rewrite Htemp. cbn [mbind result_bind].
  rewrite String.eqb_refl. cbn [negb].
  rewrite (last_of_grid_type_ok _ _ _ _ Hcoll "Uniform" None).
  cbn [mbind result_bind]. rewrite first_uniform_head.
  fold (uniform_siblings domain). fold (uniform_nested collection_grid).
  unfold opened_with.
  destruct (last (uniform_siblings domain)) as [g|].
  - destruct (String.eqb (tag g) "Grid"); reflexivity.
  - destruct (head (uniform_nested collection_grid)) as [g|]; [|reflexivity].
    destruct (String.eqb (tag g) "Grid"); reflexivity.
Qed.

(** C5.  On a document that passes the checks made before the search, the
    mesh grid is the last child of the domain of grid type [Uniform] when
    there is one, whatever the collection holds; only when the domain has
    no such child is it the first grid of type [Uniform] inside the
    collection; and when there is neither, [__init__] raises [ReadError].
    (The grid found must be a [Grid] element, else [ReadError]; the call
    returns the reader or raises, and has no other output.) *)
Theorem mesh_grid_search (filename : string) (root domain collection_grid : element) :
  opens_on root domain collection_grid ->
  (forall g, last (uniform_siblings domain) = Some g ->
             reader_init filename root
             = opened_with filename domain collection_grid g)
  /\ (uniform_siblings domain = [] ->
      forall g rest, uniform_nested collection_grid = g :: rest ->
                     reader_init filename root
                     = opened_with filename domain collection_grid g)
  /\ (uniform_siblings domain = [] -> uniform_nested collection_grid = [] ->
      reader_init filename root = Raise (ReadError "Couldn't find the mesh grid")).
Proof.
  intros H. rewrite (reader_init_search filename root domain collection_grid H).
  split; [|split].
  - intros g ->. reflexivity.
  - intros -> g rest ->. reflexivity.
  - intros -> ->. reflexivity.
Qed.

Lemma sample_opens_on (grids : list element) (coll : element) :
  last_of_grid_type "Collection" grids None = Ok (Some coll) ->
  tag coll = "Grid" ->
  Py.dict_get (attrib coll) "CollectionType" = Ok "Temporal" ->
  opens_on (sample_document grids) (Element "Domain" [] None grids) coll.
Proof.
  intros H1 H2 H3. unfold opens_on.
  repeat split; try assumption. exists "3.0". split; reflexivity.
Qed.

Lemma mesh_grid_search_witness :
  (let nested := sample_grid "frame" "Uniform" [] in
   let coll := sample_collection [nested] in
   let sib := sample_grid "mesh" "Uniform" [] in
   let dom := Element "Domain" [] None [sib; coll] in
   reader_init "a.xdmf" (sample_document [sib; coll])
   = opened_with "a.xdmf" dom coll sib)
  /\ (let nested := sample_grid "frame" "Uniform" [] in
      let coll := sample_collection [sample_grid "t" "Tree" []; nested] in
      let dom := Element "Domain" [] None [coll] in
      reader_init "a.xdmf" (sample_document [coll])
      = opened_with "a.xdmf" dom coll nested)
  /\ (let coll := sample_collection [sample_grid "t" "Tree" []] in
      reader_init "a.xdmf" (sample_document [coll])
      = Raise (ReadError "Couldn't find the mesh grid")).
Proof.
  split; [|split]; cbv zeta.
  - apply (mesh_grid_search "a.xdmf"
             (sample_document
                [sample_grid "mesh" "Uniform" [];
                 sample_collection [sample_grid "frame" "Uniform" []]])
             (Element "Domain" [] None
                [sample_grid "mesh" "Uniform" [];
                 sample_collection [sample_grid "frame" "Uniform" []]])
             (sample_collection [sample_grid "frame" "Uniform" []])).
    + apply sample_opens_on; reflexivity.
    + reflexivity.
  - apply (proj2 (mesh_grid_search "a.xdmf"
             (sample_document
                [sample_collection
                   [sample_grid "t" "Tree" []; sample_grid "frame" "Uniform" []]])
             (Element "Domain" [] None
                [sample_collection
                   [sample_grid "t" "Tree" []; sample_grid "frame" "Uniform" []]])
             (sample_collection
                [sample_grid "t" "Tree" []; sample_grid "frame" "Uniform" []])
             ltac:(apply sample_opens_on; reflexivity))) with (rest := []);
      reflexivity.
  - apply (proj2 (mesh_grid_search "a.xdmf"
             (sample_document [sample_collection [sample_grid "t" "Tree" []]])
             (Element "Domain" [] None
                [sample_collection [sample_grid "t" "Tree" []]])
             (sample_collection [sample_grid "t" "Tree" []])
             ltac:(apply sample_opens_on; reflexivity)));
      reflexivity.
Defined.

End MeshGridSpec.

(** ** Calls and the state they leave *)

Module MonadFacts.
Import Xdmf MonadTerms.

Lemma bind_run {S A B : Type} (m : M S A) (k : A -> M S B) (s : S) :
  (m ≫= k) s
  = match m s with
    | (s', Ok a) => k a s'
    | (s', Raise e) => (s', Raise e)
    | (s', Hang) => (s', Hang)
    end.
Proof. reflexivity. Qed.

Lemma bind_ok {S A B : Type} (m : M S A) (k : A -> M S B) (s s' : S) (a : A) :
  m s = (s', Ok a) -> (m ≫= k) s = k a s'.
Proof. intros H. rewrite bind_run, H. reflexivity. Qed.

Lemma bind_raise {S A B : Type} (m : M S A) (k : A -> M S B) (s s' : S) (e : exn) :
  m s = (s', Raise e) -> (m ≫= k) s = (s', Raise e).
Proof. intros H. rewrite bind_run, H. reflexivity. Qed.

Lemma bind_ok_inv_M {S A B : Type} (m : M S A) (k : A -> M S B) (s s2 : S) (b : B) :
  (m ≫= k) s = (s2, Ok b) ->
  exists s1 a, m s = (s1, Ok a) /\ k a s1 = (s2, Ok b).
Proof.
  rewrite bind_run. destruct (m s) as [s1 [a|e|]]; intros H; try discriminate.
  eauto.
Qed.

Section Unchanged.
Context {S X : Type} (f : S -> X).

Lemma unchanged_bind {A B : Type} (m : M S A) (k : A -> M S B) :
  unchanged f m -> (forall a, unchanged f (k a)) -> unchanged f (m ≫= k).
Proof.
  intros Hm Hk s. rewrite bind_run. specialize (Hm s).
  destruct (m s) as [s' [a|e|]]; simpl in *; [|assumption|assumption].
  now rewrite Hk.
Qed.

Lemma unchanged_ret {A : Type} (a : A) : unchanged f (mret a : M S A).
Proof. intros s. reflexivity. Qed.

Lemma unchanged_lift {A : Type} (r : result A) : unchanged f (lift r : M S A).
Proof. intros s. reflexivity. Qed.

Lemma unchanged_raise {A : Type} (e : exn) : unchanged f (raise e : M S A).
Proof. intros s. reflexivity. Qed.

Lemma unchanged_get : unchanged f (get : M S S).
Proof. intros s. reflexivity. Qed.

Lemma unchanged_modify (g : S -> S) :
  (forall s, f (g s) = f s) -> unchanged f (modify g).
Proof. intros H s. apply H. Qed.

End Unchanged.

(** One step of a proof that a call leaves a part of the state alone. *)
Ltac unchanged_step :=
  lazymatch goal with
  | |- unchanged _ (_ ≫= _) => apply unchanged_bind; [|intros ?]
  | |- unchanged _ (mret _) => apply unchanged_ret
  | |- unchanged _ (lift _) => apply unchanged_lift
  | |- unchanged _ (raise _) => apply unchanged_raise
  | |- unchanged _ get => apply unchanged_get
  | |- unchanged _ (if ?b then _ else _) => destruct b
  | |- unchanged _ (match ?x with _ => _ end) => destruct x
  end.

End MonadFacts.

(** ** The XDMF reader: frames after the mesh *)

Module ReadDataSpec.
Import Xdmf XdmfTerms MonadTerms MonadFacts.

Lemma in_world_keeps_self {X A : Type} (g : reader -> X) (m : M world A) :
  unchanged (fun s : rstate => g (fst s)) (in_world m).
Proof. intros [r w]. unfold in_world. simpl. destruct (m w). reflexivity. Qed.

Ltac self_step :=
  first
    [ unchanged_step
    | apply in_world_keeps_self
    | apply unchanged_modify; intros ?; reflexivity
    | progress cbv zeta ].

Section ReadData.
Variable xdmf_to_numpy_type : string -> string -> option string.
Variable xdmf_to_meshio_type : list (string * string).
Variable translate_mixed_cells : ndarray -> result cells_dict.
Variable cell_data : Type.
Variable cell_data_from_raw : cells_dict -> list (string * ndarray) -> result cell_data.
Variable numpy_array : list string -> string -> result ndarray.
Variable numpy_fromfile : string -> string -> result ndarray.
Variable float_of_str : string -> result Z.

Abbreviation item := (_read_data_item xdmf_to_numpy_type numpy_array numpy_fromfile).
Abbreviation frame_loop :=
  (read_data_loop xdmf_to_numpy_type numpy_array numpy_fromfile float_of_str).
Abbreviation read_frame :=
  (read_data xdmf_to_numpy_type cell_data cell_data_from_raw numpy_array
     numpy_fromfile float_of_str).
Abbreviation read_mesh :=
  (read_points_cells xdmf_to_numpy_type xdmf_to_meshio_type translate_mixed_cells
     numpy_array numpy_fromfile).

Lemma item_keeps_cells (e : element) :
  unchanged (fun s : rstate => r_cells (fst s)) (item e).
Proof. unfold _read_data_item. repeat self_step. Qed.

Lemma attribute_keeps_cells (c : element) (pd cdr : list (string * ndarray)) :
  unchanged (fun s : rstate => r_cells (fst s))
    (read_attribute xdmf_to_numpy_type numpy_array numpy_fromfile c pd cdr).
Proof.
  unfold read_attribute. repeat self_step; apply item_keeps_cells.
Qed.

Lemma loop_keeps_cells (cs : list element) (t : option Z)
    (pd cdr : list (string * ndarray)) :
  unchanged (fun s : rstate => r_cells (fst s)) (frame_loop cs t pd cdr).
Proof.
  revert t pd cdr. induction cs as [|c cs IH]; intros t pd cdr;
    cbn [read_data_loop].
  - apply unchanged_ret.
  - repeat self_step; try apply IH. apply attribute_keeps_cells.
Qed.

(** The time that the loop over a frame's children ends with: that of the
    last [Time] child, or the one it started with. *)
Lemma loop_time (cs : list element) (t0 : option Z)
    (pd cdr : list (string * ndarray)) (s s' : rstate)
    (t : option Z) (pd' cdr' : list (string * ndarray)) :
  frame_loop cs t0 pd cdr s = (s', Ok (t, pd', cdr')) ->
  match last (List.filter (fun c => String.eqb (tag c) "Time") cs) with
  | None => t = t0
  | Some c =>
      exists v x, Py.dict_get (attrib c) "Value" = Ok v
                  /\ float_of_str v = Ok x /\ t = Some x
  end.
Proof.
  revert t0 pd cdr s. induction cs as [|c cs IH]; intros t0 pd cdr s;
    cbn [read_data_loop List.filter].
  - intros [= <- <- <- <-]. reflexivity.
  - destruct (String.eqb (tag c) "Time") eqn:Et.
    + intros H. apply bind_ok_inv_M in H as (s1 & v & Hv & H).
      apply bind_ok_inv_M in H as (s2 & x & Hx & H).
      unfold lift in Hv, Hx. injection Hv as <- Hv. injection Hx as <- Hx.
      specialize (IH _ _ _ _ H).
      destruct (List.filter _ cs) as [|c' l] eqn:Ef.
      * simpl in *. exists v, x. auto.
      * change (last (c :: c' :: l)) with (last (c' :: l)).
        destruct (PyFacts.last_cons_some c' l) as [y Hy]. rewrite Hy in *. exact IH.
    + destruct (String.eqb (tag c) "Attribute").
      * intros H. apply bind_ok_inv_M in H as (s1 & [pd1 cdr1] & _ & H).
        exact (IH _ _ _ _ H).
      * apply IH.
Qed.

Lemma read_points_cells_sets_cells (s s' : rstate)
    (r : option ndarray * cells_dict) :
  read_mesh s = (s', Ok r) -> r_cells (fst s') = Some (snd r).
Proof.
  unfold read_points_cells. destruct s as [self w]. rewrite bind_run. simpl.
  rewrite bind_run.
  destruct (read_points_cells_loop _ _ _ _ _ _ _ _ _) as [s1 [[pts cs]| |]];
    try discriminate.
  simpl. intros [= <- <-]. reflexivity.
Qed.

(** What [read_data] does once the loop over the children of the frame has
    ended normally. *)
Lemma read_data_after_loop (k : Z) (s s' : rstate) (frame : element)
    (t : option Z) (pd cdr : list (string * ndarray)) :
  Py.getitem (r_collection (fst s)) k = Ok frame ->
  frame_loop (children frame) None [] [] s = (s', Ok (t, pd, cdr)) ->
  read_frame k s
  = match r_cells (fst s) with
    | None => (s', Raise (ReadError ""))
    | Some cells =>
        match cell_data_from_raw cells cdr with
        | Ok cd =>
            match t with
            | None => (s', Raise (ReadError ""))
            | Some t => (s', Ok (t, pd, cd))
            end
        | Raise e => (s', Raise e)
        | Hang => (s', Hang)
        end
    end.
Proof.
  intros Hk Hloop. pose proof (loop_keeps_cells (children frame) None [] [] s) as Hc.
  rewrite Hloop in Hc. simpl in Hc. rewrite <- Hc.
  unfold read_data. destruct s as [self w]. rewrite bind_run. simpl.
  simpl in Hk. rewrite bind_run. unfold lift at 1. rewrite Hk.
  rewrite bind_run, Hloop. rewrite bind_run. destruct s' as [self' w']. simpl.
  destruct (r_cells self') as [cells|]; [|reflexivity].
  rewrite bind_run. unfold lift. destruct (cell_data_from_raw cells cdr); try reflexivity.
  destruct t; reflexivity.
Qed.

Lemma read_data_loop_inv (k : Z) (s s' : rstate)
    (v : Z * list (string * ndarray) * cell_data) :
  read_frame k s = (s', Ok v) ->
  exists frame s1 t pd cdr,
    Py.getitem (r_collection (fst s)) k = Ok frame
    /\ frame_loop (children frame) None [] [] s = (s1, Ok (t, pd, cdr)).
Proof.
  unfold read_data. destruct s as [self w]. rewrite bind_run. simpl.
  intros H. apply bind_ok_inv_M in H as (s1 & frame & Hf & H).
  unfold lift in Hf. injection Hf as <- Hf.
  apply bind_ok_inv_M in H as (s2 & [[t pd] cdr] & Hl & H).
  exists frame, s2, t, pd, cdr. auto.
Qed.

(** C9.  Before [read_points_cells] has set the cells, [read_data] never
    returns: where the loop over the frame ends normally it raises
    [ReadError].  A [read_points_cells] that returns has set the cells.
    With the cells set, on a frame whose children are read without error,
    [read_data] returns the time of the frame, the value of its last
    [Time] child, with the point data and the cell data; and on a frame
    with no [Time] child it never returns, and raises [ReadError] where
    nothing else does before. *)
Theorem read_data_ordering (s : rstate) (k : Z) :
  (r_cells (fst s) = None ->
   (forall s' v, read_frame k s <> (s', Ok v))
   /\ (forall frame s' t pd cdr,
          Py.getitem (r_collection (fst s)) k = Ok frame ->
          frame_loop (children frame) None [] [] s = (s', Ok (t, pd, cdr)) ->
          read_frame k s = (s', Raise (ReadError ""))))
  /\ (forall s0 r, read_mesh s0 = (s, Ok r) -> r_cells (fst s) = Some (snd r))
  /\ (forall cells frame s' t pd cdr cd,
         r_cells (fst s) = Some cells ->
         Py.getitem (r_collection (fst s)) k = Ok frame ->
         frame_loop (children frame) None [] [] s = (s', Ok (t, pd, cdr)) ->
         cell_data_from_raw cells cdr = Ok cd ->
         match last (time_children frame) with
         | Some c =>
             exists v x,
               Py.dict_get (attrib c) "Value" = Ok v
               /\ float_of_str v = Ok x
               /\ read_frame k s = (s', Ok (x, pd, cd))
         | None => read_frame k s = (s', Raise (ReadError ""))
         end)
  /\ (forall frame,
         Py.getitem (r_collection (fst s)) k = Ok frame ->
         time_children frame = [] ->
         forall s' v, read_frame k s <> (s', Ok v)).
Proof.
  split; [|split; [|split]].
  - intros Hnone. split.
    + intros s' v H.
      destruct (read_data_loop_inv _ _ _ _ H) as (frame & s1 & t & pd & cdr & Hk & Hl).
      rewrite (read_data_after_loop k s s1 frame t pd cdr Hk Hl), Hnone in H.
      discriminate.
    + intros frame s' t pd cdr Hk Hl.
      now rewrite (read_data_after_loop k s s' frame t pd cdr Hk Hl), Hnone.
  - intros s0 r. apply read_points_cells_sets_cells.
  - intros cells frame s' t pd cdr cd Hc Hk Hl Hcd.
    rewrite (read_data_after_loop k s s' frame t pd cdr Hk Hl), Hc, Hcd.
    pose proof (loop_time _ _ _ _ _ _ _ _ _ Hl) as Ht.
    unfold time_children.
    destruct (last (List.filter _ (children frame))) as [c|].
    + destruct Ht as (v & x & Hv & Hx & ->). eauto.
    + now rewrite Ht.
  - intros frame Hk Hno s' v H.
    destruct (read_data_loop_inv _ _ _ _ H) as (frame' & s1 & t & pd & cdr & Hk' & Hl).
    rewrite Hk in Hk'. injection Hk' as <-.
    pose proof (loop_time _ _ _ _ _ _ _ _ _ Hl) as Ht.
    unfold time_children in Hno. rewrite Hno in Ht. simpl in Ht. subst t.
    rewrite (read_data_after_loop k s s1 frame None pd cdr Hk Hl) in H.
    destruct (r_cells (fst s)); [|discriminate].
    destruct (cell_data_from_raw _ _); discriminate.
Qed.

End ReadData.

Lemma read_data_ordering_witness :
  let read k s :=
    read_data (fun _ _ => None) unit (fun _ _ => Ok tt) (fun _ _ => Raise TypeError)
      (fun _ _ => Raise OSError) Py.int_of_str k s in
  let timed := sample_frame [Element "Time" [("Value", "3")] None []] in
  let untimed := sample_frame [] in
  read 0 (sample_reader [timed; untimed] None, empty_world)
  = ((sample_reader [timed; untimed] None, empty_world), Raise (ReadError ""))
  /\ (exists v x,
         Py.dict_get [("Value", "3")] "Value" = Ok v /\ Py.int_of_str v = Ok x
         /\ read 0 (sample_reader [timed; untimed] (Some []), empty_world)
            = ((sample_reader [timed; untimed] (Some []), empty_world),
               Ok (x, [], tt)))
  /\ read (-1) (sample_reader [timed; untimed] (Some []), empty_world)
     = ((sample_reader [timed; untimed] (Some []), empty_world),
        Raise (ReadError "")).
Proof.
  cbv zeta. split; [|split].
  - eapply (proj2 (proj1 (read_data_ordering (fun _ _ => None) nil
                            (fun _ => Raise TypeError)
                            unit (fun _ _ => Ok tt) (fun _ _ => Raise TypeError)
                            (fun _ _ => Raise OSError) Py.int_of_str
                            (sample_reader _ None, empty_world) 0) eq_refl));
      reflexivity.
  - eapply (proj1 (proj2 (proj2 (read_data_ordering (fun _ _ => None) nil
                                   (fun _ => Raise TypeError)
                                   unit (fun _ _ => Ok tt) (fun _ _ => Raise TypeError)
                                   (fun _ _ => Raise OSError) Py.int_of_str
                                   (sample_reader _ (Some []), empty_world) 0)))
              [] (sample_frame [Element "Time" [("Value", "3")] None []]));
      reflexivity.
  - eapply (proj1 (proj2 (proj2 (read_data_ordering (fun _ _ => None) nil
                                   (fun _ => Raise TypeError)
                                   unit (fun _ _ => Ok tt) (fun _ _ => Raise TypeError)
                                   (fun _ _ => Raise OSError) Py.int_of_str
                                   (sample_reader _ (Some []), empty_world) (-1))))
              [] (sample_frame []));
      reflexivity.
Defined.

End ReadDataSpec.

(** ** The XDMF writer: the end of a session *)

Module WriterExitSpec.
Import Xdmf XdmfTerms MonadTerms MonadFacts.

(** [__enter__] opens the store for the format [HDF] only. *)
Lemma writer_enter_no_store (w : writer) (wld : world) :
  String.eqb (data_format w) "HDF" = false ->
  writer_enter (w, wld) = ((w, wld), Ok tt).
Proof. intros H. unfold writer_enter. rewrite bind_run. simpl. now rewrite H. Qed.

Lemma writer_init_fields (fn : string) (pretty : bool) (fmt : string) (w : writer) :
  writer_init fn pretty fmt = Ok w -> data_format w = fmt /\ h5_file w = None.
Proof.
  unfold writer_init. destruct (negb _); [discriminate|].
  intros [= <-]. split; reflexivity.
Qed.

(** C7, the failing sessions.  A writer for the format [XML] (or [Binary])
    is created, entered and left with nothing written: [__enter__] opens
    no store and sets no [h5_file], and [__exit__], which closes
    [self.h5_file] whatever the format, raises [AttributeError]. *)
Theorem writer_exit_raises_without_store :
  forall fmt, fmt = "XML" \/ fmt = "Binary" ->
  exists w,
    writer_init "out.xdmf" true fmt = Ok w
    /\ writer_enter (w, empty_world) = ((w, empty_world), Ok tt)
    /\ writer_exit (w, empty_world)
       = ((w, empty_world), Raise (AttributeError "h5_file")).
Proof.
  intros fmt [-> | ->]; eexists; repeat split.
Qed.

Lemma writer_exit_raises_without_store_witness :
  exists w,
    writer_init "out.xdmf" true "XML" = Ok w
    /\ writer_enter (w, empty_world) = ((w, empty_world), Ok tt)
    /\ writer_exit (w, empty_world)
       = ((w, empty_world), Raise (AttributeError "h5_file")).
Proof.
  apply (writer_exit_raises_without_store "XML"). left. reflexivity.
Defined.

End WriterExitSpec.

(** ** The XDMF writer: what happens to the cells mapping *)

Module CellsFrameSpec.
Import Xdmf XdmfTerms MonadTerms MonadFacts.

Lemma in_world_w_run {A : Type} (m : M world A) (self : writer) (w : world) :
  in_world_w m (self, w) = (let (w', r) := m w in ((self, w'), r)).
Proof. reflexivity. Qed.

Lemma modify_self_keeps_heap (f : writer -> writer) : unchanged heap_of (modify_self f).
Proof. intros [self w]. reflexivity. Qed.

Lemma in_world_w_keeps_heap {A : Type} (m : M world A) :
  unchanged w_heap m -> unchanged heap_of (in_world_w m).
Proof.
  intros H [self w]. rewrite in_world_w_run. specialize (H w).
  destruct (m w) as [w' r]. exact H.
Qed.

Lemma h5_create_dataset_keeps_heap (h : nat) (name : string) (data : ndarray) :
  unchanged w_heap (h5_create_dataset h name data).
Proof.
  intros w. unfold h5_create_dataset.
  destruct (w_handles w !! h) as [i|]; [|reflexivity].
  destruct (hdf_at w (h_path i)) as [[a|members]|]; try reflexivity.
  destruct (Py.dict_mem members name); reflexivity.
Qed.

Lemma write_xml_keeps_heap (fn : string) (t : element) (b : bool) :
  unchanged w_heap (write_xml fn t b).
Proof. intros w. reflexivity. Qed.

Lemma deref_keeps_heap (a : nat) : unchanged heap_of (deref a).
Proof. intros s. unfold deref. destruct (w_heap (snd s) !! a); reflexivity. Qed.

Lemma SubElement_keeps_heap (parent : path) (tag : string)
    (attrs : list (string * string)) :
  unchanged heap_of (SubElement parent tag attrs).
Proof. intros [self w]. reflexivity. Qed.

Lemma SubElement_run (parent : path) (tag : string)
    (attrs : list (string * string)) (s : wstate) :
  exists s1 p, SubElement parent tag attrs s = (s1, Ok p) /\ snd s1 = snd s.
Proof.
  destruct s as [self w]. unfold SubElement. rewrite bind_run. simpl.
  eexists _, _. split; reflexivity.
Qed.

Lemma set_text_keeps_heap (e : path) (t : string) : unchanged heap_of (set_text e t).
Proof. intros [self w]. reflexivity. Qed.

Ltac heap_step :=
  first
    [ unchanged_step
    | apply modify_self_keeps_heap
    | apply SubElement_keeps_heap
    | apply set_text_keeps_heap
    | apply deref_keeps_heap
    | apply in_world_w_keeps_heap;
      first [ apply h5_create_dataset_keeps_heap
            | apply write_xml_keeps_heap
            | apply unchanged_modify; intros ?; reflexivity ]
    | progress cbv zeta ].

Section CellsFrame.
Variable numpy_to_xdmf_dtype : list (string * (string * string)).
Variable dtype_to_format_string : list (string * string).
Variable meshio_to_xdmf_type : list (string * list string).
Variable meshio_type_to_xdmf_index : list (string * Z).
Variable savetxt : list Z -> string -> string.
Variable result_type : list string -> string.

Abbreviation emit := (numpy_to_xml_string dtype_to_format_string savetxt).
Abbreviation item_for := (data_item_for dtype_to_format_string savetxt).
Abbreviation write_points :=
  (points numpy_to_xdmf_dtype dtype_to_format_string savetxt).
Abbreviation write_cells :=
  (cells numpy_to_xdmf_dtype dtype_to_format_string meshio_to_xdmf_type
     meshio_type_to_xdmf_index savetxt result_type).
Abbreviation write_mesh :=
  (write_points_cells numpy_to_xdmf_dtype dtype_to_format_string meshio_to_xdmf_type
     meshio_type_to_xdmf_index savetxt result_type).

Lemma emit_keeps_heap (data : ndarray) : unchanged heap_of (emit data).
Proof. unfold numpy_to_xml_string. repeat heap_step. Qed.

Lemma item_for_keeps_heap (parent : path) (dt prec dim : string) (data : ndarray) :
  unchanged heap_of (item_for parent dt prec dim data).
Proof. unfold data_item_for. repeat heap_step. apply emit_keeps_heap. Qed.

Lemma points_keeps_heap (grid : path) (pts : ndarray) :
  unchanged heap_of (write_points grid pts).
Proof. unfold points. repeat heap_step. apply item_for_keeps_heap. Qed.

Lemma heap_after_tail {A B : Type} (m : M wstate A) (k : A -> M wstate B)
    (s : wstate) :
  (forall a, unchanged heap_of (k a)) ->
  heap_of (fst ((m ≫= k) s)) = heap_of (fst (m s)).
Proof.
  intros Hk. rewrite bind_run. destruct (m s) as [s' [a|e|]]; try reflexivity.
  apply Hk.
Qed.

Lemma heap_after_head {A B : Type} (m : M wstate A) (k : A -> M wstate B)
    (s : wstate) :
  unchanged heap_of m ->
  heap_of (fst ((m ≫= k) s))
  = match m s with
    | (s', Ok a) => heap_of (fst (k a s'))
    | _ => heap_of s
    end.
Proof.
  intros Hm. rewrite bind_run. specialize (Hm s).
  destruct (m s) as [s' [a|e|]]; simpl in *; auto.
Qed.

Lemma setitem_heap (c : nat) (key : string) (value : ndarray) (s : wstate)
    (d : list (string * ndarray)) :
  heap_of s !! c = Some d ->
  setitem c key value s
  = ((fst s, world_set_heap (snd s) (<[c := Py.dict_set d key value]> (w_heap (snd s)))),
     Ok tt).
Proof.
  intros H. unfold setitem. rewrite bind_run. unfold deref.
  unfold heap_of in H. rewrite H. destruct s as [self w]. reflexivity.
Qed.

(** The part of [cells] that comes after the update of the dict. *)
Lemma cells_tail_keeps_heap (c : nat) (topo : path) (dim : Z) :
  unchanged heap_of
    (let dim := Py.str_of_Z dim in
     d ← deref c;
     parts ← lift (Py.map_result (tagged meshio_type_to_xdmf_index) d);
     let cd := concatenate result_type parts in
     '(dt, prec) ← lift (Py.dict_get numpy_to_xdmf_dtype (dtype_name cd));
     item_for topo dt prec dim cd).
Proof. repeat heap_step. apply item_for_keeps_heap. Qed.

(** The dict objects after [cells], whatever its outcome. *)
Lemma cells_heap (c : nat) (grid : path) (s : wstate) (d : list (string * ndarray)) :
  heap_of s !! c = Some d ->
  heap_of (fst (write_cells c grid s))
  = match d with
    | [] | [_] => heap_of s
    | _ =>
        match sum_shape0 d, Py.dict_get d "line" ≫= (fun l => insert_axis1 l 2) with
        | Ok _, Ok line => <[c := Py.dict_set d "line" line]> (heap_of s)
        | _, _ => heap_of s
        end
    end.
Proof.
  intros Hd. unfold cells. rewrite bind_run.
  assert (Hderef : deref c s = (s, Ok d)).
  { unfold deref. unfold heap_of in Hd. now rewrite Hd. }
  rewrite Hderef.
  destruct d as [|[k1 a1] [|kv2 d']].
  - reflexivity.
  - transitivity (heap_of (fst (s, Ok tt : result unit))); [|reflexivity].
    change (heap_of (fst (s, Ok tt : result unit))) with (heap_of s).
    match goal with |- heap_of (fst (?m s)) = _ => assert (H : unchanged heap_of m) end.
    { repeat heap_step. apply item_for_keeps_heap. }
    apply H.
  - set (dd := (k1, a1) :: kv2 :: d') in *.
    rewrite bind_run. unfold lift at 1.
    destruct (sum_shape0 dd) as [total| |]; try reflexivity.
    rewrite heap_after_head by apply SubElement_keeps_heap.
    destruct s as [self w].
    destruct (SubElement_run grid "Topology"
                [("TopologyType", "Mixed"); ("NumberOfElements", Py.str_of_Z total)]
                (self, w)) as (s1 & topo & Es & Hw).
    rewrite Es. simpl in Hw.
    assert (Hs1 : s1 = (fst s1, w)) by (destruct s1; simpl in *; congruence).
    rewrite heap_after_tail by (intros dim; apply cells_tail_keeps_heap).
    destruct (Py.dict_mem dd "line") eqn:Em.
    + rewrite bind_run. unfold lift at 1.
      destruct (Py.dict_get dd "line") as [line| |];
        try (rewrite Hs1; reflexivity).
      cbn [mbind result_bind]. rewrite bind_run. unfold lift at 1.
      destruct (insert_axis1 line 2) as [line'| |]; try (rewrite Hs1; reflexivity).
      rewrite bind_run.
      rewrite (setitem_heap c "line" line' s1 dd) by (rewrite Hs1; exact Hd).
      rewrite bind_run. unfold lift.
      destruct (len line'); rewrite Hs1; reflexivity.
    + assert (Hg : Py.dict_get dd "line" = Raise (KeyError "line")).
      { clear -Em. induction dd as [|[k v] l IH]; [reflexivity|].
        simpl in *. destruct (String.eqb k "line"); [discriminate|]. auto. }
      rewrite Hg. cbn [mbind result_bind]. rewrite Hs1. reflexivity.
Qed.

Lemma sum_shape0_ok (d : list (string * ndarray)) :
  Forall (fun kv => shape (snd kv) <> []) d -> exists total, sum_shape0 d = Ok total.
Proof.
  induction 1 as [|[k a] d Ha Hd [total IH]]; [now exists 0|].
  simpl in *. unfold shape_at, Py.index.
  destruct (shape a) as [|n sh]; [contradiction|]. simpl. rewrite IH. simpl. eauto.
Qed.

Lemma dict_get_mem {V : Type} (d : list (string * V)) (k : string) (v : V) :
  Py.dict_get d k = Ok v -> Py.dict_mem d k = true.
Proof.
  induction d as [|[k' v'] d IH]; simpl; [discriminate|].
  destruct (String.eqb k' k); [reflexivity|]. exact IH.
Qed.

Lemma dict_mem_false_get {V : Type} (d : list (string * V)) (k : string) :
  Py.dict_mem d k = false -> Py.dict_get d k = Raise (KeyError k).
Proof.
  induction d as [|[k' v'] d IH]; simpl; [reflexivity|].
  destruct (String.eqb k' k); [discriminate|]. exact IH.
Qed.

(** The steps of [write_points_cells] up to the call of [cells]. *)
Lemma write_points_cells_run (pts : ndarray) (c : nat) (s : wstate) :
  write_mesh pts c s
  = (let s0 := (set_mesh_name (fst s) (Some "mesh"), snd s) in
     match SubElement (domain (fst s)) "Grid"
             [("Name", "mesh"); ("GridType", "Uniform")] s0 with
     | (s1, Ok grid) =>
         match write_points grid pts s1 with
         | (s2, Ok _) =>
             (write_cells c grid ≫= fun _ =>
              modify_self (fun s => set_has_mesh s true) ≫= fun _ =>
              get ≫= fun '(self, _) =>
              in_world_w (write_xml (filename self) (xdmf_file self) (pretty_xml self)))
               s2
         | (s2, Raise e) => (s2, Raise e)
         | (s2, Hang) => (s2, Hang)
         end
     | (s1, Raise e) => (s1, Raise e)
     | (s1, Hang) => (s1, Hang)
     end).
Proof. destruct s as [self w]. reflexivity. Qed.

Lemma insert_axis1_matrix (a : ndarray) (n k : nat) (v : Z) :
  shape a = [n; k] ->
  insert_axis1 a v
  = Ok (mk_array (dtype_name a) [n; S k]
          (concat (map (cons v) (blocks n k (flat a))))).
Proof.
  intros H. unfold insert_axis1. rewrite H. simpl size_of.
  rewrite Nat.mul_1_r. reflexivity.
Qed.

(** C10.  In [write_points_cells], once the points are written, a cells
    mapping of more than one type with a ["line"] entry is changed in
    place: the dict object of the caller holds, under ["line"], the array
    with a column of 2 put before its first column, and every other dict
    object is as it was.  With one type at most, or with no ["line"]
    entry, every dict object is after the call what it was before,
    however the call ends. *)
Theorem cells_mapping_effect (pts : ndarray) (c : nat) (s : wstate)
    (d : list (string * ndarray)) :
  heap_of s !! c = Some d ->
  (forall line s1 grid s2 n k,
      (2 <= length d)%nat ->
      Py.dict_get d "line" = Ok line ->
      shape line = [n; k] ->
      Forall (fun kv => shape (snd kv) <> []) d ->
      SubElement (domain (fst s)) "Grid" [("Name", "mesh"); ("GridType", "Uniform")]
        (set_mesh_name (fst s) (Some "mesh"), snd s)
      = (s1, Ok grid) ->
      write_points grid pts s1 = (s2, Ok tt) ->
      heap_of (fst (write_mesh pts c s))
      = <[c := Py.dict_set d "line"
                 (mk_array (dtype_name line) [n; S k]
                    (concat (map (cons 2) (blocks n k (flat line)))))]>
          (heap_of s))
  /\ ((length d <= 1)%nat \/ Py.dict_mem d "line" = false ->
      heap_of (fst (write_mesh pts c s)) = heap_of s).
Proof.
  intros Hd.
  assert (Htail : forall u : unit,
             unchanged heap_of
               (modify_self (fun s => set_has_mesh s true) ≫= fun _ =>
                get ≫= fun '(self, _) =>
                in_world_w (write_xml (filename self) (xdmf_file self) (pretty_xml self)))).
  { intros u. repeat heap_step. }
  assert (Hpre : forall s1 grid s2 r,
             SubElement (domain (fst s)) "Grid" [("Name", "mesh"); ("GridType", "Uniform")]
               (set_mesh_name (fst s) (Some "mesh"), snd s)
             = (s1, Ok grid) ->
             write_points grid pts s1 = (s2, r) ->
             heap_of s2 = heap_of s).
  { intros s1 grid s2 r H1 H2.
    pose proof (points_keeps_heap grid pts s1) as Hp. rewrite H2 in Hp. simpl in Hp.
    pose proof (SubElement_keeps_heap (domain (fst s)) "Grid"
                  [("Name", "mesh"); ("GridType", "Uniform")]
                  (set_mesh_name (fst s) (Some "mesh"), snd s)) as Hs.
    rewrite H1 in Hs. simpl in Hs. rewrite Hp, Hs. reflexivity. }
  split.
  - intros line s1 grid s2 n k Hlen Hline Hshape Hshapes H1 H2.
    rewrite write_points_cells_run. cbv zeta. rewrite H1, H2.
    rewrite heap_after_tail by exact Htail.
    pose proof (Hpre _ _ _ _ H1 H2) as Hheap.
    rewrite (cells_heap c grid s2 d) by (rewrite Hheap; exact Hd).
    destruct d as [|kv1 [|kv2 d']]; [simpl in Hlen; lia|simpl in Hlen; lia|].
    destruct (sum_shape0_ok _ Hshapes) as [total ->].
    rewrite Hline. cbn [mbind result_bind].
    rewrite (insert_axis1_matrix line n k 2 Hshape), Hheap. reflexivity.
  - intros Hcase. rewrite write_points_cells_run. cbv zeta.
    destruct (SubElement _ _ _ _) as [s1 [grid| |]] eqn:H1;
      try (pose proof (SubElement_keeps_heap (domain (fst s)) "Grid"
                         [("Name", "mesh"); ("GridType", "Uniform")]
                         (set_mesh_name (fst s) (Some "mesh"), snd s)) as Hs;
           rewrite H1 in Hs; exact Hs).
    destruct (write_points grid pts s1) as [s2 r] eqn:H2.
    pose proof (Hpre _ _ _ _ eq_refl H2) as Hheap.
    destruct r as [u| |]; try exact Hheap.
    rewrite heap_after_tail by exact Htail.
    rewrite (cells_heap c grid s2 d) by (rewrite Hheap; exact Hd).
    destruct d as [|kv1 [|kv2 d']]; try exact Hheap.
    destruct Hcase as [Hlen|Hmem]; [simpl in Hlen; lia|].
    rewrite (dict_mem_false_get _ _ Hmem). cbn [mbind result_bind].
    destruct (sum_shape0 _); exact Hheap.
Qed.

End CellsFrame.

Lemma cells_mapping_effect_witness :
  let run d :=
    heap_of
      (fst (write_points_cells sample_dtypes sample_formats sample_xdmf_types
              sample_xdmf_index sample_savetxt sample_result_type
              sample_points 0 (sample_writer "XML", world_with d))) in
  run [("line", sample_lines); ("triangle", sample_triangles)]
  = <[0%nat := [("line", mk_array "int64" [2%nat; 3%nat] [2; 0; 1; 2; 1; 2]);
                ("triangle", sample_triangles)]]>
      (heap_of (sample_writer "XML",
                world_with [("line", sample_lines); ("triangle", sample_triangles)]))
  /\ run [("triangle", sample_triangles)]
     = heap_of (sample_writer "XML", world_with [("triangle", sample_triangles)]).
Proof.
  cbv zeta. split.
  - eapply (proj1 (cells_mapping_effect sample_dtypes sample_formats sample_xdmf_types
                     sample_xdmf_index sample_savetxt sample_result_type
                     sample_points 0
                     (sample_writer "XML",
                      world_with [("line", sample_lines); ("triangle", sample_triangles)])
                     [("line", sample_lines); ("triangle", sample_triangles)] eq_refl)
              sample_lines _ _ _ 2%nat 2%nat);
      try reflexivity.
    + repeat (constructor; [discriminate|]). constructor.
    + vm_compute. reflexivity.
    + vm_compute. reflexivity.
  - apply (proj2 (cells_mapping_effect sample_dtypes sample_formats sample_xdmf_types
                    sample_xdmf_index sample_savetxt sample_result_type
                    sample_points 0
                    (sample_writer "XML", world_with [("triangle", sample_triangles)])
                    [("triangle", sample_triangles)] eq_refl)).
    left. simpl. lia.
Defined.

End CellsFrameSpec.

(** ** The XDMF writer: cells of more than one type *)

Module MixedCellsFacts.
Import Xdmf XdmfTerms MonadTerms MonadFacts.

Lemma blocks_prefixed_length (v : Z) (k n : nat) (l : list Z) :
  length l = (n * k)%nat ->
  length (concat (map (cons v) (blocks n k l))) = (n * S k)%nat.
Proof.
  revert l. induction n as [|n IH]; intros l Hl; [reflexivity|].
  cbn [blocks map concat]. cbn [app length].
  rewrite List.length_app, (IH (drop k l)).
  - rewrite length_take. lia.
  - rewrite length_drop. lia.
Qed.

Lemma cell_block_shape (a : ndarray) :
  cell_block a ->
  shape a = [num_cells a; arity a]
  /\ length (flat a) = (num_cells a * arity a)%nat.
Proof.
  intros (n & k & Hs & Hl). unfold num_cells, arity. rewrite Hs. simpl. auto.
Qed.

Lemma insert_axis1_block (a : ndarray) (v : Z) :
  cell_block a ->
  exists a',
    insert_axis1 a v = Ok a'
    /\ shape a' = [num_cells a; S (arity a)]
    /\ length (flat a') = (num_cells a * S (arity a))%nat
    /\ dtype_name a' = dtype_name a.
Proof.
  intros Ha. destruct (cell_block_shape a Ha) as [Hs Hl].
  rewrite (CellsFrameSpec.insert_axis1_matrix a _ _ v Hs).
  eexists. split; [reflexivity|]. split; [reflexivity|].
  split; [|reflexivity].
  cbn [flat]. now apply blocks_prefixed_length.
Qed.

Lemma sum_shape0_blocks (d : list (string * ndarray)) :
  Forall (fun kv => cell_block (snd kv)) d -> sum_shape0 d = Ok (total_cells d).
Proof.
  induction 1 as [|[key a] d Ha Hd IH]; [reflexivity|].
  cbn [sum_shape0 total_cells fold_right snd] in *.
  destruct (cell_block_shape a Ha) as [Hs _].
  unfold shape_at. rewrite Hs. cbn [Py.index mbind result_bind].
  fold (total_cells d). rewrite IH. reflexivity.
Qed.

Lemma sum_prod_blocks (d : list (string * ndarray)) :
  Forall (fun kv => cell_block (snd kv)) d ->
  sum_prod d + total_cells d = cell_records d.
Proof.
  induction 1 as [|[key a] d Ha Hd IH]; [reflexivity|].
  unfold sum_prod, total_cells, cell_records in *. cbn [fold_right snd].
  destruct (cell_block_shape a Ha) as [Hs _]. rewrite Hs.
  cbn [size_of fold_right]. nia.
Qed.

Section Tagged.
Variable meshio_type_to_xdmf_index : list (string * Z).

Lemma tagged_blocks (d : list (string * ndarray)) :
  Forall (fun kv => cell_block (snd kv)) d ->
  indexed meshio_type_to_xdmf_index d ->
  exists parts,
    Py.map_result (tagged meshio_type_to_xdmf_index) d = Ok parts
    /\ Z.of_nat (length (concat (map flat parts))) = cell_records d
    /\ map dtype_name parts = dtypes_of d.
Proof.
  induction 1 as [|[key a] d Ha Hd IH]; intros Hi.
  - exists []. repeat split; reflexivity.
  - inversion Hi as [|? ? [i Hkey] Hi']; subst.
    destruct (IH Hi') as (parts & Hparts & Hlen & Hdt).
    destruct (insert_axis1_block a i Ha) as (a' & Ha' & _ & Hl & Hd').
    exists (a' :: parts). split; [|split].
    + assert (Ht : tagged meshio_type_to_xdmf_index (key, a) = Ok a').
      { unfold tagged. cbn [fst snd] in *. rewrite Hkey. exact Ha'. }
      cbn [Py.map_result]. rewrite Ht, Hparts. reflexivity.
    + cbn [map concat]. rewrite List.length_app, Hl.
      unfold cell_records in *. cbn [fold_right snd]. lia.
    + unfold dtypes_of in *. cbn [map snd]. now rewrite Hd', Hdt.
Qed.

Lemma indexed_key (d : list (string * ndarray)) (key : string) (a : ndarray) :
  indexed meshio_type_to_xdmf_index d ->
  Py.dict_get d key = Ok a ->
  exists i, Py.dict_get meshio_type_to_xdmf_index key = Ok i.
Proof.
  induction 1 as [|[key' a'] d Hk Hd IH]; cbn [Py.dict_get]; [discriminate|].
  destruct (String.eqb_spec key' key) as [->|]; [intros _; exact Hk|exact IH].
Qed.

End Tagged.

Lemma Forall_dict_set {V : Type} (P : string * V -> Prop) (d : list (string * V))
    (key : string) (v : V) :
  Forall P d -> P (key, v) -> Forall P (Py.dict_set d key v).
Proof.
  intros Hd Hv. induction Hd as [|[key' v'] d Hk Hd IH]; cbn [Py.dict_set].
  - constructor; [exact Hv|constructor].
  - destruct (String.eqb key' key); constructor; assumption.
Qed.

Lemma dtypes_of_set (d : list (string * ndarray)) (key : string) (a a' : ndarray) :
  Py.dict_get d key = Ok a ->
  dtype_name a' = dtype_name a ->
  dtypes_of (Py.dict_set d key a') = dtypes_of d.
Proof.
  intros Hget Hdt. induction d as [|[key' v] d IH]; [discriminate|].
  cbn [Py.dict_get Py.dict_set] in *. unfold dtypes_of in *.
  destruct (String.eqb key' key); cbn [map snd].
  - injection Hget as ->. now rewrite Hdt.
  - now rewrite IH.
Qed.

Lemma dict_mem_get {V : Type} (d : list (string * V)) (key : string) :
  Py.dict_mem d key = true -> exists v, Py.dict_get d key = Ok v.
Proof.
  induction d as [|[key' v'] d IH]; cbn [Py.dict_mem Py.dict_get existsb fst];
    [discriminate|].
  destruct (String.eqb key' key); [eauto|exact IH].
Qed.

Lemma cell_records_set (d : list (string * ndarray)) (key : string) (a a' : ndarray) :
  Py.dict_get d key = Ok a ->
  num_cells a' = num_cells a ->
  arity a' = S (arity a) ->
  cell_records (Py.dict_set d key a') = cell_records d + Z.of_nat (num_cells a).
Proof.
  intros Hget Hn Hk. induction d as [|[key' v] d IH]; [discriminate|].
  cbn [Py.dict_get Py.dict_set] in *.
  destruct (String.eqb key' key).
  - injection Hget as ->. unfold cell_records. cbn [fold_right snd].
    rewrite Hn, Hk. nia.
  - specialize (IH Hget). unfold cell_records in *. cbn [fold_right snd]. lia.
Qed.

Section MixedTopology.
Variable numpy_to_xdmf_dtype : list (string * (string * string)).
Variable dtype_to_format_string : list (string * string).
Variable meshio_to_xdmf_type : list (string * list string).
Variable meshio_type_to_xdmf_index : list (string * Z).
Variable savetxt : list Z -> string -> string.
Variable result_type : list string -> string.

Abbreviation item_for := (data_item_for dtype_to_format_string savetxt).
Abbreviation write_cells :=
  (cells numpy_to_xdmf_dtype dtype_to_format_string meshio_to_xdmf_type
     meshio_type_to_xdmf_index savetxt result_type).

(** The end of [cells] for a mixed topology, from the second look at the
    dict on. *)
Lemma cells_tail_run (c : nat) (topo : path) (dim : Z) (s : wstate)
    (d : list (string * ndarray)) :
  heap_of s !! c = Some d ->
  Forall (fun kv => cell_block (snd kv)) d ->
  indexed meshio_type_to_xdmf_index d ->
  exists cd,
    Z.of_nat (length (flat cd)) = cell_records d
    /\ dtype_name cd = result_type (dtypes_of d)
    /\ (d ← deref c;
         parts ← lift (Py.map_result (tagged meshio_type_to_xdmf_index) d);
         let cd := concatenate result_type parts in
         '(dt, prec) ← lift (Py.dict_get numpy_to_xdmf_dtype (dtype_name cd));
         item_for topo dt prec (Py.str_of_Z dim) cd) s
        = ('(dt, prec) ← lift (Py.dict_get numpy_to_xdmf_dtype (dtype_name cd));
           item_for topo dt prec (Py.str_of_Z dim) cd) s.
Proof.
  intros Hd Hblocks Hidx.
  destruct (tagged_blocks meshio_type_to_xdmf_index d Hblocks Hidx)
    as (parts & Hparts & Hlen & Hdt).
  exists (concatenate result_type parts). split; [exact Hlen|].
  split; [unfold concatenate; cbn [dtype_name]; now rewrite Hdt|].
  rewrite bind_run. unfold deref at 1. unfold heap_of in Hd. rewrite Hd.
  rewrite bind_run. unfold lift at 1. rewrite Hparts. reflexivity.
Qed.

(** [cells] for a mapping of more than one type, up to the data item: the
    [Mixed] topology is the next child of the grid, the dict of the caller
    is the only part of the world that may have changed, and the array
    for the data item has as many entries as the dimension says. *)
Lemma cells_mixed_run (c : nat) (grid : path) (self : writer) (w : world)
    (d : list (string * ndarray)) :
  heap_of (self, w) !! c = Some d ->
  (2 <= length d)%nat ->
  Forall (fun kv => cell_block (snd kv)) d ->
  indexed meshio_type_to_xdmf_index d ->
  exists (w1 : world) (cd : ndarray),
    w_files w1 = w_files w
    /\ w_handles w1 = w_handles w
    /\ Z.of_nat (length (flat cd)) = mixed_dimension d
    /\ dtype_name cd = result_type (dtypes_of d)
    /\ write_cells c grid (self, w)
       = ('(dt, prec) ← lift (Py.dict_get numpy_to_xdmf_dtype (dtype_name cd));
          item_for (grid ++ [next_child grid (xdmf_file self)]) dt prec
            (Py.str_of_Z (mixed_dimension d)) cd)
           (set_xdmf_file self
              (update_at grid (add_child (mixed_topology d [])) (xdmf_file self)),
            w1).
Proof.
  intros Hd Hlen Hblocks Hidx. set (s := (self, w)) in *.
  assert (Hderef : deref c s = (s, Ok d)).
  { unfold deref. unfold heap_of in Hd. now rewrite Hd. }
  pose proof (sum_shape0_blocks d Hblocks) as Htotal.
  pose proof (sum_prod_blocks d Hblocks) as Hsum.
  set (topo := grid ++ [next_child grid (xdmf_file self)]).
  set (s0 := (set_xdmf_file self
                (update_at grid (add_child (mixed_topology d [])) (xdmf_file self)), w)).
  assert (Es : SubElement grid "Topology"
                 [("TopologyType", "Mixed");
                  ("NumberOfElements", Py.str_of_Z (total_cells d))] s
               = (s0, Ok topo)) by reflexivity.
  assert (Hrun : write_cells c grid s
            = ((if Py.dict_mem d "line" then
                  line ← lift (Py.dict_get d "line");
                  line ← lift (insert_axis1 line 2);
                  setitem c "line" line;;
                  n ← lift (len line);
                  mret (sum_prod d + total_cells d + Z.of_nat n)
                else mret (sum_prod d + total_cells d)) ≫= fun dim =>
               d ← deref c;
               parts ← lift (Py.map_result (tagged meshio_type_to_xdmf_index) d);
               let cd := concatenate result_type parts in
               '(dt, prec) ← lift (Py.dict_get numpy_to_xdmf_dtype (dtype_name cd));
               item_for topo dt prec (Py.str_of_Z dim) cd) s0).
  { unfold cells. rewrite bind_run, Hderef.
    destruct d as [|[k1 a1] [|kv2 d']]; [simpl in Hlen; lia|simpl in Hlen; lia|].
    rewrite bind_run. unfold lift at 1. rewrite Htotal.
    rewrite bind_run, Es. reflexivity. }
  rewrite Hrun, bind_run. rewrite Hsum.
  destruct (Py.dict_mem d "line") eqn:Em.
  - destruct (dict_mem_get d "line" Em) as [line Hline].
    assert (Hline_block : cell_block line).
    { clear -Hline Hblocks. induction Hblocks as [|[k a] d Ha Hd IH]; [discriminate|].
      cbn [Py.dict_get] in Hline. destruct (String.eqb k "line"); [|auto].
      injection Hline as <-. exact Ha. }
    destruct (insert_axis1_block line 2 Hline_block)
      as (line' & Hins & Hshape & Hflat & Hdtype).
    rewrite bind_run. unfold lift at 1. rewrite Hline.
    rewrite bind_run. unfold lift at 1. rewrite Hins.
    rewrite bind_run.
    rewrite (CellsFrameSpec.setitem_heap c "line" line' s0 d) by exact Hd.
    rewrite bind_run. unfold lift at 1. unfold len. rewrite Hshape.
    cbn [mret M_ret].
    set (w1 := world_set_heap w (<[c := Py.dict_set d "line" line']> (w_heap w))).
    assert (Hdim : cell_records d + Z.of_nat (num_cells line) = mixed_dimension d).
    { unfold mixed_dimension, line_cells. now rewrite Hline. }
    rewrite Hdim.
    destruct (cells_tail_run c topo (mixed_dimension d) (fst s0, w1)
                (Py.dict_set d "line" line')) as (cd & Hcd & Hdt & Etail).
    + unfold w1, heap_of. cbn. apply lookup_insert_eq.
    + apply Forall_dict_set; [exact Hblocks|].
      exists (num_cells line), (S (arity line)). cbn [snd]. auto.
    + apply Forall_dict_set; [exact Hidx|].
      exact (indexed_key meshio_type_to_xdmf_index d "line" line Hidx Hline).
    + exists w1, cd. split; [reflexivity|]. split; [reflexivity|].
      split; [|split; [|exact Etail]].
      * rewrite Hcd, <- Hdim. apply cell_records_set; [exact Hline| |].
        -- unfold num_cells. rewrite Hshape. reflexivity.
        -- unfold arity. rewrite Hshape. reflexivity.
      * rewrite Hdt. now rewrite (dtypes_of_set d "line" line line' Hline Hdtype).
  - assert (Hdim : cell_records d = mixed_dimension d).
    { unfold mixed_dimension, line_cells.
      rewrite (CellsFrameSpec.dict_mem_false_get d "line" Em). lia. }
    rewrite Hdim. cbn [mret M_ret].
    destruct (cells_tail_run c topo (mixed_dimension d) s0 d)
      as (cd & Hcd & Hdt & Etail); [exact Hd|exact Hblocks|exact Hidx|].
    exists w, cd. split; [reflexivity|]. split; [reflexivity|].
    split; [now rewrite Hcd|]. split; [exact Hdt|exact Etail].
Qed.

End MixedTopology.

End MixedCellsFacts.

(** ** The XDMF reader and writer: the stores at the end of a session *)

Module TeardownSpec.
Import Xdmf XdmfTerms MonadFacts.

Lemma closes_after_close (f h : nat) (w : world) :
  closes_of (fst (h5_close f w)) h
  = (fun n => if decide (h = f) then S n else n) <$> closes_of w h.
Proof.
  unfold closes_of, h5_close. cbn [fst w_handles world_set_handles].
  destruct (decide (h = f)) as [->|Hne].
  - rewrite list_lookup_alter_eq. destruct (w_handles w !! f) as [i|]; reflexivity.
  - rewrite list_lookup_alter_ne by congruence.
    destruct (w_handles w !! h) as [i|]; reflexivity.
Qed.

Lemma close_all_closes (handles : list nat) (w : world) :
  NoDup handles ->
  exists w',
    close_all handles w = (w', Ok tt)
    /\ forall h,
         closes_of w' h
         = (fun n => if decide (h ∈ handles) then S n else n) <$> closes_of w h.
Proof.
  intros Hnd. revert w. induction Hnd as [|f rest Hf Hnd IH]; intros w.
  - exists w. split; [reflexivity|]. intros h.
    destruct (closes_of w h); reflexivity.
  - destruct (IH (fst (h5_close f w))) as (w' & Hrun & Hcl).
    exists w'. split; [exact Hrun|].
    intros h. rewrite Hcl, closes_after_close.
    destruct (closes_of w h) as [n|]; [|reflexivity]. cbn [fmap option_fmap option_map].
    f_equal. destruct (decide (h = f)) as [->|Hne].
    + destruct (decide (f ∈ rest)); [contradiction|].
      destruct (decide (f ∈ f :: rest)) as [|Hn]; [reflexivity|].
      exfalso. apply Hn. left.
    + destruct (decide (h ∈ rest)) as [Hin|Hin];
        destruct (decide (h ∈ f :: rest)) as [Hin'|Hin']; try reflexivity.
      * exfalso. apply Hin'. now right.
      * exfalso. apply Hin. inversion Hin'; subst; [congruence|assumption].
Qed.

(** X1.  [TimeSeriesReader.__exit__] returns, and calls [close] once on every
    store in the cache of the session and on no other: the stores of a
    cache are distinct objects, one for each path. *)
Theorem reader_exit_closes_each_once (self : reader) (w : world) :
  NoDup (map snd (r_hdf5_files self)) ->
  exists w',
    reader_exit (self, w) = ((self, w'), Ok tt)
    /\ forall h,
         closes_of w' h
         = (fun n => if decide (h ∈ map snd (r_hdf5_files self)) then S n else n)
             <$> closes_of w h.
Proof.
  intros Hnd.
  destruct (close_all_closes _ w Hnd) as (w' & Hrun & Hcl).
  exists w'. split; [|exact Hcl].
  unfold reader_exit. rewrite bind_run. cbn [get]. unfold in_world.
  cbn [fst snd]. rewrite Hrun. reflexivity.
Qed.

Lemma reader_exit_closes_each_once_witness :
  let self := mk_reader "a.xdmf" (Element "Domain" [] None []) [] 0 None
                [("a.h5", 0%nat); ("b.h5", 1%nat)] (sample_grid "mesh" "Uniform" []) in
  let w := mk_world [] [mk_handle "a.h5" 0; mk_handle "b.h5" 0; mk_handle "c.h5" 0]
             ∅ in
  exists w',
    reader_exit (self, w) = ((self, w'), Ok tt)
    /\ forall h,
         closes_of w' h
         = (fun n => if decide (h ∈ [0%nat; 1%nat]) then S n else n) <$> closes_of w h.
Proof.
  cbv zeta.
  apply (reader_exit_closes_each_once
           (mk_reader "a.xdmf" (Element "Domain" [] None []) [] 0 None
              [("a.h5", 0%nat); ("b.h5", 1%nat)] (sample_grid "mesh" "Uniform" []))).
  cbn [map snd r_hdf5_files].
  apply NoDup_cons_2; [|apply NoDup_singleton].
  intros H. inversion H as [|? ? ? H']. inversion H'.
Defined.

(** X2.  A writer for the format [HDF], created, entered and left: [__enter__]
    opens one new store and keeps it as [h5_file], [__exit__] returns and
    has called [close] on it once, and on no other store. *)
Theorem hdf_session_closes_store (fn : string) (pretty : bool) (wld : world) :
  exists w s1 s2 h,
    writer_init fn pretty "HDF" = Ok w
    /\ writer_enter (w, wld) = (s1, Ok tt)
    /\ h5_file (fst s1) = Some h
    /\ closes_of wld h = None
    /\ closes_of (snd s1) h = Some 0%nat
    /\ writer_exit s1 = (s2, Ok tt)
    /\ closes_of (snd s2) h = Some 1%nat
    /\ forall h', h' <> h -> closes_of (snd s2) h' = closes_of wld h'.
Proof.
  eexists _, _, _, (length (w_handles wld)).
  split; [reflexivity|].
  split.
  { unfold writer_enter. rewrite bind_run.
    cbn [get data_format String.eqb Ascii.eqb Bool.eqb]. cbv iota zeta.
    rewrite bind_run. unfold in_world_w, h5_open_write. cbn [snd fst].
    unfold modify_self, modify. reflexivity. }
  split; [reflexivity|].
  split; [|split; [|split; [|split]]].
  - unfold closes_of. now rewrite lookup_ge_None_2.
  - unfold closes_of. cbn. now rewrite list_lookup_middle.
  - unfold writer_exit. rewrite bind_run. cbn [get]. cbv iota.
    cbn [h5_file set_h5 fst]. unfold in_world_w, h5_close. cbn [snd fst].
    reflexivity.
  - unfold closes_of. cbn. rewrite list_lookup_alter_eq.
    now rewrite list_lookup_middle.
  - intros h' Hne. unfold closes_of. cbn.
    rewrite list_lookup_alter_ne by congruence.
    destruct (decide (h' < length (w_handles wld))%nat) as [Hlt|Hge].
    + now rewrite lookup_app_l.
    + rewrite !lookup_ge_None_2; [reflexivity|lia|].
      rewrite length_app. simpl. lia.
Qed.

End TeardownSpec.

(** ** gmsh/main.py and gmsh/common.py: the tables *)

Module TablesSpec.
Import GmshMain GmshMainTerms GmshNames GmshWrite GmshFileTerms.

Lemma dict_set_fresh {V : Type} (d : list (string * V)) (k : string) (v : V) :
  Py.dict_mem d k = false -> Py.dict_set d k v = d ++ [(k, v)].
Proof.
  induction d as [|[k' v'] d IH]; cbn [Py.dict_mem Py.dict_set existsb fst app];
    [reflexivity|].
  destruct (String.eqb k' k); [discriminate|]. intros H. now rewrite IH.
Qed.

Lemma dict_mem_app {V : Type} (d1 d2 : list (string * V)) (k : string) :
  Py.dict_mem (d1 ++ d2) k = Py.dict_mem d1 k || Py.dict_mem d2 k.
Proof. unfold Py.dict_mem. apply existsb_app. Qed.

Lemma dict_mem_keys {V : Type} (d : list (string * V)) (k : string) :
  Py.dict_mem d k = false <-> ~ In k (map fst d).
Proof.
  induction d as [|[k' v'] d IH]; cbn [Py.dict_mem existsb map fst In].
  - split; [tauto|reflexivity].
  - fold (Py.dict_mem d k). destruct (String.eqb_spec k' k) as [->|Hne]; cbn [orb].
    + split; [discriminate|tauto].
    + rewrite IH. tauto.
Qed.

Lemma inverted_from (d : list (Z * string)) (acc : list (string * Z)) :
  NoDup (map fst acc ++ map snd d) ->
  fold_left (fun acc kv => Py.dict_set acc (snd kv) (fst kv)) d acc
  = acc ++ map swap d.
Proof.
  revert acc. induction d as [|[c n] d IH]; intros acc Hnd; cbn [fold_left map].
  - now rewrite List.app_nil_r.
  - cbn [snd fst map] in *.
    rewrite dict_set_fresh.
    + rewrite IH.
      * now rewrite <- List.app_assoc.
      * rewrite List.map_app. cbn [map fst]. rewrite <- List.app_assoc. exact Hnd.
    + apply dict_mem_keys. apply NoDup_app in Hnd as (_ & Hdis & _).
      intros Hin. apply (Hdis n); [now apply list_elem_of_In|left].
Qed.

Lemma code_get_in {V : Type} (d : list (Z * V)) (c : Z) (v : V) :
  NoDup (map fst d) -> (code_get d c = Ok v <-> In (c, v) d).
Proof.
  induction d as [|[c' v'] d IH]; cbn [code_get map fst In]; intros Hnd.
  - split; [discriminate|tauto].
  - apply NoDup_cons in Hnd as [Hc Hnd].
    destruct (Z.eqb_spec c' c) as [->|Hne].
    + split.
      * intros [= ->]. now left.
      * intros [[= ->]|Hin]; [reflexivity|].
        exfalso. apply Hc. apply list_elem_of_In.
        change c with (fst (c, v)). now apply in_map.
    + rewrite (IH Hnd). split; [tauto|]. intros [[= -> ->]|Hin]; [congruence|assumption].
Qed.

Lemma dict_get_in_nodup {V : Type} (d : list (string * V)) (k : string) (v : V) :
  NoDup (map fst d) -> (Py.dict_get d k = Ok v <-> In (k, v) d).
Proof.
  induction d as [|[k' v'] d IH]; cbn [Py.dict_get map fst In]; intros Hnd.
  - split; [discriminate|tauto].
  - apply NoDup_cons in Hnd as [Hc Hnd].
    destruct (String.eqb_spec k' k) as [->|Hne].
    + split.
      * intros [= ->]. now left.
      * intros [[= ->]|Hin]; [reflexivity|].
        exfalso. apply Hc. apply list_elem_of_In.
        change k with (fst (k, v)). now apply in_map.
    + rewrite (IH Hnd). split; [tauto|]. intros [[= -> ->]|Hin]; [congruence|assumption].
Qed.

(** A table with no code and no name twice is turned round without loss. *)
Lemma inverted_lookup (d : list (Z * string)) (c : Z) (n : string) :
  NoDup (map fst d) -> NoDup (map snd d) ->
  (code_get d c = Ok n <-> Py.dict_get (inverted d) n = Ok c).
Proof.
  intros Hc Hn. unfold inverted.
  rewrite (inverted_from d []) by exact Hn. cbn [app].
  rewrite (code_get_in d c n Hc).
  rewrite dict_get_in_nodup.
  - rewrite in_map_iff. split.
    + intros Hin. exists (c, n). split; [reflexivity|exact Hin].
    + intros ([c' n'] & [= -> ->] & Hin). exact Hin.
  - rewrite map_map. cbn [swap fst]. exact Hn.
Qed.

Lemma type_codes_distinct :
  NoDup (map fst _gmsh_to_meshio_type) /\ NoDup (map snd _gmsh_to_meshio_type).
Proof.
  split; apply (bool_decide_unpack _); vm_compute; reflexivity.
Qed.

(** The two tables of element types are inverse to each other: a Gmsh
    code has the meshio name [n] exactly when [n] has that code; no name
    and no code is lost in [_meshio_to_gmsh_type]. *)
Theorem type_codes_inverse (c : Z) (n : string) :
  code_get _gmsh_to_meshio_type c = Ok n
  <-> Py.dict_get _meshio_to_gmsh_type n = Ok c.
Proof.
  destruct type_codes_distinct as [Hc Hn].
  exact (inverted_lookup _gmsh_to_meshio_type c n Hc Hn).
Qed.

Lemma select_readers_cases (v : string) :
  select _readers v
  = if String.eqb "2" v then Ok _gmsh22
    else if String.eqb "4" v then Ok _gmsh40
    else if String.eqb "4.0" v then Ok _gmsh40
    else if String.eqb "4.1" v then Ok _gmsh41
    else if String.eqb "2" (Py.split_head "." v) then Ok _gmsh22
    else if String.eqb "4" (Py.split_head "." v) then Ok _gmsh40
    else if String.eqb "4.0" (Py.split_head "." v) then Ok _gmsh40
    else if String.eqb "4.1" (Py.split_head "." v) then Ok _gmsh41
    else Raise (ValueError (need_format_message _readers v)).
Proof.
  unfold select, _readers. cbn [Py.dict_get].
  repeat (match goal with |- context [String.eqb ?a ?b] =>
            destruct (String.eqb a b); try reflexivity end).
Qed.

Lemma select_writers_cases (v : string) :
  select _writers v
  = if String.eqb "2" v then Ok _gmsh22
    else if String.eqb "4" v then Ok _gmsh41
    else if String.eqb "4.0" v then Ok _gmsh40
    else if String.eqb "4.1" v then Ok _gmsh41
    else if String.eqb "2" (Py.split_head "." v) then Ok _gmsh22
    else if String.eqb "4" (Py.split_head "." v) then Ok _gmsh41
    else if String.eqb "4.0" (Py.split_head "." v) then Ok _gmsh40
    else if String.eqb "4.1" (Py.split_head "." v) then Ok _gmsh41
    else Raise (ValueError (need_format_message _readers v)).
Proof.
  unfold select, _writers. cbn [Py.dict_get].
  repeat (match goal with |- context [String.eqb ?a ?b] =>
            destruct (String.eqb a b); try reflexivity end).
Qed.

Section WriteDispatch.
Variable mesh : Type.
Variable module_write : gmsh_module -> string -> mesh -> bool -> result unit.

(** [write] picks its module as [read_buffer] does, but for the versions
    looked up under ["4"]: these are written by the module for 4.1 and
    read by the module for 4.0.  For a version with no module, [write]
    raises the [ValueError] that [read_buffer] raises, before anything is
    written. *)
Theorem write_dispatch (filename : string) (m : mesh) (v : string) (binary : bool) :
  (resolves_to_4 v ->
   write mesh module_write filename m v binary = module_write _gmsh41 filename m binary
   /\ select _readers v = Ok _gmsh40)
  /\ (~ resolves_to_4 v ->
      write mesh module_write filename m v binary
      = (reader ← select _readers v; module_write reader filename m binary)).
Proof.
  unfold write, resolves_to_4, reader_versions.
  rewrite select_readers_cases, select_writers_cases. cbn [In].
  destruct (String.eqb_spec "2" v) as [<-|H2].
  { split; [intros [H|[_ H]]; discriminate|reflexivity]. }
  destruct (String.eqb_spec "4" v) as [<-|H4].
  { split; [intros _; split; reflexivity|intros H; exfalso; apply H; now left]. }
  destruct (String.eqb_spec "4.0" v) as [<-|H40].
  { split; [intros [H|[H _]]; [discriminate|exfalso; apply H; tauto]|reflexivity]. }
  destruct (String.eqb_spec "4.1" v) as [<-|H41].
  { split; [intros [H|[H _]]; [discriminate|exfalso; apply H; tauto]|reflexivity]. }
  destruct (String.eqb_spec "2" (Py.split_head "." v)) as [E2|N2].
  { split; [intros [H|[_ H]]; congruence|reflexivity]. }
  destruct (String.eqb_spec "4" (Py.split_head "." v)) as [E4|N4].
  { split; [intros _; split; reflexivity|].
    intros H. exfalso. apply H. right. split; [|congruence].
    intros [?|[?|[?|[?|[]]]]]; congruence. }
  destruct (String.eqb_spec "4.0" (Py.split_head "." v)) as [E40|N40].
  { split; [intros [H|[_ H]]; congruence|reflexivity]. }
  destruct (String.eqb_spec "4.1" (Py.split_head "." v)) as [E41|N41].
  { split; [intros [H|[_ H]]; congruence|reflexivity]. }
  split; [intros [H|[_ H]]; congruence|reflexivity].
Qed.

End WriteDispatch.

Lemma write_dispatch_witness :
  (write unit (fun w _ _ _ => if w is _gmsh41 then Ok tt else Raise OSError)
     "a.msh" tt "4.2" true
   = Ok tt
   /\ select _readers "4.2" = Ok _gmsh40)
  /\ write unit (fun w _ _ _ => if w is _gmsh41 then Ok tt else Raise OSError)
       "a.msh" tt "2.2" true
     = Raise OSError.
Proof.
  split.
  - apply (proj1 (write_dispatch unit
                    (fun w _ _ _ => if w is _gmsh41 then Ok tt else Raise OSError)
                    "a.msh" tt "4.2" true)).
    right. split; [|reflexivity].
    intros [H|[H|[H|[H|[]]]]]; discriminate.
  - rewrite (proj2 (write_dispatch unit
                      (fun w _ _ _ => if w is _gmsh41 then Ok tt else Raise OSError)
                      "a.msh" tt "2.2" true)); [reflexivity|].
    intros [H|[_ H]]; discriminate.
Defined.

End TablesSpec.

(** ** gmsh/main.py: the header and the comments *)

Module ReadBufferSpec.
Import GmshMain GmshReadBuffer GmshFileTerms TextTerms TextFacts.

Lemma lines_text_cons (l : string) (ls : list string) (x : string) :
  lines_text (l :: ls) +:+ x = line l +:+ (lines_text ls +:+ x).
Proof. cbn [lines_text fold_right]. apply PyFacts.app_assoc. Qed.

Lemma length_lines_text (ls : list string) (x : string) :
  (length ls <= String.length (lines_text ls +:+ x))%nat.
Proof.
  induction ls as [|l ls IH]; [simpl; lia|].
  rewrite lines_text_cons. unfold line.
  rewrite !PyFacts.length_app. change (String.length Py.nl) with 1%nat.
  rewrite PyFacts.length_app in IH. cbn [length]. lia.
Qed.

Lemma readline_no_newline (s : string) :
  no_newline s = true -> Py.readline s = (s, "").
Proof.
  unfold no_newline. induction s as [|c s IH]; cbn [all_chars Py.readline];
    [reflexivity|].
  rewrite andb_true_iff, negb_true_iff. intros [Hc Hs].
  now rewrite Hc, (IH Hs).
Qed.

Lemma readline_text_eof : Py.readline_text "" = Ok ("", "").
Proof. reflexivity. Qed.

Lemma readline_text_last (last : string) :
  no_newline last = true -> Py.utf8_valid last = true ->
  Py.readline_text last = Ok (last, "").
Proof.
  intros Hn Hv. unfold Py.readline_text. rewrite (readline_no_newline last Hn).
  now rewrite (decode_valid last Hv).
Qed.

Lemma readline_text_ill_formed (bad rest : string) :
  no_newline bad = true -> Py.utf8_valid bad = false ->
  Py.readline_text (line bad +:+ rest) = Raise Py.UnicodeDecodeError.
Proof.
  intros Hn Hv. unfold Py.readline_text. rewrite (readline_of_line bad rest Hn).
  rewrite decode_ill_formed; [reflexivity|]. now rewrite valid_line_eq.
Qed.

Lemma skip_to_line_fuel_eof (marker : string) (fuel : nat) :
  marker <> "" -> Py.skip_to_line_fuel marker fuel "" = Hang.
Proof.
  intros Hne. induction fuel as [|fuel IH]; [reflexivity|].
  rewrite RoundTripSpec.skip_to_line_fuel_step, readline_text_eof.
  cbn [mbind result_bind]. change (Py.strip "") with "".
  destruct (String.eqb_spec "" marker) as [E|_]; [congruence|exact IH].
Qed.

(** The loop [while line.strip() != marker: line = f.readline()] on a file
    with no such line: it never ends. *)
Lemma skip_to_line_fuel_missing (marker : string) (fuel : nat) (ls : list string)
    (last : string) :
  marker <> "" ->
  Forall (passed_over marker) ls ->
  no_newline last = true -> Py.utf8_valid last = true -> Py.strip last <> marker ->
  Py.skip_to_line_fuel marker fuel (lines_text ls +:+ last) = Hang.
Proof.
  intros Hne Hls Hlast Hvalid Hstrip. revert ls Hls.
  induction fuel as [|fuel IH]; intros ls Hls; [reflexivity|].
  rewrite RoundTripSpec.skip_to_line_fuel_step.
  destruct Hls as [|l ls (Hl & Hv & Hs) Hls].
  - cbn [lines_text fold_right String.append].
    rewrite (readline_text_last last Hlast Hvalid). cbn [mbind result_bind].
    destruct (String.eqb_spec (Py.strip last) marker) as [E|_]; [congruence|].
    now apply skip_to_line_fuel_eof.
  - rewrite lines_text_cons, (readline_text_line l _ Hl Hv). cbn [mbind result_bind].
    destruct (String.eqb_spec (Py.strip (line l)) marker) as [E|_]; [congruence|].
    now apply IH.
Qed.

(** The same loop on a file with such a line: it ends after the first. *)
Lemma skip_to_line_fuel_found (marker : string) (fuel : nat) (ls : list string)
    (m rest : string) :
  Forall (passed_over marker) ls ->
  no_newline m = true -> Py.utf8_valid m = true -> Py.strip (line m) = marker ->
  (length ls < fuel)%nat ->
  Py.skip_to_line_fuel marker fuel (lines_text ls +:+ (line m +:+ rest)) = Ok rest.
Proof.
  intros Hls Hm Hvalid Hstrip. revert fuel.
  induction Hls as [|l ls (Hl & Hv & Hs) Hls IH]; intros fuel Hfuel.
  - destruct fuel as [|fuel]; [simpl in Hfuel; lia|].
    rewrite RoundTripSpec.skip_to_line_fuel_step.
    cbn [lines_text fold_right String.append].
    rewrite (readline_text_line m rest Hm Hvalid). cbn [mbind result_bind].
    rewrite Hstrip, String.eqb_refl. reflexivity.
  - destruct fuel as [|fuel]; [simpl in Hfuel; lia|].
    rewrite RoundTripSpec.skip_to_line_fuel_step.
    rewrite lines_text_cons, (readline_text_line l _ Hl Hv). cbn [mbind result_bind].
    destruct (String.eqb_spec (Py.strip (line l)) marker) as [E|_]; [congruence|].
    apply IH. simpl in Hfuel. lia.
Qed.

(** The same loop on a file with a line of ill-formed text before any such
    line: [decode] raises. *)
Lemma skip_to_line_fuel_ill_formed (marker : string) (fuel : nat) (ls : list string)
    (bad rest : string) :
  Forall (passed_over marker) ls ->
  no_newline bad = true -> Py.utf8_valid bad = false ->
  (length ls < fuel)%nat ->
  Py.skip_to_line_fuel marker fuel (lines_text ls +:+ (line bad +:+ rest))
  = Raise Py.UnicodeDecodeError.
Proof.
  intros Hls Hbad Hvalid. revert fuel.
  induction Hls as [|l ls (Hl & Hv & Hs) Hls IH]; intros fuel Hfuel.
  - destruct fuel as [|fuel]; [simpl in Hfuel; lia|].
    rewrite RoundTripSpec.skip_to_line_fuel_step.
    cbn [lines_text fold_right String.append].
    now rewrite (readline_text_ill_formed bad rest Hbad Hvalid).
  - destruct fuel as [|fuel]; [simpl in Hfuel; lia|].
    rewrite RoundTripSpec.skip_to_line_fuel_step.
    rewrite lines_text_cons, (readline_text_line l _ Hl Hv). cbn [mbind result_bind].
    destruct (String.eqb_spec (Py.strip (line l)) marker) as [E|_]; [congruence|].
    apply IH. simpl in Hfuel. lia.
Qed.

Lemma skip_to_line_found (marker : string) (ls : list string) (m rest : string) :
  Forall (passed_over marker) ls ->
  no_newline m = true -> Py.utf8_valid m = true -> Py.strip (line m) = marker ->
  Py.skip_to_line marker (lines_text ls +:+ (line m +:+ rest)) = Ok rest.
Proof.
  intros Hls Hm Hv Hstrip. unfold Py.skip_to_line.
  apply skip_to_line_fuel_found; try assumption.
  pose proof (length_lines_text ls (line m +:+ rest)). lia.
Qed.

Lemma skip_to_line_ill_formed (marker : string) (ls : list string) (bad rest : string) :
  Forall (passed_over marker) ls ->
  no_newline bad = true -> Py.utf8_valid bad = false ->
  Py.skip_to_line marker (lines_text ls +:+ (line bad +:+ rest))
  = Raise Py.UnicodeDecodeError.
Proof.
  intros Hls Hm Hv. unfold Py.skip_to_line.
  apply skip_to_line_fuel_ill_formed; try assumption.
  pose proof (length_lines_text ls (line bad +:+ rest)). lia.
Qed.

Lemma skip_to_line_missing (marker : string) (ls : list string) (last : string) :
  marker <> "" ->
  Forall (passed_over marker) ls ->
  no_newline last = true -> Py.utf8_valid last = true -> Py.strip last <> marker ->
  Py.skip_to_line marker (lines_text ls +:+ last) = Hang.
Proof. intros. now apply skip_to_line_fuel_missing. Qed.

Lemma readline_lengths (f : string) :
  (String.length (fst (Py.readline f)) + String.length (snd (Py.readline f))
   = String.length f)%nat.
Proof.
  induction f as [|c f IH]; [reflexivity|].
  cbn [Py.readline]. destruct (Ascii.eqb c Py.newline); [reflexivity|].
  destruct (Py.readline f) as [l r]. cbn [fst snd String.length] in *. lia.
Qed.

Lemma readline_text_lengths (f l f' : string) :
  Py.readline_text f = Ok (l, f') ->
  (String.length l + String.length f' = String.length f)%nat.
Proof.
  unfold Py.readline_text, Py.decode. pose proof (readline_lengths f) as Hlen.
  destruct (Py.readline f) as [b g]. cbn [fst snd] in Hlen.
  destruct (Py.utf8_valid b); [|discriminate].
  cbn [mbind result_bind]. intros [= <- <-]. exact Hlen.
Qed.

Lemma skip_to_line_fuel_shorter (marker : string) (fuel : nat) (f g : string) :
  marker <> "" ->
  Py.skip_to_line_fuel marker fuel f = Ok g ->
  (String.length g < String.length f)%nat.
Proof.
  intros Hne. revert f. induction fuel as [|fuel IH]; intros f; [discriminate|].
  rewrite RoundTripSpec.skip_to_line_fuel_step.
  destruct (Py.readline_text f) as [[l f']| |] eqn:Er; try discriminate.
  apply readline_text_lengths in Er. cbn [mbind result_bind].
  destruct (String.eqb_spec (Py.strip l) marker) as [E|_].
  - intros [= <-]. destruct l as [|c l]; [|simpl in Er; lia].
    exfalso. apply Hne. rewrite <- E. reflexivity.
  - intros H. apply IH in H. lia.
Qed.

(** With fuel for every byte of the file, the loop over the comment
    blocks runs as it does with more. *)
Lemma skip_comments_fuel (n : nat) :
  forall (f l : string) (a b : nat),
    (String.length f <= n)%nat ->
    (String.length f < a)%nat -> (String.length f < b)%nat ->
    skip_comments a l f = skip_comments b l f.
Proof.
  induction n as [|n IH]; intros f l a b Hn Ha Hb;
    (destruct a as [|a]; [lia|]); (destruct b as [|b]; [lia|]);
    cbn [skip_comments]; (destruct (String.eqb l "$Comments"); [|reflexivity]);
    unfold Py.skip_to_line;
    destruct (Py.skip_to_line_fuel "$EndComments" (S (String.length f)) f)
      as [g| |] eqn:Eg; try reflexivity;
    apply skip_to_line_fuel_shorter in Eg; try discriminate.
  - lia.
  - cbn [mbind result_bind].
    destruct (Py.readline_text g) as [[l' g']| |] eqn:Er; try reflexivity.
    apply readline_text_lengths in Er. cbn [mbind result_bind].
    apply IH; lia.
Qed.

Lemma le_value_bound (b : string) :
  0 <= Py.le_value b < 256 ^ Z.of_nat (String.length b).
Proof.
  induction b as [|c b IH]; [simpl; lia|].
  cbn [Py.le_value String.length]. rewrite Nat2Z.inj_succ, Z.pow_succ_r by lia.
  pose proof (N_ascii_bounded c). lia.
Qed.

Lemma le_bytes_le_value (b : string) :
  Py.le_bytes (String.length b) (Py.le_value b) = b.
Proof.
  induction b as [|c b IH]; [reflexivity|].
  cbn [Py.le_value String.length Py.le_bytes].
  pose proof (N_ascii_bounded c) as Hc.
  replace ((Z.of_N (N_of_ascii c) + 256 * Py.le_value b) mod 256)
    with (Z.of_N (N_of_ascii c))
    by (rewrite (Z.mul_comm 256), Z.mod_add by lia;
        symmetry; apply Z.mod_small; lia).
  replace ((Z.of_N (N_of_ascii c) + 256 * Py.le_value b) / 256)
    with (Py.le_value b)
    by (rewrite (Z.mul_comm 256), Z.div_add by lia;
        rewrite Z.div_small by lia; lia).
  rewrite N2Z.id, ascii_N_embedding, IH. reflexivity.
Qed.

(** Four bytes are the C [int] 1 in host order and no other. *)
Lemma unpack_one (one : string) :
  String.length one = 4%nat ->
  (Py.int32_of_bytes one = 1 <-> one = Py.bytes_of_int32 1).
Proof.
  intros Hlen. split.
  - unfold Py.int32_of_bytes. intros H.
    pose proof (le_value_bound one) as Hb. rewrite Hlen in Hb.
    assert (Hv : Py.le_value one = 1).
    { destruct (Z.ltb_spec (Py.le_value one) (2 ^ 31)); [exact H|].
      change (256 ^ Z.of_nat 4) with (2 ^ 32) in Hb. lia. }
    rewrite <- (le_bytes_le_value one), Hlen, Hv. reflexivity.
  - intros ->. reflexivity.
Qed.

Lemma read_header_line (h version file_type size : string) (more : list string)
    (n : Z) (f : string) :
  no_newline h = true -> Py.utf8_valid h = true ->
  Py.split_ws (line h) = version :: file_type :: size :: more ->
  Py.int_of_str size = Ok n ->
  _read_header (line h +:+ f)
  = if negb (String.eqb file_type "0" || String.eqb file_type "1") then
      Raise (ReadError "")
    else
      f ← (if String.eqb file_type "0" then Ok f
           else
             let (one, f) := Py.read 4 f in
             v ← Py.struct_unpack_i one;
             if negb (v =? 1) then Raise (ReadError "") else Ok f);
      f ← Py.skip_to_line "$EndMeshFormat" f;
      Ok (version, n, String.eqb file_type "0", f).
Proof.
  intros Hh Hv Hsplit Hsize. unfold _read_header.
  rewrite (readline_text_line h f Hh Hv). cbn [mbind result_bind]. rewrite Hsplit.
  cbn [Py.index nth_error mbind result_bind].
  destruct (negb _); [reflexivity|]. rewrite Hsize. reflexivity.
Qed.

(** In ASCII mode [_read_header] returns the version, the data size and
    the input after the first line that strips to [$EndMeshFormat]; on a
    file that has no such line it never returns, and a line of ill-formed
    UTF-8 before any such line makes it raise [UnicodeDecodeError]. *)
Theorem read_header_end_marker (h version size : string) (more : list string)
    (n : Z) (ls : list string) :
  no_newline h = true -> Py.utf8_valid h = true ->
  Py.split_ws (line h) = version :: "0" :: size :: more ->
  Py.int_of_str size = Ok n ->
  Forall (passed_over "$EndMeshFormat") ls ->
  (forall m rest,
      no_newline m = true -> Py.utf8_valid m = true ->
      Py.strip (line m) = "$EndMeshFormat" ->
      _read_header (line h +:+ (lines_text ls +:+ (line m +:+ rest)))
      = Ok (version, n, true, rest))
  /\ (forall last,
         no_newline last = true -> Py.utf8_valid last = true ->
         Py.strip last <> "$EndMeshFormat" ->
         _read_header (line h +:+ (lines_text ls +:+ last)) = Hang)
  /\ (forall bad rest,
         no_newline bad = true -> Py.utf8_valid bad = false ->
         _read_header (line h +:+ (lines_text ls +:+ (line bad +:+ rest)))
         = Raise Py.UnicodeDecodeError).
Proof.
  intros Hh Hv Hsplit Hsize Hls. split; [|split].
  - intros m rest Hm Hvm Hstrip.
    rewrite (read_header_line h version "0" size more n _ Hh Hv Hsplit Hsize).
    cbn [String.eqb Ascii.eqb Bool.eqb orb negb mbind result_bind].
    rewrite (skip_to_line_found "$EndMeshFormat" ls m rest Hls Hm Hvm Hstrip).
    reflexivity.
  - intros last Hlast Hvl Hstrip.
    rewrite (read_header_line h version "0" size more n _ Hh Hv Hsplit Hsize).
    cbn [String.eqb Ascii.eqb Bool.eqb orb negb mbind result_bind].
    rewrite (skip_to_line_missing "$EndMeshFormat" ls last) by (assumption || discriminate).
    reflexivity.
  - intros bad rest Hbad Hvb.
    rewrite (read_header_line h version "0" size more n _ Hh Hv Hsplit Hsize).
    cbn [String.eqb Ascii.eqb Bool.eqb orb negb mbind result_bind].
    rewrite (skip_to_line_ill_formed "$EndMeshFormat" ls bad rest Hls Hbad Hvb).
    reflexivity.
Qed.

Lemma read_header_end_marker_witness :
  _read_header ("4.1 0 8" +:+ Py.nl +:+ "$EndMeshFormat" +:+ sample_nbsp +:+ Py.nl
                +:+ "$Nodes")
  = Ok ("4.1", 8, true, "$Nodes")
  /\ _read_header ("4.1 0 8" +:+ Py.nl +:+ "$Nodes") = Hang
  /\ _read_header ("4.1 0 8" +:+ Py.nl +:+ sample_latin1 +:+ Py.nl
                   +:+ "$EndMeshFormat" +:+ Py.nl)
     = Raise Py.UnicodeDecodeError.
Proof.
  split; [|split].
  - apply (proj1 (read_header_end_marker "4.1 0 8" "4.1" "8" [] 8 []
                    eq_refl eq_refl eq_refl eq_refl (List.Forall_nil _))
             ("$EndMeshFormat" +:+ sample_nbsp) "$Nodes"); reflexivity.
  - apply (proj1 (proj2 (read_header_end_marker "4.1 0 8" "4.1" "8" [] 8 []
                    eq_refl eq_refl eq_refl eq_refl (List.Forall_nil _)))
             "$Nodes"); [reflexivity|reflexivity|discriminate].
  - apply (proj2 (proj2 (read_header_end_marker "4.1 0 8" "4.1" "8" [] 8 []
                    eq_refl eq_refl eq_refl eq_refl (List.Forall_nil _)))
             sample_latin1 ("$EndMeshFormat" +:+ Py.nl)); reflexivity.
Defined.

(** In binary mode the four bytes after the header line must be the C
    [int] 1 in host order: with these the header is read on to its end
    marker, with any other four bytes [_read_header] raises [ReadError],
    and with fewer than four bytes left, the error of [struct.unpack]. *)
Theorem read_header_endianness (h version size : string) (more : list string)
    (n : Z) (one body : string) :
  no_newline h = true -> Py.utf8_valid h = true ->
  Py.split_ws (line h) = version :: "1" :: size :: more ->
  Py.int_of_str size = Ok n ->
  (String.length one = 4%nat ->
   _read_header (line h +:+ (one +:+ body))
   = if String.eqb one (Py.bytes_of_int32 1) then
       f ← Py.skip_to_line "$EndMeshFormat" body;
       Ok (version, n, false, f)
     else Raise (ReadError ""))
  /\ ((String.length one < 4)%nat ->
      _read_header (line h +:+ one) = Raise StructError).
Proof.
  intros Hh Hv Hsplit Hsize. split.
  - intros Hlen.
    rewrite (read_header_line h version "1" size more n _ Hh Hv Hsplit Hsize).
    cbn [String.eqb Ascii.eqb Bool.eqb orb negb].
    rewrite <- Hlen, read_prefix. unfold Py.struct_unpack_i.
    rewrite Hlen. cbn [Nat.eqb mbind result_bind].
    destruct (String.eqb_spec one (Py.bytes_of_int32 1)) as [E|Hne].
    + rewrite (proj2 (unpack_one one Hlen) E). reflexivity.
    + destruct (Z.eqb_spec (Py.int32_of_bytes one) 1) as [E|_]; [|reflexivity].
      exfalso. apply Hne. now apply unpack_one.
  - intros Hlen.
    rewrite (read_header_line h version "1" size more n _ Hh Hv Hsplit Hsize).
    cbn [String.eqb Ascii.eqb Bool.eqb orb negb].
    destruct one as [|a [|b [|c [|d one]]]]; try reflexivity.
    simpl in Hlen. lia.
Qed.

Lemma read_header_endianness_witness :
  _read_header ("2.2 1 8" +:+ Py.nl
                +:+ (Py.bytes_of_int32 (2 ^ 24) +:+ (Py.nl +:+ "$EndMeshFormat" +:+ Py.nl)))
  = Raise (ReadError "")
  /\ _read_header ("2.2 1 8" +:+ Py.nl +:+ "ab") = Raise StructError.
Proof.
  split.
  - apply (proj1 (read_header_endianness "2.2 1 8" "2.2" "8" [] 8
                    (Py.bytes_of_int32 (2 ^ 24))
                    (Py.nl +:+ "$EndMeshFormat" +:+ Py.nl)
                    eq_refl eq_refl eq_refl eq_refl)).
    reflexivity.
  - apply (proj2 (read_header_endianness "2.2 1 8" "2.2" "8" [] 8 "ab" ""
                    eq_refl eq_refl eq_refl eq_refl)).
    simpl. lia.
Defined.

Section ReadBuffer.
Variable mesh : Type.
Variable module_read_buffer : gmsh_module -> string -> bool -> Z -> result mesh.

Abbreviation read_file := (read_buffer mesh module_read_buffer).

(** [read_buffer] passes over a comment block at the head of the file and
    reads what follows it as it reads a file without the block; a comment
    block with no [$EndComments] makes it loop for ever, and one with a
    line of ill-formed UTF-8 makes it raise [UnicodeDecodeError]; a file
    whose first line, stripped, is neither [$Comments] nor [$MeshFormat]
    (the empty file is one) is refused with [ReadError], and one whose
    first line is ill-formed with [UnicodeDecodeError]. *)
Theorem read_buffer_comments (c : string) (body : list string) :
  no_newline c = true -> Py.utf8_valid c = true -> Py.strip (line c) = "$Comments" ->
  Forall (passed_over "$EndComments") body ->
  (forall e f,
      no_newline e = true -> Py.utf8_valid e = true ->
      Py.strip (line e) = "$EndComments" ->
      read_file (line c +:+ (lines_text body +:+ (line e +:+ f))) = read_file f)
  /\ (forall last,
         no_newline last = true -> Py.utf8_valid last = true ->
         Py.strip last <> "$EndComments" ->
         read_file (line c +:+ (lines_text body +:+ last)) = Hang)
  /\ (forall bad f,
         no_newline bad = true -> Py.utf8_valid bad = false ->
         read_file (line c +:+ (lines_text body +:+ (line bad +:+ f)))
         = Raise Py.UnicodeDecodeError)
  /\ (forall f,
         Py.utf8_valid (fst (Py.readline f)) = true ->
         Py.strip (fst (Py.readline f)) <> "$Comments" ->
         Py.strip (fst (Py.readline f)) <> "$MeshFormat" ->
         read_file f = Raise (ReadError ""))
  /\ (forall f,
         Py.utf8_valid (fst (Py.readline f)) = false ->
         read_file f = Raise Py.UnicodeDecodeError).
Proof.
  intros Hc Hvc Hstrip Hbody. split; [|split; [|split; [|split]]].
  - intros e f He Hve Hend. unfold read_buffer.
    rewrite (readline_text_line c _ Hc Hvc). cbn [mbind result_bind]. rewrite Hstrip.
    cbn [skip_comments String.eqb Ascii.eqb Bool.eqb].
    rewrite (skip_to_line_found "$EndComments" body e f Hbody He Hve Hend).
    cbn [mbind result_bind].
    destruct (Py.readline_text f) as [[l f2]| |] eqn:Er; try reflexivity.
    apply readline_text_lengths in Er. cbn [mbind result_bind].
    rewrite (skip_comments_fuel (String.length f2) f2 (Py.strip l)
               (String.length (lines_text body +:+ (line e +:+ f)))
               (S (String.length f2))); [reflexivity|lia| |lia].
    rewrite !PyFacts.length_app. unfold line. rewrite PyFacts.length_app.
    change (String.length Py.nl) with 1%nat. lia.
  - intros last Hlast Hvl Hne. unfold read_buffer.
    rewrite (readline_text_line c _ Hc Hvc). cbn [mbind result_bind]. rewrite Hstrip.
    cbn [skip_comments String.eqb Ascii.eqb Bool.eqb].
    rewrite (skip_to_line_missing "$EndComments" body last) by (assumption || discriminate).
    reflexivity.
  - intros bad f Hbad Hvb. unfold read_buffer.
    rewrite (readline_text_line c _ Hc Hvc). cbn [mbind result_bind]. rewrite Hstrip.
    cbn [skip_comments String.eqb Ascii.eqb Bool.eqb].
    rewrite (skip_to_line_ill_formed "$EndComments" body bad f Hbody Hbad Hvb).
    reflexivity.
  - intros f Hv H1 H2. unfold read_buffer, Py.readline_text.
    destruct (Py.readline f) as [l f1]. cbn [fst] in *.
    rewrite (decode_valid l Hv). cbn [mbind result_bind skip_comments].
    destruct (String.eqb_spec (Py.strip l) "$Comments") as [E|_]; [congruence|].
    cbn [mbind result_bind].
    destruct (String.eqb_spec (Py.strip l) "$MeshFormat") as [E|_]; [congruence|].
    reflexivity.
  - intros f Hv. unfold read_buffer, Py.readline_text.
    destruct (Py.readline f) as [l f1]. cbn [fst] in *.
    now rewrite (decode_ill_formed l Hv).
Qed.

End ReadBuffer.

Lemma read_buffer_comments_witness :
  let reader (m : gmsh_module) (f : string) (a : bool) (n : Z) : result string := Ok f in
  (read_buffer string reader
     ("$Comments" +:+ Py.nl +:+ "made by hand" +:+ Py.nl +:+ "$EndComments" +:+ Py.nl
      +:+ "$MeshFormat" +:+ sample_nbsp +:+ Py.nl +:+ "2.2 0 8" +:+ Py.nl
      +:+ "$EndMeshFormat" +:+ Py.nl +:+ "$Nodes")
   = Ok "$Nodes")
  /\ read_buffer string reader ("$Comments" +:+ Py.nl +:+ "made by hand") = Hang
  /\ read_buffer string reader
       ("$Comments" +:+ Py.nl +:+ "made by hand" +:+ Py.nl +:+ sample_latin1 +:+ Py.nl
        +:+ "$EndComments" +:+ Py.nl)
     = Raise Py.UnicodeDecodeError
  /\ read_buffer string reader "" = Raise (ReadError "").
Proof.
  cbv zeta.
  destruct (read_buffer_comments string (fun _ f _ _ => Ok f) "$Comments"
              ["made by hand"] eq_refl eq_refl eq_refl) as (H1 & H2 & H3 & H4 & _).
  { constructor; [|constructor]. split; [reflexivity|]. split; [reflexivity|discriminate]. }
  split; [|split; [|split]].
  - exact (eq_trans
             (H1 "$EndComments"
                ("$MeshFormat" +:+ sample_nbsp +:+ Py.nl +:+ "2.2 0 8" +:+ Py.nl
                 +:+ "$EndMeshFormat" +:+ Py.nl +:+ "$Nodes") eq_refl eq_refl eq_refl)
             eq_refl).
  - apply (H2 "made by hand"); [reflexivity|reflexivity|discriminate].
  - apply (H3 sample_latin1 ("$EndComments" +:+ Py.nl)); reflexivity.
  - apply (H4 ""); [reflexivity|discriminate|discriminate].
Defined.

End ReadBufferSpec.

(** ** gmsh/common.py: binary data sections *)

Module BinarySectionSpec.
Import GmshCommon GmshCommonTerms GmshFileTerms TextTerms TextFacts.

Lemma rows_singletons (rows : list (list float64)) :
  pattern_rows 1 rows -> map (fun x => [x]) (column0 rows) = rows.
Proof.
  induction 1 as [|r rows [Hlen _] _ IH]; [reflexivity|].
  destruct r as [|x [|y r]]; try discriminate.
  change (column0 ([x] :: rows)) with (x :: column0 rows).
  cbn [map]. now rewrite IH.
Qed.

Lemma permitted_cases (nc : nat) :
  (nc = 1 \/ nc = 3 \/ nc = 9)%nat ->
  existsb (Z.eqb (Z.of_nat nc)) [1; 3; 9] = true.
Proof. intros [-> | [-> | ->]]; reflexivity. Qed.

Section BinarySection.
Variable repr : float64 -> string.
Variable scan_float : string -> option (float64 * string).

Lemma write_data_binary (fh tag name : string) (nc : nat) (rows : list (list float64)) :
  (nc = 1 \/ nc = 3 \/ nc = 9)%nat ->
  pattern_rows nc rows ->
  _write_data repr as_double fh tag name (Arr2 nc rows) true
  = (fh +:+ line ("$" +:+ tag)
        +:+ (tags_text name (Z.of_nat nc) (Z.of_nat (length rows))
             +:+ binary_payload rows)
        +:+ line "" +:+ line ("$End" +:+ tag),
     Ok tt).
Proof.
  intros Hnc Hrows. unfold _write_data.
  cbn [num_components_of shape]. rewrite (permitted_cases nc Hnc). cbn [negb].
  unfold tags_text, line, binary_payload.
  destruct Hnc as [-> | [-> | ->]].
  - cbv beta iota zeta. rewrite (rows_singletons rows Hrows).
    cbn [shape hd]. unfold column0. rewrite List.length_map.
    rewrite !PyFacts.app_assoc. reflexivity.
  - cbn [shape hd]. rewrite !PyFacts.app_assoc. reflexivity.
  - cbn [shape hd]. rewrite !PyFacts.app_assoc. reflexivity.
Qed.

Lemma pattern_rows_doubles (nc : nat) (rows : list (list float64)) :
  pattern_rows nc rows ->
  Forall (fun r => length r = nc /\ Forall (fun v => is_pattern (as_double v)) r) rows.
Proof. exact (fun H => H). Qed.

Lemma read_data_binary_records (tag name : string) (nc : nat)
    (rows : list (list float64)) (dd : list (string * ndarray)) (ds : Z)
    (tail : string) :
  no_newline name = true -> Py.utf8_valid name = true ->
  pattern_rows nc rows -> Z.of_nat (length rows) < 2 ^ 31 ->
  _read_data scan_float
    ((tags_text name (Z.of_nat nc) (Z.of_nat (length rows)) +:+ binary_payload rows)
     +:+ tail)
    tag dd ds false
  = store_field tail tag [Py.remove_char Py.dquote name] dd nc rows.
Proof.
  intros Hname Hvalid Hrows Hlen.
  rewrite PyFacts.app_assoc.
  rewrite (IndexCheckSpec.read_data_after_tags scan_float _ tag dd ds false
             [Py.remove_char Py.dquote name]
             [0; Z.of_nat nc; Z.of_nat (length rows)]
             (binary_payload rows +:+ tail) (Z.of_nat nc) (Z.of_nat (length rows)));
    [|apply RoundTripSpec.read_tags_written; (assumption || lia)
     |reflexivity|reflexivity|lia|lia].
  cbv zeta. rewrite !Nat2Z.id. unfold binary_payload.
  change (imap (binary_record as_double) rows)
    with (imap (fun k => binary_record as_double (0 + k)) rows).
  pose proof (RoundTripSpec.fromfile_records_written as_double nc rows 0 tail
                (pattern_rows_doubles nc rows Hrows) Hlen) as Hrec.
  destruct (RoundTripSpec.indices_written (map as_double) rows 0) as [Hi Hv].
  unfold scalar, float64 in *.
  assert (Hid : map (map as_double) rows = rows).
  { clear. induction rows as [|r rows IH]; [reflexivity|].
    cbn [map]. rewrite IH. f_equal. apply List.map_id. }
  unfold float64 in Hid. rewrite Hid in Hv. rewrite Hrec.
  rewrite IndexCheckSpec.index_check_full
    by (rewrite List.length_map, length_imap; reflexivity).
  rewrite Hi, Hv, decide_True by reflexivity.
  reflexivity.
Qed.

(** An array of doubles with one, three or nine components per item is
    written in binary mode as its tag block, one record per item, a newline
    and the end marker.  [_read_data] reads such a tag block and records
    back as the array written and stores it under the name with its double
    quotes taken out, once it has passed over the lines of well-formed text
    before the line that strips to the end marker; where no such line
    follows it never returns, and where a line of ill-formed UTF-8 comes
    first it raises [UnicodeDecodeError]. *)
Theorem binary_section_round_trip (tag name : string) (nc : nat)
    (rows : list (list float64)) (dd : list (string * ndarray)) (ds : Z)
    (ls : list string) :
  no_newline name = true -> Py.utf8_valid name = true ->
  pattern_rows nc rows -> Z.of_nat (length rows) < 2 ^ 31 ->
  Forall (passed_over ("$End" +:+ tag)) ls ->
  let head :=
    tags_text name (Z.of_nat nc) (Z.of_nat (length rows)) +:+ binary_payload rows in
  ((nc = 1 \/ nc = 3 \/ nc = 9)%nat ->
   forall fh,
     _write_data repr as_double fh tag name (Arr2 nc rows) true
     = (fh +:+ line ("$" +:+ tag) +:+ head +:+ line "" +:+ line ("$End" +:+ tag),
        Ok tt))
  /\ (forall m rest,
         no_newline m = true -> Py.utf8_valid m = true ->
         Py.strip (line m) = "$End" +:+ tag ->
         _read_data scan_float (head +:+ (lines_text ls +:+ (line m +:+ rest)))
           tag dd ds false
         = Ok (rest,
               Py.dict_set dd (Py.remove_char Py.dquote name) (squeeze nc rows)))
  /\ (forall last,
         no_newline last = true -> Py.utf8_valid last = true ->
         Py.strip last <> "$End" +:+ tag ->
         _read_data scan_float (head +:+ (lines_text ls +:+ last)) tag dd ds false
         = Hang)
  /\ (forall bad rest,
         no_newline bad = true -> Py.utf8_valid bad = false ->
         _read_data scan_float (head +:+ (lines_text ls +:+ (line bad +:+ rest)))
           tag dd ds false
         = Raise Py.UnicodeDecodeError).
Proof.
  intros Hname Hvalid Hrows Hlen Hls head. split; [|split; [|split]].
  - intros Hnc fh. now apply write_data_binary.
  - intros m rest Hm Hvm Hstrip. subst head.
    rewrite read_data_binary_records by assumption.
    unfold store_field.
    rewrite (ReadBufferSpec.skip_to_line_found _ ls m rest Hls Hm Hvm Hstrip).
    reflexivity.
  - intros last Hlast Hvl Hstrip. subst head.
    rewrite read_data_binary_records by assumption.
    unfold store_field.
    rewrite (ReadBufferSpec.skip_to_line_missing _ ls last)
      by (assumption || discriminate).
    reflexivity.
  - intros bad rest Hbad Hvb. subst head.
    rewrite read_data_binary_records by assumption.
    unfold store_field.
    rewrite (ReadBufferSpec.skip_to_line_ill_formed _ ls bad rest Hls Hbad Hvb).
    reflexivity.
Qed.

End BinarySection.

Lemma binary_section_round_trip_witness :
  let rows := [[1; 2; 3]; [4; 5; 6]] in
  let head := tags_text "u" 3 2 +:+ binary_payload rows in
  _write_data sample_repr as_double "" "NodeData" "u" (Arr2 3 rows) true
  = (line "$NodeData" +:+ head +:+ line "" +:+ line "$EndNodeData", Ok tt)
  /\ _read_data sample_scan
       (head +:+ line "" +:+ line ("$EndNodeData" +:+ sample_nbsp)) "NodeData" [] 8
       false
     = Ok ("", [("u", Arr2 3 rows)])
  /\ _read_data sample_scan (head +:+ line "") "NodeData" [] 8 false = Hang
  /\ _read_data sample_scan (head +:+ line "" +:+ line sample_latin1) "NodeData" [] 8
       false
     = Raise Py.UnicodeDecodeError.
Proof.
  cbv zeta.
  assert (Hrows : pattern_rows 3 [[1; 2; 3]; [4; 5; 6]]).
  { repeat (constructor; [split; [reflexivity|]|]);
      repeat (constructor; [unfold is_pattern; lia|]); constructor. }
  destruct (binary_section_round_trip sample_repr sample_scan "NodeData" "u" 3
              [[1; 2; 3]; [4; 5; 6]] [] 8 [""] eq_refl eq_refl Hrows)
    as (Hw & Hr & Hh & Hb).
  { simpl. lia. }
  { constructor; [|constructor]. split; [reflexivity|]. split; [reflexivity|discriminate]. }
  split; [|split; [|split]].
  - exact (Hw (or_intror (or_introl eq_refl)) "").
  - exact (Hr ("$EndNodeData" +:+ sample_nbsp) "" eq_refl eq_refl eq_refl).
  - exact (Hh "" eq_refl eq_refl ltac:(discriminate)).
  - exact (Hb sample_latin1 "" eq_refl eq_refl).
Defined.

End BinarySectionSpec.

(** ** gmsh/common.py: physical names, written and read *)

Module PhysicalNamesReadSpec.
Import GmshCommon GmshCommonTerms GmshNames GmshFileTerms TextTerms TextFacts.

Lemma unsigned_literal_str (z : Z) :
  0 <= z -> Py.unsigned_literal (Py.str_of_Z z) = Some z.
Proof.
  intros Hz. destruct (str_of_Z_digits z Hz) as (d & E & Hd & Hv).
  pose proof (digits_of_uint d) as Hall. rewrite E.
  unfold Py.unsigned_literal.
  destruct (NilEmpty.string_of_uint d) as [|c t] eqn:Es;
    [destruct d; simpl in Es; congruence|].
  rewrite (literal_digits_all _ false Hall); [|now right].
  rewrite <- Es, NilEmpty.usu. simpl. now rewrite Hv.
Qed.

Lemma str_of_Z_neg (p : positive) :
  Py.str_of_Z (Z.neg p) = String "-" (Py.str_of_Z (Z.pos p)).
Proof. reflexivity. Qed.

(** [int] of the decimal text of an integer. *)
Lemma int_of_str_str (z : Z) : Py.int_of_str (Py.str_of_Z z) = Ok z.
Proof.
  destruct (Z_lt_dec z 0) as [Hneg|Hpos].
  - destruct z as [|p|p]; try lia. rewrite str_of_Z_neg.
    destruct (str_of_Z_all_digits (Z.pos p) ltac:(lia)) as [Hd Hne].
    unfold Py.int_of_str. rewrite int_text_ascii.
    + unfold Py.c_strip. cbn [Py.c_lstrip].
      change (Py.c_isspace "-") with false. cbv iota. cbn [Py.c_rstrip].
      rewrite (c_rstrip_digits _ Hd).
      destruct (Py.str_of_Z (Z.pos p)) as [|c t] eqn:E; [congruence|].
      rewrite <- E. now rewrite unsigned_literal_str by lia.
    + unfold ascii_text. cbn [all_chars]. apply andb_true_iff. split; [reflexivity|].
      now apply digits_ascii.
  - apply int_of_digits; [lia|now left].
Qed.

Lemma digit_word_char (c : ascii) : Py.is_digit c = true -> word_char c = true.
Proof.
  destruct c as [[] [] [] [] [] [] [] []]; intros H; try reflexivity;
    vm_compute in H; discriminate H.
Qed.

Lemma str_of_Z_word (z : Z) :
  exists a w, Py.str_of_Z z = String a w
              /\ word_char a = true /\ all_chars word_char w = true.
Proof.
  assert (Hpos : forall z, 0 <= z ->
            exists a w, Py.str_of_Z z = String a w
                        /\ word_char a = true /\ all_chars word_char w = true).
  { intros z0 Hz. destruct (str_of_Z_all_digits z0 Hz) as [Hd Hne].
    destruct (Py.str_of_Z z0) as [|c t]; [congruence|].
    cbn [all_chars] in Hd. apply andb_true_iff in Hd as [Hc Ht].
    exists c, t. split; [reflexivity|]. split; [now apply digit_word_char|].
    revert Ht. apply all_chars_impl. exact digit_word_char. }
  destruct z as [|p|p]; [apply Hpos; lia|apply Hpos; lia|].
  rewrite str_of_Z_neg.
  destruct (Hpos (Z.pos p) ltac:(lia)) as (a & w & -> & Ha & Hw).
  exists "-"%char, (String a w). split; [reflexivity|]. split; [reflexivity|].
  cbn [all_chars]. now rewrite Ha, Hw.
Qed.

(** A word up to the white space that ends it. *)
Lemma tokens_in_word (w t : string) (quoted : bool) (c : ascii) (s : string) :
  all_chars word_char w = true -> Shlex.whitespace c = true ->
  t +:+ w <> "" ->
  Shlex.tokens Shlex.Word t quoted (w +:+ String c s)
  = (rest ← Shlex.tokens Shlex.Between "" false s; Ok ((t +:+ w) :: rest)).
Proof.
  revert t. induction w as [|a w IH]; intros t Hw Hc Hne.
  - rewrite PyFacts.app_nil_r in *. cbn [String.append Shlex.tokens]. rewrite Hc.
    destruct (String.eqb_spec t "") as [E|_]; [congruence|]. reflexivity.
  - cbn [all_chars] in Hw. apply andb_true_iff in Hw as [Ha Hw].
    unfold word_char in Ha. rewrite !andb_true_iff, !negb_true_iff in Ha.
    destruct Ha as [[Ha1 Ha2] Ha3].
    cbn [String.append Shlex.tokens]. rewrite Ha1, Ha2, Ha3.
    rewrite (IH (Shlex.push t a) Hw Hc).
    + unfold Shlex.push. rewrite PyFacts.app_assoc. reflexivity.
    + unfold Shlex.push. rewrite PyFacts.app_assoc. cbn [String.append].
      destruct t; discriminate.
Qed.

Lemma tokens_word (a : ascii) (w : string) (c : ascii) (s : string) :
  word_char a = true -> all_chars word_char w = true -> Shlex.whitespace c = true ->
  Shlex.tokens Shlex.Between "" false (String a (w +:+ String c s))
  = (rest ← Shlex.tokens Shlex.Between "" false s; Ok (String a w :: rest)).
Proof.
  intros Ha Hw Hc.
  unfold word_char in Ha. rewrite !andb_true_iff, !negb_true_iff in Ha.
  destruct Ha as [[Ha1 Ha2] Ha3].
  cbn [Shlex.tokens]. rewrite Ha1, Ha2, Ha3.
  now rewrite (tokens_in_word w (String a "") false c s Hw Hc).
Qed.

(** The text between double quotes, up to the closing quote. *)
Lemma tokens_in_quotes (name t : string) (quoted : bool) (s : string) :
  quotable name = true ->
  Shlex.tokens (Shlex.Quoted Py.dquote) t quoted (name +:+ String Py.dquote s)
  = Shlex.tokens Shlex.Word (t +:+ name) true s.
Proof.
  revert t quoted. induction name as [|a name IH]; intros t quoted Hn.
  - rewrite PyFacts.app_nil_r. cbn [String.append Shlex.tokens].
    now rewrite Ascii.eqb_refl.
  - unfold quotable in Hn. cbn [all_chars] in Hn.
    apply andb_true_iff in Hn as [Ha Hn].
    rewrite !andb_true_iff, !negb_true_iff in Ha. destruct Ha as [[_ Ha2] Ha3].
    cbn [String.append Shlex.tokens]. rewrite Ha2, Ha3. cbn [andb].
    rewrite (IH (Shlex.push t a) true Hn).
    unfold Shlex.push. now rewrite PyFacts.app_assoc.
Qed.

(** The line of an entry is split into its three fields. *)
Lemma split_entry_line (dim num : Z) (name : string) :
  quotable name = true ->
  Shlex.split (format_entry (dim, num, name))
  = Ok [Py.str_of_Z dim; Py.str_of_Z num; name].
Proof.
  intros Hn. unfold Shlex.split, format_entry.
  destruct (str_of_Z_word dim) as (a1 & w1 & -> & Ha1 & Hw1).
  destruct (str_of_Z_word num) as (a2 & w2 & -> & Ha2 & Hw2).
  cbn [String.append].
  rewrite (tokens_word a1 w1 " " _ Ha1 Hw1 eq_refl).
  rewrite (tokens_word a2 w2 " " _ Ha2 Hw2 eq_refl).
  cbn [Shlex.tokens].
  change (Shlex.whitespace Py.dquote) with false.
  change (Ascii.eqb Py.dquote Shlex.backslash) with false.
  change (Shlex.quote Py.dquote) with true. cbv iota.
  rewrite (tokens_in_quotes name "" false Py.nl Hn).
  cbn [String.append]. unfold Py.nl. cbn [Shlex.tokens].
  change (Shlex.whitespace Py.newline) with true. cbv iota.
  rewrite orb_true_r. reflexivity.
Qed.

Lemma str_of_Z_fits_line (z : Z) : no_newline (Py.str_of_Z z) = true.
Proof.
  destruct z as [|p|p]; try (apply str_of_Z_no_newline; lia).
  rewrite str_of_Z_neg. unfold no_newline. cbn [all_chars].
  apply andb_true_iff. split; [reflexivity|].
  apply (str_of_Z_no_newline (Z.pos p)). lia.
Qed.

Lemma quotable_no_newline (name : string) :
  quotable name = true -> no_newline name = true.
Proof.
  apply all_chars_impl. intros c. rewrite !andb_true_iff. tauto.
Qed.

Lemma str_of_Z_ascii (z : Z) : ascii_text (Py.str_of_Z z) = true.
Proof.
  destruct z as [|p|p]; try (apply digits_ascii, str_of_Z_all_digits; lia).
  rewrite str_of_Z_neg. unfold ascii_text. cbn [all_chars].
  apply andb_true_iff. split; [reflexivity|].
  apply digits_ascii, (str_of_Z_all_digits (Z.pos p)). lia.
Qed.

Lemma format_entry_line (dim num : Z) (name : string) :
  quotable name = true -> Py.utf8_valid name = true ->
  exists l,
    format_entry (dim, num, name) = line l
    /\ no_newline l = true /\ Py.utf8_valid l = true.
Proof.
  intros Hn Hv.
  exists (Py.str_of_Z dim +:+ " " +:+ Py.str_of_Z num +:+ " "
          +:+ String Py.dquote name +:+ String Py.dquote "").
  split; [|split].
  - unfold format_entry, line. rewrite !PyFacts.app_assoc. reflexivity.
  - unfold no_newline. rewrite !all_chars_app.
    pose proof (str_of_Z_fits_line dim) as H1.
    pose proof (str_of_Z_fits_line num) as H2.
    pose proof (quotable_no_newline name Hn) as H3.
    unfold no_newline in *. cbn [all_chars]. rewrite H1, H2, H3.
    reflexivity.
  - rewrite (valid_app (Py.str_of_Z dim)) by apply ascii_valid, str_of_Z_ascii.
    rewrite (valid_app " ") by reflexivity.
    rewrite (valid_app (Py.str_of_Z num)) by apply ascii_valid, str_of_Z_ascii.
    rewrite (valid_app " ") by reflexivity.
    now apply RoundTripSpec.quoted_valid.
Qed.

Lemma int_array_pair (num dim : Z) :
  int64 num -> int64 dim ->
  int_array [Py.str_of_Z num; Py.str_of_Z dim] = Ok [num; dim].
Proof.
  unfold int64, int_array. intros Hn Hd. cbn [Py.map_result].
  rewrite !int_of_str_str. cbn [mbind result_bind].
  destruct (Z.leb_spec (- 2 ^ 63) num); [|lia].
  destruct (Z.ltb_spec num (2 ^ 63)); [|lia].
  destruct (Z.leb_spec (- 2 ^ 63) dim); [|lia].
  destruct (Z.ltb_spec dim (2 ^ 63)); [|lia].
  reflexivity.
Qed.

(** The lines of the entries are read back one by one. *)
Lemma read_names_entries (entries : list entry) (rest : string)
    (dd : list (string * pyval)) :
  Forall readable_entry entries ->
  read_names (length entries)
    (String.concat "" (map format_entry entries) +:+ rest) dd
  = Ok (rest, stored entries dd).
Proof.
  intros H. revert dd.
  induction H as [|[[dim num] name] es (Hn & Hv & Hd & Hm) Hes IH];
    intros dd; [reflexivity|].
  cbn [length map read_names]. rewrite concat_cons, PyFacts.app_assoc.
  destruct (format_entry_line dim num name Hn Hv) as (l & El & Hl & Hvl).
  rewrite El, (readline_text_line l _ Hl Hvl), <- El. cbn [mbind result_bind].
  rewrite (split_entry_line dim num name Hn).
  cbn [mbind result_bind Py.index nth_error take rev app].
  rewrite (int_array_pair num dim Hm Hd). cbn [mbind result_bind map].
  rewrite IH. reflexivity.
Qed.

Lemma write_physical_names_text (fh : string) (log : list string)
    (field_data : list (string * pyval)) :
  Forall (fun kv => processable (snd kv)) field_data ->
  _write_physical_names fh log field_data
  = (fh +:+ section_text (Py.sorted entry_leb (coercible_entries field_data)),
     log ++ repeat warning_text (skipped field_data),
     Ok tt).
Proof.
  intros H. unfold _write_physical_names.
  rewrite (PhysicalNamesSpec.collect_processable _ _ _ H). cbv beta iota zeta.
  rewrite List.app_nil_l.
  destruct (Py.sorted entry_leb (coercible_entries field_data)) as [|e es] eqn:E.
  - simpl. now rewrite PyFacts.app_nil_r.
  - unfold section_text.
    rewrite PyFacts.write_fold, !PyFacts.app_assoc.
    rewrite (map_ext format_entry _ PhysicalNamesSpec.format_entry_unfold).
    reflexivity.
Qed.

Lemma dict_get_set_eq {V : Type} (d : list (string * V)) (k : string) (v : V) :
  Py.dict_get (Py.dict_set d k v) k = Ok v.
Proof.
  induction d as [|[k' v'] d IH]; cbn [Py.dict_set Py.dict_get].
  - now rewrite String.eqb_refl.
  - destruct (String.eqb k' k) eqn:E; cbn [Py.dict_get].
    + now rewrite String.eqb_refl.
    + now rewrite E.
Qed.

Lemma dict_get_set_ne {V : Type} (d : list (string * V)) (k k' : string) (v : V) :
  k <> k' -> Py.dict_get (Py.dict_set d k v) k' = Py.dict_get d k'.
Proof.
  intros Hne. induction d as [|[k0 v0] d IH]; cbn [Py.dict_set Py.dict_get].
  - destruct (String.eqb_spec k k'); [congruence|reflexivity].
  - destruct (String.eqb_spec k0 k) as [->|Hk]; cbn [Py.dict_get].
    + destruct (String.eqb_spec k k'); [congruence|reflexivity].
    + destruct (String.eqb k0 k'); [reflexivity|exact IH].
Qed.

Lemma stored_other (es : list entry) (d : list (string * pyval)) (k : string) :
  ~ In k (map snd es) -> Py.dict_get (stored es d) k = Py.dict_get d k.
Proof.
  revert d. induction es as [|[[dim num] name] es IH]; intros d Hk; [reflexivity|].
  cbn [map snd In] in Hk. unfold stored in *. cbn [fold_left].
  rewrite IH by tauto. apply dict_get_set_ne. intros E. apply Hk. now left.
Qed.

Lemma stored_lookup (es : list entry) (d : list (string * pyval))
    (dim num : Z) (name : string) :
  NoDup (map snd es) -> In (dim, num, name) es ->
  Py.dict_get (stored es d) name = Ok (PySeq [PyInt num; PyInt dim]).
Proof.
  revert d. induction es as [|[[dim' num'] name'] es IH]; intros d Hnd Hin;
    [destruct Hin|].
  cbn [map snd] in Hnd. apply NoDup_cons in Hnd as [Hfresh Hnd].
  destruct Hin as [[= -> -> ->]|Hin].
  - change (stored ((dim, num, name) :: es) d)
      with (stored es (Py.dict_set d name (PySeq [PyInt num; PyInt dim]))).
    rewrite stored_other.
    + apply dict_get_set_eq.
    + intros H. apply Hfresh. now apply list_elem_of_In.
  - change (stored ((dim', num', name') :: es) d)
      with (stored es (Py.dict_set d name' (PySeq [PyInt num'; PyInt dim']))).
    now apply IH.
Qed.

Lemma coercible_names (field_data : list (string * pyval)) (name : string) :
  In name (map snd (coercible_entries field_data)) -> In name (map fst field_data).
Proof.
  induction field_data as [|[k v] fd IH]; [intros []|].
  unfold coercible_entries in *. cbn [flat_map map fst snd].
  rewrite List.map_app, in_app_iff. intros [H|H]; [|right; now apply IH].
  destruct (coerce v) as [[num dim]| |]; cbn [map In snd] in H; try tauto.
  destruct H as [<-|[]]. now left.
Qed.

Lemma coercible_names_nodup (field_data : list (string * pyval)) :
  NoDup (map fst field_data) -> NoDup (map snd (coercible_entries field_data)).
Proof.
  induction field_data as [|[k v] fd IH]; intros Hnd; [constructor|].
  cbn [map fst] in Hnd. apply NoDup_cons in Hnd as [Hk Hnd].
  unfold coercible_entries in *. cbn [flat_map map fst snd].
  destruct (coerce v) as [[num dim]| |]; cbn [app map snd]; try now apply IH.
  constructor; [|now apply IH].
  intros H. apply Hk. apply list_elem_of_In, coercible_names.
  now apply list_elem_of_In.
Qed.

Lemma coercible_in (field_data : list (string * pyval)) (name : string) (v : pyval)
    (num dim : Z) :
  In (name, v) field_data -> coerce v = Ok (num, dim) ->
  In (dim, num, name) (coercible_entries field_data).
Proof.
  intros Hin Hv. unfold coercible_entries. apply in_flat_map.
  exists (name, v). split; [exact Hin|]. cbn [fst snd]. rewrite Hv. now left.
Qed.

(** The section that [_write_physical_names] writes for entries that all
    coerce or are skipped, [_read_physical_names] reads back, given the
    input after the line [$PhysicalNames]: it stores every name that was
    written with the array of its id and its dimension, the pair that the
    writer was given, and returns the input after the section.  (The names
    are well-formed text that fits between double quotes on a line, the
    integers fit 64 bits.) *)
Theorem physical_names_round_trip (field_data : list (string * pyval))
    (log : list string) (dd : list (string * pyval)) (rest : string) :
  Forall (fun kv => processable (snd kv)) field_data ->
  Forall readable_entry (coercible_entries field_data) ->
  coercible_entries field_data <> [] ->
  exists body,
    fst (fst (_write_physical_names "" log field_data))
    = line "$PhysicalNames" +:+ body
    /\ _read_physical_names (body +:+ rest) dd
       = Ok (rest, stored (Py.sorted entry_leb (coercible_entries field_data)) dd)
    /\ (NoDup (map fst field_data) ->
        forall name v num dim,
          In (name, v) field_data -> coerce v = Ok (num, dim) ->
          Py.dict_get
            (stored (Py.sorted entry_leb (coercible_entries field_data)) dd) name
          = Ok (PySeq [PyInt num; PyInt dim])).
Proof.
  intros Hproc Hread Hne.
  set (entries := Py.sorted entry_leb (coercible_entries field_data)).
  assert (Hperm : Permutation entries (coercible_entries field_data))
    by apply PyFacts.sorted_perm.
  assert (Hread' : Forall readable_entry entries).
  { rewrite List.Forall_forall in *. intros e He. apply Hread.
    now apply (Permutation_in _ Hperm). }
  exists (line (Py.str_of_Z (Z.of_nat (length entries)))
          +:+ String.concat "" (map format_entry entries)
          +:+ line "$EndPhysicalNames").
  split; [|split].
  - rewrite (write_physical_names_text "" log field_data Hproc). cbn [fst].
    fold entries. destruct entries as [|e es] eqn:E.
    + exfalso. apply Hne. apply Permutation_nil. now symmetry.
    + unfold section_text, line.
      cbn [String.append]. rewrite !PyFacts.app_assoc. reflexivity.
  - unfold _read_physical_names. rewrite !PyFacts.app_assoc.
    rewrite readline_text_number by lia. cbn [mbind result_bind].
    rewrite int_of_line by lia. cbn [mbind result_bind]. rewrite Nat2Z.id.
    rewrite (read_names_entries entries _ dd Hread').
    cbn [mbind result_bind].
    rewrite (readline_text_line "$EndPhysicalNames" rest eq_refl eq_refl).
    reflexivity.
  - intros Hnd name v num dim Hin Hv.
    apply stored_lookup.
    + assert (Hp : Permutation (map snd entries)
                     (map snd (coercible_entries field_data)))
        by now apply Permutation_map.
      rewrite Hp. now apply coercible_names_nodup.
    + apply (Permutation_in _ (Permutation_sym Hperm)).
      now apply (coercible_in field_data name v).
Qed.

Lemma physical_names_round_trip_witness :
  exists body,
    fst (fst (_write_physical_names "" [] sample_field_data))
    = line "$PhysicalNames" +:+ body
    /\ _read_physical_names (body +:+ "$Nodes") []
       = Ok ("$Nodes",
             stored (Py.sorted entry_leb (coercible_entries sample_field_data)) [])
    /\ (NoDup (map fst sample_field_data) ->
        forall name v num dim,
          In (name, v) sample_field_data -> coerce v = Ok (num, dim) ->
          Py.dict_get
            (stored (Py.sorted entry_leb (coercible_entries sample_field_data)) [])
            name
          = Ok (PySeq [PyInt num; PyInt dim])).
Proof.
  apply (physical_names_round_trip sample_field_data [] [] "$Nodes").
  - repeat (constructor; [vm_compute; exact I|]). constructor.
  - repeat (constructor;
            [split; [reflexivity|split; [reflexivity|split; unfold int64; simpl; lia]]|]).
    constructor.
  - discriminate.
Defined.

End PhysicalNamesReadSpec.

(** ** The XDMF reader: a session and its stores *)

Module ReaderSessionSpec.
Import Xdmf XdmfTerms MonadTerms MonadFacts SessionTerms.

Section Preserves.
Context {S : Type} (P : S -> Prop).

Lemma preserves_bind {A B : Type} (m : M S A) (k : A -> M S B) :
  preserves P m -> (forall a, preserves P (k a)) -> preserves P (m ≫= k).
Proof.
  intros Hm Hk s Hs. rewrite bind_run. specialize (Hm s Hs).
  destruct (m s) as [s' [a|e|]]; simpl in *; [|assumption|assumption].
  now apply Hk.
Qed.

Lemma preserves_still {A : Type} (m : M S A) :
  (forall s, fst (m s) = s) -> preserves P m.
Proof. intros H s Hs. now rewrite H. Qed.

Lemma preserves_modify (g : S -> S) :
  (forall s, P s -> P (g s)) -> preserves P (modify g).
Proof. intros H s Hs. now apply H. Qed.

Lemma preserves_get_bind {B : Type} (k : S -> M S B) :
  (forall s, P s -> P (fst (k s s))) -> preserves P (get ≫= k).
Proof. intros H s Hs. rewrite bind_run. now apply H. Qed.

Lemma preserves_bind_at {A B : Type} (m : M S A) (k : A -> M S B) (s : S) :
  P (fst (m s)) -> (forall a, preserves P (k a)) -> P (fst ((m ≫= k) s)).
Proof.
  intros Hm Hk. rewrite bind_run.
  destruct (m s) as [s' [a|e|]]; simpl in *; [|assumption|assumption].
  now apply Hk.
Qed.

End Preserves.

Lemma in_world_still {A : Type} (m : M world A) :
  (forall w, fst (m w) = w) -> forall s : rstate, fst (in_world m s) = s.
Proof.
  intros H [r w]. unfold in_world. cbn [snd fst]. specialize (H w).
  destruct (m w) as [w' x]. cbn [fst] in *. now subst.
Qed.

Lemma h5_root_still (f : nat) (w : world) : fst (h5_root f w) = w.
Proof.
  unfold h5_root. destruct (w_handles w !! f) as [i|]; [|reflexivity].
  destruct (hdf_at w (h_path i)); reflexivity.
Qed.

(** One step of a proof that a call keeps a property of the state. *)
Ltac keep_step :=
  lazymatch goal with
  | |- preserves _ (get ≫= _) => fail
  | |- preserves _ (_ ≫= _) => apply preserves_bind; [|intros ?]
  | |- preserves _ (mret _) => apply preserves_still; intros ?; reflexivity
  | |- preserves _ (lift _) => apply preserves_still; intros ?; reflexivity
  | |- preserves _ (raise _) => apply preserves_still; intros ?; reflexivity
  | |- preserves _ (in_world (h5_root _)) =>
      apply preserves_still, in_world_still, h5_root_still
  | |- preserves _ (if ?b then _ else _) => destruct b
  | |- preserves _ (let '(_, _) := ?x in _) => destruct x
  | |- preserves _ (match ?x with _ => _ end) => destruct x
  end.

Lemma dict_get_miss {V : Type} (d : list (string * V)) (k : string) :
  (forall v, Py.dict_get d k <> Ok v) -> Py.dict_mem d k = false.
Proof.
  intros H. destruct (Py.dict_mem d k) eqn:E; [|reflexivity].
  destruct (MixedCellsFacts.dict_mem_get d k E) as [v Hv]. now destruct (H v).
Qed.

Lemma lift_bind_ok {S A B : Type} (x : result A) (k : A -> M S B) (s s2 : S)
    (b : B) :
  (lift x ≫= k) s = (s2, Ok b) -> exists a, x = Ok a /\ k a s = (s2, Ok b).
Proof.
  rewrite bind_run. unfold lift. destruct x as [a| |]; try discriminate. eauto.
Qed.

(** A step that leaves the state alone. *)
Lemma still_bind_ok {S A B : Type} (m : M S A) (k : A -> M S B) (s s2 : S) (b : B) :
  (forall s, fst (m s) = s) ->
  (m ≫= k) s = (s2, Ok b) -> exists a, k a s = (s2, Ok b).
Proof.
  intros H. rewrite bind_run. specialize (H s).
  destruct (m s) as [s' [a| |]]; cbn [fst] in H; subst; try discriminate. eauto.
Qed.

Lemma still_bind {S A B : Type} (m : M S A) (k : A -> M S B) :
  (forall s, fst (m s) = s) -> (forall a s, fst (k a s) = s) ->
  forall s, fst ((m ≫= k) s) = s.
Proof.
  intros Hm Hk s. rewrite bind_run. specialize (Hm s).
  destruct (m s) as [s' [a| |]]; cbn [fst] in *; subst; [apply Hk|..]; reflexivity.
Qed.

Lemma still_ok {S A : Type} (m : M S A) (s s2 : S) (a : A) :
  (forall s, fst (m s) = s) -> m s = (s2, Ok a) -> s2 = s.
Proof. intros H E. specialize (H s). now rewrite E in H. Qed.

(** One step of a proof that a call leaves the state alone. *)
Ltac still_step :=
  lazymatch goal with
  | |- forall s, fst ((_ ≫= _) s) = s => apply still_bind; [|intros ?]
  | |- forall s, fst ((if ?b then _ else _) s) = s => destruct b
  | |- forall s, fst ((match ?x with _ => _ end) s) = s => destruct x
  | |- forall s, fst (_ s) = s => intros ?; reflexivity
  end.

Lemma dict_set_keys {V : Type} (d : list (string * V)) (k k' : string) (v : V) :
  In k' (map fst d) -> In k' (map fst (Py.dict_set d k v)).
Proof.
  induction d as [|[k0 v0] d IH]; cbn [Py.dict_set map fst In]; [tauto|].
  destruct (String.eqb_spec k0 k) as [->|]; cbn [map fst In]; tauto.
Qed.

Lemma dict_set_key {V : Type} (d : list (string * V)) (k : string) (v : V) :
  In k (map fst (Py.dict_set d k v)).
Proof.
  induction d as [|[k0 v0] d IH]; cbn [Py.dict_set map fst In]; [tauto|].
  destruct (String.eqb_spec k0 k) as [->|]; cbn [map fst In]; tauto.
Qed.

Lemma dict_get_key {V : Type} (d : list (string * V)) (k : string) (v : V) :
  Py.dict_get d k = Ok v -> In k (map fst d).
Proof.
  induction d as [|[k0 v0] d IH]; cbn [Py.dict_get map fst In]; [discriminate|].
  destruct (String.eqb_spec k0 k) as [->|]; tauto.
Qed.

(** A store is opened for a path that the cache does not hold, and is
    then put in the cache. *)
Lemma open_tracks (before : list handle_info) (self : reader) (w : world)
    (path : string) :
  cache_tracks before (self, w) ->
  cache_tracks before
    (fst ((match Py.dict_get (r_hdf5_files self) path with
           | Ok f => mret f
           | _ =>
               f ← in_world (h5_open_read path);
               modify (fun s : rstate =>
                 (set_hdf5_files (fst s)
                    (Py.dict_set (r_hdf5_files (fst s)) path f),
                  snd s));;
               mret f
           end) (self, w))).
Proof.
  intros (Hh & Hs & Hn). unfold cached_paths in *. cbn [fst snd] in *.
  assert (Hopen : Py.dict_mem (r_hdf5_files self) path = false ->
            cache_tracks before
              (fst ((f ← in_world (h5_open_read path);
                     modify (fun s : rstate =>
                       (set_hdf5_files (fst s)
                          (Py.dict_set (r_hdf5_files (fst s)) path f),
                        snd s));;
                     mret f) (self, w)))).
  { intros Hmiss. rewrite bind_run. unfold in_world, h5_open_read. cbn [snd fst].
    destruct (hdf_at w path).
    - cbn [fst snd]. rewrite bind_run. cbn [modify fst snd set_hdf5_files].
      rewrite (TablesSpec.dict_set_fresh _ _ _ Hmiss).
      unfold cache_tracks, cached_paths.
      cbn [mret M_ret fst snd r_hdf5_files set_hdf5_files w_handles world_set_handles].
      rewrite !List.map_app, !List.length_app, !List.length_map. cbn [map fst snd length].
      split; [|split].
      + rewrite Hh, <- List.app_assoc. reflexivity.
      + rewrite Nat.add_1_r, seq_S, Hs, Hh, List.length_app, !List.length_map.
        reflexivity.
      + apply NoDup_app. split; [exact Hn|]. split; [|apply NoDup_singleton].
        intros x Hx Hx'. apply list_elem_of_singleton in Hx'. subst x.
        apply (proj1 (TablesSpec.dict_mem_keys _ _) Hmiss).
        now apply list_elem_of_In.
    - repeat split; assumption. }
  destruct (Py.dict_get (r_hdf5_files self) path) as [f|e|] eqn:E.
  - repeat split; assumption.
  - apply Hopen, dict_get_miss. intros v; congruence.
  - apply Hopen, dict_get_miss. intros v; congruence.
Qed.

Abbreviation store_for self path :=
  (match Py.dict_get (r_hdf5_files self) path with
   | Ok f => mret f
   | _ =>
       f ← in_world (h5_open_read path);
       modify (fun s : rstate =>
         (set_hdf5_files (fst s) (Py.dict_set (r_hdf5_files (fst s)) path f),
          snd s));;
       mret f
   end).

Section Session.
Variable xdmf_to_numpy_type : string -> string -> option string.
Variable xdmf_to_meshio_type : list (string * string).
Variable translate_mixed_cells : ndarray -> result cells_dict.
Variable cell_data : Type.
Variable cell_data_from_raw : cells_dict -> list (string * ndarray) -> result cell_data.
Variable numpy_array : list string -> string -> result ndarray.
Variable numpy_fromfile : string -> string -> result ndarray.
Variable float_of_str : string -> result Z.

Abbreviation item := (_read_data_item xdmf_to_numpy_type numpy_array numpy_fromfile).
Abbreviation mesh_loop :=
  (read_points_cells_loop xdmf_to_numpy_type xdmf_to_meshio_type
     translate_mixed_cells numpy_array numpy_fromfile).
Abbreviation frame_loop :=
  (read_data_loop xdmf_to_numpy_type numpy_array numpy_fromfile float_of_str).
Abbreviation read_frame :=
  (read_data xdmf_to_numpy_type cell_data cell_data_from_raw numpy_array
     numpy_fromfile float_of_str).
Abbreviation read_mesh :=
  (read_points_cells xdmf_to_numpy_type xdmf_to_meshio_type translate_mixed_cells
     numpy_array numpy_fromfile).
Abbreviation call :=
  (run_call xdmf_to_numpy_type xdmf_to_meshio_type translate_mixed_cells cell_data
     cell_data_from_raw numpy_array numpy_fromfile float_of_str).
Abbreviation calls :=
  (run_calls xdmf_to_numpy_type xdmf_to_meshio_type translate_mixed_cells cell_data
     cell_data_from_raw numpy_array numpy_fromfile float_of_str).

(** What the session keeps, when taking a store from the cache or
    opening it keeps it, and so does the assignment to [self.cells]. *)
Section Keeps.
Variable P : rstate -> Prop.
Hypothesis store_keeps :
  forall self w path, P (self, w) -> P (fst (store_for self path (self, w))).
Hypothesis cells_keeps : forall c self w, P (self, w) -> P (set_cells self c, w).

Lemma item_keeps (e : element) : preserves P (item e).
Proof.
  unfold _read_data_item. cbv zeta.
  repeat keep_step.
  apply preserves_get_bind. intros [self w] Hs.
  apply preserves_bind_at; [now apply store_keeps|].
  intros f. repeat keep_step.
Qed.

Lemma get_keeps {B : Type} (k : rstate -> M rstate B) :
  (forall s, preserves P (k s)) -> preserves P (get ≫= k).
Proof. intros H. apply preserves_get_bind. intros s Hs. now apply H. Qed.

Lemma set_cells_keeps (c : option cells_dict) :
  preserves P (modify (fun s : rstate => (set_cells (fst s) c, snd s))).
Proof. apply preserves_modify. intros [self w] H. now apply cells_keeps. Qed.

Lemma mesh_loop_keeps (cs : list element) (points : option ndarray)
    (cells : cells_dict) :
  preserves P (mesh_loop cs points cells).
Proof.
  revert points cells. induction cs as [|c cs IH]; intros points cells;
    cbn [read_points_cells_loop].
  - keep_step.
  - unfold read_topology, read_geometry.
    repeat keep_step; try apply IH; apply item_keeps.
Qed.

Lemma read_mesh_keeps : preserves P read_mesh.
Proof.
  unfold read_points_cells. apply get_keeps. intros [self w].
  repeat keep_step; [apply mesh_loop_keeps|apply set_cells_keeps].
Qed.

Lemma frame_loop_keeps (cs : list element) (t : option Z)
    (pd cdr : list (string * ndarray)) :
  preserves P (frame_loop cs t pd cdr).
Proof.
  revert t pd cdr. induction cs as [|c cs IH]; intros t pd cdr;
    cbn [read_data_loop].
  - keep_step.
  - unfold read_attribute.
    repeat keep_step; try apply IH; apply item_keeps.
Qed.

Lemma read_frame_keeps (k : Z) : preserves P (read_frame k).
Proof.
  unfold read_data. apply get_keeps. intros [self w].
  repeat keep_step; [apply frame_loop_keeps|].
  apply get_keeps. intros [self' w']. repeat keep_step.
Qed.

Lemma call_keeps (c : reader_call) : preserves P (call c).
Proof.
  destruct c as [|k]; unfold run_call.
  - apply preserves_bind; [apply read_mesh_keeps|]. intros a. keep_step.
  - apply preserves_bind; [apply read_frame_keeps|]. intros a. keep_step.
Qed.

Lemma calls_keep (cs : list reader_call) (s : rstate) : P s -> P (calls cs s).
Proof.
  revert s. induction cs as [|c cs IH]; intros s Hs; [exact Hs|].
  cbn [run_calls]. apply IH. now apply call_keeps.
Qed.

End Keeps.

Lemma calls_track (before : list handle_info) (cs : list reader_call) (s : rstate) :
  cache_tracks before s -> cache_tracks before (calls cs s).
Proof.
  apply calls_keep.
  - intros self w path. apply open_tracks.
  - intros c self w H. exact H.
Qed.

Lemma calls_app (cs1 cs2 : list reader_call) (s : rstate) :
  calls (cs1 ++ cs2) s = calls cs2 (calls cs1 s).
Proof.
  revert s. induction cs1 as [|c cs1 IH]; intros s; [reflexivity|].
  cbn [app run_calls]. apply IH.
Qed.

(** The document and the paths of the cache stay. *)
Lemma store_same_document (r : reader) (paths : list string) (self : reader)
    (w : world) (path : string) :
  same_document r paths (self, w) ->
  same_document r paths (fst (store_for self path (self, w))).
Proof.
  intros (Hf & Hg & Hc & Hp).
  destruct (Py.dict_get (r_hdf5_files self) path) as [f|e|];
    [repeat split; assumption| |].
  all: rewrite bind_run; unfold in_world, h5_open_read; cbn [snd fst];
    destruct (hdf_at w path); [|repeat split; assumption];
    cbn [fst snd]; rewrite bind_run;
    cbn [modify mret M_ret fst snd];
    (split; [exact Hf|]); (split; [exact Hg|]); (split; [exact Hc|]);
    unfold cached_paths in *; cbn [fst r_hdf5_files set_hdf5_files] in *;
    intros x Hx; apply dict_set_keys, Hp, Hx.
Qed.

Lemma more_paths (r : reader) (paths : list string) (p : string) (s : rstate) :
  same_document r paths s -> In p (cached_paths s) -> same_document r [p] s.
Proof.
  intros (Hf & Hg & Hc & _) Hp. repeat split; try assumption.
  intros x [<-|[]]. exact Hp.
Qed.

Section Document.
Variable r : reader.

Abbreviation reads paths := (same_document r paths).
Abbreviation opened s :=
  (fun e : element =>
     forall p, named_store (r_filename r) e = Some p -> In p (cached_paths s)).

Lemma item_reads (paths : list string) (e : element) : preserves (reads paths) (item e).
Proof.
  apply item_keeps. intros self w path. apply store_same_document.
Qed.

Lemma mesh_loop_reads (paths : list string) (cs : list element)
    (points : option ndarray) (cells : cells_dict) :
  preserves (reads paths) (mesh_loop cs points cells).
Proof.
  apply mesh_loop_keeps. intros self w path. apply store_same_document.
Qed.

Lemma frame_loop_reads (paths : list string) (cs : list element) (t : option Z)
    (pd cdr : list (string * ndarray)) :
  preserves (reads paths) (frame_loop cs t pd cdr).
Proof.
  apply frame_loop_keeps. intros self w path. apply store_same_document.
Qed.

Lemma calls_read (paths : list string) (cs : list reader_call) (s : rstate) :
  reads paths s -> reads paths (calls cs s).
Proof.
  apply calls_keep.
  - intros self w path. apply store_same_document.
  - intros c self w H. exact H.
Qed.

(** A data item in the format [HDF] that was read: the store that it
    names is in the cache. *)
Lemma item_opens (e : element) (s1 s2 : rstate) (a : ndarray) (p : string) :
  item e s1 = (s2, Ok a) ->
  named_store (r_filename (fst s1)) e = Some p ->
  In p (cached_paths s2).
Proof.
  unfold named_store, _read_data_item. cbv zeta. intros Hrun Hname.
  destruct (Py.dict_get (attrib e) "Format") as [format| |] eqn:Ef;
    try discriminate.
  unfold text_of in Hrun. destruct (text e) as [t|]; [|discriminate].
  destruct (String.eqb_spec format "HDF") as [->|]; [|discriminate].
  apply lift_bind_ok in Hrun as (dimensions & _ & Hrun).
  apply lift_bind_ok in Hrun as (dims & _ & Hrun).
  apply still_bind_ok in Hrun as (data_type & Hrun).
  2:{ repeat still_step. }
  apply lift_bind_ok in Hrun as (format & [= <-] & Hrun).
  cbn [String.eqb Ascii.eqb Bool.eqb negb] in Hrun.
  apply lift_bind_ok in Hrun as (t' & [= <-] & Hrun).
  destruct (Py.split ":" (Py.strip t)) as [|file [|h5path [|]]]; try discriminate.
  injection Hname as <-.
  destruct s1 as [self w]. rewrite bind_run in Hrun. cbn [get fst] in *.
  apply bind_ok_inv_M in Hrun as (s1' & f & Hstore & Hrest).
  assert (Hstill : s2 = s1').
  { destruct h5path as [|c rest]; [discriminate|].
    destruct (negb (Ascii.eqb c "/")); [discriminate|].
    rewrite bind_run in Hrest.
    pose proof (in_world_still (h5_root f) (h5_root_still f) s1') as Hw.
    destruct (in_world (h5_root f) s1') as [s1'' [root| |]]; cbn [fst] in Hw;
      try discriminate.
    subst s1''. apply lift_bind_ok in Hrest as (node & _ & Hrest).
    unfold lift in Hrest. congruence. }
  subst s2. clear Hrest.
  set (path := OsPath.join (OsPath.dirname (r_filename self)) file) in *.
  assert (Hopen : (f ← in_world (h5_open_read path);
                   modify (fun s : rstate =>
                     (set_hdf5_files (fst s)
                        (Py.dict_set (r_hdf5_files (fst s)) path f),
                      snd s));;
                   mret f) (self, w) = (s1', Ok f) ->
                  In path (cached_paths s1')).
  { rewrite bind_run. unfold in_world, h5_open_read. cbn [snd fst].
    destruct (hdf_at w path); [|discriminate].
    cbn [fst snd]. rewrite bind_run. cbn [modify mret M_ret fst snd].
    intros [= <- _]. unfold cached_paths. cbn [fst r_hdf5_files set_hdf5_files].
    apply dict_set_key. }
  destruct (Py.dict_get (r_hdf5_files self) path) as [f0| |] eqn:Ec;
    [|now apply Hopen|now apply Hopen].
  injection Hstore as <- _. unfold cached_paths. cbn [fst].
  now apply dict_get_key in Ec.
Qed.

(** One data item under a child, read in the state [s1], and the rest of
    the loop, from the state [sm] on to [s2]. *)
Lemma item_then_rest (e : element) (rest : list element) (s1 sm s2 : rstate)
    (a : ndarray) :
  reads [] s1 ->
  item e s1 = (sm, Ok a) ->
  (forall p, reads [p] sm -> reads [p] s2) ->
  Forall (opened s2) rest ->
  Forall (opened s2) (e :: rest).
Proof.
  intros Hs Hitem Hkeep Hrest. constructor; [|exact Hrest].
  intros p Hp. destruct Hs as (Hf & Hs).
  rewrite <- Hf in Hp. pose proof (item_opens e s1 sm a p Hitem Hp) as Hin.
  pose proof (item_reads [] e s1 (conj Hf Hs)) as Hm. rewrite Hitem in Hm.
  destruct (Hkeep p (more_paths r [] p sm Hm Hin)) as (_ & _ & _ & Hincl).
  apply Hincl. now left.
Qed.

Lemma mesh_loop_opens (cs : list element) (points : option ndarray)
    (cells : cells_dict) (s1 s2 : rstate) (x : option ndarray * cells_dict) :
  reads [] s1 ->
  mesh_loop cs points cells s1 = (s2, Ok x) ->
  Forall (opened s2)
    (flat_map (fun c => if existsb (String.eqb (tag c)) ["Topology"; "Geometry"]
                        then children c else []) cs).
Proof.
  revert points cells s1. induction cs as [|c cs IH]; intros points cells s1 Hs Hrun;
    [constructor|].
  cbn [read_points_cells_loop flat_map existsb] in *.
  destruct (String.eqb (tag c) "Topology") eqn:Et; cbn [orb].
  - apply bind_ok_inv_M in Hrun as (sm & cells' & Htopo & Hrun).
    unfold read_topology in Htopo.
    destruct (children c) as [|e [|]]; try discriminate.
    apply bind_ok_inv_M in Htopo as (si & a & Hitem & Hrest).
    assert (sm = si) as ->.
    { refine (still_ok _ _ _ _ _ Hrest). repeat still_step. }
    cbn [app].
    apply (item_then_rest e _ s1 si s2 a Hs Hitem).
    + intros p Hp. pose proof (mesh_loop_reads [p] cs points cells' si Hp) as H.
      now rewrite Hrun in H.
    + pose proof (item_reads [] e s1 Hs) as Hm. rewrite Hitem in Hm.
      exact (IH points cells' si Hm Hrun).
  - destruct (String.eqb (tag c) "Geometry") eqn:Eg; cbn [orb].
    + apply bind_ok_inv_M in Hrun as (sm & pts & Hgeo & Hrun).
      unfold read_geometry in Hgeo.
      apply still_bind_ok in Hgeo as ([] & Hgeo).
      2:{ repeat still_step. }
      destruct (children c) as [|e [|]]; try discriminate.
      cbn [app].
      apply (item_then_rest e _ s1 sm s2 pts Hs Hgeo).
      * intros p Hp. pose proof (mesh_loop_reads [p] cs (Some pts) cells sm Hp) as H.
        now rewrite Hrun in H.
      * pose proof (item_reads [] e s1 Hs) as Hm. rewrite Hgeo in Hm.
        exact (IH (Some pts) cells sm Hm Hrun).
    + exact (IH points cells s1 Hs Hrun).
Qed.

Lemma frame_loop_opens (cs : list element) (t : option Z)
    (pd cdr : list (string * ndarray)) (s1 s2 : rstate)
    (x : option Z * list (string * ndarray) * list (string * ndarray)) :
  reads [] s1 ->
  frame_loop cs t pd cdr s1 = (s2, Ok x) ->
  Forall (opened s2)
    (flat_map (fun c => if existsb (String.eqb (tag c)) ["Attribute"]
                        then children c else []) cs).
Proof.
  revert t pd cdr s1. induction cs as [|c cs IH]; intros t pd cdr s1 Hs Hrun;
    [constructor|].
  cbn [read_data_loop flat_map existsb] in *.
  destruct (String.eqb (tag c) "Time") eqn:Et.
  - assert (String.eqb (tag c) "Attribute" = false) as ->.
    { apply String.eqb_eq in Et. now rewrite Et. }
    cbn [orb]. apply lift_bind_ok in Hrun as (v & _ & Hrun).
    apply lift_bind_ok in Hrun as (y & _ & Hrun).
    exact (IH (Some y) pd cdr s1 Hs Hrun).
  - destruct (String.eqb (tag c) "Attribute") eqn:Ea; cbn [orb].
    + apply bind_ok_inv_M in Hrun as (sm & [pd' cdr'] & Hattr & Hrun).
      unfold read_attribute in Hattr.
      apply lift_bind_ok in Hattr as (name & _ & Hattr).
      destruct (children c) as [|e [|]]; try discriminate.
      apply bind_ok_inv_M in Hattr as (si & a & Hitem & Hrest).
      assert (sm = si) as ->.
      { refine (still_ok _ _ _ _ _ Hrest). repeat still_step. }
      cbn [app].
      apply (item_then_rest e _ s1 si s2 a Hs Hitem).
      * intros p Hp. pose proof (frame_loop_reads [p] cs t pd' cdr' si Hp) as H.
        now rewrite Hrun in H.
      * pose proof (item_reads [] e s1 Hs) as Hm. rewrite Hitem in Hm.
        exact (IH t pd' cdr' si Hm Hrun).
    + exact (IH t pd cdr s1 Hs Hrun).
Qed.

(** A call that returns: the stores that its data items name are in the
    cache. *)
Lemma call_opens (c : reader_call) (s1 : rstate) :
  reads [] s1 ->
  snd (call c s1) = Ok tt ->
  Forall (opened (fst (call c s1))) (items_read r c).
Proof.
  intros Hs Hret. pose proof Hs as (Hf & Hg & Hc & _).
  destruct (call c s1) as [s2 res] eqn:E. cbn [fst snd] in *. subst res.
  destruct s1 as [self w]. cbn [fst] in Hf, Hg, Hc.
  destruct c as [|k]; unfold run_call, items_read, items_of in *.
  - apply bind_ok_inv_M in E as (s3 & x & Hmesh & [= <-]).
    unfold read_points_cells in Hmesh. rewrite bind_run in Hmesh. cbn [get] in Hmesh.
    apply bind_ok_inv_M in Hmesh as (s4 & [points cells] & Hloop & [= <- _]).
    rewrite <- Hg.
    pose proof (mesh_loop_opens _ None [] (self, w) s4 _ Hs Hloop) as H.
    destruct s4 as [self4 w4]. exact H.
  - apply bind_ok_inv_M in E as (s3 & x & Hframe & [= <-]).
    unfold read_data in Hframe. rewrite bind_run in Hframe. cbn [get] in Hframe.
    apply lift_bind_ok in Hframe as (frame & Hk & Hframe).
    apply bind_ok_inv_M in Hframe as (s4 & [[t pd] cdr] & Hloop & Hrest).
    assert (s3 = s4) as ->.
    { refine (still_ok _ _ _ _ _ Hrest). repeat still_step. }
    rewrite <- Hc, Hk.
    exact (frame_loop_opens _ None [] [] (self, w) s4 _ Hs Hloop).
Qed.

End Document.

End Session.


Lemma reader_init_cache (filename : string) (root : element) (r : reader) :
  reader_init filename root = Ok r -> r_hdf5_files r = [].
Proof.
  unfold reader_init.
  repeat (match goal with
          | |- context [?x ≫= _] => destruct x
          | |- context [if ?b then _ else _] => destruct b
          | |- context [match ?x with _ => _ end] => destruct x
          end; cbn [mbind result_bind]; try discriminate).
  all: try (intros [= <-]; reflexivity).
Qed.

Lemma world_set_handles_twice (w : world) (a b : list handle_info) :
  world_set_handles (world_set_handles w a) b = world_set_handles w b.
Proof. reflexivity. Qed.

(** Closing, one after the other, the stores that end a list of handles. *)
Lemma close_all_suffix (paths : list string) (pre : list handle_info) (w : world) :
  w_handles w = pre ++ map (store 0) paths ->
  close_all (seq (length pre) (length paths)) w
  = (world_set_handles w (pre ++ map (store 1) paths), Ok tt).
Proof.
  revert pre w. induction paths as [|p ps IH]; intros pre w Hw.
  - cbn [length seq close_all map] in *. rewrite <- Hw.
    destruct w. reflexivity.
  - cbn [length seq close_all map] in *. rewrite bind_run.
    unfold h5_close at 1. rewrite Hw.
    assert (Ha : alter (fun i => mk_handle (h_path i) (S (h_closes i))) (length pre)
                   (pre ++ store 0 p :: map (store 0) ps)
                 = pre ++ store 1 p :: map (store 0) ps).
    { rewrite <- (Nat.add_0_r (length pre)), alter_app_r. reflexivity. }
    rewrite Ha.
    replace (S (length pre)) with (length (pre ++ [store 1 p]))
      by (rewrite List.length_app; simpl; lia).
    rewrite (IH (pre ++ [store 1 p])).
    + rewrite world_set_handles_twice, <- List.app_assoc. reflexivity.
    + cbn [w_handles world_set_handles]. rewrite <- List.app_assoc. reflexivity.
Qed.

Section SessionStores.
Variable xdmf_to_numpy_type : string -> string -> option string.
Variable xdmf_to_meshio_type : list (string * string).
Variable translate_mixed_cells : ndarray -> result cells_dict.
Variable cell_data : Type.
Variable cell_data_from_raw : cells_dict -> list (string * ndarray) -> result cell_data.
Variable numpy_array : list string -> string -> result ndarray.
Variable numpy_fromfile : string -> string -> result ndarray.
Variable float_of_str : string -> result Z.

Abbreviation session :=
  (run_calls xdmf_to_numpy_type xdmf_to_meshio_type translate_mixed_cells cell_data
     cell_data_from_raw numpy_array numpy_fromfile float_of_str).
Abbreviation one_call :=
  (run_call xdmf_to_numpy_type xdmf_to_meshio_type translate_mixed_cells cell_data
     cell_data_from_raw numpy_array numpy_fromfile float_of_str).
Abbreviation frame_at :=
  (read_data xdmf_to_numpy_type cell_data cell_data_from_raw numpy_array
     numpy_fromfile float_of_str).

(** A reader session: [__init__], then calls of [read_points_cells] and
    [read_data] in any order and number, each made whatever the
    outcome of the ones before, then [__exit__].  During the session no
    path is twice in the cache, the stores opened are those of the paths
    in the cache, in their order, and none is closed; for every call of
    the session that returned, the store that each of its data items in
    the format [HDF] names, relative to the directory of the XDMF file,
    is among them; [__exit__] returns and closes each of these stores
    once, and leaves every other handle as it was. *)
Theorem reader_session_stores (filename : string) (root : element) (r : reader)
    (w : world) (cs : list reader_call) :
  reader_init filename root = Ok r ->
  let s := session cs (r, w) in
  NoDup (cached_paths s)
  /\ w_handles (snd s) = w_handles w ++ map (store 0) (cached_paths s)
  /\ (forall (i : nat) (c : reader_call),
        cs !! i = Some c ->
        snd (one_call c (session (take i cs) (r, w))) = Ok tt ->
        Forall (fun e => forall p, named_store (r_filename r) e = Some p ->
                                   In p (cached_paths s))
          (items_read r c))
  /\ reader_exit s
     = ((fst s,
         world_set_handles (snd s) (w_handles w ++ map (store 1) (cached_paths s))),
        Ok tt).
Proof.
  intros Hinit s.
  assert (H0 : cache_tracks (w_handles w) (r, w)).
  { unfold cache_tracks, cached_paths. cbn [fst snd].
    rewrite (reader_init_cache filename root r Hinit). cbn [map length seq].
    rewrite List.app_nil_r. repeat split. constructor. }
  destruct (calls_track xdmf_to_numpy_type xdmf_to_meshio_type translate_mixed_cells
              cell_data cell_data_from_raw numpy_array numpy_fromfile float_of_str
              (w_handles w) cs (r, w) H0) as (Hh & Hs & Hn).
  fold s in Hh, Hs, Hn. split; [exact Hn|]. split; [exact Hh|]. split.
  - intros i c Hi Hret.
    assert (Hr : same_document r [] (r, w)).
    { repeat split. intros x []. }
    pose proof (calls_read xdmf_to_numpy_type xdmf_to_meshio_type
                  translate_mixed_cells cell_data cell_data_from_raw numpy_array
                  numpy_fromfile float_of_str r [] (take i cs) (r, w) Hr) as Hi0.
    pose proof (call_opens xdmf_to_numpy_type xdmf_to_meshio_type
                  translate_mixed_cells cell_data cell_data_from_raw numpy_array
                  numpy_fromfile float_of_str r c _ Hi0 Hret) as Hopened.
    assert (Es : s = session (drop (S i) cs)
                       (fst (one_call c (session (take i cs) (r, w))))).
    { unfold s. rewrite <- (take_drop_middle cs i c Hi) at 1.
      now rewrite calls_app. }
    pose proof (call_keeps xdmf_to_numpy_type xdmf_to_meshio_type
                  translate_mixed_cells cell_data cell_data_from_raw numpy_array
                  numpy_fromfile float_of_str (same_document r [])
                  (fun self w0 path =>
                     store_same_document r [] self w0 path)
                  (fun c0 self w0 H => H) c _ Hi0) as Hi1.
    eapply Forall_impl; [exact Hopened|]. cbn beta.
    intros e He p Hp. specialize (He p Hp).
    pose proof (calls_read xdmf_to_numpy_type xdmf_to_meshio_type
                  translate_mixed_cells cell_data cell_data_from_raw numpy_array
                  numpy_fromfile float_of_str r [p] (drop (S i) cs) _
                  (more_paths r [] p _ Hi1 He)) as (_ & _ & _ & Hincl).
    rewrite Es. apply Hincl. now left.
  - unfold reader_exit. rewrite bind_run. cbn [get].
    destruct s as [self w']. cbn [fst snd] in *. unfold in_world. cbn [snd fst].
    rewrite Hs, (close_all_suffix _ _ w' Hh). reflexivity.
Qed.

(** [read_data(k)] takes the frame as Python takes [collection[k]]: an
    index from [-n] to [-1], for [n] frames, counts from the end, and any
    index outside [-n .. n-1] raises [IndexError] with nothing read. *)
Theorem read_data_index (k : Z) (s : rstate) :
  let n := Z.of_nat (length (r_collection (fst s))) in
  (- n <= k < 0 -> frame_at k s = frame_at (k + n) s)
  /\ (k < - n \/ n <= k -> frame_at k s = (s, Raise IndexError)).
Proof.
  intros n. destruct s as [self w]. cbn [fst] in n. split.
  - intros Hk.
    assert (E : Py.getitem (r_collection self) k
                = Py.getitem (r_collection self) (k + n)).
    { unfold Py.getitem. fold n.
      destruct (Z.leb_spec 0 k); [lia|]. cbn [andb].
      destruct (Z.leb_spec (- n) k); [|lia].
      destruct (Z.ltb_spec k 0); [|lia]. cbn [andb].
      destruct (Z.leb_spec 0 (k + n)); [|lia].
      destruct (Z.ltb_spec (k + n) n); [|lia]. cbn [andb].
      now rewrite Z.add_comm. }
    unfold read_data. rewrite !bind_run. cbn [get]. now rewrite E.
  - intros Hk.
    assert (E : Py.getitem (r_collection self) k = Raise IndexError).
    { unfold Py.getitem. fold n.
      destruct (Z.leb_spec 0 k); destruct (Z.ltb_spec k n);
        destruct (Z.leb_spec (- n) k); destruct (Z.ltb_spec k 0);
        cbn [andb]; try reflexivity; lia. }
    unfold read_data. rewrite !bind_run. cbn [get].
    rewrite bind_run. unfold lift. rewrite E. reflexivity.
Qed.

End SessionStores.

Lemma reader_session_stores_witness :
  let run := run_calls (fun _ _ => None) [("Triangle", "triangle")]
               (fun _ => Raise TypeError) unit (fun _ _ => Ok tt)
               (fun _ _ => Raise TypeError) (fun _ _ => Raise OSError)
               Py.int_of_str in
  let one := run_call (fun _ _ => None) [("Triangle", "triangle")]
               (fun _ => Raise TypeError) unit (fun _ _ => Ok tt)
               (fun _ _ => Raise TypeError) (fun _ _ => Raise OSError)
               Py.int_of_str in
  let cs := [CallReadPointsCells; CallReadData 0; CallReadPointsCells] in
  exists r,
    reader_init "a.xdmf" (sample_document [sample_collection []; sample_hdf_mesh])
    = Ok r
    /\ let s := run cs (r, sample_store_world) in
       cached_paths s = ["a.h5"]
       /\ snd (one CallReadPointsCells (r, sample_store_world)) = Ok tt
       /\ map (named_store "a.xdmf") (items_read r CallReadPointsCells)
          = [Some "a.h5"; Some "a.h5"]
       /\ NoDup (cached_paths s)
       /\ w_handles (snd s) = [] ++ map (store 0) (cached_paths s)
       /\ (forall (i : nat) (c : reader_call),
             cs !! i = Some c ->
             snd (one c (run (take i cs) (r, sample_store_world))) = Ok tt ->
             Forall (fun e => forall p, named_store (r_filename r) e = Some p ->
                                        In p (cached_paths s))
               (items_read r c))
       /\ reader_exit s
          = ((fst s,
              world_set_handles (snd s) ([] ++ map (store 1) (cached_paths s))),
             Ok tt).
Proof.
  cbv zeta. eexists. split; [reflexivity|]. split; [reflexivity|].
  split; [reflexivity|]. split; [reflexivity|].
  eapply (reader_session_stores (fun _ _ => None) [("Triangle", "triangle")]
            (fun _ => Raise TypeError) unit (fun _ _ => Ok tt)
            (fun _ _ => Raise TypeError) (fun _ _ => Raise OSError)
            Py.int_of_str "a.xdmf"
            (sample_document [sample_collection []; sample_hdf_mesh])).
  reflexivity.
Defined.

Lemma read_data_index_witness :
  let read k s :=
    read_data (fun _ _ => None) unit (fun _ _ => Ok tt) (fun _ _ => Raise TypeError)
      (fun _ _ => Raise OSError) Py.int_of_str k s in
  let timed := sample_frame [Element "Time" [("Value", "3")] None []] in
  let s := (sample_reader [timed; sample_frame []] (Some []), empty_world) in
  read (-2) s = read 0 s /\ read 2 s = (s, Raise IndexError).
Proof.
  cbv zeta. split.
  - apply (proj1 (read_data_index (fun _ _ => None) unit (fun _ _ => Ok tt)
                    (fun _ _ => Raise TypeError) (fun _ _ => Raise OSError)
                    Py.int_of_str (-2)
                    (sample_reader
                       [sample_frame [Element "Time" [("Value", "3")] None []];
                        sample_frame []] (Some []), empty_world))).
    simpl. lia.
  - apply (proj2 (read_data_index (fun _ _ => None) unit (fun _ _ => Ok tt)
                    (fun _ _ => Raise TypeError) (fun _ _ => Raise OSError)
                    Py.int_of_str 2
                    (sample_reader
                       [sample_frame [Element "Time" [("Value", "3")] None []];
                        sample_frame []] (Some []), empty_world))).
    simpl. lia.
Defined.

End ReaderSessionSpec.

(** ** The XDMF reader: grids without a grid type *)

Module ReaderInitSpec.
Import Xdmf XdmfTerms.

Lemma dict_get_raises {V : Type} (d : list (string * V)) (k : string) :
  Py.dict_mem d k = false -> Py.dict_get d k = Raise (KeyError k).
Proof. apply CellsFrameSpec.dict_mem_false_get. Qed.

Lemma last_of_grid_type_missing (ty : string) (grids : list element) (g : element)
    (found : option element) :
  In g grids -> Py.dict_mem (attrib g) "GridType" = false ->
  last_of_grid_type ty grids found = Raise (KeyError "GridType").
Proof.
  intros Hin Hg. revert found. induction grids as [|a grids IH]; intros found;
    [destruct Hin|].
  cbn [last_of_grid_type].
  destruct (Py.dict_mem (attrib a) "GridType") eqn:Ea.
  - destruct (MixedCellsFacts.dict_mem_get _ _ Ea) as [t Ht]. rewrite Ht.
    cbn [mbind result_bind]. destruct Hin as [->|Hin]; [congruence|].
    now apply IH.
  - now rewrite (dict_get_raises _ _ Ea).
Qed.

(** Every child of the domain is asked for its [GridType]: a document
    that passes the checks on its root and its domain, with a child of
    the domain that has no such attribute, makes [__init__] raise the
    [KeyError] of the lookup. *)
Theorem reader_init_grid_type_key (filename : string) (root domain g : element)
    (version : string) :
  tag root = "Xdmf" ->
  Py.dict_get (attrib root) "Version" = Ok version ->
  Py.split_head "." version = "3" ->
  children root = [domain] ->
  tag domain = "Domain" ->
  In g (children domain) ->
  Py.dict_mem (attrib g) "GridType" = false ->
  reader_init filename root = Raise (KeyError "GridType").
Proof.
  intros Hroot Hv Hmaj Hdom Htag Hin Hg. unfold reader_init.
  rewrite Hroot, Hv. cbn [String.eqb Ascii.eqb Bool.eqb negb mbind result_bind].
  rewrite Hmaj, Hdom, Htag.
  cbn [String.eqb Ascii.eqb Bool.eqb negb].
  now rewrite (last_of_grid_type_missing "Collection" _ g None Hin Hg).
Qed.

Lemma reader_init_grid_type_key_witness :
  reader_init "a.xdmf"
    (sample_document [sample_collection []; Element "Information" [] None []])
  = Raise (KeyError "GridType").
Proof.
  apply (reader_init_grid_type_key "a.xdmf" _
           (Element "Domain" [] None
              [sample_collection []; Element "Information" [] None []])
           (Element "Information" [] None []) "3.0");
    try reflexivity.
  right. now left.
Defined.

End ReaderInitSpec.

(** ** The XDMF writer: calls that fail half way *)

Module WriterGuardSpec.
Import Xdmf XdmfTerms MonadFacts SessionTerms.

Lemma node_at_update_at (p : path) (f : element -> element) (e c : element) :
  node_at p e = Some c -> node_at p (update_at p f e) = Some (f c).
Proof.
  revert e. induction p as [|i p IH]; intros e; cbn [node_at update_at].
  - now intros [= ->].
  - destruct (children e !! i) as [ch|] eqn:Ei; [|discriminate].
    intros H. cbn [children]. rewrite list_lookup_alter_eq, Ei. cbn [fmap option_fmap option_map].
    now apply IH.
Qed.

(** The number that the next child of a node will have. *)
Lemma SubElement_state (parent : path) (tag : string)
    (attrs : list (string * string)) (self : writer) (w : world) :
  SubElement parent tag attrs (self, w)
  = ((set_xdmf_file self
        (update_at parent (add_child (Element tag attrs None [])) (xdmf_file self)),
      w),
     Ok (parent ++ [match node_at parent (xdmf_file self) with
                    | Some e => length (children e)
                    | None => 0%nat
                    end])).
Proof. reflexivity. Qed.

Section Guards.
Variable numpy_to_xdmf_dtype : list (string * (string * string)).
Variable dtype_to_format_string : list (string * string).
Variable meshio_to_xdmf_type : list (string * list string).
Variable meshio_type_to_xdmf_index : list (string * Z).
Variable attribute_type : ndarray -> result string.
Variable raw_from_cell_data :
  list (string * list (string * ndarray)) -> result (list (string * ndarray)).
Variable savetxt : list Z -> string -> string.
Variable result_type : list string -> string.
Variable str_of_float : Z -> string.

Abbreviation write_frame :=
  (write_data numpy_to_xdmf_dtype dtype_to_format_string attribute_type
     raw_from_cell_data savetxt str_of_float).
Abbreviation write_mesh :=
  (write_points_cells numpy_to_xdmf_dtype dtype_to_format_string meshio_to_xdmf_type
     meshio_type_to_xdmf_index savetxt result_type).

(** [write_data] before any [write_points_cells] has succeeded raises
    [WriteError], but only after it has put a new, empty [Grid] into the
    collection of the tree it holds: the tree has a frame more than
    before, with nothing in it.  Nothing is written to disk. *)
Theorem write_data_needs_mesh (t : Z) (pd : list (string * ndarray))
    (cd : list (string * list (string * ndarray))) (s : wstate) (c : element) :
  has_mesh (fst s) = false ->
  node_at (collection (fst s)) (xdmf_file (fst s)) = Some c ->
  exists s',
    write_frame t pd cd s = (s', Raise (WriteError ""))
    /\ snd s' = snd s
    /\ has_mesh (fst s') = false
    /\ collection (fst s') = collection (fst s)
    /\ node_at (collection (fst s')) (xdmf_file (fst s'))
       = Some (add_child (Element "Grid" [] None []) c).
Proof.
  destruct s as [self w]. cbn [fst snd]. intros Hmesh Hc.
  eexists. split.
  - unfold write_data. rewrite bind_run. cbn [get].
    rewrite bind_run, SubElement_state. rewrite Hmesh. reflexivity.
  - cbn [fst snd]. split; [reflexivity|]. split; [exact Hmesh|].
    split; [reflexivity|].
    cbn [collection set_xdmf_file xdmf_file]. now apply node_at_update_at.
Qed.

(** [write_points_cells] with points that have neither two nor three
    coordinates raises [WriteError]; by then it has named the mesh and put
    a new, empty [Grid] for it into the domain of the tree.  The writer
    still has no mesh, and nothing is written to disk. *)
Theorem write_points_cells_needs_3d (pts : ndarray) (cells : nat) (s : wstate)
    (n d : nat) (rest : list nat) (dom : element) :
  shape pts = n :: d :: rest -> d <> 2%nat -> d <> 3%nat ->
  node_at (domain (fst s)) (xdmf_file (fst s)) = Some dom ->
  exists s',
    write_mesh pts cells s = (s', Raise (WriteError "Need 3D points."))
    /\ snd s' = snd s
    /\ has_mesh (fst s') = has_mesh (fst s)
    /\ mesh_name (fst s') = Some "mesh"
    /\ node_at (domain (fst s)) (xdmf_file (fst s'))
       = Some (add_child
                 (Element "Grid" [("Name", "mesh"); ("GridType", "Uniform")] None [])
                 dom).
Proof.
  destruct s as [self w]. cbn [fst snd]. intros Hshape H2 H3 Hdom.
  eexists. split.
  - unfold write_points_cells. rewrite bind_run.
    cbn [modify_self modify]. rewrite bind_run. cbn [get fst snd].
    rewrite bind_run, SubElement_state.
    rewrite bind_run. unfold points at 1. rewrite bind_run.
    unfold lift at 1, shape_at. rewrite Hshape. cbn [Py.index nth_error].
    rewrite bind_run.
    destruct (Nat.eqb_spec d 2) as [E|_]; [contradiction|].
    destruct (Nat.eqb_spec d 3) as [E|_]; [contradiction|].
    reflexivity.
  - cbn [fst snd]. split; [reflexivity|]. split; [reflexivity|].
    split; [reflexivity|].
    cbn [domain set_mesh_name set_xdmf_file xdmf_file]. now apply node_at_update_at.
Qed.

End Guards.

Lemma write_data_needs_mesh_witness :
  exists s',
    write_data sample_dtypes sample_formats (fun _ => Ok "Scalar") (fun _ => Ok [])
      sample_savetxt Py.str_of_Z 0 [] [] (sample_writer "XML", empty_world)
    = (s', Raise (WriteError ""))
    /\ snd s' = empty_world
    /\ has_mesh (fst s') = false
    /\ collection (fst s') = [0%nat; 0%nat]
    /\ node_at (collection (fst s')) (xdmf_file (fst s'))
       = Some (add_child (Element "Grid" [] None []) (sample_collection_node)).
Proof.
  apply (write_data_needs_mesh sample_dtypes sample_formats (fun _ => Ok "Scalar")
           (fun _ => Ok []) sample_savetxt Py.str_of_Z 0 [] []
           (sample_writer "XML", empty_world)); reflexivity.
Defined.

Lemma write_points_cells_needs_3d_witness :
  exists s',
    write_points_cells sample_dtypes sample_formats sample_xdmf_types sample_xdmf_index
      sample_savetxt sample_result_type (mk_array "float64" [2%nat; 1%nat] [0; 1]) 0
      (sample_writer "XML", world_with [])
    = (s', Raise (WriteError "Need 3D points."))
    /\ snd s' = world_with []
    /\ has_mesh (fst s') = false
    /\ mesh_name (fst s') = Some "mesh"
    /\ node_at [0%nat] (xdmf_file (fst s'))
       = Some (add_child
                 (Element "Grid" [("Name", "mesh"); ("GridType", "Uniform")] None [])
                 (Element "Domain" [] None [sample_collection_node])).
Proof.
  apply (write_points_cells_needs_3d sample_dtypes sample_formats sample_xdmf_types
           sample_xdmf_index sample_savetxt sample_result_type
           (mk_array "float64" [2%nat; 1%nat] [0; 1]) 0
           (sample_writer "XML", world_with []) 2 1 []); try reflexivity; lia.
Defined.

End WriterGuardSpec.

(** ** The XDMF writer and reader: datasets in an HDF5 store *)

Module HdfStoreSpec.
Import Xdmf XdmfTerms MonadFacts SessionTerms TextTerms TextFacts.

Lemma str_of_Z_inj (a b : Z) : Py.str_of_Z a = Py.str_of_Z b -> a = b.
Proof.
  intros H. pose proof (PhysicalNamesReadSpec.int_of_str_str a) as Ha.
  rewrite H, PhysicalNamesReadSpec.int_of_str_str in Ha. congruence.
Qed.

Lemma dataset_name_inj (a b : nat) : dataset_name a = dataset_name b -> a = b.
Proof.
  unfold dataset_name. cbn [String.append]. intros [= H].
  apply str_of_Z_inj in H. lia.
Qed.

Lemma datasets_cons (k0 : nat) (a : ndarray) (datas : list ndarray) :
  datasets k0 (a :: datas) = (dataset_name k0, H5Dataset a) :: datasets (S k0) datas.
Proof.
  unfold datasets. cbn [imap]. rewrite Nat.add_0_r. f_equal.
  apply imap_ext. intros i x _. cbn. now rewrite Nat.add_succ_r.
Qed.

Lemma datasets_snoc (made : list ndarray) (a : ndarray) :
  datasets 0 (made ++ [a])
  = datasets 0 made ++ [(dataset_name (length made), H5Dataset a)].
Proof.
  unfold datasets. rewrite imap_app. cbn [imap]. now rewrite Nat.add_0_r.
Qed.

(** No dataset of a store has the name of a later one. *)
Lemma datasets_fresh (k0 n : nat) (datas : list ndarray) :
  (k0 + length datas <= n)%nat ->
  Py.dict_mem (datasets k0 datas) (dataset_name n) = false.
Proof.
  revert k0. induction datas as [|a datas IH]; intros k0 Hn; [reflexivity|].
  rewrite datasets_cons. cbn [Py.dict_mem existsb fst].
  destruct (String.eqb_spec (dataset_name k0) (dataset_name n)) as [E|_].
  - apply dataset_name_inj in E. cbn [length] in Hn. lia.
  - cbn [orb]. apply IH. cbn [length] in Hn. lia.
Qed.

Lemma datasets_lookup (k0 i : nat) (datas : list ndarray) (a : ndarray) :
  datas !! i = Some a ->
  Py.dict_get (datasets k0 datas) (dataset_name (k0 + i)) = Ok (H5Dataset a).
Proof.
  revert k0 i. induction datas as [|x datas IH]; intros k0 i Hi; [discriminate|].
  rewrite datasets_cons. cbn [Py.dict_get].
  destruct i as [|i].
  - rewrite Nat.add_0_r, String.eqb_refl. now injection Hi as ->.
  - destruct (String.eqb_spec (dataset_name k0) (dataset_name (k0 + S i))) as [E|_].
    + apply dataset_name_inj in E. lia.
    + rewrite Nat.add_succ_r. now apply (IH (S k0) i).
Qed.

Section Emit.
Variable dtype_to_format_string : list (string * string).
Variable savetxt : list Z -> string -> string.

Abbreviation emit := (numpy_to_xml_string dtype_to_format_string savetxt).
Abbreviation emit_each := (emit_all dtype_to_format_string savetxt).

(** One more dataset. *)
Lemma emit_hdf (name : string) (made : list ndarray) (data : ndarray) (s : wstate) :
  hdf_session name made s ->
  exists s',
    emit data s
    = (s', Ok (OsPath.basename name +:+ ":/" +:+ dataset_name (length made)))
    /\ hdf_session name (made ++ [data]) s'.
Proof.
  destruct s as [self w]. unfold hdf_session. cbn [fst snd].
  intros (Hfmt & Hcount & Hname & Hfile & f & closes & Hf & Hh).
  eexists. split.
  - unfold numpy_to_xml_string. rewrite bind_run. cbn [get].
    rewrite Hfmt. cbn [String.eqb Ascii.eqb Bool.eqb negb].
    rewrite bind_run. cbn [modify_self modify fst snd].
    rewrite Hf, Hname, Hcount. rewrite bind_run.
    unfold in_world_w. cbn [snd fst]. unfold h5_create_dataset.
    rewrite Hh. cbn [h_path]. rewrite Hfile.
    fold (dataset_name (length made)).
    rewrite (datasets_fresh 0 (length made) made) by (simpl; lia).
    reflexivity.
  - cbn [fst snd data_format set_data_counter data_counter h5_filename h5_file
           w_files w_handles world_set_files].
    split; [exact Hfmt|]. split.
    { rewrite List.length_app. cbn [length]. lia. }
    split; [exact Hname|]. split.
    { unfold hdf_at. cbn [w_files world_set_files].
      rewrite PhysicalNamesReadSpec.dict_get_set_eq, datasets_snoc. reflexivity. }
    exists f, closes. split; assumption.
Qed.

Lemma emit_all_hdf (name : string) (datas made : list ndarray) (s : wstate) :
  hdf_session name made s ->
  exists s',
    emit_each datas s
    = (s', Ok (imap (fun i _ =>
                       OsPath.basename name +:+ ":/" +:+ dataset_name (length made + i))
                 datas))
    /\ hdf_session name (made ++ datas) s'.
Proof.
  revert made s. induction datas as [|d ds IH]; intros made s Hs.
  - exists s. split; [reflexivity|]. now rewrite List.app_nil_r.
  - destruct (emit_hdf name made d s Hs) as (s1 & E1 & H1).
    destruct (IH (made ++ [d]) s1 H1) as (s2 & E2 & H2).
    exists s2. split.
    + cbn [emit_all]. rewrite bind_run, E1, bind_run, E2. cbn [imap].
      rewrite Nat.add_0_r.
      rewrite (imap_ext
                 (fun i (_ : ndarray) =>
                    OsPath.basename name +:+ ":/"
                    +:+ dataset_name (length (made ++ [d]) + i))
                 ((fun i (_ : ndarray) =>
                     OsPath.basename name +:+ ":/" +:+ dataset_name (length made + i))
                  ∘ S) ds); [reflexivity|].
      intros i x _. unfold compose. rewrite List.length_app. cbn [length].
      replace (length made + 1 + i)%nat with (length made + S i)%nat by lia.
      reflexivity.
    + now rewrite <- List.app_assoc in H2.
Qed.

(** A session of a writer for the format [HDF]: [__init__], [__enter__],
    and then any number of calls of [numpy_to_xml_string].  None of them
    fails: the names [data0], [data1], ... that the counter gives never
    meet a dataset that is there; the [k]-th call returns the text that
    points to [data{k}] in the store, and at the end the store holds the
    arrays under these names, in the order of the calls. *)
Theorem hdf_datasets (filename : string) (pretty : bool) (wld : world)
    (datas : list ndarray) :
  exists self s1 s2,
    writer_init filename pretty "HDF" = Ok self
    /\ writer_enter (self, wld) = (s1, Ok tt)
    /\ emit_each datas s1 = (s2, Ok (imap (fun k _ => hdf_text filename k) datas))
    /\ hdf_at (snd s2) (store_path filename) = Some (H5Group (datasets 0 datas))
    /\ data_counter (fst s2) = Z.of_nat (length datas).
Proof.
  assert (Henter : exists s1,
            writer_enter
              (mk_writer filename "HDF" 0 pretty
                 (Element "Xdmf" [("Version", "3.0")] None
                    [Element "Domain" [] None
                       [Element "Grid"
                          [("Name", "TimeSeries_meshio"); ("GridType", "Collection");
                           ("CollectionType", "Temporal")] None []]])
                 [0%nat] [0%nat; 0%nat] false None None None, wld)
            = (s1, Ok tt)
            /\ hdf_session (store_path filename) [] s1).
  { eexists. split.
    - unfold writer_enter. rewrite bind_run.
      cbn [get data_format String.eqb Ascii.eqb Bool.eqb]. cbv iota zeta.
      rewrite bind_run. unfold in_world_w, h5_open_write. cbn [snd fst].
      unfold modify_self, modify. reflexivity.
    - unfold hdf_session.
      cbn [fst snd data_format data_counter h5_filename h5_file set_h5 Xdmf.filename
             w_files w_handles world_set_files world_set_handles length].
      split; [reflexivity|]. split; [reflexivity|]. split; [reflexivity|].
      split.
      { unfold hdf_at. cbn [w_files world_set_files world_set_handles].
        now rewrite PhysicalNamesReadSpec.dict_get_set_eq. }
      eexists _, _. split; [reflexivity|]. apply list_lookup_middle. reflexivity. }
  destruct Henter as (s1 & Henter & Hs1).
  destruct (emit_all_hdf (store_path filename) datas [] s1 Hs1)
    as (s2 & Hemit & Hs2).
  eexists _, s1, s2. split; [reflexivity|]. split; [exact Henter|].
  split; [exact Hemit|].
  destruct Hs2 as (_ & Hcount & _ & Hfile & _). split; assumption.
Qed.

End Emit.

Lemma rsplit_none (c : ascii) (s : string) :
  all_chars (fun a => negb (Ascii.eqb a c)) s = true -> OsPath.rsplit c s = None.
Proof.
  induction s as [|a s IH]; cbn [all_chars OsPath.rsplit]; [reflexivity|].
  rewrite andb_true_iff, negb_true_iff. intros [Ha Hs].
  now rewrite (IH Hs), Ha.
Qed.

Lemma rsplit_app (c : ascii) (s h t : string) :
  OsPath.rsplit c s = Some (h, t) -> s = h +:+ String c t.
Proof.
  revert h t. induction s as [|a s IH]; intros h t; cbn [OsPath.rsplit];
    [discriminate|].
  destruct (OsPath.rsplit c s) as [[h' t']|].
  - intros [= <- <-]. cbn [String.append]. f_equal. now apply IH.
  - destruct (Ascii.eqb_spec a c) as [->|_]; [|discriminate].
    intros [= <- <-]. reflexivity.
Qed.

Lemma plain_no (c : ascii) (s : string) :
  (c = "/" \/ c = ":")%char -> plain_path s = true ->
  all_chars (fun a => negb (Ascii.eqb a c)) s = true.
Proof.
  intros Hc Hp. unfold plain_path in Hp. apply andb_true_iff in Hp as [Hp _].
  revert Hp. apply all_chars_impl. intros a.
  rewrite !andb_true_iff. intros [H1 H2]. destruct Hc as [-> | ->]; assumption.
Qed.

Lemma plain_no_space (s : string) : plain_path s = true -> no_space s = true.
Proof. unfold plain_path. rewrite andb_true_iff. tauto. Qed.

Lemma plain_prefix (a b : string) : plain_path (a +:+ b) = true -> plain_path a = true.
Proof.
  unfold plain_path. rewrite !andb_true_iff, all_chars_app, andb_true_iff.
  intros [[Ha _] Hs]. split; [exact Ha|]. now apply no_space_prefix in Hs.
Qed.

Lemma splitext_root_plain (p : string) :
  plain_path p = true -> plain_path (OsPath.splitext_root p) = true.
Proof.
  intros Hp. unfold OsPath.splitext_root.
  rewrite (rsplit_none "/" p) by (apply plain_no; [now left|exact Hp]).
  destruct (OsPath.rsplit "." p) as [[stem ext]|] eqn:E; [|exact Hp].
  destruct (OsPath.all_char "." stem); [exact Hp|].
  cbn [String.append]. apply rsplit_app in E. subst p.
  now apply plain_prefix in Hp.
Qed.

Lemma store_path_plain (p : string) :
  plain_path p = true -> plain_path (store_path p) = true.
Proof.
  intros Hp. apply splitext_root_plain in Hp.
  unfold store_path, plain_path in *. apply andb_true_iff in Hp as [Hc Hs].
  rewrite all_chars_app, Hc. cbn [andb all_chars]. cbn [Ascii.eqb Bool.eqb negb andb].
  now apply no_space_app.
Qed.

Lemma join_empty (b : string) : OsPath.join "" b = b.
Proof.
  unfold OsPath.join. destruct b as [|c b]; [reflexivity|].
  destruct c as [[] [] [] [] [] [] [] []]; reflexivity.
Qed.

(** The store of a writer for a file of the working directory is the
    file that a reader of the same file looks for. *)
Lemma store_found (p : string) :
  plain_path p = true ->
  OsPath.join (OsPath.dirname p) (OsPath.basename (store_path p)) = store_path p.
Proof.
  intros Hp. unfold OsPath.dirname, OsPath.basename.
  rewrite (rsplit_none "/" p) by (apply plain_no; [now left|exact Hp]).
  rewrite (rsplit_none "/" (store_path p))
    by (apply plain_no; [now left|now apply store_path_plain]).
  apply join_empty.
Qed.

Lemma split_from_last (sep : ascii) (cur s : string) :
  all_chars (fun a => negb (Ascii.eqb a sep)) s = true ->
  Py.split_from sep cur s = [cur +:+ s].
Proof.
  revert cur. induction s as [|a s IH]; intros cur; cbn [all_chars Py.split_from].
  - now rewrite PyFacts.app_nil_r.
  - rewrite andb_true_iff, negb_true_iff. intros [Ha Hs].
    rewrite Ha, (IH _ Hs), PyFacts.app_assoc. reflexivity.
Qed.

Lemma split_from_sep (sep : ascii) (cur s rest : string) :
  all_chars (fun a => negb (Ascii.eqb a sep)) s = true ->
  Py.split_from sep cur (s +:+ String sep rest)
  = (cur +:+ s) :: Py.split_from sep "" rest.
Proof.
  revert cur. induction s as [|a s IH]; intros cur;
    cbn [all_chars String.append Py.split_from].
  - now rewrite Ascii.eqb_refl, PyFacts.app_nil_r.
  - rewrite andb_true_iff, negb_true_iff. intros [Ha Hs].
    rewrite Ha, (IH _ Hs), PyFacts.app_assoc. reflexivity.
Qed.

Lemma dataset_name_chars (k : nat) (c : ascii) :
  Py.is_digit c = false -> (c <> "d" /\ c <> "a" /\ c <> "t")%char ->
  all_chars (fun a => negb (Ascii.eqb a c)) (dataset_name k) = true.
Proof.
  intros Hd (H1 & H2 & H3). unfold dataset_name. rewrite all_chars_app.
  apply andb_true_iff. split.
  - cbn [all_chars].
    destruct (Ascii.eqb_spec "d" c); [congruence|].
    destruct (Ascii.eqb_spec "a" c); [congruence|].
    destruct (Ascii.eqb_spec "t" c); [congruence|]. reflexivity.
  - destruct (str_of_Z_all_digits (Z.of_nat k) ltac:(lia)) as [Hall _].
    revert Hall. apply all_chars_impl. intros a Ha.
    destruct (Ascii.eqb_spec a c) as [->|_]; [congruence|reflexivity].
Qed.

(** The text of a data item is taken apart into the store and the path
    of the dataset in it. *)
Lemma hdf_text_split (p : string) (k : nat) :
  plain_path p = true ->
  Py.split ":" (Py.strip (hdf_text p k))
  = [OsPath.basename (store_path p); String "/" (dataset_name k)]
  /\ Py.split "/" (dataset_name k) = [dataset_name k].
Proof.
  intros Hp.
  assert (Hbase : OsPath.basename (store_path p) = store_path p).
  { unfold OsPath.basename.
    now rewrite (rsplit_none "/" (store_path p))
      by (apply plain_no; [now left|now apply store_path_plain]). }
  assert (Hname : forall c, Py.is_digit c = false ->
            (c <> "d" /\ c <> "a" /\ c <> "t")%char ->
            all_chars (fun a => negb (Ascii.eqb a c)) (dataset_name k) = true)
    by apply dataset_name_chars.
  split.
  - unfold hdf_text. rewrite Hbase.
    rewrite strip_no_space.
    + unfold Py.split. cbn [String.append].
      change (store_path p +:+ String ":" (String "/" (dataset_name k)))
        with (store_path p +:+ String ":" (String "/" (dataset_name k))).
      rewrite split_from_sep
        by (apply plain_no; [now right|now apply store_path_plain]).
      rewrite split_from_last; [reflexivity|].
      cbn [all_chars]. apply Hname; [reflexivity|].
      repeat split; discriminate.
    + pose proof (plain_no_space _ (store_path_plain p Hp)) as Hsp.
      apply no_space_app; [exact Hsp| |reflexivity].
      apply (no_space_after_ascii ":/data"); [reflexivity|].
      apply digits_no_space. now destruct (str_of_Z_all_digits (Z.of_nat k) ltac:(lia)).
  - unfold Py.split. rewrite split_from_last; [reflexivity|].
    apply Hname; [reflexivity|]. repeat split; discriminate.
Qed.

Lemma cache_entry (cache : list (string * nat)) (n0 : nat) (path : string) (f : nat) :
  map snd cache = seq n0 (length cache) ->
  Py.dict_get cache path = Ok f ->
  exists i, f = (n0 + i)%nat /\ map fst cache !! i = Some path.
Proof.
  revert n0. induction cache as [|[p0 h0] cache IH]; intros n0 Hs; [discriminate|].
  cbn [map snd length seq] in Hs. injection Hs as -> Hs.
  cbn [Py.dict_get]. destruct (String.eqb_spec p0 path) as [->|_].
  - intros [= <-]. exists 0%nat. split; [lia|reflexivity].
  - intros H. destruct (IH (S n0) Hs H) as (i & -> & Hi).
    exists (S i). split; [lia|exact Hi].
Qed.

(** A store in the cache is a handle on its path. *)
Lemma cached_handle (before : list handle_info) (self : reader) (w : world)
    (path : string) (f : nat) :
  cache_tracks before (self, w) ->
  Py.dict_get (r_hdf5_files self) path = Ok f ->
  w_handles w !! f = Some (store 0 path)
  /\ In path (cached_paths (self, w)).
Proof.
  intros (Hh & Hs & _) Hget. unfold cached_paths in *. cbn [fst snd] in *.
  rewrite List.length_map in Hs.
  destruct (cache_entry _ _ _ _ Hs Hget) as (i & -> & Hi). split.
  - rewrite Hh, lookup_app_r by lia.
    replace (length before + i - length before)%nat with i by lia.
    now rewrite list_lookup_fmap, Hi.
  - apply list_elem_of_In. now apply list_elem_of_lookup_2 in Hi.
Qed.

(** The store of a data item, from the cache or newly opened. *)
Lemma open_store (before : list handle_info) (self : reader) (w : world)
    (path : string) (node : h5node) :
  cache_tracks before (self, w) ->
  hdf_at w path = Some node ->
  exists s1 f,
    (match Py.dict_get (r_hdf5_files self) path with
     | Ok f => mret f
     | _ =>
         f ← in_world (h5_open_read path);
         modify (fun s : rstate =>
           (set_hdf5_files (fst s) (Py.dict_set (r_hdf5_files (fst s)) path f),
            snd s));;
         mret f
     end) (self, w)
    = (s1, Ok f)
    /\ w_handles (snd s1) !! f = Some (store 0 path)
    /\ w_files (snd s1) = w_files w
    /\ In path (cached_paths s1)
    /\ fst s1 = set_hdf5_files self (r_hdf5_files (fst s1)).
Proof.
  intros Hs Hnode.
  assert (Hopen : Py.dict_mem (r_hdf5_files self) path = false ->
            exists s1 f,
              (f ← in_world (h5_open_read path);
               modify (fun s : rstate =>
                 (set_hdf5_files (fst s) (Py.dict_set (r_hdf5_files (fst s)) path f),
                  snd s));;
               mret f) (self, w)
              = (s1, Ok f)
              /\ w_handles (snd s1) !! f = Some (store 0 path)
              /\ w_files (snd s1) = w_files w
              /\ In path (cached_paths s1)
              /\ fst s1 = set_hdf5_files self (r_hdf5_files (fst s1))).
  { intros Hmiss. eexists _, _. split.
    - rewrite bind_run. unfold in_world, h5_open_read. cbn [snd fst].
      rewrite Hnode. cbn [fst snd].
      rewrite bind_run. cbn [modify fst snd set_hdf5_files].
      rewrite (TablesSpec.dict_set_fresh _ _ _ Hmiss). reflexivity.
    - cbn [fst snd w_handles w_files world_set_handles]. split; [|split; [|split]].
      + now apply list_lookup_middle.
      + reflexivity.
      + unfold cached_paths. cbn [fst r_hdf5_files set_hdf5_files].
        rewrite List.map_app, in_app_iff. right. now left.
      + reflexivity. }
  destruct (Py.dict_get (r_hdf5_files self) path) as [f|e|] eqn:E.
  - destruct (cached_handle before self w path f Hs E) as [Hf Hin].
    exists (self, w), f. repeat split; try assumption. now destruct self.
  - apply Hopen, ReaderSessionSpec.dict_get_miss. intros v; congruence.
  - apply Hopen, ReaderSessionSpec.dict_get_miss. intros v; congruence.
Qed.

Section ReadBack.
Variable xdmf_to_numpy_type : string -> string -> option string.
Variable numpy_array : list string -> string -> result ndarray.
Variable numpy_fromfile : string -> string -> result ndarray.

Abbreviation item := (_read_data_item xdmf_to_numpy_type numpy_array numpy_fromfile).

(** The state in which the reading of a data item of a store leaves the
    reader. *)
Lemma read_hdf_item (filename : string) (datas : list ndarray) (k : nat)
    (a : ndarray) (dt dim prec : string) (dims : list Z)
    (before : list handle_info) (self : reader) (w : world) :
  plain_path filename = true ->
  r_filename self = filename ->
  cache_tracks before (self, w) ->
  hdf_at w (store_path filename) = Some (H5Group (datasets 0 datas)) ->
  datas !! k = Some a ->
  Py.map_result Py.int_of_str (Py.split_ws dim) = Ok dims ->
  exists s',
    item (data_item dt dim "HDF" prec (hdf_text filename k)) (self, w) = (s', Ok a)
    /\ cache_tracks before s'
    /\ In (store_path filename) (cached_paths s')
    /\ fst s' = set_hdf5_files self (r_hdf5_files (fst s'))
    /\ w_files (snd s') = w_files w.
Proof.
  intros Hplain Hfile Hs Hstore Hk Hdims.
  destruct (hdf_text_split filename k Hplain) as [Hsplit Hwalk].
  destruct (open_store before self w (store_path filename) _ Hs Hstore)
    as (s1 & f & Hopen & Hf & Hh5 & Hin & Hname).
  pose proof (ReaderSessionSpec.open_tracks before self w (store_path filename) Hs)
    as Hs1.
  rewrite Hopen in Hs1. cbn [fst] in Hs1.
  exists s1.
  split; [|split; [assumption|split; [assumption|split; assumption]]].
  unfold _read_data_item, data_item. cbn [attrib text].
  cbn [Py.dict_get Py.dict_mem existsb fst String.eqb Ascii.eqb Bool.eqb orb].
  rewrite bind_run. unfold lift at 1. rewrite bind_run. unfold lift at 1.
  rewrite Hdims. rewrite bind_run. unfold lift at 1. cbv zeta.
  rewrite bind_run. unfold lift at 1.
  cbn [String.eqb Ascii.eqb Bool.eqb negb].
  rewrite bind_run. unfold lift at 1, text_of. cbn [text].
  rewrite Hsplit. rewrite bind_run. cbn [get r_filename]. rewrite Hfile.
  rewrite (store_found filename Hplain).
  rewrite bind_run, Hopen. cbn [Ascii.eqb Bool.eqb negb].
  rewrite bind_run. unfold in_world at 1, h5_root.
  destruct s1 as [self1 w1]. cbn [fst snd] in *.
  rewrite Hf. cbn [store h_path]. unfold hdf_at in *. rewrite Hh5.
  destruct (Py.dict_get (w_files w) (store_path filename)) as [[root| |]| |];
    try discriminate.
  injection Hstore as ->.
  rewrite bind_run. unfold lift at 1. rewrite Hwalk.
  cbn [h5_walk h5_getitem mbind result_bind].
  rewrite <- (Nat.add_0_l k), (datasets_lookup 0 k datas a Hk).
  reflexivity.
Qed.

(** The data item that a writer in the format [HDF] makes for its [k]-th
    array is read back, by a reader of the same file in the working
    directory, as that array, as it is in the store and whatever its
    [Dimensions] say, so long as they are integers.  The store is then in
    the cache of the reader. *)
Theorem hdf_item_read_back (filename : string) (datas : list ndarray) (k : nat)
    (a : ndarray) (dt dim prec : string) (dims : list Z)
    (before : list handle_info) (self : reader) (w : world) :
  plain_path filename = true ->
  r_filename self = filename ->
  cache_tracks before (self, w) ->
  hdf_at w (store_path filename) = Some (H5Group (datasets 0 datas)) ->
  datas !! k = Some a ->
  Py.map_result Py.int_of_str (Py.split_ws dim) = Ok dims ->
  exists s',
    item (data_item dt dim "HDF" prec (hdf_text filename k)) (self, w) = (s', Ok a)
    /\ cache_tracks before s'
    /\ In (store_path filename) (cached_paths s').
Proof.
  intros Hplain Hfile Hs Hstore Hk Hdims.
  destruct (read_hdf_item filename datas k a dt dim prec dims before self w
              Hplain Hfile Hs Hstore Hk Hdims) as (s' & Hrun & Htracks & Hin & _).
  exists s'. split; [exact Hrun|]. split; [exact Htracks|exact Hin].
Qed.

End ReadBack.

Lemma hdf_item_read_back_witness :
  let written :=
    fst ((writer_enter;;
          emit_all sample_formats sample_savetxt [sample_points; sample_triangles])
           (sample_writer "HDF", empty_world)) in
  let self :=
    mk_reader "out.xdmf" (Element "Domain" [] None []) [] 0 None []
      (sample_grid "mesh" "Uniform" []) in
  exists s',
    _read_data_item (fun _ _ => None) (fun _ _ => Raise TypeError)
      (fun _ _ => Raise OSError)
      (data_item "Int" "1 3" "HDF" "8" (hdf_text "out.xdmf" 1)) (self, snd written)
    = (s', Ok sample_triangles)
    /\ cache_tracks (w_handles (snd written)) s'
    /\ In (store_path "out.xdmf") (cached_paths s').
Proof.
  cbv zeta.
  apply (hdf_item_read_back (fun _ _ => None) (fun _ _ => Raise TypeError)
           (fun _ _ => Raise OSError) "out.xdmf" [sample_points; sample_triangles] 1
           sample_triangles "Int" "1 3" "8" [1; 3]); try reflexivity.
  unfold cache_tracks, cached_paths. cbn [fst snd r_hdf5_files map length seq].
  rewrite List.app_nil_r. repeat split. constructor.
Defined.

End HdfStoreSpec.

(** ** The XDMF writer: the dimension of a mixed topology *)

Module MixedTopologySpec.
Import Xdmf XdmfTerms MonadTerms MonadFacts SessionTerms.

Lemma node_at_app (p q : path) (e : element) :
  node_at (p ++ q) e
  = match node_at p e with
    | Some c => node_at q c
    | None => None
    end.
Proof.
  revert e. induction p as [|i p IH]; intros e; cbn [app node_at]; [reflexivity|].
  destruct (children e !! i); [apply IH|reflexivity].
Qed.

Lemma update_at_app (p q : path) (f : element -> element) (e : element) :
  update_at (p ++ q) f e = update_at p (update_at q f) e.
Proof.
  revert e. induction p as [|i p IH]; intros e; cbn [app update_at]; [reflexivity|].
  f_equal. apply list_alter_ext; [|reflexivity]. intros x _. apply IH.
Qed.

(** The last child of a node, once it has been added and given a text. *)
Lemma child_with_text (parent : path) (tree e c : element) (t : string) :
  node_at parent tree = Some e ->
  node_at parent
    (update_at (parent ++ [length (children e)]) (with_text t)
       (update_at parent (add_child c) tree))
  = Some (add_child (with_text t c) e).
Proof.
  intros He. rewrite update_at_app.
  rewrite (WriterGuardSpec.node_at_update_at parent _ _ (add_child c e))
    by now apply WriterGuardSpec.node_at_update_at.
  f_equal. unfold add_child. cbn [update_at tag attrib text children].
  f_equal. replace (length (children e)) with (length (children e) + 0)%nat by lia.
  now rewrite alter_app_r.
Qed.

Lemma new_child (parent : path) (tree e c : element) :
  node_at parent tree = Some e ->
  node_at (parent ++ [length (children e)]) (update_at parent (add_child c) tree)
  = Some c.
Proof.
  intros He. rewrite node_at_app.
  rewrite (WriterGuardSpec.node_at_update_at parent _ _ e He).
  cbn [node_at add_child children]. now rewrite list_lookup_middle.
Qed.

Lemma hdf_session_frame (name : string) (made : list ndarray) (self : writer)
    (w w0 : world) (tree : element) :
  w_files w0 = w_files w ->
  w_handles w0 = w_handles w ->
  hdf_session name made (self, w) ->
  hdf_session name made (set_xdmf_file self tree, w0).
Proof.
  unfold hdf_session, hdf_at. cbn [fst snd]. intros -> ->.
  destruct self; exact (fun H => H).
Qed.

Lemma hdf_session_tree (name : string) (made : list ndarray) (self : writer)
    (w : world) (tree : element) :
  hdf_session name made (set_xdmf_file self tree, w) ->
  hdf_session name made (self, w).
Proof. unfold hdf_session. destruct self; exact (fun H => H). Qed.

Section MixedTopology.
Variable numpy_to_xdmf_dtype : list (string * (string * string)).
Variable dtype_to_format_string : list (string * string).
Variable meshio_to_xdmf_type : list (string * list string).
Variable meshio_type_to_xdmf_index : list (string * Z).
Variable savetxt : list Z -> string -> string.
Variable result_type : list string -> string.

Abbreviation emit := (numpy_to_xml_string dtype_to_format_string savetxt).
Abbreviation item_for := (data_item_for dtype_to_format_string savetxt).
Abbreviation write_cells :=
  (cells numpy_to_xdmf_dtype dtype_to_format_string meshio_to_xdmf_type
     meshio_type_to_xdmf_index savetxt result_type).

Lemma can_emit_frame (dtype : string) (self : writer) (w w0 : world)
    (tree : element) :
  w_files w0 = w_files w ->
  w_handles w0 = w_handles w ->
  can_emit dtype_to_format_string dtype (self, w) ->
  can_emit dtype_to_format_string dtype (set_xdmf_file self tree, w0).
Proof.
  intros Hf Hh [[Hx H]|[Hb|[Hx (name & made & H)]]].
  - left. split; [exact Hx|exact H].
  - right. left. exact Hb.
  - right. right. split; [exact Hx|].
    exists name, made. exact (hdf_session_frame name made self w w0 tree Hf Hh H).
Qed.

(** The state before the array was emitted may have had another tree and
    other dicts, and the state after may get another tree. *)
Lemma emitted_frame (a : ndarray) (self : writer) (w w0 : world)
    (tree tree' : element) (t : string) (s' : wstate) :
  w_files w = w_files w0 ->
  w_handles w = w_handles w0 ->
  emitted dtype_to_format_string savetxt a (set_xdmf_file self tree, w) t s' ->
  emitted dtype_to_format_string savetxt a (self, w0) t
    (set_xdmf_file (fst s') tree', snd s').
Proof.
  intros Hf Hh [(Hx & Hw & H)|[(Hb & Ht & H)|(Hx & name & made & H0 & Ht & H1)]].
  - left. split; [exact Hx|]. split; [|exact H].
    cbn [snd] in *. congruence.
  - right. left. split; [exact Hb|]. split; [exact Ht|exact H].
  - right. right. split; [exact Hx|]. exists name, made.
    split; [|split; [exact Ht|]].
    + apply hdf_session_tree with (tree := tree).
      now apply (hdf_session_frame name made (set_xdmf_file self tree) w w0 tree).
    + destruct s' as [self' w'].
      exact (hdf_session_frame _ _ self' w' w' tree' eq_refl eq_refl H1).
Qed.

Lemma emit_keeps_tree (a : ndarray) :
  unchanged (fun s : wstate => xdmf_file (fst s)) (emit a).
Proof.
  intros [self w]. unfold numpy_to_xml_string. rewrite bind_run. cbn [get].
  destruct (String.eqb (data_format self) "XML").
  { rewrite bind_run. unfold lift.
    destruct (Py.dict_get dtype_to_format_string (dtype_name a)); reflexivity. }
  destruct (String.eqb (data_format self) "Binary"); [reflexivity|].
  destruct (negb (String.eqb (data_format self) "HDF")); [reflexivity|].
  rewrite bind_run. cbn [modify_self modify fst snd].
  destruct (h5_file self) as [f|], (h5_filename self) as [n|]; try reflexivity.
  rewrite bind_run. unfold in_world_w. cbn [fst snd].
  destruct (h5_create_dataset f _ a w) as [w' [[]|e|]]; reflexivity.
Qed.

(** [numpy_to_xml_string], in each of the three formats. *)
Lemma emit_emitted (a : ndarray) (s : wstate) :
  can_emit dtype_to_format_string (dtype_name a) s ->
  exists (t : string) (s' : wstate),
    emit a s = (s', Ok t)
    /\ emitted dtype_to_format_string savetxt a s t s'.
Proof.
  intros [[Hx (fmt & Hfmt)]|[Hb|[Hx (name & made & H)]]].
  - destruct s as [self w]. cbn [fst] in Hx.
    exists (savetxt (flat a) fmt), (self, w). split.
    + unfold numpy_to_xml_string. rewrite bind_run. cbn [get].
      rewrite Hx. cbn [String.eqb Ascii.eqb Bool.eqb].
      rewrite bind_run. unfold lift. rewrite Hfmt. reflexivity.
    + left. split; [exact Hx|]. split; [reflexivity|]. now exists fmt.
  - destruct s as [self w]. cbn [fst] in Hb.
    eexists _, _. split.
    + unfold numpy_to_xml_string. rewrite bind_run. cbn [get].
      rewrite Hb. cbn [String.eqb Ascii.eqb Bool.eqb]. reflexivity.
    + right. left. split; [exact Hb|]. split; [reflexivity|].
      cbn [fst snd w_files world_set_files].
      apply PhysicalNamesReadSpec.dict_get_set_eq.
  - destruct (HdfStoreSpec.emit_hdf dtype_to_format_string savetxt name made a s H)
      as (s' & E & H').
    exists (OsPath.basename name +:+ ":/" +:+ dataset_name (length made)), s'.
    split; [exact E|]. right. right. split; [exact Hx|].
    exists name, made. auto.
Qed.

(** [data_item_for]: the data item is the next child of its parent, and
    its text is where the array was emitted. *)
Lemma item_for_run (parent : path) (dt prec dim : string) (a : ndarray)
    (self : writer) (w : world) (e : element) :
  node_at parent (xdmf_file self) = Some e ->
  can_emit dtype_to_format_string (dtype_name a) (self, w) ->
  exists (t : string) (s' : wstate),
    item_for parent dt prec dim a (self, w) = (s', Ok tt)
    /\ node_at parent (xdmf_file (fst s'))
       = Some (add_child (data_item dt dim (data_format self) prec t) e)
    /\ emitted dtype_to_format_string savetxt a (self, w) t s'.
Proof.
  intros He Hcan.
  set (item := Element "DataItem"
                 [("DataType", dt); ("Dimensions", dim);
                  ("Format", data_format self); ("Precision", prec)] None []).
  set (tree := update_at parent (add_child item) (xdmf_file self)).
  destruct (emit_emitted a (set_xdmf_file self tree, w)) as (t & s2 & E & Hem).
  { exact (can_emit_frame _ self w w tree eq_refl eq_refl Hcan). }
  pose proof (emit_keeps_tree a (set_xdmf_file self tree, w)) as Htree.
  rewrite E in Htree. cbn [fst xdmf_file set_xdmf_file] in Htree.
  exists t, (set_xdmf_file (fst s2)
               (update_at (parent ++ [length (children e)]) (with_text t) tree),
             snd s2).
  split; [|split].
  - unfold data_item_for. rewrite bind_run. cbn [get].
    rewrite bind_run, WriterGuardSpec.SubElement_state. rewrite He.
    fold item. fold tree. rewrite bind_run, E.
    unfold set_text, modify_self, modify. rewrite Htree. reflexivity.
  - cbn [fst xdmf_file set_xdmf_file]. unfold tree.
    now rewrite (child_with_text parent (xdmf_file self) e item t He).
  - now apply (emitted_frame a self w w tree).
Qed.

(** C8.  For a cells mapping of more than one type, each type a block of
    cells and each with an index in the table, given to a writer that
    can emit: [cells] returns; the next child of the grid is then a
    [Mixed] topology that counts the cells of all types, and its one
    child is a data item whose [Dimensions] is the sum over all cells of
    the arity and one, and one more for every line cell; the array that
    was emitted for the text of that data item has exactly that many
    entries. *)
Theorem mixed_topology_dimensions (c : nat) (grid : path) (s : wstate)
    (d : list (string * ndarray)) (g : element) (dt prec : string) :
  heap_of s !! c = Some d ->
  (2 <= length d)%nat ->
  Forall (fun kv => cell_block (snd kv)) d ->
  indexed meshio_type_to_xdmf_index d ->
  node_at grid (xdmf_file (fst s)) = Some g ->
  Py.dict_get numpy_to_xdmf_dtype (result_type (dtypes_of d)) = Ok (dt, prec) ->
  can_emit dtype_to_format_string (result_type (dtypes_of d)) s ->
  exists (cd : ndarray) (t : string) (s' : wstate),
    write_cells c grid s = (s', Ok tt)
    /\ node_at (grid ++ [length (children g)]) (xdmf_file (fst s'))
       = Some (mixed_topology d
                 [data_item dt (Py.str_of_Z (mixed_dimension d))
                    (data_format (fst s)) prec t])
    /\ emitted dtype_to_format_string savetxt cd s t s'
    /\ Z.of_nat (length (flat cd)) = mixed_dimension d.
Proof.
  destruct s as [self w]. cbn [fst].
  intros Hd Hlen Hblocks Hidx Hg Hdt Hcan.
  destruct (MixedCellsFacts.cells_mixed_run numpy_to_xdmf_dtype dtype_to_format_string
              meshio_to_xdmf_type meshio_type_to_xdmf_index savetxt result_type
              c grid self w d Hd Hlen Hblocks Hidx)
    as (w1 & cd & Hf & Hh & Hcount & Hcd & Hrun).
  unfold next_child in Hrun. rewrite Hg in Hrun.
  set (tree := update_at grid (add_child (mixed_topology d [])) (xdmf_file self)) in *.
  destruct (item_for_run (grid ++ [length (children g)]) dt prec
              (Py.str_of_Z (mixed_dimension d)) cd (set_xdmf_file self tree) w1
              (mixed_topology d []))
    as (t & s' & Erun & Hnode & Hem).
  { cbn [xdmf_file set_xdmf_file]. now apply new_child. }
  { rewrite Hcd. exact (can_emit_frame _ self w w1 tree Hf Hh Hcan). }
  exists cd, t, s'. split; [|split; [|split]].
  - rewrite Hrun, bind_run. unfold lift at 1. rewrite Hcd, Hdt. exact Erun.
  - exact Hnode.
  - destruct s' as [self' w'].
    replace self' with (set_xdmf_file self' (xdmf_file self')) by now destruct self'.
    now apply (emitted_frame cd self w1 w tree (xdmf_file self') t (self', w')).
  - exact Hcount.
Qed.

End MixedTopology.

Lemma mixed_topology_dimensions_witness :
  let d := [("line", sample_lines); ("triangle", sample_triangles)] in
  let s := (sample_writer "XML", world_with d) in
  mixed_dimension d = 12
  /\ exists (cd : ndarray) (t : string) (s' : wstate),
      cells sample_dtypes sample_formats sample_xdmf_types sample_xdmf_index
        sample_savetxt sample_result_type 0 [0%nat] s
      = (s', Ok tt)
      /\ node_at [0%nat; 1%nat] (xdmf_file (fst s'))
         = Some (mixed_topology d [data_item "Int" "12" "XML" "8" t])
      /\ emitted sample_formats sample_savetxt cd s t s'
      /\ Z.of_nat (length (flat cd)) = mixed_dimension d.
Proof.
  cbv zeta. split; [reflexivity|].
  apply (mixed_topology_dimensions sample_dtypes sample_formats sample_xdmf_types
           sample_xdmf_index sample_savetxt sample_result_type 0 [0%nat]
           (sample_writer "XML",
            world_with [("line", sample_lines); ("triangle", sample_triangles)])
           [("line", sample_lines); ("triangle", sample_triangles)]
           (Element "Domain" [] None [sample_collection_node]) "Int" "8").
  - reflexivity.
  - simpl. lia.
  - repeat constructor.
    + exists 2%nat, 2%nat. split; reflexivity.
    + exists 1%nat, 3%nat. split; reflexivity.
  - repeat constructor.
    + exists 2. reflexivity.
    + exists 4. reflexivity.
  - reflexivity.
  - reflexivity.
  - left. split; [reflexivity|]. exists "%d". reflexivity.
Defined.

End MixedTopologySpec.

(** ** The XDMF writer and reader: the dimensions of a data item *)

Module DimensionsSpec.
Import Xdmf XdmfTerms TextTerms TextFacts.

Lemma split_ws_step (cur : string) (a : ascii) (t : string) :
  space_width (String a t) = 0%nat ->
  Py.split_ws_from cur (String a t) = Py.split_ws_from (cur +:+ String a "") t.
Proof.
  destruct t as [|c2 [|c3 t3]]; cbn [space_width Py.split_ws_from].
  - destruct (Py.isspace a); [discriminate|reflexivity].
  - destruct (Py.isspace a); [discriminate|].
    destruct (Py.space2 a c2); [discriminate|reflexivity].
  - destruct (Py.isspace a); [discriminate|].
    destruct (Py.space2 a c2); [discriminate|].
    destruct (Py.space3 a c2 c3); [discriminate|reflexivity].
Qed.

Lemma split_ws_word (w cur s : string) :
  no_space w = true ->
  (match s with String c _ => Py.is_ascii c = true | EmptyString => True end) ->
  Py.split_ws_from cur (w +:+ s) = Py.split_ws_from (cur +:+ w) s.
Proof.
  revert cur. induction w as [|a w IH]; intros cur Hw Hs.
  - now rewrite PyFacts.app_nil_r.
  - cbn [no_space] in Hw. apply andb_true_iff in Hw as [Ha Hw].
    apply Nat.eqb_eq in Ha.
    cbn [String.append]. rewrite split_ws_step.
    + rewrite (IH _ Hw Hs), PyFacts.app_assoc. reflexivity.
    + change (String a (w +:+ s)) with (String a w +:+ s).
      destruct s as [|c s]; [now rewrite PyFacts.app_nil_r|].
      apply space_width_app_ascii; [discriminate|exact Ha|exact Hs].
Qed.

Lemma split_ws_join (words : list string) :
  Forall (fun w => no_space w = true /\ w <> "") words ->
  Py.split_ws (Py.join " " words) = words.
Proof.
  unfold Py.split_ws. induction 1 as [|x l [Hx Hne] Hl IH]; [reflexivity|].
  destruct l as [|y l].
  - cbn [Py.join]. pose proof (split_ws_word x "" "" Hx I) as E.
    rewrite PyFacts.app_nil_r in E. rewrite E.
    cbn [String.append Py.split_ws_from]. destruct x; [congruence|reflexivity].
  - change (Py.join " " (x :: y :: l)) with (x +:+ " " +:+ Py.join " " (y :: l)).
    rewrite (split_ws_word x "" _ Hx) by reflexivity.
    cbn [String.append Py.split_ws_from].
    change (Py.isspace " ") with true. cbv iota.
    rewrite IH. destruct x; [congruence|reflexivity].
Qed.

Lemma ints_of_strs (zs : list Z) :
  Py.map_result Py.int_of_str (map Py.str_of_Z zs) = Ok zs.
Proof.
  induction zs as [|z zs IH]; [reflexivity|].
  cbn [map Py.map_result]. rewrite PhysicalNamesReadSpec.int_of_str_str, IH.
  reflexivity.
Qed.

Lemma dims_parse (sh : list nat) :
  Py.map_result Py.int_of_str
    (Py.split_ws (Py.join " " (map (fun n => Py.str_of_Z (Z.of_nat n)) sh)))
  = Ok (map Z.of_nat sh).
Proof.
  rewrite split_ws_join.
  - rewrite <- (map_map Z.of_nat Py.str_of_Z). apply ints_of_strs.
  - apply List.Forall_forall. intros w Hw. apply in_map_iff in Hw as (n & <- & _).
    destruct (str_of_Z_all_digits (Z.of_nat n) ltac:(lia)) as [Hd Hne].
    split; [now apply digits_no_space|exact Hne].
Qed.

(** The [Dimensions] that the writer gives a data item, the shape of the
    array joined by spaces, the reader takes apart into that shape; the
    flat array of the entries, reshaped to it, is the array; and for a
    matrix, the two dimensions that [points] and [cells] format are the
    same text. *)
Theorem dimensions_round_trip (a : ndarray) :
  Py.map_result Py.int_of_str (Py.split_ws (all_dims a)) = Ok (map Z.of_nat (shape a))
  /\ (wf_array a ->
      reshape (mk_array (dtype_name a) [length (flat a)] (flat a))
        (map Z.of_nat (shape a))
      = Ok a)
  /\ (forall n k, shape a = [n; k] -> two_dims a = Ok (all_dims a)).
Proof.
  split; [apply dims_parse|]. split.
  - intros Hwf. unfold reshape.
    assert (Hneg : existsb (fun d => d <? 0) (map Z.of_nat (shape a)) = false).
    { induction (shape a) as [|n sh IH]; [reflexivity|].
      cbn [map existsb]. rewrite IH. destruct (Z.ltb_spec (Z.of_nat n) 0); [lia|reflexivity]. }
    rewrite Hneg, map_map.
    rewrite (map_ext (fun x => Z.to_nat (Z.of_nat x)) id) by (intros; apply Nat2Z.id).
    rewrite List.map_id. cbn [flat dtype_name].
    unfold wf_array in Hwf. rewrite Hwf, Nat.eqb_refl.
    destruct a. reflexivity.
  - intros n k Hs. unfold two_dims, shape_at, all_dims. rewrite Hs. reflexivity.
Qed.

Lemma dimensions_round_trip_witness :
  Py.map_result Py.int_of_str (Py.split_ws (all_dims sample_points)) = Ok [3; 2]
  /\ reshape (mk_array "float64" [6%nat] [0; 0; 1; 0; 0; 1]) [3; 2] = Ok sample_points
  /\ two_dims sample_points = Ok "3 2".
Proof.
  destruct (dimensions_round_trip sample_points) as (H1 & H2 & H3).
  split; [exact H1|]. split; [exact (H2 eq_refl)|].
  exact (H3 3%nat 2%nat eq_refl).
Defined.

End DimensionsSpec.

(** ** The XDMF writer and reader: a mesh written and read *)

Module MeshRoundTripSpec.
Import Xdmf XdmfTerms MonadTerms MonadFacts SessionTerms TextTerms.

(** The run of a writer on a state that is known: the state is brought
    to a record after every step. *)
Ltac run_norm :=
  unfold set_mesh_name, set_h5, set_xdmf_file, set_data_counter, set_has_mesh,
    world_set_files, world_set_handles, hdf_at, add_child, with_text;
  cbn [modify_self modify get lift mret M_ret raise fst snd set_text
       domain collection xdmf_file data_format data_counter h5_file h5_filename
       Xdmf.filename pretty_xml has_mesh mesh_name
       w_heap w_files w_handles h_path h_closes
       Py.index nth_error mbind result_bind
       String.eqb Ascii.eqb Bool.eqb negb Nat.eqb
       node_at update_at alter list_alter children tag attrib text
       add_child with_text lookup list_lookup length app
       Py.dict_mem existsb orb Z.add Pos.add String.append].

Ltac run_step :=
  first
    [ rewrite bind_run
    | rewrite WriterGuardSpec.SubElement_state
    | rewrite list_lookup_middle by reflexivity
    | rewrite PhysicalNamesReadSpec.dict_get_set_eq
    | progress change (0 + 1) with 1
    | progress change (1 + 1) with 2
    | progress change (Py.str_of_Z 0) with "0"
    | progress change (Py.str_of_Z 1) with "1" ].

Section Written.
Variable numpy_to_xdmf_dtype : list (string * (string * string)).
Variable dtype_to_format_string : list (string * string).
Variable meshio_to_xdmf_type : list (string * list string).
Variable meshio_type_to_xdmf_index : list (string * Z).
Variable savetxt : list Z -> string -> string.
Variable result_type : list string -> string.

Abbreviation write_mesh :=
  (write_points_cells numpy_to_xdmf_dtype dtype_to_format_string meshio_to_xdmf_type
     meshio_type_to_xdmf_index savetxt result_type).

(** A session of a writer for [HDF] in which a mesh with cells of one
    type is written. *)
Lemma mesh_written (filename : string) (pretty : bool) (wld : world)
    (pts arr : ndarray) (c np d n k : nat) (ty xt dtp precp dta preca : string)
    (more : list string) :
  shape pts = [np; d] -> (d = 2 \/ d = 3)%nat ->
  shape arr = [n; k] ->
  w_heap wld !! c = Some [(ty, arr)] ->
  Py.dict_get numpy_to_xdmf_dtype (dtype_name pts) = Ok (dtp, precp) ->
  Py.dict_get numpy_to_xdmf_dtype (dtype_name arr) = Ok (dta, preca) ->
  Py.dict_get meshio_to_xdmf_type ty = Ok (xt :: more) ->
  store_path filename <> filename ->
  exists self s2,
    writer_init filename pretty "HDF" = Ok self
    /\ (writer_enter;; write_mesh pts c;; writer_exit) (self, wld) = (s2, Ok tt)
    /\ Py.dict_get (w_files (snd s2)) filename
       = Ok (XmlFile
               (written_document
                  (written_mesh (store_path filename)
                     (if (d =? 2)%nat then "XY" else "XYZ") dtp precp (all_dims pts)
                     xt (Py.str_of_Z (Z.of_nat n)) dta preca (all_dims arr)))
               pretty)
    /\ hdf_at (snd s2) (store_path filename) = Some (H5Group (datasets 0 [pts; arr]))
    /\ w_handles (snd s2) = w_handles wld ++ [mk_handle (store_path filename) 1].
Proof.
  intros Hpts Hd Harr Hheap Hdtp Hdta Hty Hapart.
  assert (Hgeo :
    (if (d =? 2)%nat then mret "XY"
     else if negb (d =? 3)%nat then raise (WriteError "Need 3D points.")
     else mret "XYZ")
    = (mret (if (d =? 2)%nat then "XY" else "XYZ") : M wstate string)).
  { destruct Hd as [-> | ->]; reflexivity. }
  eexists _, _. split; [reflexivity|]. split.
  - unfold writer_enter, writer_exit, write_points_cells, points, cells, data_item_for,
      numpy_to_xml_string, two_dims, shape_at, len, deref, in_world_w, h5_open_write,
      h5_create_dataset, h5_close, write_xml.
    run_norm.
    repeat (first
              [ run_step
              | rewrite Hpts | rewrite Harr | rewrite Hdtp | rewrite Hdta | rewrite Hty
              | rewrite Hheap | rewrite Hgeo ]; run_norm).
    reflexivity.
  - unfold hdf_at. cbn [fst snd w_files w_handles]. split; [|split].
    + rewrite PhysicalNamesReadSpec.dict_get_set_eq.
      unfold all_dims. rewrite Hpts, Harr. reflexivity.
    + rewrite PhysicalNamesReadSpec.dict_get_set_ne
        by (intros E; apply Hapart; now symmetry).
      now rewrite PhysicalNamesReadSpec.dict_get_set_eq.
    + generalize (w_handles wld) as l. intros l.
      induction l as [|h l IH]; [reflexivity|].
      cbn [app length alter list_alter]. f_equal. exact IH.
Qed.

End Written.

Section Read.
Variable xdmf_to_numpy_type : string -> string -> option string.
Variable xdmf_to_meshio_type : list (string * string).
Variable translate_mixed_cells : ndarray -> result cells_dict.
Variable numpy_array : list string -> string -> result ndarray.
Variable numpy_fromfile : string -> string -> result ndarray.

Abbreviation read_mesh :=
  (read_points_cells xdmf_to_numpy_type xdmf_to_meshio_type translate_mixed_cells
     numpy_array numpy_fromfile).

(** The document of such a session, opened and read. *)
Lemma mesh_read (filename : string) (w : world) (pts arr : ndarray)
    (gt dtp precp dimp xt num dta preca dima ty : string) (dimsp dimsa : list Z) :
  plain_path filename = true ->
  gt = "XY" \/ gt = "XYZ" ->
  hdf_at w (store_path filename) = Some (H5Group (datasets 0 [pts; arr])) ->
  Py.map_result Py.int_of_str (Py.split_ws dimp) = Ok dimsp ->
  Py.map_result Py.int_of_str (Py.split_ws dima) = Ok dimsa ->
  xt <> "Mixed" ->
  Py.dict_get xdmf_to_meshio_type xt = Ok ty ->
  exists r0 s',
    reader_init filename
      (written_document
         (written_mesh (store_path filename) gt dtp precp dimp xt num dta preca dima))
    = Ok r0
    /\ read_mesh (r0, w) = (s', Ok (Some pts, [(ty, arr)]))
    /\ r_cells (fst s') = Some [(ty, arr)].
Proof.
  intros Hplain Hgt Hstore Hdimp Hdima Hmixed Hty.
  pose (mesh :=
    written_mesh (store_path filename) gt dtp precp dimp xt num dta preca dima).
  pose (r0 :=
    mk_reader filename
      (Element "Domain" [] None [sample_collection_node; mesh]) [] 0 None [] mesh).
  assert (Ht0 : cache_tracks (w_handles w) (r0, w)).
  { unfold cache_tracks, cached_paths. cbn [fst snd r0 r_hdf5_files map length seq].
    rewrite List.app_nil_r. repeat split. constructor. }
  destruct (HdfStoreSpec.read_hdf_item xdmf_to_numpy_type numpy_array numpy_fromfile
              filename [pts; arr] 0 pts dtp dimp precp dimsp (w_handles w) r0 w
              Hplain eq_refl Ht0 Hstore eq_refl Hdimp)
    as ([r1 w1] & Hrun1 & Ht1 & _ & Hf1 & Hh1).
  cbn [fst snd] in Hf1, Hh1.
  assert (Hstore1 : hdf_at w1 (store_path filename)
                    = Some (H5Group (datasets 0 [pts; arr])))
    by (unfold hdf_at in *; now rewrite Hh1).
  apply (f_equal r_filename) in Hf1. cbn [r_filename set_hdf5_files r0] in Hf1.
  destruct (HdfStoreSpec.read_hdf_item xdmf_to_numpy_type numpy_array numpy_fromfile
              filename [pts; arr] 1 arr dta dima preca dimsa (w_handles w) r1 w1
              Hplain Hf1 Ht1 Hstore1 eq_refl Hdima)
    as ([r2 w2] & Hrun2 & _).
  exists r0, (set_cells r2 (Some [(ty, arr)]), w2).
  split; [reflexivity|]. split; [|reflexivity].
  unfold read_points_cells. rewrite bind_run.
  cbn [get r0 r_mesh_grid mesh written_mesh children read_points_cells_loop tag
       String.eqb Ascii.eqb Bool.eqb].
  rewrite !bind_run. unfold read_geometry. rewrite bind_run.
  cbn [attrib Py.dict_get String.eqb Ascii.eqb Bool.eqb fst snd].
  assert (Hgeo : negb ((gt =? "XY")%string || (gt =? "XYZ")%string) = false)
    by (destruct Hgt as [-> | ->]; reflexivity).
  rewrite Hgeo. cbn [mret M_ret children].
  change (OsPath.basename (store_path filename) +:+ ":/" +:+ dataset_name 0)
    with (hdf_text filename 0).
  change (OsPath.basename (store_path filename) +:+ ":/" +:+ dataset_name 1)
    with (hdf_text filename 1).
  rewrite Hrun1. rewrite bind_run. unfold read_topology. cbn [children].
  rewrite bind_run, Hrun2.
  cbn [attrib Py.dict_mem existsb fst String.eqb Ascii.eqb Bool.eqb orb].
  rewrite bind_run. cbn [lift Py.dict_get String.eqb Ascii.eqb Bool.eqb fst snd].
  apply String.eqb_neq in Hmixed. rewrite Hmixed.
  rewrite bind_run, Hty. reflexivity.
Qed.

End Read.

Section RoundTrip.
Variable numpy_to_xdmf_dtype : list (string * (string * string)).
Variable dtype_to_format_string : list (string * string).
Variable meshio_to_xdmf_type : list (string * list string).
Variable meshio_type_to_xdmf_index : list (string * Z).
Variable savetxt : list Z -> string -> string.
Variable result_type : list string -> string.
Variable xdmf_to_numpy_type : string -> string -> option string.
Variable xdmf_to_meshio_type : list (string * string).
Variable translate_mixed_cells : ndarray -> result cells_dict.
Variable numpy_array : list string -> string -> result ndarray.
Variable numpy_fromfile : string -> string -> result ndarray.

Abbreviation written :=
  (write_points_cells numpy_to_xdmf_dtype dtype_to_format_string meshio_to_xdmf_type
     meshio_type_to_xdmf_index savetxt result_type).
Abbreviation read :=
  (read_points_cells xdmf_to_numpy_type xdmf_to_meshio_type translate_mixed_cells
     numpy_array numpy_fromfile).

(** A mesh of points in the plane or in space and of cells of one type,
    written in a session of a writer for the format [HDF] on a file of
    the working directory ([__init__], [__enter__], [write_points_cells],
    [__exit__]), is read back by a reader of that file: no call fails,
    the document that the session leaves in the file opens in
    [__init__] of the reader, and [read_points_cells] returns the points
    and the cells that were written.  The file is not the store of the
    session itself (a name that ends in [.h5] is), for then the document
    takes the place of the store; the tables are asked for the entries of
    the two dtypes, and for the type of the cells to have an XDMF name,
    other than [Mixed], that translates back to it. *)
Theorem hdf_mesh_round_trip (filename : string) (pretty : bool) (wld : world)
    (pts arr : ndarray) (c np d n k : nat) (ty xt dtp precp dta preca : string)
    (more : list string) :
  plain_path filename = true ->
  store_path filename <> filename ->
  shape pts = [np; d] -> (d = 2 \/ d = 3)%nat ->
  shape arr = [n; k] ->
  w_heap wld !! c = Some [(ty, arr)] ->
  Py.dict_get numpy_to_xdmf_dtype (dtype_name pts) = Ok (dtp, precp) ->
  Py.dict_get numpy_to_xdmf_dtype (dtype_name arr) = Ok (dta, preca) ->
  Py.dict_get meshio_to_xdmf_type ty = Ok (xt :: more) ->
  xt <> "Mixed" ->
  Py.dict_get xdmf_to_meshio_type xt = Ok ty ->
  exists self s2 doc r0 s3,
    writer_init filename pretty "HDF" = Ok self
    /\ (writer_enter;; written pts c;; writer_exit) (self, wld) = (s2, Ok tt)
    /\ Py.dict_get (w_files (snd s2)) filename = Ok (XmlFile doc pretty)
    /\ reader_init filename doc = Ok r0
    /\ read (r0, snd s2) = (s3, Ok (Some pts, [(ty, arr)])).
Proof.
  intros Hplain Hapart Hpts Hd Harr Hheap Hdtp Hdta Hty Hmixed Hback.
  destruct (mesh_written numpy_to_xdmf_dtype dtype_to_format_string meshio_to_xdmf_type
              meshio_type_to_xdmf_index savetxt result_type filename pretty wld pts arr
              c np d n k ty xt dtp precp dta preca more Hpts Hd Harr Hheap Hdtp Hdta Hty
              Hapart)
    as (self & s2 & Hinit & Hrun & Hdoc & Hstore & _).
  destruct (mesh_read xdmf_to_numpy_type xdmf_to_meshio_type translate_mixed_cells
              numpy_array numpy_fromfile filename (snd s2) pts arr
              (if (d =? 2)%nat then "XY" else "XYZ") dtp precp (all_dims pts) xt
              (Py.str_of_Z (Z.of_nat n)) dta preca (all_dims arr) ty
              (map Z.of_nat (shape pts)) (map Z.of_nat (shape arr)) Hplain)
    as (r0 & s3 & Hopen & Hread & _);
    [ destruct Hd as [-> | ->]; [now left|now right]
    | exact Hstore
    | apply DimensionsSpec.dims_parse
    | apply DimensionsSpec.dims_parse
    | exact Hmixed
    | exact Hback
    | ].
  eexists self, s2, _, r0, s3.
  split; [exact Hinit|]. split; [exact Hrun|]. split; [exact Hdoc|].
  split; [exact Hopen|exact Hread].
Qed.

End RoundTrip.

Lemma hdf_mesh_round_trip_witness :
  exists self s2 doc r0 s3,
    writer_init "out.xdmf" true "HDF" = Ok self
    /\ (writer_enter;;
        write_points_cells sample_dtypes sample_formats sample_xdmf_types
          sample_xdmf_index sample_savetxt sample_result_type sample_points 0;;
        writer_exit) (self, world_with [("triangle", sample_triangles)])
       = (s2, Ok tt)
    /\ Py.dict_get (w_files (snd s2)) "out.xdmf" = Ok (XmlFile doc true)
    /\ reader_init "out.xdmf" doc = Ok r0
    /\ read_points_cells (fun _ _ => None) [("Triangle", "triangle")]
         (fun _ => Raise TypeError) (fun _ _ => Raise TypeError)
         (fun _ _ => Raise OSError) (r0, snd s2)
       = (s3, Ok (Some sample_points, [("triangle", sample_triangles)])).
Proof.
  apply (hdf_mesh_round_trip sample_dtypes sample_formats sample_xdmf_types
           sample_xdmf_index sample_savetxt sample_result_type (fun _ _ => None)
           [("Triangle", "triangle")] (fun _ => Raise TypeError)
           (fun _ _ => Raise TypeError) (fun _ _ => Raise OSError)
           "out.xdmf" true (world_with [("triangle", sample_triangles)])
           sample_points sample_triangles 0 3 2 1 3 "triangle" "Triangle"
           "Float" "8" "Int" "8" []);
    try reflexivity; [discriminate|now left|discriminate].
Defined.

End MeshRoundTripSpec.
